(** * Hierarchical Reasoning Model: a shallow embedding of the forward pass

    The development follows [src/model/hrm.py], [controller.py], [worker.py]
    and [attention.py].  Tensors carry their shape and their contents; the
    PyTorch operations the source calls are given their shape rules (with the
    errors they raise) and their values over the real numbers.  Rounding,
    overflow and NaN are outside the model: a scalar is a real number. *)

From Stdlib Require Import String.
From Stdlib Require Import Reals List ZArith QArith Qreals Lia Lra Bool Arith DecimalString.
Import ListNotations.
Close Scope Q_scope.

Set Implicit Arguments.

(** ** Exceptions and results *)

Inductive error : Type :=
| AssertionError (msg : string)
| ZeroDivisionError
| IndexError (msg : string)
| RuntimeError (msg : string)
| TypeError (msg : string)
| ValueError (msg : string)
| AttributeError (msg : string).

Inductive result (A : Type) : Type :=
| Ok (a : A)
| Err (e : error).

Arguments Ok {A} a.
Arguments Err {A} e.

Definition is_ok {A} (r : result A) : bool :=
  match r with Ok _ => true | Err _ => false end.

Definition rbind {A B} (r : result A) (k : A -> result B) : result B :=
  match r with Ok a => k a | Err e => Err e end.

Notation "'let*' x ':=' e 'in' k" := (rbind e (fun x => k))
  (at level 10, x name, e at level 100, k at level 200).

(** Forward passes draw dropout masks.  The state threaded through them is
    the mode the model was put in ([.train()], the default, or [.eval()]) and
    the random generator: the masks it will draw and how many were drawn. *)
Record run_state : Type := mkRun {
  training : bool;
  draws : nat -> list nat -> bool;
  drawn : nat
}.

Definition M (A : Type) : Type := run_state -> result (A * run_state).

Definition ret {A} (a : A) : M A := fun st => Ok (a, st).

Definition bind {A B} (m : M A) (k : A -> M B) : M B :=
  fun st => match m st with Ok (a, st') => k a st' | Err e => Err e end.

Definition lift {A} (r : result A) : M A :=
  fun st => match r with Ok a => Ok (a, st) | Err e => Err e end.

Definition raise {A} (e : error) : M A := fun _ => Err e.

Notation "x <- e ;; k" := (bind e (fun x => k))
  (at level 61, e at next level, right associativity).

Notation "x <~ e ;; k" := (bind (lift e) (fun x => k))
  (at level 61, e at next level, right associativity).

(** ** Tensors *)

Definition index := list nat.

Record tensor : Type := mkT { shape : list nat; data : index -> R }.

Definition rank (t : tensor) : nat := length (shape t).

Definition numel (s : list nat) : nat := fold_right Nat.mul 1 s.

Definition shape_eqb (a b : list nat) : bool :=
  if list_eq_dec Nat.eq_dec a b then true else false.

(** [sum_{i<n} f i] *)
Fixpoint Rsum (n : nat) (f : nat -> R) : R :=
  match n with
  | O => 0%R
  | S k => (Rsum k f + f k)%R
  end.

Fixpoint set_nth {A} (n : nat) (x : A) (l : list A) : list A :=
  match l, n with
  | [], _ => []
  | _ :: t, O => x :: t
  | h :: t, S k => h :: set_nth k x t
  end.

Definition swap (l : list nat) (i j : nat) : list nat :=
  set_nth i (nth j l 0) (set_nth j (nth i l 0) l).

Definition insert_at {A} (p : nat) (x : A) (l : list A) : list A :=
  firstn p l ++ x :: skipn p l.

Definition remove_at {A} (p : nat) (l : list A) : list A :=
  firstn p l ++ skipn (S p) l.

Definition set_last (idx : index) (j : nat) : index :=
  removelast idx ++ [j].

(** A dimension argument, possibly negative, resolved against [n] positions. *)
Definition norm_dim (n : nat) (d : Z) : result nat :=
  if ((0 <=? d) && (d <? Z.of_nat n))%Z then Ok (Z.to_nat d)
  else if ((d <? 0) && (- Z.of_nat n <=? d))%Z then Ok (Z.to_nat (Z.of_nat n + d))
  else Err (IndexError "Dimension out of range").

(** *** Broadcasting *)

Fixpoint bc_rev (a b : list nat) : option (list nat) :=
  match a, b with
  | [], _ => Some b
  | _, [] => Some a
  | x :: a', y :: b' =>
      match bc_rev a' b' with
      | None => None
      | Some r =>
          if x =? y then Some (x :: r)
          else if x =? 1 then Some (y :: r)
          else if y =? 1 then Some (x :: r)
          else None
      end
  end.

Definition broadcast_shapes (a b : list nat) : result (list nat) :=
  match bc_rev (rev a) (rev b) with
  | Some r => Ok (rev r)
  | None => Err (RuntimeError "The size of tensor a must match the size of tensor b")
  end.

Fixpoint bc_index_rev (s : list nat) (idx : index) : index :=
  match s, idx with
  | d :: s', i :: idx' => (if d =? 1 then 0 else i) :: bc_index_rev s' idx'
  | _, _ => []
  end.

(** The position in an operand of shape [s] read for position [idx] of the
    broadcast result. *)
Definition bc_index (s : list nat) (idx : index) : index :=
  rev (bc_index_rev (rev s) (rev idx)).

Definition map2_bc (f : R -> R -> R) (a b : tensor) : result tensor :=
  let* s := broadcast_shapes (shape a) (shape b) in
  Ok (mkT s (fun idx => f (data a (bc_index (shape a) idx))
                          (data b (bc_index (shape b) idx)))).

Definition add : tensor -> tensor -> result tensor := map2_bc Rplus.
Definition mul : tensor -> tensor -> result tensor := map2_bc Rmult.

Definition tmap (f : R -> R) (t : tensor) : tensor :=
  mkT (shape t) (fun idx => f (data t idx)).

(** [1 - t] *)
Definition one_minus : tensor -> tensor := tmap (fun v => (1 - v)%R).

Definition div_scalar (t : tensor) (c : R) : tensor := tmap (fun v => (v / c)%R) t.

Definition zeros (s : list nat) : tensor := mkT s (fun _ => 0%R).

(** *** Shape manipulation *)

Definition unsqueeze (d : Z) (t : tensor) : result tensor :=
  let* p := norm_dim (S (rank t)) d in
  Ok (mkT (insert_at p 1 (shape t)) (fun idx => data t (remove_at p idx))).

Definition squeeze (d : Z) (t : tensor) : result tensor :=
  let* p := norm_dim (rank t) d in
  if nth p (shape t) 0 =? 1
  then Ok (mkT (remove_at p (shape t)) (fun idx => data t (insert_at p 0 idx)))
  else Ok t.

Definition transpose (d1 d2 : Z) (t : tensor) : result tensor :=
  let* p1 := norm_dim (rank t) d1 in
  let* p2 := norm_dim (rank t) d2 in
  Ok (mkT (swap (shape t) p1 p2) (fun idx => data t (swap idx p1 p2))).

Definition contiguous (t : tensor) : tensor := t.

(** Row-major offset of a position, and back. *)
Fixpoint ravel (s : list nat) (idx : index) : nat :=
  match s, idx with
  | d :: s', i :: idx' => i * numel s' + ravel s' idx'
  | _, _ => 0
  end.

Fixpoint unravel (s : list nat) (n : nat) : index :=
  match s with
  | [] => []
  | d :: s' => (n / numel s') :: unravel s' (n mod numel s')
  end.

(** [Tensor.view] with explicit sizes.  A negative size is an error here:
    the source never passes the inferred size -1 (see MultiHeadAttention). *)
Definition view (sizes : list Z) (t : tensor) : result tensor :=
  if forallb (fun z => (0 <=? z)%Z) sizes then
    let s := map Z.to_nat sizes in
    if numel s =? numel (shape t)
    then Ok (mkT s (fun idx => data t (unravel (shape t) (ravel s idx))))
    else Err (RuntimeError "shape is invalid for input size")
  else Err (RuntimeError "invalid shape dimension").

Fixpoint expand_rev (s : list nat) (sizes : list Z) : option (list nat) :=
  match s, sizes with
  | [], [] => Some []
  | [], z :: sizes' =>
      if (0 <=? z)%Z
      then option_map (cons (Z.to_nat z)) (expand_rev [] sizes') else None
  | _ :: _, [] => None
  | d :: s', z :: sizes' =>
      match expand_rev s' sizes' with
      | None => None
      | Some r =>
          if (z =? -1)%Z then Some (d :: r)
          else if (z <? 0)%Z then None
          else if d =? Z.to_nat z then Some (d :: r)
          else if d =? 1 then Some (Z.to_nat z :: r)
          else None
      end
  end.

Definition expand (sizes : list Z) (t : tensor) : result tensor :=
  match expand_rev (rev (shape t)) (rev sizes) with
  | Some r =>
      Ok (mkT (rev r) (fun idx => data t (bc_index (shape t) idx)))
  | None => Err (RuntimeError "The expanded size of the tensor must match the existing size")
  end.

(** *** Products, reductions and joins *)

Definition split_last2 (s : list nat) : option (list nat * nat * nat) :=
  match rev s with
  | p :: n :: r => Some (rev r, n, p)
  | _ => None
  end.

(** [torch.matmul] on operands of at least two dimensions (the source only
    multiplies tensors that come out of a four-dimensional view). *)
Definition matmul (a b : tensor) : result tensor :=
  match split_last2 (shape a), split_last2 (shape b) with
  | Some (ba, n, m), Some (bb, m', p) =>
      if m =? m' then
        let* bs := broadcast_shapes ba bb in
        Ok (mkT (bs ++ [n; p])
              (fun idx =>
                 let nb := length idx - 2 in
                 let bidx := firstn nb idx in
                 let i := nth nb idx 0 in
                 let j := nth (S nb) idx 0 in
                 Rsum m (fun k => data a (bc_index ba bidx ++ [i; k])
                                  * data b (bc_index bb bidx ++ [k; j]))%R))
      else Err (RuntimeError "mat1 and mat2 shapes cannot be multiplied")
  | _, _ => Err (RuntimeError "matmul: operand with fewer than two dimensions")
  end.

(** [t.masked_fill(mask == 0, v)]: out of place, so both operands are
    broadcast to a common shape. *)
Definition masked_fill_eq0 (t mask : tensor) (v : R) : result tensor :=
  let* s := broadcast_shapes (shape mask) (shape t) in
  Ok (mkT s (fun idx =>
               if Req_dec_T (data mask (bc_index (shape mask) idx)) 0
               then v else data t (bc_index (shape t) idx))).

(** [F.softmax(t, dim=-1)] *)
Definition softmax_last (t : tensor) : tensor :=
  mkT (shape t)
      (fun idx => exp (data t idx)
                  / Rsum (last (shape t) 1%nat) (fun j => exp (data t (set_last idx j))))%R.

(** [torch.cat([a, b], dim=-1)] *)
Definition cat_last (a b : tensor) : result tensor :=
  match rev (shape a), rev (shape b) with
  | la :: ra, lb :: rb =>
      if shape_eqb ra rb
      then Ok (mkT (rev ra ++ [la + lb])
                 (fun idx => let j := last idx 0 in
                             if j <? la then data a idx
                             else data b (set_last idx (j - la))))
      else Err (RuntimeError "Sizes of tensors must match except in dimension -1")
  | _, _ => Err (RuntimeError "zero-dimensional tensor cannot be concatenated")
  end.

(** [torch.cat(l, dim=-1)] on a Python list: the tensors are joined from the
    left, and an empty list is refused.  (The legacy rule that skips
    one-dimensional empty tensors does not concern the source, which joins
    attention outputs.) *)
Definition cat_list_last (l : list tensor) : result tensor :=
  match l with
  | [] => Err (RuntimeError "torch.cat(): expected a non-empty list of Tensors")
  | t0 :: rest =>
      fold_left (fun acc t => let* a := acc in cat_last a t) rest
        (if rank t0 =? 0
         then Err (RuntimeError "zero-dimensional tensor cannot be concatenated")
         else Ok t0)
  end.

(** [t.mean(dim=1)] *)
Definition mean_dim1 (t : tensor) : result tensor :=
  let* p := norm_dim (rank t) 1 in
  let n := nth p (shape t) 0 in
  Ok (mkT (remove_at p (shape t))
        (fun idx => Rsum n (fun k => data t (insert_at p k idx)) / INR n)%R).

(** What a Python list handed to [torch.stack] may hold in this program. *)
Inductive pyobj : Type :=
| PyTensor (t : tensor)
| PyDict (d : list (string * tensor)).

Fixpoint as_tensors (l : list pyobj) : result (list tensor) :=
  match l with
  | [] => Ok []
  | PyTensor t :: l' => let* r := as_tensors l' in Ok (t :: r)
  | PyDict _ :: _ => Err (TypeError "expected Tensor as element of argument 0, but got dict")
  end.

(** [torch.stack(l, dim=d)] *)
Definition stack (l : list pyobj) (d : Z) : result tensor :=
  let* ts := as_tensors l in
  match ts with
  | [] => Err (RuntimeError "stack expects a non-empty TensorList")
  | t0 :: _ =>
      if forallb (fun t => shape_eqb (shape t) (shape t0)) ts then
        let* p := norm_dim (S (rank t0)) d in
        Ok (mkT (insert_at p (length ts) (shape t0))
              (fun idx => data (nth (nth p idx 0) ts t0) (remove_at p idx)))
      else Err (RuntimeError "stack expects each tensor to be equal size")
  end.

(** *** Activations *)

Definition sigmoid (x : R) : R := (1 / (1 + exp (- x)))%R.

Definition relu (x : R) : R := Rmax 0 x.

Definition gauss (t : R) : R := exp (- (t * t)).

Definition gauss_continuity : forall x, continuity_pt gauss x.
Proof. intro x. unfold gauss. reg. Qed.

Definition gauss_integrable (a b : R) : Riemann_integrable gauss a b.
Proof.
  destruct (Rle_dec a b) as [H|H].
  - apply continuity_implies_RiemannInt; [exact H | intros; apply gauss_continuity].
  - apply RiemannInt_P1.
    apply continuity_implies_RiemannInt; [lra | intros; apply gauss_continuity].
Qed.

Definition erf (x : R) : R := (2 / sqrt PI * RiemannInt (gauss_integrable 0 x))%R.

(** [nn.GELU()], exact form. *)
Definition gelu (x : R) : R := (x * (1 / 2) * (1 + erf (x / sqrt 2)))%R.

(** ** Layers of [torch.nn] *)

(** Learned parameters are read from a state dictionary: name and position. *)
Definition state_dict := string -> index -> R.

Definition sub (prefix name : string) : string := (prefix ++ "." ++ name)%string.

Definition item (prefix : string) (i : nat) : string :=
  sub prefix (NilEmpty.string_of_uint (Nat.to_uint i)).

Definition size_of (z : Z) : result nat :=
  if (0 <=? z)%Z then Ok (Z.to_nat z)
  else Err (RuntimeError "Trying to create tensor with negative dimension").

(** *** nn.Linear *)

Record Linear : Type := mkLinear {
  in_features : nat;
  out_features : nat;
  lin_weight : nat -> nat -> R;
  lin_bias : nat -> R
}.

Definition Linear_init (sd : state_dict) (name : string) (i o : Z) : result Linear :=
  let* i' := size_of i in
  let* o' := size_of o in
  Ok (mkLinear i' o' (fun r c => sd (sub name "weight") [r; c])
                     (fun r => sd (sub name "bias") [r])).

Definition Linear_forward (l : Linear) (x : tensor) : result tensor :=
  match rev (shape x) with
  | d :: r =>
      if d =? in_features l
      then Ok (mkT (rev r ++ [out_features l])
                 (fun idx => let o := last idx 0%nat in
                             Rsum (in_features l)
                               (fun j => lin_weight l o j * data x (set_last idx j))
                             + lin_bias l o)%R)
      else Err (RuntimeError "mat1 and mat2 shapes cannot be multiplied")
  | [] => Err (RuntimeError "both arguments to matmul need to be at least 1D")
  end.

(** *** nn.LayerNorm over the last dimension, eps = 1e-5 *)

Record LayerNorm : Type := mkLayerNorm {
  normalized_shape : nat;
  ln_weight : nat -> R;
  ln_bias : nat -> R
}.

Definition LayerNorm_init (sd : state_dict) (name : string) (d : Z) : result LayerNorm :=
  let* d' := size_of d in
  Ok (mkLayerNorm d' (fun i => sd (sub name "weight") [i]) (fun i => sd (sub name "bias") [i])).

Definition ln_eps : R := (/ 100000)%R.

Definition LayerNorm_forward (n : LayerNorm) (x : tensor) : result tensor :=
  match rev (shape x) with
  | d :: _ =>
      if d =? normalized_shape n
      then Ok (mkT (shape x)
                 (fun idx =>
                    let mu := (Rsum d (fun j => data x (set_last idx j)) / INR d)%R in
                    let var := (Rsum d (fun j => Rsqr (data x (set_last idx j) - mu))
                                / INR d)%R in
                    (data x idx - mu) / sqrt (var + ln_eps) * ln_weight n (last idx 0%nat)
                    + ln_bias n (last idx 0%nat))%R)
      else Err (RuntimeError "Given normalized_shape, expected input with matching last dimension")
  | [] => Err (RuntimeError "Given normalized_shape, expected input with matching last dimension")
  end.

(** *** nn.Dropout *)

Record Dropout : Type := mkDropout { p : Q }.

Definition Dropout_init (rate : Q) : result Dropout :=
  if (Qle_bool 0 rate && Qle_bool rate 1)%bool then Ok (mkDropout rate)
  else Err (ValueError "dropout probability has to be between 0 and 1").

(** Dropout is disabled in evaluation mode or with rate 0. *)
Definition dropout_off (d : Dropout) (st : run_state) : bool :=
  negb (training st) || Qeq_bool (p d) 0.

(** In training mode a fresh mask is drawn and the kept entries are scaled by
    1/(1-p); with p = 0 every entry is kept.  In evaluation mode the layer is
    the identity. *)
Definition Dropout_forward (d : Dropout) (x : tensor) : M tensor :=
  fun st =>
    if training st then
      Ok (mkT (shape x)
            (fun idx =>
               if Qeq_bool (p d) 0 then data x idx
               else if draws st (drawn st) idx
                    then (data x idx / (1 - Q2R (p d)))%R else 0%R),
          mkRun (training st) (draws st) (S (drawn st)))
    else Ok (x, st).

(** *** nn.Conv1d with kernel_size = 3, padding = 1 *)

Record Conv1d : Type := mkConv1d {
  in_channels : nat;
  out_channels : nat;
  conv_weight : nat -> nat -> nat -> R;
  conv_bias : nat -> R
}.

Definition Conv1d_init (sd : state_dict) (name : string) (i o : Z) : result Conv1d :=
  let* i' := size_of i in
  let* o' := size_of o in
  Ok (mkConv1d i' o' (fun co ci k => sd (sub name "weight") [co; ci; k])
                     (fun co => sd (sub name "bias") [co])).

Definition conv_values (c : Conv1d) (x : tensor) (l : nat) : index -> R :=
  fun idx =>
    let nb := length idx - 2 in
    let pre := firstn nb idx in
    let co := nth nb idx 0 in
    let t := nth (S nb) idx 0 in
    (conv_bias c co
     + Rsum (in_channels c) (fun ci =>
         Rsum 3 (fun k =>
           conv_weight c co ci k
           * (if ((1 <=? t + k) && (t + k <=? l))%nat
              then data x (pre ++ [ci; (t + k - 1)%nat]) else 0))))%R.

Definition Conv1d_forward (c : Conv1d) (x : tensor) : result tensor :=
  match shape x with
  | [n; ch; l] =>
      if ch =? in_channels c then
        if 1 <=? l then Ok (mkT [n; out_channels c; l] (conv_values c x l))
        else Err (RuntimeError "Kernel size can't be greater than actual input size")
      else Err (RuntimeError "conv1d: expected input to have in_channels channels")
  | [ch; l] =>
      if ch =? in_channels c then
        if 1 <=? l then Ok (mkT [out_channels c; l] (conv_values c x l))
        else Err (RuntimeError "Kernel size can't be greater than actual input size")
      else Err (RuntimeError "conv1d: expected input to have in_channels channels")
  | _ => Err (RuntimeError "Expected 2D (unbatched) or 3D (batched) input to conv1d")
  end.

(** *** nn.GRUCell *)

Record GRUCell : Type := mkGRUCell {
  input_size : nat;
  hidden_size : nat;
  weight_ih : nat -> nat -> R;
  weight_hh : nat -> nat -> R;
  bias_ih : nat -> R;
  bias_hh : nat -> R
}.

Definition GRUCell_init (sd : state_dict) (name : string) (i h : Z) : result GRUCell :=
  let* i' := size_of i in
  let* h' := size_of h in
  Ok (mkGRUCell i' h'
        (fun r c => sd (sub name "weight_ih") [r; c])
        (fun r c => sd (sub name "weight_hh") [r; c])
        (fun r => sd (sub name "bias_ih") [r])
        (fun r => sd (sub name "bias_hh") [r])).

Definition gru_values (g : GRUCell) (x h : tensor) : index -> R :=
  fun idx =>
    let u := last idx 0 in
    let H := hidden_size g in
    let gi := fun r => (Rsum (input_size g) (fun j => weight_ih g r j * data x (set_last idx j))
                        + bias_ih g r)%R in
    let gh := fun r => (Rsum H (fun j => weight_hh g r j * data h (set_last idx j))
                        + bias_hh g r)%R in
    let r := sigmoid (gi u + gh u) in
    let z := sigmoid (gi (H + u)%nat + gh (H + u)%nat) in
    let n := tanh (gi (2 * H + u)%nat + r * gh (2 * H + u)%nat) in
    ((1 - z) * n + z * data h idx)%R.

Definition GRUCell_forward (g : GRUCell) (x h : tensor) : result tensor :=
  match shape x, shape h with
  | [b; i], [b'; hs] =>
      if (i =? input_size g) && (hs =? hidden_size g) then
        if b =? b' then Ok (mkT [b; hidden_size g] (gru_values g x h))
        else Err (RuntimeError "Input batch size doesn't match hidden batch size")
      else Err (RuntimeError "input or hidden has inconsistent size")
  | [i], [hs] =>
      if (i =? input_size g) && (hs =? hidden_size g)
      then Ok (mkT [hidden_size g] (gru_values g x h))
      else Err (RuntimeError "input or hidden has inconsistent size")
  | _, _ => Err (ValueError "GRUCell: Expected input and hidden to be 1D or 2D")
  end.

(** Unpacking [a, b, _ = t.shape]. *)
Definition unpack3 (t : tensor) : result (nat * nat * nat) :=
  match shape t with
  | [a; b; c] => Ok (a, b, c)
  | _ => Err (ValueError "wrong number of values to unpack (expected 3)")
  end.

(** Python's integer floor division and remainder. *)
Definition floordiv (a b : Z) : result Z :=
  if (b =? 0)%Z then Err ZeroDivisionError else Ok (a / b)%Z.

Definition pymod (a b : Z) : result Z :=
  if (b =? 0)%Z then Err ZeroDivisionError else Ok (a mod b)%Z.

Definition assert (c : bool) (msg : string) : result unit :=
  if c then Ok tt else Err (AssertionError msg).

(** [self.layers[i]] on a ModuleList. *)
Definition module_at {A} (l : list A) (i : nat) : result A :=
  match nth_error l i with
  | Some a => Ok a
  | None => Err (IndexError "index is out of range")
  end.

(** [[f(i) for i in range(n)]] with a constructor that may raise. *)
Fixpoint build_list {A} (f : nat -> result A) (n : nat) : result (list A) :=
  match n with
  | O => Ok []
  | S k => let* l := build_list f k in let* a := f k in Ok (l ++ [a])
  end.

(** [for i in range(n): s = body(i, s)] *)
Fixpoint for_range {S} (n : nat) (body : nat -> S -> M S) (s : S) : M S :=
  match n with
  | O => ret s
  | S k => s' <- for_range k body s ;; body k s'
  end.

(** ** Attention primitives *)

(** The block that the three attention classes of the source repeat line for
    line: scores, mask, softmax, dropout, product with the values
    ([attention.py] 259-272 and 445-458, [controller.py] 217-230). *)
Definition attention_scores (Q K : tensor) (head_dim : Z) (mask : option tensor)
  : result tensor :=
  let* Kt := transpose (-2) (-1) K in
  let* qk := matmul Q Kt in
  let scores := div_scalar qk (sqrt (IZR head_dim)) in
  match mask with
  | Some m =>
      let* m1 := unsqueeze 1 m in
      let* m2 := unsqueeze 1 m1 in
      masked_fill_eq0 scores m2 (-1000000000)
  | None => Ok scores
  end.

Definition attention_core (dropout_layer : Dropout) (Q K V : tensor) (head_dim : Z)
    (mask : option tensor) : M (tensor * tensor) :=
  scores <~ attention_scores Q K head_dim mask ;;
  attention_weights <- Dropout_forward dropout_layer (softmax_last scores) ;;
  attended <~ matmul attention_weights V ;;
  ret (attended, attention_weights).

(** [t.view(b, s, num_heads, head_dim).transpose(1, 2)] *)
Definition split_heads (t : tensor) (b s : nat) (num_heads head_dim : Z) : result tensor :=
  let* v := view [Z.of_nat b; Z.of_nat s; num_heads; head_dim] t in
  transpose 1 2 v.

(** [t.transpose(1, 2).contiguous().view(b, s, width)] *)
Definition merge_heads (t : tensor) (b s : nat) (width : Z) : result tensor :=
  let* tt := transpose 1 2 t in
  view [Z.of_nat b; Z.of_nat s; width] (contiguous tt).

Record attention_output : Type := mkAttnOut {
  attn_output : tensor;
  attn_weights : tensor
}.

(** ** controller.py *)

Module controller.

(** *** MultiHeadAttention (with optional gating) *)

Record MultiHeadAttention : Type := mkMultiHeadAttention {
  mha_dim : Z;
  mha_num_heads : Z;
  mha_head_dim : Z;
  mha_use_gated : bool;
  mha_query_proj : Linear;
  mha_key_proj : Linear;
  mha_value_proj : Linear;
  mha_output_proj : Linear;
  mha_gate : option Linear;
  mha_dropout_layer : Dropout
}.

Definition MultiHeadAttention_init (sd : state_dict) (name : string)
    (dim num_heads : Z) (dropout : Q) (use_gated : bool) : result MultiHeadAttention :=
  let* head_dim := floordiv dim num_heads in
  let* m := pymod dim num_heads in
  let* ok := assert (m =? 0)%Z "dim must be divisible by num_heads" in
  let* q := Linear_init sd (sub name "query_proj") dim dim in
  let* k := Linear_init sd (sub name "key_proj") dim dim in
  let* v := Linear_init sd (sub name "value_proj") dim dim in
  let* o := Linear_init sd (sub name "output_proj") dim dim in
  let* g := (if use_gated
             then let* g := Linear_init sd (sub name "gate") dim dim in Ok (Some g)
             else Ok None) in
  let* d := Dropout_init dropout in
  Ok (mkMultiHeadAttention dim num_heads head_dim use_gated q k v o g d).

(** [self.gate_activation(self.gate(query))] *)
Definition MultiHeadAttention_gate (m : MultiHeadAttention) (query : tensor)
  : result tensor :=
  match mha_gate m with
  | Some g => let* z := Linear_forward g query in Ok (tmap sigmoid z)
  | None => Err (AttributeError "'MultiHeadAttention' object has no attribute 'gate'")
  end.

(** Lines 242-243: [gate * output + (1 - gate) * query]. *)
Definition MultiHeadAttention_gating (m : MultiHeadAttention) (query output : tensor)
  : result tensor :=
  let* gate := MultiHeadAttention_gate m query in
  let* ga := mul gate output in
  let* gq := mul (one_minus gate) query in
  add ga gq.

Definition MultiHeadAttention_forward (m : MultiHeadAttention)
    (query key value : tensor) (mask : option tensor) : M attention_output :=
  sh <~ unpack3 query ;;
  let '(batch_size, seq_len, _) := sh in
  Q <~ Linear_forward (mha_query_proj m) query ;;
  K <~ Linear_forward (mha_key_proj m) key ;;
  V <~ Linear_forward (mha_value_proj m) value ;;
  Q <~ split_heads Q batch_size seq_len (mha_num_heads m) (mha_head_dim m) ;;
  K <~ split_heads K batch_size seq_len (mha_num_heads m) (mha_head_dim m) ;;
  V <~ split_heads V batch_size seq_len (mha_num_heads m) (mha_head_dim m) ;;
  core <- attention_core (mha_dropout_layer m) Q K V (mha_head_dim m) mask ;;
  let '(attended, attention_weights) := core in
  attended <~ merge_heads attended batch_size seq_len (mha_dim m) ;;
  output <~ Linear_forward (mha_output_proj m) attended ;;
  output <~ (if mha_use_gated m then MultiHeadAttention_gating m query output
             else Ok output) ;;
  ret (mkAttnOut output attention_weights).

(** *** FeedForward (gated linear units) *)

Record FeedForward : Type := mkFeedForward {
  ff_gate_proj : Linear;
  ff_up_proj : Linear;
  ff_down_proj : Linear;
  ff_dropout_layer : Dropout
}.

Definition FeedForward_init (sd : state_dict) (name : string) (dim : Z) (dropout : Q)
  : result FeedForward :=
  let* g := Linear_init sd (sub name "gate_proj") dim (dim * 2) in
  let* u := Linear_init sd (sub name "up_proj") dim (dim * 2) in
  let* d := Linear_init sd (sub name "down_proj") (dim * 2) dim in
  let* dr := Dropout_init dropout in
  Ok (mkFeedForward g u d dr).

(** [F.sigmoid(self.gate_proj(x))] *)
Definition FeedForward_gate (f : FeedForward) (x : tensor) : result tensor :=
  let* gate := Linear_forward (ff_gate_proj f) x in
  Ok (tmap sigmoid gate).

(** [F.gelu(self.up_proj(x))] *)
Definition FeedForward_up (f : FeedForward) (x : tensor) : result tensor :=
  let* up := Linear_forward (ff_up_proj f) x in
  Ok (tmap gelu up).

(** Lines 271-279: [combined = gate * up]. *)
Definition FeedForward_gating (f : FeedForward) (x : tensor) : result tensor :=
  let* gate := FeedForward_gate f x in
  let* up := FeedForward_up f x in
  mul gate up.

Definition FeedForward_forward (f : FeedForward) (x : tensor) : M tensor :=
  combined <~ FeedForward_gating f x ;;
  combined <- Dropout_forward (ff_dropout_layer f) combined ;;
  output <~ Linear_forward (ff_down_proj f) combined ;;
  ret output.

(** *** PlanningNetwork *)

Record PlanningNetwork : Type := mkPlanningNetwork {
  pn_linear0 : Linear;
  pn_dropout2 : Dropout;
  pn_linear3 : Linear;
  pn_dropout5 : Dropout;
  pn_linear6 : Linear;
  pn_layer_norm : LayerNorm
}.

Definition PlanningNetwork_init (sd : state_dict) (name : string) (dim : Z) (dropout : Q)
  : result PlanningNetwork :=
  let seq := sub name "planning_layers" in
  let* l0 := Linear_init sd (item seq 0) dim (dim * 2) in
  let* d2 := Dropout_init dropout in
  let* l3 := Linear_init sd (item seq 3) (dim * 2) dim in
  let* d5 := Dropout_init dropout in
  let* l6 := Linear_init sd (item seq 6) dim dim in
  let* ln := LayerNorm_init sd (sub name "layer_norm") dim in
  Ok (mkPlanningNetwork l0 d2 l3 d5 l6 ln).

Definition PlanningNetwork_forward (n : PlanningNetwork) (x : tensor) : M tensor :=
  x_norm <~ LayerNorm_forward (pn_layer_norm n) x ;;
  h <~ Linear_forward (pn_linear0 n) x_norm ;;
  h <- Dropout_forward (pn_dropout2 n) (tmap gelu h) ;;
  h <~ Linear_forward (pn_linear3 n) h ;;
  h <- Dropout_forward (pn_dropout5 n) (tmap gelu h) ;;
  planning_output <~ Linear_forward (pn_linear6 n) h ;;
  ret planning_output.

(** *** GoalEncoder *)

Record GoalEncoder : Type := mkGoalEncoder {
  ge_linear0 : Linear;
  ge_linear2 : Linear
}.

Definition GoalEncoder_init (sd : state_dict) (name : string) (dim : Z)
  : result GoalEncoder :=
  let seq := sub name "goal_encoder" in
  let* l0 := Linear_init sd (item seq 0) dim dim in
  let* l2 := Linear_init sd (item seq 2) dim dim in
  Ok (mkGoalEncoder l0 l2).

Definition GoalEncoder_forward (g : GoalEncoder) (hidden_state : tensor) : result tensor :=
  let* h := Linear_forward (ge_linear0 g) hidden_state in
  Linear_forward (ge_linear2 g) (tmap gelu h).

(** *** Controller *)

Record Controller : Type := mkController {
  dim : Z;
  num_layers : Z;
  num_heads : Z;
  use_gated_attention : bool;
  self_attention : list MultiHeadAttention;
  feed_forward : list FeedForward;
  layer_norms : list LayerNorm;
  dropout_layer : Dropout;
  planning_network : PlanningNetwork;
  goal_encoder : GoalEncoder
}.

Definition Controller_init (sd : state_dict) (name : string)
    (dim num_layers num_heads : Z) (dropout : Q) (use_gated_attention : bool)
  : result Controller :=
  let* sa := build_list
               (fun i => MultiHeadAttention_init sd (item (sub name "self_attention") i)
                           dim num_heads dropout use_gated_attention)
               (Z.to_nat num_layers) in
  let* ff := build_list
               (fun i => FeedForward_init sd (item (sub name "feed_forward") i) dim dropout)
               (Z.to_nat num_layers) in
  let* ln := build_list
               (fun i => LayerNorm_init sd (item (sub name "layer_norms") i) dim)
               (Z.to_nat (num_layers * 2)) in
  let* dr := Dropout_init dropout in
  let* pn := PlanningNetwork_init sd (sub name "planning_network") dim dropout in
  let* ge := GoalEncoder_init sd (sub name "goal_encoder") dim in
  Ok (mkController dim num_layers num_heads use_gated_attention sa ff ln dr pn ge).

Record controller_output : Type := mkControllerOutput {
  hidden_state : tensor;
  attention_weights : list tensor;
  planning_output : tensor;
  goal_encoding : tensor
}.

(** What the layer loop carries from one layer to the next. *)
Record layer_state : Type := mkLayerState {
  ls_x : tensor;
  ls_attention_weights : list tensor;
  ls_current_hidden : tensor
}.

Definition Controller_layer (c : Controller) (mask : option tensor)
    (layer_idx : nat) (s : layer_state) : M layer_state :=
  let attn_norm_idx := layer_idx * 2 in
  let ff_norm_idx := layer_idx * 2 + 1 in
  let x := ls_x s in
  ln1 <~ module_at (layer_norms c) attn_norm_idx ;;
  x_norm <~ LayerNorm_forward ln1 x ;;
  sa <~ module_at (self_attention c) layer_idx ;;
  attn <- MultiHeadAttention_forward sa x_norm x_norm x_norm mask ;;
  dropped <- Dropout_forward (dropout_layer c) (attn_output attn) ;;
  x <~ add x dropped ;;
  let attention_weights := ls_attention_weights s ++ [attn_weights attn] in
  ln2 <~ module_at (layer_norms c) ff_norm_idx ;;
  x_norm <~ LayerNorm_forward ln2 x ;;
  ff <~ module_at (feed_forward c) layer_idx ;;
  ff_output <- FeedForward_forward ff x_norm ;;
  dropped <- Dropout_forward (dropout_layer c) ff_output ;;
  x <~ add x dropped ;;
  global_info <~ mean_dim1 x ;;
  current_hidden <~ add (ls_current_hidden s) global_info ;;
  ret (mkLayerState x attention_weights current_hidden).

Definition Controller_forward (c : Controller) (x hidden_state : tensor)
    (mask : option tensor) : M controller_output :=
  sh <~ unpack3 x ;;
  let '(batch_size, seq_len, _) := sh in
  goal_encoding <~ GoalEncoder_forward (goal_encoder c) hidden_state ;;
  g1 <~ unsqueeze 1 goal_encoding ;;
  g2 <~ expand [(-1)%Z; Z.of_nat seq_len; (-1)%Z] g1 ;;
  x <~ add x g2 ;;
  s <- for_range (Z.to_nat (num_layers c)) (Controller_layer c mask)
         (mkLayerState x [] hidden_state) ;;
  planning_output <- PlanningNetwork_forward (planning_network c) (ls_current_hidden s) ;;
  final_hidden <~ add (ls_current_hidden s) planning_output ;;
  ret (mkControllerOutput final_hidden (ls_attention_weights s) planning_output
         goal_encoding).

End controller.

(** ** worker.py *)

Module worker.

(** [x.shape[0]] *)
Definition shape0 (t : tensor) : result nat :=
  match shape t with
  | n :: _ => Ok n
  | [] => Err (IndexError "tuple index out of range")
  end.

(** *** WorkerLayer *)

Record WorkerLayer : Type := mkWorkerLayer {
  wl_dim : Z;
  wl_use_conv : bool;
  wl_use_gru : bool;
  wl_linear_transform : Linear;
  wl_conv_layer : option Conv1d;
  wl_gru_cell : option GRUCell;
  wl_gate : Linear;
  wl_dropout_layer : Dropout
}.

Definition WorkerLayer_init (sd : state_dict) (name : string) (dim : Z) (dropout : Q)
    (use_conv use_gru : bool) : result WorkerLayer :=
  let* lt := Linear_init sd (sub name "linear_transform") dim dim in
  let* cv := (if use_conv
              then let* c := Conv1d_init sd (sub name "conv_layer") dim dim in Ok (Some c)
              else Ok None) in
  let* gr := (if use_gru
              then let* g := GRUCell_init sd (sub name "gru_cell") dim dim in Ok (Some g)
              else Ok None) in
  let* gt := Linear_init sd (sub name "gate") (dim * 2) dim in
  let* dr := Dropout_init dropout in
  Ok (mkWorkerLayer dim use_conv use_gru lt cv gr gt dr).

(** Lines 198-202: the convolution branch, or the input itself. *)
Definition WorkerLayer_conv_output (l : WorkerLayer) (x : tensor) : result tensor :=
  if wl_use_conv l then
    match wl_conv_layer l with
    | Some conv =>
        let* x1 := unsqueeze (-1) x in
        let* x_conv := transpose 1 2 x1 in
        let* y := Conv1d_forward conv x_conv in
        squeeze (-1) y
    | None => Err (AttributeError "'WorkerLayer' object has no attribute 'conv_layer'")
    end
  else Ok x.

(** Lines 205-207: the recurrent branch, or the input itself. *)
Definition WorkerLayer_gru_output (l : WorkerLayer) (x hidden_state : tensor)
  : result tensor :=
  if wl_use_gru l then
    match wl_gru_cell l with
    | Some cell => GRUCell_forward cell x hidden_state
    | None => Err (AttributeError "'WorkerLayer' object has no attribute 'gru_cell'")
    end
  else Ok x.

(** Lines 210-211: the fusion gate. *)
Definition WorkerLayer_gate (l : WorkerLayer) (conv_output gru_output : tensor)
  : result tensor :=
  let* combined := cat_last conv_output gru_output in
  let* z := Linear_forward (wl_gate l) combined in
  Ok (tmap sigmoid z).

(** Lines 210-214: [gate * conv_output + (1 - gate) * gru_output]. *)
Definition WorkerLayer_fuse (l : WorkerLayer) (conv_output gru_output : tensor)
  : result tensor :=
  let* gate := WorkerLayer_gate l conv_output gru_output in
  let* gc := mul gate conv_output in
  let* gg := mul (one_minus gate) gru_output in
  add gc gg.

Record layer_output : Type := mkLayerOutput {
  lo_output : tensor;
  lo_hidden_state : tensor
}.

Definition WorkerLayer_forward (l : WorkerLayer) (x hidden_state : tensor)
  : M layer_output :=
  batch_size <~ shape0 x ;;
  linear_output <~ Linear_forward (wl_linear_transform l) x ;;
  conv_output <~ WorkerLayer_conv_output l x ;;
  gru_output <~ WorkerLayer_gru_output l x hidden_state ;;
  output <~ WorkerLayer_fuse l conv_output gru_output ;;
  output <~ add output linear_output ;;
  output <- Dropout_forward (wl_dropout_layer l) output ;;
  new_hidden <~ add hidden_state output ;;
  ret (mkLayerOutput output new_hidden).

(** *** PatternRecognitionNetwork and FastResponseNetwork *)

Record PatternRecognitionNetwork : Type := mkPatternRecognitionNetwork {
  pr_linear0 : Linear;
  pr_dropout2 : Dropout;
  pr_linear3 : Linear;
  pr_dropout5 : Dropout;
  pr_linear6 : Linear;
  pr_layer_norm : LayerNorm
}.

Definition PatternRecognitionNetwork_init (sd : state_dict) (name : string) (dim : Z)
    (dropout : Q) : result PatternRecognitionNetwork :=
  let seq := sub name "pattern_layers" in
  let* l0 := Linear_init sd (item seq 0) dim (dim * 2) in
  let* d2 := Dropout_init dropout in
  let* l3 := Linear_init sd (item seq 3) (dim * 2) dim in
  let* d5 := Dropout_init dropout in
  let* l6 := Linear_init sd (item seq 6) dim dim in
  let* ln := LayerNorm_init sd (sub name "layer_norm") dim in
  Ok (mkPatternRecognitionNetwork l0 d2 l3 d5 l6 ln).

Definition PatternRecognitionNetwork_forward (n : PatternRecognitionNetwork) (x : tensor)
  : M tensor :=
  x_norm <~ LayerNorm_forward (pr_layer_norm n) x ;;
  h <~ Linear_forward (pr_linear0 n) x_norm ;;
  h <- Dropout_forward (pr_dropout2 n) (tmap relu h) ;;
  h <~ Linear_forward (pr_linear3 n) h ;;
  h <- Dropout_forward (pr_dropout5 n) (tmap relu h) ;;
  pattern_output <~ Linear_forward (pr_linear6 n) h ;;
  ret pattern_output.

Record FastResponseNetwork : Type := mkFastResponseNetwork {
  fr_linear0 : Linear;
  fr_dropout2 : Dropout;
  fr_linear3 : Linear;
  fr_layer_norm : LayerNorm
}.

Definition FastResponseNetwork_init (sd : state_dict) (name : string) (dim : Z)
    (dropout : Q) : result FastResponseNetwork :=
  let seq := sub name "response_layers" in
  let* l0 := Linear_init sd (item seq 0) dim dim in
  let* d2 := Dropout_init dropout in
  let* l3 := Linear_init sd (item seq 3) dim dim in
  let* ln := LayerNorm_init sd (sub name "layer_norm") dim in
  Ok (mkFastResponseNetwork l0 d2 l3 ln).

Definition FastResponseNetwork_forward (n : FastResponseNetwork) (x : tensor) : M tensor :=
  x_norm <~ LayerNorm_forward (fr_layer_norm n) x ;;
  h <~ Linear_forward (fr_linear0 n) x_norm ;;
  h <- Dropout_forward (fr_dropout2 n) (tmap relu h) ;;
  response_output <~ Linear_forward (fr_linear3 n) h ;;
  ret response_output.

(** *** Worker *)

Record Worker : Type := mkWorker {
  dim : Z;
  num_layers : Z;
  use_conv : bool;
  use_gru : bool;
  input_projection : Linear;
  worker_layers : list WorkerLayer;
  layer_norms : list LayerNorm;
  dropout_layer : Dropout;
  pattern_network : PatternRecognitionNetwork;
  response_network : FastResponseNetwork
}.

Definition Worker_init (sd : state_dict) (name : string) (dim num_layers : Z)
    (dropout : Q) (use_conv use_gru : bool) : result Worker :=
  let* ip := Linear_init sd (sub name "input_projection") dim dim in
  let* wl := build_list
               (fun i => WorkerLayer_init sd (item (sub name "worker_layers") i)
                           dim dropout use_conv use_gru)
               (Z.to_nat num_layers) in
  let* ln := build_list
               (fun i => LayerNorm_init sd (item (sub name "layer_norms") i) dim)
               (Z.to_nat num_layers) in
  let* dr := Dropout_init dropout in
  let* pn := PatternRecognitionNetwork_init sd (sub name "pattern_network") dim dropout in
  let* rn := FastResponseNetwork_init sd (sub name "response_network") dim dropout in
  Ok (mkWorker dim num_layers use_conv use_gru ip wl ln dr pn rn).

Record worker_output : Type := mkWorkerOutput {
  hidden_state : tensor;
  pattern_output : tensor;
  response_output : tensor;
  layer_outputs : list tensor
}.

Record layer_state : Type := mkLayerState {
  ls_x : tensor;
  ls_current_hidden : tensor;
  ls_layer_outputs : list tensor
}.

Definition Worker_layer (w : Worker) (layer_idx : nat) (s : layer_state) : M layer_state :=
  ln <~ module_at (layer_norms w) layer_idx ;;
  x_norm <~ LayerNorm_forward ln (ls_x s) ;;
  wl <~ module_at (worker_layers w) layer_idx ;;
  worker_output <- WorkerLayer_forward wl x_norm (ls_current_hidden s) ;;
  let current_hidden := lo_hidden_state worker_output in
  let layer_outputs := ls_layer_outputs s ++ [lo_output worker_output] in
  dropped <- Dropout_forward (dropout_layer w) (lo_output worker_output) ;;
  x <~ add (ls_x s) dropped ;;
  ret (mkLayerState x current_hidden layer_outputs).

Definition Worker_forward (w : Worker) (x hidden_state : tensor) : M worker_output :=
  batch_size <~ shape0 x ;;
  x <~ Linear_forward (input_projection w) x ;;
  s <- for_range (Z.to_nat (num_layers w)) (Worker_layer w)
         (mkLayerState x hidden_state []) ;;
  pattern_output <- PatternRecognitionNetwork_forward (pattern_network w)
                      (ls_current_hidden s) ;;
  response_output <- FastResponseNetwork_forward (response_network w)
                       (ls_current_hidden s) ;;
  h1 <~ add (ls_current_hidden s) pattern_output ;;
  final_hidden <~ add h1 response_output ;;
  ret (mkWorkerOutput final_hidden pattern_output response_output (ls_layer_outputs s)).

(** *** EfficientAttention *)

Record EfficientAttention : Type := mkEfficientAttention {
  ea_dim : Z;
  ea_num_heads : Z;
  ea_head_dim : Z;
  ea_query_proj : Linear;
  ea_key_proj : Linear;
  ea_value_proj : Linear;
  ea_output_proj : Linear;
  ea_dropout_layer : Dropout
}.

Definition EfficientAttention_init (sd : state_dict) (name : string)
    (dim num_heads : Z) (dropout : Q) : result EfficientAttention :=
  let* head_dim := floordiv dim num_heads in
  let* m := pymod dim num_heads in
  let* ok := assert (m =? 0)%Z "dim must be divisible by num_heads" in
  let* q := Linear_init sd (sub name "query_proj") dim dim in
  let* k := Linear_init sd (sub name "key_proj") dim dim in
  let* v := Linear_init sd (sub name "value_proj") dim dim in
  let* o := Linear_init sd (sub name "output_proj") dim dim in
  let* d := Dropout_init dropout in
  Ok (mkEfficientAttention dim num_heads head_dim q k v o d).

(** Lines 335-368: the attention block without a mask. *)
Definition EfficientAttention_forward (m : EfficientAttention)
    (query key value : tensor) : M attention_output :=
  sh <~ unpack3 query ;;
  let '(batch_size, seq_len, _) := sh in
  Q <~ Linear_forward (ea_query_proj m) query ;;
  K <~ Linear_forward (ea_key_proj m) key ;;
  V <~ Linear_forward (ea_value_proj m) value ;;
  Q <~ split_heads Q batch_size seq_len (ea_num_heads m) (ea_head_dim m) ;;
  K <~ split_heads K batch_size seq_len (ea_num_heads m) (ea_head_dim m) ;;
  V <~ split_heads V batch_size seq_len (ea_num_heads m) (ea_head_dim m) ;;
  core <- attention_core (ea_dropout_layer m) Q K V (ea_head_dim m) None ;;
  let '(attended, attention_weights) := core in
  attended <~ merge_heads attended batch_size seq_len (ea_dim m) ;;
  output <~ Linear_forward (ea_output_proj m) attended ;;
  ret (mkAttnOut output attention_weights).

End worker.

(** ** attention.py *)

Module attention.

(** *** CrossModuleAttention *)

Record CrossModuleAttention : Type := mkCrossModuleAttention {
  query_dim : Z;
  key_dim : Z;
  value_dim : Z;
  output_dim : Z;
  cm_num_heads : Z;
  cm_head_dim : Z;
  cm_query_proj : Linear;
  cm_key_proj : Linear;
  cm_value_proj : Linear;
  cm_output_proj : Linear;
  cm_dropout_layer : Dropout
}.

Definition CrossModuleAttention_init (sd : state_dict) (name : string)
    (query_dim key_dim value_dim output_dim num_heads : Z) (dropout : Q)
  : result CrossModuleAttention :=
  let min_dim := Z.min (Z.min query_dim key_dim) value_dim in
  let* head_dim := floordiv min_dim num_heads in
  let* ok := assert (0 <? head_dim)%Z "Head dimension must be positive" in
  let* q := Linear_init sd (sub name "query_proj") query_dim (num_heads * head_dim) in
  let* k := Linear_init sd (sub name "key_proj") key_dim (num_heads * head_dim) in
  let* v := Linear_init sd (sub name "value_proj") value_dim (num_heads * head_dim) in
  let* o := Linear_init sd (sub name "output_proj") (num_heads * head_dim) output_dim in
  let* d := Dropout_init dropout in
  Ok (mkCrossModuleAttention query_dim key_dim value_dim output_dim num_heads head_dim
        q k v o d).

Definition CrossModuleAttention_forward (m : CrossModuleAttention)
    (query key value : tensor) (mask : option tensor) : M attention_output :=
  shq <~ unpack3 query ;;
  let '(batch_size, query_seq_len, _) := shq in
  shk <~ unpack3 key ;;
  let '(_, key_seq_len, _) := shk in
  Q <~ Linear_forward (cm_query_proj m) query ;;
  K <~ Linear_forward (cm_key_proj m) key ;;
  V <~ Linear_forward (cm_value_proj m) value ;;
  Q <~ split_heads Q batch_size query_seq_len (cm_num_heads m) (cm_head_dim m) ;;
  K <~ split_heads K batch_size key_seq_len (cm_num_heads m) (cm_head_dim m) ;;
  V <~ split_heads V batch_size key_seq_len (cm_num_heads m) (cm_head_dim m) ;;
  core <- attention_core (cm_dropout_layer m) Q K V (cm_head_dim m) mask ;;
  let '(attended, attention_weights) := core in
  attended <~ merge_heads attended batch_size query_seq_len
                (cm_num_heads m * cm_head_dim m)%Z ;;
  output <~ Linear_forward (cm_output_proj m) attended ;;
  ret (mkAttnOut output attention_weights).

(** *** MultiHeadAttention (standard) *)

Record MultiHeadAttention : Type := mkMultiHeadAttention {
  mha_dim : Z;
  mha_num_heads : Z;
  mha_head_dim : Z;
  mha_query_proj : Linear;
  mha_key_proj : Linear;
  mha_value_proj : Linear;
  mha_output_proj : Linear;
  mha_dropout_layer : Dropout
}.

Definition MultiHeadAttention_init (sd : state_dict) (name : string)
    (dim num_heads : Z) (dropout : Q) : result MultiHeadAttention :=
  let* head_dim := floordiv dim num_heads in
  let* m := pymod dim num_heads in
  let* ok := assert (m =? 0)%Z "dim must be divisible by num_heads" in
  let* q := Linear_init sd (sub name "query_proj") dim dim in
  let* k := Linear_init sd (sub name "key_proj") dim dim in
  let* v := Linear_init sd (sub name "value_proj") dim dim in
  let* o := Linear_init sd (sub name "output_proj") dim dim in
  let* d := Dropout_init dropout in
  Ok (mkMultiHeadAttention dim num_heads head_dim q k v o d).

Definition MultiHeadAttention_forward (m : MultiHeadAttention)
    (query key value : tensor) (mask : option tensor) : M attention_output :=
  sh <~ unpack3 query ;;
  let '(batch_size, seq_len, _) := sh in
  Q <~ Linear_forward (mha_query_proj m) query ;;
  K <~ Linear_forward (mha_key_proj m) key ;;
  V <~ Linear_forward (mha_value_proj m) value ;;
  Q <~ split_heads Q batch_size seq_len (mha_num_heads m) (mha_head_dim m) ;;
  K <~ split_heads K batch_size seq_len (mha_num_heads m) (mha_head_dim m) ;;
  V <~ split_heads V batch_size seq_len (mha_num_heads m) (mha_head_dim m) ;;
  core <- attention_core (mha_dropout_layer m) Q K V (mha_head_dim m) mask ;;
  let '(attended, attention_weights) := core in
  attended <~ merge_heads attended batch_size seq_len (mha_dim m) ;;
  output <~ Linear_forward (mha_output_proj m) attended ;;
  ret (mkAttnOut output attention_weights).

(** *** HierarchicalAttention *)

Record HierarchicalAttention : Type := mkHierarchicalAttention {
  controller_dim : Z;
  worker_dim : Z;
  num_heads : Z;
  use_cross_attention : bool;
  controller_to_worker_attn : CrossModuleAttention;
  worker_to_controller_attn : CrossModuleAttention;
  cross_attention : option CrossModuleAttention;
  controller_gate : Linear;
  worker_gate : Linear;
  controller_norm : LayerNorm;
  worker_norm : LayerNorm;
  dropout_layer : Dropout
}.

Definition HierarchicalAttention_init (sd : state_dict) (name : string)
    (controller_dim worker_dim num_heads : Z) (dropout : Q) (use_cross_attention : bool)
  : result HierarchicalAttention :=
  let* c2w := CrossModuleAttention_init sd (sub name "controller_to_worker_attn")
                worker_dim controller_dim controller_dim worker_dim num_heads dropout in
  let* w2c := CrossModuleAttention_init sd (sub name "worker_to_controller_attn")
                controller_dim worker_dim worker_dim controller_dim num_heads dropout in
  let* cross := (if use_cross_attention
                 then let* c := CrossModuleAttention_init sd (sub name "cross_attention")
                                  controller_dim worker_dim worker_dim controller_dim
                                  num_heads dropout in Ok (Some c)
                 else Ok None) in
  let* cg := Linear_init sd (sub name "controller_gate") (controller_dim * 2) controller_dim in
  let* wg := Linear_init sd (sub name "worker_gate") (worker_dim * 2) worker_dim in
  let* cn := LayerNorm_init sd (sub name "controller_norm") controller_dim in
  let* wn := LayerNorm_init sd (sub name "worker_norm") worker_dim in
  let* dr := Dropout_init dropout in
  Ok (mkHierarchicalAttention controller_dim worker_dim num_heads use_cross_attention
        c2w w2c cross cg wg cn wn dr).

(** Lines 147-148 and 158-159: a gate over the concatenation of a state and
    what was attended for it. *)
Definition bridge_gate (g : Linear) (state attended : tensor) : result tensor :=
  let* combined := cat_last state attended in
  let* z := Linear_forward g combined in
  Ok (tmap sigmoid z).

(** Lines 147-149 and 158-160: [gate * attended + (1 - gate) * state]. *)
Definition bridge_blend (g : Linear) (state attended : tensor) : result tensor :=
  let* gate := bridge_gate g state attended in
  let* ga := mul gate attended in
  let* gs := mul (one_minus gate) state in
  add ga gs.

Record bridge_output : Type := mkBridgeOutput {
  controller_output : tensor;
  worker_output : tensor;
  attention_weights : list (string * tensor)
}.

Definition HierarchicalAttention_forward (m : HierarchicalAttention)
    (controller_state worker_state : tensor) (mask : option tensor) : M bridge_output :=
  batch_size <~ worker.shape0 controller_state ;;
  controller_seq <~ unsqueeze 1 controller_state ;;
  worker_seq <~ unsqueeze 1 worker_state ;;
  c2w_output <- CrossModuleAttention_forward (controller_to_worker_attn m)
                  worker_seq controller_seq controller_seq mask ;;
  w2c_output <- CrossModuleAttention_forward (worker_to_controller_attn m)
                  controller_seq worker_seq worker_seq mask ;;
  cross_output <- (if use_cross_attention m then
                     match cross_attention m with
                     | Some ca =>
                         o <- CrossModuleAttention_forward ca
                                controller_seq worker_seq worker_seq mask ;;
                         ret (Some o)
                     | None => raise (AttributeError
                         "'HierarchicalAttention' object has no attribute 'cross_attention'")
                     end
                   else ret None) ;;
  controller_attended <~ squeeze 1 (attn_output w2c_output) ;;
  controller_output <~ bridge_blend (controller_gate m) controller_state
                         controller_attended ;;
  controller_output <~ (match cross_output with
                        | Some co =>
                            let* cross_attended := squeeze 1 (attn_output co) in
                            add controller_output cross_attended
                        | None => Ok controller_output
                        end) ;;
  worker_attended <~ squeeze 1 (attn_output c2w_output) ;;
  worker_output <~ bridge_blend (worker_gate m) worker_state worker_attended ;;
  controller_output <~ LayerNorm_forward (controller_norm m) controller_output ;;
  worker_output <~ LayerNorm_forward (worker_norm m) worker_output ;;
  controller_output <- Dropout_forward (dropout_layer m) controller_output ;;
  worker_output <- Dropout_forward (dropout_layer m) worker_output ;;
  let attention_weights :=
    [("controller_to_worker"%string, attn_weights c2w_output);
     ("worker_to_controller"%string, attn_weights w2c_output)]
    ++ match cross_output with
       | Some co => [("cross_attention"%string, attn_weights co)]
       | None => []
       end in
  ret (mkBridgeOutput controller_output worker_output attention_weights).

(** *** HierarchicalSelfAttention *)

Record HierarchicalSelfAttention : Type := mkHierarchicalSelfAttention {
  hs_dim : Z;
  hs_num_heads : Z;
  hs_num_levels : Z;
  hs_head_dim : Z;
  hs_level_attentions : list MultiHeadAttention;
  hs_level_projections : list Linear;
  hs_output_proj : Linear;
  hs_layer_norms : list LayerNorm;
  hs_dropout_layer : Dropout
}.

Definition HierarchicalSelfAttention_init (sd : state_dict) (name : string)
    (dim num_heads num_levels : Z) (dropout : Q) : result HierarchicalSelfAttention :=
  let* head_dim := floordiv dim num_heads in
  let* m := pymod dim num_heads in
  let* ok := assert (m =? 0)%Z "dim must be divisible by num_heads" in
  let* la := build_list
               (fun i => MultiHeadAttention_init sd (item (sub name "level_attentions") i)
                           dim num_heads dropout)
               (Z.to_nat num_levels) in
  let* lp := build_list
               (fun i => Linear_init sd (item (sub name "level_projections") i) dim dim)
               (Z.to_nat num_levels) in
  let* o := Linear_init sd (sub name "output_proj") (dim * num_levels) dim in
  let* ln := build_list
               (fun i => LayerNorm_init sd (item (sub name "layer_norms") i) dim)
               (Z.to_nat num_levels) in
  let* dr := Dropout_init dropout in
  Ok (mkHierarchicalSelfAttention dim num_heads num_levels head_dim la lp o ln dr).

Record self_attention_output : Type := mkSelfAttentionOutput {
  sa_output : tensor;
  sa_attention_weights : list tensor;
  sa_level_outputs : list tensor
}.

(** What the level loop carries: the two lists it appends to. *)
Record level_state : Type := mkLevelState {
  lv_level_outputs : list tensor;
  lv_attention_weights : list tensor
}.

Definition HierarchicalSelfAttention_level (m : HierarchicalSelfAttention)
    (x : tensor) (mask : option tensor) (level_idx : nat) (s : level_state)
  : M level_state :=
  lp <~ module_at (hs_level_projections m) level_idx ;;
  x_level <~ Linear_forward lp x ;;
  ln <~ module_at (hs_layer_norms m) level_idx ;;
  x_norm <~ LayerNorm_forward ln x_level ;;
  la <~ module_at (hs_level_attentions m) level_idx ;;
  attn <- MultiHeadAttention_forward la x_norm x_norm x_norm mask ;;
  ret (mkLevelState (lv_level_outputs s ++ [attn_output attn])
         (lv_attention_weights s ++ [attn_weights attn])).

Definition HierarchicalSelfAttention_forward (m : HierarchicalSelfAttention)
    (x : tensor) (mask : option tensor) : M self_attention_output :=
  sh <~ unpack3 x ;;
  let '(batch_size, seq_len, _) := sh in
  s <- for_range (Z.to_nat (hs_num_levels m)) (HierarchicalSelfAttention_level m x mask)
         (mkLevelState [] []) ;;
  combined <~ cat_list_last (lv_level_outputs s) ;;
  output <~ Linear_forward (hs_output_proj m) combined ;;
  output <- Dropout_forward (hs_dropout_layer m) output ;;
  ret (mkSelfAttentionOutput output (lv_attention_weights s) (lv_level_outputs s)).

End attention.

(** ** hrm.py *)

Module hrm.

(** *** PositionalEncoding *)

Record PositionalEncoding : Type := mkPositionalEncoding { pe : tensor }.

(** The table: [pe[pos, 0, 2i] = sin(pos * div_i)], [pe[pos, 0, 2i+1] =
    cos(pos * div_i)], [div_i = exp(2i * (-ln 10000 / d_model))]. *)
Definition pe_value (d_model : nat) (pos col : nat) : R :=
  let div_term := exp (INR (2 * (col / 2)) * (- ln 10000 / INR d_model)) in
  if Nat.even col then sin (INR pos * div_term) else cos (INR pos * div_term).

Definition PositionalEncoding_init (d_model max_len : Z) : result PositionalEncoding :=
  let* ml := size_of max_len in
  let* d := size_of d_model in
  if d =? 0 then Err ZeroDivisionError
  else if Nat.odd d && (3 <=? d)
  then Err (RuntimeError "The expanded size of the tensor must match the existing size")
  else Ok (mkPositionalEncoding
             (mkT [ml; 1; d] (fun idx => pe_value d (nth 0 idx 0) (nth 2 idx 0)))).

(** [x + self.pe[:x.size(0), :]] *)
Definition PositionalEncoding_forward (m : PositionalEncoding) (x : tensor)
  : result tensor :=
  let* n := worker.shape0 x in
  add x (mkT (Nat.min n (nth 0 (shape (pe m)) 0) :: tl (shape (pe m))) (data (pe m))).

(** *** HRM *)

Record config : Type := mkConfig {
  cfg_input_dim : Z;
  cfg_controller_dim : Z;
  cfg_worker_dim : Z;
  cfg_num_layers : Z;
  cfg_num_cycles : Z;
  cfg_dropout : Q;
  cfg_use_attention : bool;
  cfg_use_positional_encoding : bool
}.

Definition default_config : config :=
  mkConfig 128 512 256 4 6 (1 # 10) true true.

Record HRM : Type := mkHRM {
  input_dim : Z;
  controller_dim : Z;
  worker_dim : Z;
  num_layers : Z;
  num_cycles : Z;
  use_attention : bool;
  use_positional_encoding : bool;
  input_projection : Linear;
  controller : controller.Controller;
  worker : worker.Worker;
  attention : option attention.HierarchicalAttention;
  controller_to_worker : Linear;
  worker_to_controller : Linear;
  output_projection : Linear;
  layer_norm : LayerNorm;
  pos_encoding : option PositionalEncoding
}.

(** The state dictionary gives every parameter the value it has when forward
    runs (after [_init_weights] and whatever training followed). *)
Definition HRM_init (sd : state_dict) (c : config) : result HRM :=
  let* ip := Linear_init sd "input_projection" (cfg_input_dim c) (cfg_controller_dim c) in
  let* ctl := controller.Controller_init sd "controller" (cfg_controller_dim c)
                (cfg_num_layers c) 8 (cfg_dropout c) true in
  let* wrk := worker.Worker_init sd "worker" (cfg_worker_dim c) (cfg_num_layers c)
                (cfg_dropout c) true true in
  let* att := (if cfg_use_attention c
               then let* a := attention.HierarchicalAttention_init sd "attention"
                                (cfg_controller_dim c) (cfg_worker_dim c) 8
                                (cfg_dropout c) true in Ok (Some a)
               else Ok None) in
  let* c2w := Linear_init sd "controller_to_worker" (cfg_controller_dim c) (cfg_worker_dim c) in
  let* w2c := Linear_init sd "worker_to_controller" (cfg_worker_dim c) (cfg_controller_dim c) in
  let* op := Linear_init sd "output_projection" (cfg_controller_dim c) (cfg_input_dim c) in
  let* ln := LayerNorm_init sd "layer_norm" (cfg_controller_dim c) in
  let* pos := (if cfg_use_positional_encoding c
               then let* p := PositionalEncoding_init (cfg_controller_dim c) 1000 in
                    Ok (Some p)
               else Ok None) in
  Ok (mkHRM (cfg_input_dim c) (cfg_controller_dim c) (cfg_worker_dim c)
        (cfg_num_layers c) (cfg_num_cycles c) (cfg_use_attention c)
        (cfg_use_positional_encoding c) ip ctl wrk att c2w w2c op ln pos).

Record forward_result : Type := mkForwardResult {
  output : tensor;
  controller_states : tensor;
  worker_states : tensor;
  final_controller_state : tensor;
  final_worker_state : tensor;
  attention_weights : option tensor
}.

(** What the cycle loop carries from one cycle to the next. *)
Record cycle_state : Type := mkCycleState {
  cs_controller_state : tensor;
  cs_worker_state : tensor;
  cs_controller_states : list tensor;
  cs_worker_states : list tensor;
  cs_attention_weights : list pyobj
}.

Definition HRM_cycle (m : HRM) (x : tensor) (mask : option tensor)
    (return_attention : bool) (cycle : nat) (s : cycle_state) : M cycle_state :=
  controller_output <- controller.Controller_forward (controller m) x
                         (cs_controller_state s) mask ;;
  let controller_state := controller.hidden_state controller_output in
  let controller_states := cs_controller_states s ++ [controller_state] in
  worker_input <~ Linear_forward (controller_to_worker m) controller_state ;;
  worker_output <- worker.Worker_forward (worker m) worker_input (cs_worker_state s) ;;
  let worker_state := worker.hidden_state worker_output in
  let worker_states := cs_worker_states s ++ [worker_state] in
  fused <- (if use_attention m then
              match attention m with
              | Some att =>
                  attended_output <- attention.HierarchicalAttention_forward att
                                       controller_state worker_state mask ;;
                  ret (attention.controller_output attended_output,
                       attention.worker_output attended_output,
                       if return_attention
                       then cs_attention_weights s
                            ++ [PyDict (attention.attention_weights attended_output)]
                       else cs_attention_weights s)
              | None => raise (AttributeError "'HRM' object has no attribute 'attention'")
              end
            else ret (controller_state, worker_state, cs_attention_weights s)) ;;
  let '(controller_state, worker_state, attention_weights) := fused in
  controller_feedback <~ Linear_forward (worker_to_controller m) worker_state ;;
  controller_state <~ add controller_state controller_feedback ;;
  controller_state <~ LayerNorm_forward (layer_norm m) controller_state ;;
  ret (mkCycleState controller_state worker_state controller_states worker_states
         attention_weights).

Definition HRM_forward (m : HRM) (x : tensor) (mask : option tensor)
    (return_attention : bool) : M forward_result :=
  sh <~ unpack3 x ;;
  let '(batch_size, seq_len, _) := sh in
  x <~ Linear_forward (input_projection m) x ;;
  x <~ (if use_positional_encoding m then
          match pos_encoding m with
          | Some pos => PositionalEncoding_forward pos x
          | None => Err (AttributeError "'HRM' object has no attribute 'pos_encoding'")
          end
        else Ok x) ;;
  cd <~ size_of (controller_dim m) ;;
  wd <~ size_of (worker_dim m) ;;
  let controller_state := zeros [batch_size; cd] in
  let worker_state := zeros [batch_size; wd] in
  s <- for_range (Z.to_nat (num_cycles m)) (HRM_cycle m x mask return_attention)
         (mkCycleState controller_state worker_state [] [] []) ;;
  output <~ Linear_forward (output_projection m) (cs_controller_state s) ;;
  cstack <~ stack (map PyTensor (cs_controller_states s)) 1 ;;
  wstack <~ stack (map PyTensor (cs_worker_states s)) 1 ;;
  aw <~ (if return_attention && use_attention m
         then let* a := stack (cs_attention_weights s) 1 in Ok (Some a)
         else Ok None) ;;
  ret (mkForwardResult output cstack wstack (cs_controller_state s) (cs_worker_state s) aw).

End hrm.

(** * Vocabulary of the statements *)

Unset Implicit Arguments.

Definition is_dict (o : pyobj) : Prop :=
  match o with PyDict _ => True | PyTensor _ => False end.

Definition in_range (s : list nat) (idx : index) : Prop := Forall2 lt idx s.

Definition mask_fits (b sk : nat) (mask : option tensor) : Prop :=
  match mask with
  | None => True
  | Some m => shape m = [b; sk]
  end.

Definition unit_interval (t : tensor) : Prop :=
  forall idx, (0 <= data t idx <= 1)%R.

Definition MultiHeadAttention_wf (d : nat) (m : controller.MultiHeadAttention) : Prop :=
  controller.mha_dim m = Z.of_nat d /\
  out_features (controller.mha_output_proj m) = d /\
  (controller.mha_use_gated m = true ->
   exists g, controller.mha_gate m = Some g /\ out_features g = d).

Definition FeedForward_wf (d : nat) (f : controller.FeedForward) : Prop :=
  out_features (controller.ff_gate_proj f) = out_features (controller.ff_up_proj f) /\
  out_features (controller.ff_down_proj f) = d.

Definition Controller_wf (d : nat) (c : controller.Controller) : Prop :=
  Forall (MultiHeadAttention_wf d) (controller.self_attention c) /\
  Forall (FeedForward_wf d) (controller.feed_forward c) /\
  out_features (controller.pn_linear6 (controller.planning_network c)) = d /\
  out_features (controller.ge_linear2 (controller.goal_encoder c)) = d.

(** What [Controller.forward] hands to the layer loop: the input plus the
    goal encoding of the prior hidden state, broadcast over the positions. *)
Definition Controller_goal_augmented (c : controller.Controller) (x hidden_state : tensor)
  : result tensor :=
  let* sh := unpack3 x in
  let '(batch_size, seq_len, _) := sh in
  let* goal_encoding := controller.GoalEncoder_forward (controller.goal_encoder c)
                          hidden_state in
  let* g1 := unsqueeze 1 goal_encoding in
  let* g2 := expand [(-1)%Z; Z.of_nat seq_len; (-1)%Z] g1 in
  add x g2.

Definition WorkerLayer_wf (d : nat) (l : worker.WorkerLayer) : Prop :=
  out_features (worker.wl_linear_transform l) = d /\
  out_features (worker.wl_gate l) = d /\
  (forall c, worker.wl_conv_layer l = Some c -> in_channels c = d /\ out_channels c = d) /\
  (forall g, worker.wl_gru_cell l = Some g -> hidden_size g = d).

Definition Worker_wf (d : nat) (w : worker.Worker) : Prop :=
  out_features (worker.input_projection w) = d /\
  Forall (WorkerLayer_wf d) (worker.worker_layers w) /\
  out_features (worker.pr_linear6 (worker.pattern_network w)) = d /\
  out_features (worker.fr_linear3 (worker.response_network w)) = d.

Definition HierarchicalAttention_wf (cd wd : nat) (a : attention.HierarchicalAttention)
  : Prop :=
  out_features (attention.cm_output_proj (attention.worker_to_controller_attn a)) = cd /\
  out_features (attention.cm_output_proj (attention.controller_to_worker_attn a)) = wd /\
  (forall ca, attention.cross_attention a = Some ca ->
              out_features (attention.cm_output_proj ca) = cd) /\
  out_features (attention.controller_gate a) = cd /\
  out_features (attention.worker_gate a) = wd.

Definition HRM_wf (idim cd wd : nat) (m : hrm.HRM) : Prop :=
  Controller_wf cd (hrm.controller m) /\
  Worker_wf wd (hrm.worker m) /\
  out_features (hrm.input_projection m) = cd /\
  out_features (hrm.controller_to_worker m) = wd /\
  out_features (hrm.worker_to_controller m) = cd /\
  out_features (hrm.output_projection m) = idim /\
  hrm.controller_dim m = Z.of_nat cd /\
  hrm.worker_dim m = Z.of_nat wd /\
  (forall a, hrm.attention m = Some a -> HierarchicalAttention_wf cd wd a) /\
  (forall p, hrm.pos_encoding m = Some p -> shape (hrm.pe p) = [1000; 1; cd]).

(** One cycle, step by step. *)
Record cycle_trace : Type := mkCycleTrace {
  ct_controller : controller.controller_output;
  ct_worker_input : tensor;
  ct_worker : worker.worker_output;
  ct_fused_controller : tensor;
  ct_fused_worker : tensor;
  ct_feedback : tensor;
  ct_sum : tensor
}.

Definition cycle_steps (m : hrm.HRM) (x : tensor) (mask : option tensor)
    (s : hrm.cycle_state) (st : run_state) (t : cycle_trace)
    (s' : hrm.cycle_state) (st' : run_state) : Prop :=
  exists st1 st2,
    controller.Controller_forward (hrm.controller m) x (hrm.cs_controller_state s) mask st
      = Ok (ct_controller t, st1) /\
    hrm.cs_controller_states s'
      = hrm.cs_controller_states s ++ [controller.hidden_state (ct_controller t)] /\
    Linear_forward (hrm.controller_to_worker m) (controller.hidden_state (ct_controller t))
      = Ok (ct_worker_input t) /\
    worker.Worker_forward (hrm.worker m) (ct_worker_input t) (hrm.cs_worker_state s) st1
      = Ok (ct_worker t, st2) /\
    hrm.cs_worker_states s'
      = hrm.cs_worker_states s ++ [worker.hidden_state (ct_worker t)] /\
    (if hrm.use_attention m
     then exists att bo,
         hrm.attention m = Some att /\
         attention.HierarchicalAttention_forward att
           (controller.hidden_state (ct_controller t))
           (worker.hidden_state (ct_worker t)) mask st2 = Ok (bo, st') /\
         ct_fused_controller t = attention.controller_output bo /\
         ct_fused_worker t = attention.worker_output bo
     else ct_fused_controller t = controller.hidden_state (ct_controller t) /\
          ct_fused_worker t = worker.hidden_state (ct_worker t) /\ st' = st2) /\
    Linear_forward (hrm.worker_to_controller m) (ct_fused_worker t) = Ok (ct_feedback t) /\
    add (ct_fused_controller t) (ct_feedback t) = Ok (ct_sum t) /\
    LayerNorm_forward (hrm.layer_norm m) (ct_sum t) = Ok (hrm.cs_controller_state s') /\
    hrm.cs_worker_state s' = ct_fused_worker t.

Definition initial_cycle_state (b cd wd : nat) : hrm.cycle_state :=
  hrm.mkCycleState (zeros [b; cd]) (zeros [b; wd]) [] [] [].

(** What [HRM.forward] hands to the cycle loop: the projected input, with the
    positional encoding added when enabled. *)
Definition HRM_projected_input (m : hrm.HRM) (x : tensor) : result tensor :=
  let* x := Linear_forward (hrm.input_projection m) x in
  if hrm.use_positional_encoding m then
    match hrm.pos_encoding m with
    | Some pos => hrm.PositionalEncoding_forward pos x
    | None => Err (AttributeError "'HRM' object has no attribute 'pos_encoding'")
    end
  else Ok x.

(** Later cycles only append to the histories. *)
Definition histories_extend (a b : hrm.cycle_state) : Prop :=
  (exists rc, hrm.cs_controller_states b = hrm.cs_controller_states a ++ rc) /\
  (exists rw, hrm.cs_worker_states b = hrm.cs_worker_states a ++ rw).

(** A feed-forward network of dimension 1 whose two projections are the
    constant 1 (zero weights, bias 1), and the input 1. *)
Definition ff_example : controller.FeedForward :=
  controller.mkFeedForward
    (mkLinear 1 2 (fun _ _ => 0%R) (fun _ => 1%R))
    (mkLinear 1 2 (fun _ _ => 0%R) (fun _ => 1%R))
    (mkLinear 2 1 (fun _ _ => 0%R) (fun _ => 0%R))
    (mkDropout 0).

Definition ones (s : list nat) : tensor := mkT s (fun _ => 1%R).

Definition first_entry : index := [0; 0; 0].

(** A model with one cycle, no layers and no bridge, whose only non-zero
    parameter is the bias of the last planning layer. *)
Definition sd_planning_bias : state_dict :=
  fun name _ =>
    if String.eqb name "controller.planning_network.planning_layers.6.bias"
    then 1%R else 0%R.

Definition single_cycle_config : hrm.config := hrm.mkConfig 1 1 1 0 1 0 false false.

Definition eval_mode : run_state := mkRun false (fun _ _ => true) 0.

Definition sd_zero : state_dict := fun _ _ => 0%R.

(** A configuration whose forward pass returns: worker dimension 1, no
    bridge. *)
Definition narrow_worker_config : hrm.config := hrm.mkConfig 8 16 1 2 3 0 false true.

(** A configuration with the bridge and no layers. *)
Definition bridged_config : hrm.config := hrm.mkConfig 8 16 8 0 3 0 true true.

Definition blend_gate_example : Linear :=
  mkLinear 2 1 (fun _ _ => 0%R) (fun _ => 0%R).

Definition cross_attention_mask : tensor := ones [2; 5].

(** ** What the constructors build, in full *)

Definition Linear_dims (i o : nat) (l : Linear) : Prop :=
  in_features l = i /\ out_features l = o.

Definition WorkerLayer_built (d : nat) (use_conv use_gru : bool) (l : worker.WorkerLayer)
  : Prop :=
  worker.wl_use_conv l = use_conv /\
  worker.wl_use_gru l = use_gru /\
  Linear_dims d d (worker.wl_linear_transform l) /\
  Linear_dims (d + d) d (worker.wl_gate l) /\
  (use_conv = true ->
   exists c, worker.wl_conv_layer l = Some c /\ in_channels c = d /\ out_channels c = d) /\
  (use_gru = true ->
   exists g, worker.wl_gru_cell l = Some g /\ input_size g = d /\ hidden_size g = d).

Definition PatternRecognitionNetwork_built (d : nat) (n : worker.PatternRecognitionNetwork)
  : Prop :=
  Linear_dims d (d + d) (worker.pr_linear0 n) /\
  Linear_dims (d + d) d (worker.pr_linear3 n) /\
  Linear_dims d d (worker.pr_linear6 n) /\
  normalized_shape (worker.pr_layer_norm n) = d.

Definition FastResponseNetwork_built (d : nat) (n : worker.FastResponseNetwork) : Prop :=
  Linear_dims d d (worker.fr_linear0 n) /\
  Linear_dims d d (worker.fr_linear3 n) /\
  normalized_shape (worker.fr_layer_norm n) = d.

Definition Worker_built (d : nat) (use_conv use_gru : bool) (L : nat) (w : worker.Worker)
  : Prop :=
  Z.to_nat (worker.num_layers w) = L /\
  Linear_dims d d (worker.input_projection w) /\
  length (worker.worker_layers w) = L /\
  Forall (WorkerLayer_built d use_conv use_gru) (worker.worker_layers w) /\
  length (worker.layer_norms w) = L /\
  Forall (fun n => normalized_shape n = d) (worker.layer_norms w) /\
  PatternRecognitionNetwork_built d (worker.pattern_network w) /\
  FastResponseNetwork_built d (worker.response_network w).

Definition MultiHeadAttention_built (d H hd : nat) (gated : bool)
    (m : controller.MultiHeadAttention) : Prop :=
  controller.mha_dim m = Z.of_nat d /\
  controller.mha_num_heads m = Z.of_nat H /\
  controller.mha_head_dim m = Z.of_nat hd /\
  H * hd = d /\
  controller.mha_use_gated m = gated /\
  Linear_dims d d (controller.mha_query_proj m) /\
  Linear_dims d d (controller.mha_key_proj m) /\
  Linear_dims d d (controller.mha_value_proj m) /\
  Linear_dims d d (controller.mha_output_proj m) /\
  (gated = true -> exists g, controller.mha_gate m = Some g /\ Linear_dims d d g).

Definition FeedForward_built (d : nat) (f : controller.FeedForward) : Prop :=
  Linear_dims d (d + d) (controller.ff_gate_proj f) /\
  Linear_dims d (d + d) (controller.ff_up_proj f) /\
  Linear_dims (d + d) d (controller.ff_down_proj f).

Definition PlanningNetwork_built (d : nat) (n : controller.PlanningNetwork) : Prop :=
  Linear_dims d (d + d) (controller.pn_linear0 n) /\
  Linear_dims (d + d) d (controller.pn_linear3 n) /\
  Linear_dims d d (controller.pn_linear6 n) /\
  normalized_shape (controller.pn_layer_norm n) = d.

Definition GoalEncoder_built (d : nat) (g : controller.GoalEncoder) : Prop :=
  Linear_dims d d (controller.ge_linear0 g) /\ Linear_dims d d (controller.ge_linear2 g).

Definition Controller_built (d H hd : nat) (gated : bool) (L : nat)
    (c : controller.Controller) : Prop :=
  Z.to_nat (controller.num_layers c) = L /\
  length (controller.self_attention c) = L /\
  Forall (MultiHeadAttention_built d H hd gated) (controller.self_attention c) /\
  length (controller.feed_forward c) = L /\
  Forall (FeedForward_built d) (controller.feed_forward c) /\
  length (controller.layer_norms c) = L + L /\
  Forall (fun n => normalized_shape n = d) (controller.layer_norms c) /\
  PlanningNetwork_built d (controller.planning_network c) /\
  GoalEncoder_built d (controller.goal_encoder c).

(** Every tensor of a list of attention weights has the given shape. *)
Definition weights_of_shape (sh : list nat) (l : list tensor) : Prop :=
  Forall (fun w => shape w = sh) l.

Definition CrossModuleAttention_built (dq dk dv dout H hd : nat)
    (m : attention.CrossModuleAttention) : Prop :=
  attention.cm_num_heads m = Z.of_nat H /\
  attention.cm_head_dim m = Z.of_nat hd /\
  0 < H /\ 0 < hd /\
  Linear_dims dq (H * hd) (attention.cm_query_proj m) /\
  Linear_dims dk (H * hd) (attention.cm_key_proj m) /\
  Linear_dims dv (H * hd) (attention.cm_value_proj m) /\
  Linear_dims (H * hd) dout (attention.cm_output_proj m).

(** [min(query_dim, key_dim, value_dim) // num_heads] *)
Definition cross_head_dim (a b c heads : Z) : nat :=
  Z.to_nat (Z.min (Z.min a b) c / heads).

Definition HierarchicalAttention_built (cd wd H : nat) (cross : bool)
    (a : attention.HierarchicalAttention) : Prop :=
  attention.use_cross_attention a = cross /\
  (exists hd, CrossModuleAttention_built wd cd cd wd H hd
                (attention.controller_to_worker_attn a)) /\
  (exists hd, CrossModuleAttention_built cd wd wd cd H hd
                (attention.worker_to_controller_attn a)) /\
  (cross = true ->
   exists ca hd, attention.cross_attention a = Some ca /\
                 CrossModuleAttention_built cd wd wd cd H hd ca) /\
  Linear_dims (cd + cd) cd (attention.controller_gate a) /\
  Linear_dims (wd + wd) wd (attention.worker_gate a) /\
  normalized_shape (attention.controller_norm a) = cd /\
  normalized_shape (attention.worker_norm a) = wd.

(** The table of the positional encoding. *)
Definition pe_table (ml d : nat) : tensor :=
  mkT [ml; 1; d] (fun idx => hrm.pe_value d (nth 0 idx 0) (nth 2 idx 0)).

Definition HRM_built (idim cd wd L : nat) (use_attention use_pe : bool) (m : hrm.HRM)
  : Prop :=
  hrm.controller_dim m = Z.of_nat cd /\
  hrm.worker_dim m = Z.of_nat wd /\
  Z.to_nat (hrm.num_layers m) = L /\
  hrm.use_attention m = use_attention /\
  hrm.use_positional_encoding m = use_pe /\
  Linear_dims idim cd (hrm.input_projection m) /\
  (exists hd, Controller_built cd 8 hd true L (hrm.controller m)) /\
  Worker_built wd true true L (hrm.worker m) /\
  (use_attention = true ->
   exists a, hrm.attention m = Some a /\ HierarchicalAttention_built cd wd 8 true a) /\
  Linear_dims cd wd (hrm.controller_to_worker m) /\
  Linear_dims wd cd (hrm.worker_to_controller m) /\
  Linear_dims cd idim (hrm.output_projection m) /\
  normalized_shape (hrm.layer_norm m) = cd /\
  (use_pe = true ->
   exists p, hrm.pos_encoding m = Some p /\ hrm.pe p = pe_table 1000 cd).

(** Two tensors agree at every position. *)
Definition same_data (a b : tensor) : Prop := forall idx, data a idx = data b idx.

(** In evaluation mode [f] neither reads nor advances the generator. *)
Definition eval_pure {A} (f : M A) : Prop :=
  forall st, training st = false ->
    f st = match f eval_mode with Ok (a, _) => Ok (a, st) | Err e => Err e end.

(** A configuration without layers and without the bridge. *)
Definition unbridged_config : hrm.config := hrm.mkConfig 8 16 4 0 3 0 false true.

(** The body that [attention.MultiHeadAttention.forward] and
    [worker.EfficientAttention.forward] share, over the fields it reads. *)
Definition self_attention_block (dim num_heads head_dim : Z) (qp kp vp op : Linear)
    (dr : Dropout) (query key value : tensor) (mask : option tensor) : M attention_output :=
  sh <~ unpack3 query ;;
  let '(batch_size, seq_len, _) := sh in
  Q <~ Linear_forward qp query ;;
  K <~ Linear_forward kp key ;;
  V <~ Linear_forward vp value ;;
  Q <~ split_heads Q batch_size seq_len num_heads head_dim ;;
  K <~ split_heads K batch_size seq_len num_heads head_dim ;;
  V <~ split_heads V batch_size seq_len num_heads head_dim ;;
  core <- attention_core dr Q K V head_dim mask ;;
  let '(attended, attention_weights) := core in
  attended <~ merge_heads attended batch_size seq_len dim ;;
  output <~ Linear_forward op attended ;;
  ret (mkAttnOut output attention_weights).

(** What the constructors of these classes build. *)
Definition self_attention_built (d H hd : nat) (dim num_heads head_dim : Z)
    (qp kp vp op : Linear) : Prop :=
  dim = Z.of_nat d /\ num_heads = Z.of_nat H /\ head_dim = Z.of_nat hd /\ H * hd = d /\
  Linear_dims d d qp /\ Linear_dims d d kp /\ Linear_dims d d vp /\ Linear_dims d d op.

Definition MultiHeadAttention_block_built (d H hd : nat) (m : attention.MultiHeadAttention)
  : Prop :=
  self_attention_built d H hd (attention.mha_dim m) (attention.mha_num_heads m)
    (attention.mha_head_dim m) (attention.mha_query_proj m) (attention.mha_key_proj m)
    (attention.mha_value_proj m) (attention.mha_output_proj m).

Definition HierarchicalSelfAttention_built (d H hd L : nat)
    (m : attention.HierarchicalSelfAttention) : Prop :=
  Z.to_nat (attention.hs_num_levels m) = L /\
  length (attention.hs_level_attentions m) = L /\
  Forall (MultiHeadAttention_block_built d H hd) (attention.hs_level_attentions m) /\
  length (attention.hs_level_projections m) = L /\
  Forall (Linear_dims d d) (attention.hs_level_projections m) /\
  length (attention.hs_layer_norms m) = L /\
  Forall (fun n => normalized_shape n = d) (attention.hs_layer_norms m) /\
  Linear_dims (L * d) d (attention.hs_output_proj m).

(** * Properties *)

(** ** Running the monads backwards *)

Lemma rbind_ok {A B} (r : result A) (k : A -> result B) (b : B) :
  rbind r k = Ok b -> exists a, r = Ok a /\ k a = Ok b.
Proof. destruct r as [a|e]; simpl; intro H; [eauto | discriminate]. Qed.

Lemma bind_ok {A B} (m : M A) (k : A -> M B) st b st' :
  bind m k st = Ok (b, st') ->
  exists a st1, m st = Ok (a, st1) /\ k a st1 = Ok (b, st').
Proof.
  unfold bind. destruct (m st) as [[a st1]|e]; intro H; [eauto | discriminate].
Qed.

Lemma lift_ok {A} (r : result A) st a st' :
  lift r st = Ok (a, st') -> r = Ok a /\ st' = st.
Proof. unfold lift. destruct r; intro H; inversion H; auto. Qed.

Lemma ret_ok {A} (a : A) st b st' : ret a st = Ok (b, st') -> b = a /\ st' = st.
Proof. unfold ret. intro H; inversion H; auto. Qed.

Lemma bind_err {A B} (m : M A) (k : A -> M B) st e :
  m st = Err e -> bind m k st = Err e.
Proof. unfold bind. intros ->. reflexivity. Qed.

Lemma bind_step {A B} (m : M A) (k : A -> M B) st a st1 :
  m st = Ok (a, st1) -> bind m k st = k a st1.
Proof. unfold bind. intros ->. reflexivity. Qed.

Ltac minv1 H :=
  match type of H with
  | bind (lift _) _ _ = Ok (_, _) =>
      let a := fresh "v" in let st := fresh "st" in
      let H1 := fresh "E" in let H2 := fresh "Est" in
      apply bind_ok in H; destruct H as (a & st & H1 & H);
      apply lift_ok in H1; destruct H1 as [H1 H2]; subst st
  | bind _ _ _ = Ok (_, _) =>
      let a := fresh "v" in let st := fresh "st" in let H1 := fresh "E" in
      apply bind_ok in H; destruct H as (a & st & H1 & H)
  | rbind _ _ = Ok _ =>
      let a := fresh "v" in let H1 := fresh "E" in
      apply rbind_ok in H; destruct H as (a & H1 & H)
  | ret _ _ = Ok (_, _) =>
      let H1 := fresh "E" in let H2 := fresh "Est" in
      apply ret_ok in H; destruct H as [H1 H2]
  | (let '(_, _) := ?p in _) _ = Ok _ => destruct p
  | (let '(_, _) := ?p in _) = Ok _ => destruct p
  end.

Ltac minv H := repeat (minv1 H).

(** ** The loop combinators *)

Lemma for_range_invariant {S} (P : S -> Prop) (body : nat -> S -> M S) :
  (forall i s st s' st', P s -> body i s st = Ok (s', st') -> P s') ->
  forall n s st s' st',
    P s -> for_range n body s st = Ok (s', st') -> P s'.
Proof.
  intros Hbody n. induction n as [|k IH]; intros s st s' st' Hs H; simpl in H.
  - apply ret_ok in H. destruct H as [-> _]. exact Hs.
  - apply bind_ok in H. destruct H as (s1 & st1 & H1 & H2).
    eapply Hbody; [eapply IH; eauto | eauto].
Qed.

Lemma for_range_first_fails {S} (body : nat -> S -> M S) n s st :
  (forall s0 st0, is_ok (body 0 s0 st0) = false) ->
  is_ok (for_range (Datatypes.S n) body s st) = false.
Proof.
  intro Hfail. induction n as [|k IH].
  - simpl. unfold bind, ret. apply Hfail.
  - change (for_range (Datatypes.S (Datatypes.S k)) body s st)
      with (bind (for_range (Datatypes.S k) body s) (body (Datatypes.S k)) st).
    unfold bind. destruct (for_range (Datatypes.S k) body s st) as [[a st1]|e];
      [discriminate | reflexivity].
Qed.

Lemma build_list_length {A} (f : nat -> result A) n l :
  build_list f n = Ok l -> length l = n.
Proof.
  revert l. induction n as [|k IH]; intros l H; simpl in H.
  - inversion H. reflexivity.
  - minv H. inversion H; subst. rewrite length_app, (IH _ E). simpl. lia.
Qed.

Lemma build_list_nth {A} (f : nat -> result A) n l :
  build_list f n = Ok l ->
  forall i, i < n -> exists a, nth_error l i = Some a /\ f i = Ok a.
Proof.
  revert l. induction n as [|k IH]; intros l H i Hi; [lia|].
  simpl in H. minv H. inversion H; subst.
  pose proof (build_list_length _ _ _ E) as Hlen.
  destruct (Nat.eq_dec i k) as [->|Hne].
  - exists v0. split; [|exact E0].
    rewrite nth_error_app2 by lia. rewrite Hlen, Nat.sub_diag. reflexivity.
  - destruct (IH _ E i) as (a & Ha & Hf); [lia|].
    exists a. split; [|exact Hf]. rewrite nth_error_app1 by lia. exact Ha.
Qed.

Lemma build_list_Forall {A} (P : A -> Prop) (f : nat -> result A) n l :
  (forall i a, f i = Ok a -> P a) -> build_list f n = Ok l -> Forall P l.
Proof.
  intro Hf. revert l. induction n as [|k IH]; intros l H; simpl in H.
  - inversion H. constructor.
  - minv H. inversion H; subst. apply Forall_app. split; [eauto|].
    constructor; [eauto | constructor].
Qed.

Lemma module_at_Forall {A} (P : A -> Prop) (l : list A) i a :
  Forall P l -> module_at l i = Ok a -> P a.
Proof.
  unfold module_at. intros HF H. destruct (nth_error l i) as [x|] eqn:E; [|discriminate].
  inversion H; subst. rewrite Forall_forall in HF. apply HF.
  eapply nth_error_In; eauto.
Qed.

(** ** Stacking the attention diagnostics *)

Lemma stack_dicts_fails (l : list pyobj) (d : Z) :
  Forall is_dict l -> is_ok (stack l d) = false.
Proof.
  intro HF. unfold stack. destruct l as [|[t|dict] l']; simpl; try reflexivity.
  inversion HF; subst. contradiction.
Qed.

Lemma HRM_cycle_attention_weights m x mask ra cycle s st s' st' :
  Forall is_dict (hrm.cs_attention_weights s) ->
  hrm.HRM_cycle m x mask ra cycle s st = Ok (s', st') ->
  Forall is_dict (hrm.cs_attention_weights s').
Proof.
  intros HF H. unfold hrm.HRM_cycle in H. minv H. subst s'. simpl.
  destruct (hrm.use_attention m).
  - destruct (hrm.attention m) as [att|]; [|discriminate].
    minv E2.
    match goal with Heq : (_, _, _) = _ |- _ => inversion Heq; subst; clear Heq end.
    destruct ra; [|exact HF].
    apply Forall_app. split; [exact HF|]. constructor; [exact I | constructor].
  - apply ret_ok in E2. destruct E2 as [E2 _]. inversion E2; subst. exact HF.
Qed.

(** C5.  With the attention bridge enabled and the retain-diagnostics flag
    set, [HRM.forward] never completes: each cycle appends the dictionary of
    weight maps that the bridge returns, and [torch.stack] refuses a list of
    dictionaries (and an empty list, when there is no cycle). *)
Theorem C5_forward_with_diagnostics_never_completes :
  forall (m : hrm.HRM) (x : tensor) (mask : option tensor) (st : run_state),
    hrm.use_attention m = true ->
    is_ok (hrm.HRM_forward m x mask true st) = false.
Proof.
  intros m x mask st Hatt.
  destruct (hrm.HRM_forward m x mask true st) as [[r st']|e] eqn:H; [|reflexivity].
  exfalso. unfold hrm.HRM_forward in H. minv H.
  match goal with
  | Hx : context [hrm.use_attention m] |- _ => rewrite Hatt in Hx; simpl in Hx; minv Hx
  end.
  match goal with
  | Hl : for_range _ _ _ _ = Ok (?s, _) |- _ =>
      assert (HF : Forall is_dict (hrm.cs_attention_weights s))
  end.
  { match goal with
    | Hl : for_range _ _ _ _ = Ok (_, _) |- _ =>
        eapply for_range_invariant
          with (P := fun s0 => Forall is_dict (hrm.cs_attention_weights s0));
        [ | | exact Hl ]
    end.
    - intros; eapply HRM_cycle_attention_weights; eauto.
    - simpl. constructor. }
  pose proof (stack_dicts_fails _ 1 HF) as Hd.
  match goal with
  | Hs : stack (hrm.cs_attention_weights _) _ = Ok _ |- _ => rewrite Hs in Hd
  end.
  discriminate.
Qed.
(** ** Shapes: the elementary operations *)

Lemma insert_at_length {A} p (x : A) l : length (insert_at p x l) = S (length l).
Proof.
  unfold insert_at. rewrite length_app. simpl.
  rewrite <- (firstn_skipn p l) at 3. rewrite length_app. lia.
Qed.

Lemma set_nth_length {A} n (x : A) l : length (set_nth n x l) = length l.
Proof.
  revert n. induction l as [|h t IH]; intros [|n]; simpl; auto.
Qed.

Lemma swap_length l i j : length (swap l i j) = length l.
Proof. unfold swap. rewrite !set_nth_length. reflexivity. Qed.

Lemma unsqueeze_rank d t y :
  unsqueeze d t = Ok y -> length (shape y) = S (length (shape t)).
Proof.
  unfold unsqueeze. intro H. minv H. inversion H; subst. simpl.
  apply insert_at_length.
Qed.

Lemma transpose_rank d1 d2 t y :
  transpose d1 d2 t = Ok y -> length (shape y) = length (shape t).
Proof.
  unfold transpose. intro H. minv H. inversion H; subst. simpl. apply swap_length.
Qed.

Lemma Conv1d_forward_input c x y :
  Conv1d_forward c x = Ok y ->
  (exists n l, shape x = [n; in_channels c; l]) \/ (exists l, shape x = [in_channels c; l]).
Proof.
  unfold Conv1d_forward. intro H.
  destruct (shape x) as [|a [|b [|d [|e r]]]]; try discriminate.
  - destruct (a =? in_channels c) eqn:E; [|discriminate].
    apply Nat.eqb_eq in E. subst. right. eauto.
  - destruct (b =? in_channels c) eqn:E; [|discriminate].
    apply Nat.eqb_eq in E. subst. left. eauto.
Qed.

(** ** The convolution branch of the worker layer *)

(** Line 201 turns the input (batch, dim) into (batch, 1, dim), not into the
    (batch, dim, 1) of its comment: the convolution sees one channel. *)
Lemma WorkerLayer_conv_input_shape (x x1 x_conv : tensor) :
  unsqueeze (-1) x = Ok x1 -> transpose 1 2 x1 = Ok x_conv ->
  length (shape x_conv) <= 3 ->
  exists b d, shape x = [b; d] /\ shape x_conv = [b; 1; d].
Proof.
  intros H1 H2 Hlen.
  pose proof (unsqueeze_rank _ _ _ H1) as R1.
  pose proof (transpose_rank _ _ _ _ H2) as R2.
  destruct x as [s dat]. simpl in *.
  destruct s as [|a [|b [|c r]]]; simpl in *; try lia.
  - unfold unsqueeze in H1. simpl in H1. inversion H1; subst.
    unfold transpose in H2. simpl in H2. discriminate.
  - unfold unsqueeze in H1. simpl in H1. inversion H1; subst.
    unfold transpose in H2. simpl in H2. discriminate.
  - unfold unsqueeze in H1. simpl in H1. inversion H1; subst.
    unfold transpose in H2. simpl in H2. inversion H2; subst. simpl. eauto.
Qed.

Lemma WorkerLayer_conv_output_fails (l : worker.WorkerLayer) (c : Conv1d) (x : tensor) :
  worker.wl_use_conv l = true ->
  worker.wl_conv_layer l = Some c ->
  in_channels c <> 1 ->
  is_ok (worker.WorkerLayer_conv_output l x) = false.
Proof.
  intros Hu Hc Hne. unfold worker.WorkerLayer_conv_output. rewrite Hu, Hc.
  destruct (unsqueeze (-1) x) as [x1|] eqn:E1; [|reflexivity]. simpl.
  destruct (transpose 1 2 x1) as [x_conv|] eqn:E2; [|reflexivity]. simpl.
  destruct (Conv1d_forward c x_conv) as [y|] eqn:E3; [|reflexivity]. exfalso.
  destruct (Conv1d_forward_input _ _ _ E3) as [(n & len & Hs)|(len & Hs)].
  - destruct (WorkerLayer_conv_input_shape _ _ _ E1 E2) as (b & d & _ & Hs');
      [rewrite Hs; simpl; lia|].
    rewrite Hs in Hs'. inversion Hs'. congruence.
  - destruct (WorkerLayer_conv_input_shape _ _ _ E1 E2) as (b & d & _ & Hs');
      [rewrite Hs; simpl; lia|].
    rewrite Hs in Hs'. discriminate.
Qed.

Lemma WorkerLayer_forward_fails (l : worker.WorkerLayer) (c : Conv1d) x h st :
  worker.wl_use_conv l = true ->
  worker.wl_conv_layer l = Some c ->
  in_channels c <> 1 ->
  is_ok (worker.WorkerLayer_forward l x h st) = false.
Proof.
  intros Hu Hc Hne.
  destruct (worker.WorkerLayer_forward l x h st) as [[r st']|e] eqn:H; [|reflexivity].
  exfalso. unfold worker.WorkerLayer_forward in H. minv H.
  pose proof (WorkerLayer_conv_output_fails l c x Hu Hc Hne) as Hf.
  match goal with
  | Hx : worker.WorkerLayer_conv_output l x = Ok _ |- _ => rewrite Hx in Hf
  end.
  discriminate.
Qed.

Lemma Worker_forward_fails (w : worker.Worker) (l : worker.WorkerLayer) (c : Conv1d) x h st :
  0 < Z.to_nat (worker.num_layers w) ->
  nth_error (worker.worker_layers w) 0 = Some l ->
  worker.wl_use_conv l = true ->
  worker.wl_conv_layer l = Some c ->
  in_channels c <> 1 ->
  is_ok (worker.Worker_forward w x h st) = false.
Proof.
  intros Hn Hl Hu Hc Hne.
  destruct (worker.Worker_forward w x h st) as [[r st']|e] eqn:H; [|reflexivity].
  exfalso. unfold worker.Worker_forward in H. minv H.
  destruct (Z.to_nat (worker.num_layers w)) as [|n]; [lia|].
  match goal with
  | Hx : for_range (S n) ?body ?s ?st0 = Ok _ |- _ =>
      assert (Hf : is_ok (for_range (S n) body s st0) = false);
      [ apply for_range_first_fails | rewrite Hx in Hf; discriminate ]
  end.
  intros sx stx.
  destruct (worker.Worker_layer w 0 sx stx) as [[rx sty]|ex] eqn:H0; [|reflexivity].
  exfalso. unfold worker.Worker_layer in H0. minv H0.
  match goal with
  | Hm : module_at (worker.worker_layers w) 0 = Ok ?wl |- _ =>
      unfold module_at in Hm; rewrite Hl in Hm; inversion Hm; subst wl
  end.
  match goal with
  | Hx : worker.WorkerLayer_forward l ?a ?b ?s1 = Ok _ |- _ =>
      pose proof (WorkerLayer_forward_fails l c a b s1 Hu Hc Hne) as Hf;
      rewrite Hx in Hf; discriminate
  end.
Qed.
(** ** What the constructors build *)

Lemma size_of_ok z n : size_of z = Ok n -> n = Z.to_nat z /\ (0 <= z)%Z.
Proof.
  unfold size_of. destruct (0 <=? z)%Z eqn:E; intro H; inversion H.
  split; [reflexivity | lia].
Qed.

Lemma Linear_init_ok sd name i o l :
  Linear_init sd name i o = Ok l ->
  in_features l = Z.to_nat i /\ out_features l = Z.to_nat o /\ (0 <= i)%Z /\ (0 <= o)%Z.
Proof.
  unfold Linear_init. intro H. minv H. inversion H; subst. simpl.
  apply size_of_ok in E, E0. intuition.
Qed.

Lemma Conv1d_init_ok sd name i o c :
  Conv1d_init sd name i o = Ok c ->
  in_channels c = Z.to_nat i /\ out_channels c = Z.to_nat o /\ (0 <= i)%Z /\ (0 <= o)%Z.
Proof.
  unfold Conv1d_init. intro H. minv H. inversion H; subst. simpl.
  apply size_of_ok in E, E0. intuition.
Qed.

Lemma GRUCell_init_ok sd name i h g :
  GRUCell_init sd name i h = Ok g ->
  input_size g = Z.to_nat i /\ hidden_size g = Z.to_nat h /\ (0 <= i)%Z /\ (0 <= h)%Z.
Proof.
  unfold GRUCell_init. intro H. minv H. inversion H; subst. simpl.
  apply size_of_ok in E, E0. intuition.
Qed.

Lemma WorkerLayer_init_ok sd name dim dropout use_conv use_gru l :
  worker.WorkerLayer_init sd name dim dropout use_conv use_gru = Ok l ->
  worker.wl_use_conv l = use_conv /\ worker.wl_use_gru l = use_gru /\
  (0 <= dim)%Z /\
  out_features (worker.wl_linear_transform l) = Z.to_nat dim /\
  out_features (worker.wl_gate l) = Z.to_nat dim /\
  (if use_conv
   then exists c, worker.wl_conv_layer l = Some c /\
                  in_channels c = Z.to_nat dim /\ out_channels c = Z.to_nat dim
   else worker.wl_conv_layer l = None) /\
  (if use_gru
   then exists g, worker.wl_gru_cell l = Some g /\ hidden_size g = Z.to_nat dim
   else worker.wl_gru_cell l = None).
Proof.
  unfold worker.WorkerLayer_init. intro H. minv H. inversion H; subst. simpl.
  apply Linear_init_ok in E, E2.
  repeat split; try tauto.
  - destruct use_conv.
    + minv E0. inversion E0; subst. apply Conv1d_init_ok in E4. eexists. intuition eauto.
    + inversion E0. reflexivity.
  - destruct use_gru.
    + minv E1. inversion E1; subst. apply GRUCell_init_ok in E4. eexists. intuition eauto.
    + inversion E1. reflexivity.
Qed.

Lemma Worker_init_layers sd name dim n dropout use_conv use_gru w :
  worker.Worker_init sd name dim n dropout use_conv use_gru = Ok w ->
  worker.num_layers w = n /\
  build_list (fun i => worker.WorkerLayer_init sd (item (sub name "worker_layers") i)
                         dim dropout use_conv use_gru) (Z.to_nat n)
  = Ok (worker.worker_layers w).
Proof.
  unfold worker.Worker_init. intro H. minv H. inversion H; subst. simpl. auto.
Qed.

Lemma HRM_init_fields sd c m :
  hrm.HRM_init sd c = Ok m ->
  hrm.input_dim m = hrm.cfg_input_dim c /\
  hrm.controller_dim m = hrm.cfg_controller_dim c /\
  hrm.worker_dim m = hrm.cfg_worker_dim c /\
  hrm.num_layers m = hrm.cfg_num_layers c /\
  hrm.num_cycles m = hrm.cfg_num_cycles c /\
  hrm.use_attention m = hrm.cfg_use_attention c /\
  hrm.use_positional_encoding m = hrm.cfg_use_positional_encoding c.
Proof.
  unfold hrm.HRM_init. intro H. minv H. inversion H; subst. simpl. tauto.
Qed.

Lemma HRM_init_modules sd c m :
  hrm.HRM_init sd c = Ok m ->
  Linear_init sd "input_projection" (hrm.cfg_input_dim c) (hrm.cfg_controller_dim c)
    = Ok (hrm.input_projection m) /\
  controller.Controller_init sd "controller" (hrm.cfg_controller_dim c)
    (hrm.cfg_num_layers c) 8 (hrm.cfg_dropout c) true = Ok (hrm.controller m) /\
  worker.Worker_init sd "worker" (hrm.cfg_worker_dim c) (hrm.cfg_num_layers c)
    (hrm.cfg_dropout c) true true = Ok (hrm.worker m) /\
  Linear_init sd "controller_to_worker" (hrm.cfg_controller_dim c) (hrm.cfg_worker_dim c)
    = Ok (hrm.controller_to_worker m) /\
  Linear_init sd "worker_to_controller" (hrm.cfg_worker_dim c) (hrm.cfg_controller_dim c)
    = Ok (hrm.worker_to_controller m) /\
  Linear_init sd "output_projection" (hrm.cfg_controller_dim c) (hrm.cfg_input_dim c)
    = Ok (hrm.output_projection m) /\
  (if hrm.cfg_use_positional_encoding c
   then exists pos, hrm.pos_encoding m = Some pos /\
                    hrm.PositionalEncoding_init (hrm.cfg_controller_dim c) 1000 = Ok pos
   else hrm.pos_encoding m = None) /\
  (if hrm.cfg_use_attention c
   then exists a, hrm.attention m = Some a /\
                  attention.HierarchicalAttention_init sd "attention"
                    (hrm.cfg_controller_dim c) (hrm.cfg_worker_dim c) 8
                    (hrm.cfg_dropout c) true = Ok a
   else hrm.attention m = None).
Proof.
  unfold hrm.HRM_init. intro H. minv H. inversion H; subst. simpl.
  repeat split; try assumption.
  - destruct (hrm.cfg_use_positional_encoding c).
    + minv E7. inversion E7; subst. eauto.
    + inversion E7. reflexivity.
  - destruct (hrm.cfg_use_attention c).
    + minv E2. inversion E2; subst. eauto.
    + inversion E2. reflexivity.
Qed.

(** ** The forward pass of a model with worker layers *)

Lemma stack_nil d : is_ok (stack [] d) = false.
Proof. reflexivity. Qed.

Lemma HRM_forward_fails_in_worker (m : hrm.HRM) (l : worker.WorkerLayer) (c : Conv1d)
    x mask ra st :
  0 < Z.to_nat (worker.num_layers (hrm.worker m)) ->
  nth_error (worker.worker_layers (hrm.worker m)) 0 = Some l ->
  worker.wl_use_conv l = true ->
  worker.wl_conv_layer l = Some c ->
  in_channels c <> 1 ->
  is_ok (hrm.HRM_forward m x mask ra st) = false.
Proof.
  intros Hn Hl Hu Hc Hne.
  destruct (hrm.HRM_forward m x mask ra st) as [[r st']|e] eqn:H; [|reflexivity].
  exfalso. unfold hrm.HRM_forward in H. minv H.
  destruct (Z.to_nat (hrm.num_cycles m)) as [|k].
  - match goal with
    | Hx : for_range 0 _ _ _ = Ok _ |- _ =>
        simpl in Hx; apply ret_ok in Hx; destruct Hx as [Hx _]; subst
    end.
    match goal with
    | Hx : stack (map PyTensor (hrm.cs_controller_states _)) _ = Ok _ |- _ =>
        simpl in Hx; discriminate
    end.
  - match goal with
    | Hx : for_range (S k) ?body ?s ?st0 = Ok _ |- _ =>
        assert (Hf : is_ok (for_range (S k) body s st0) = false);
        [ apply for_range_first_fails | rewrite Hx in Hf; discriminate ]
    end.
    intros sx stx.
    destruct (hrm.HRM_cycle _ _ _ _ 0 sx stx) as [[rx sty]|ex] eqn:H0; [|reflexivity].
    exfalso. unfold hrm.HRM_cycle in H0. minv H0.
    match goal with
    | Hx : worker.Worker_forward (hrm.worker m) ?a ?b ?s1 = Ok _ |- _ =>
        pose proof (Worker_forward_fails (hrm.worker m) l c a b s1 Hn Hl Hu Hc Hne) as Hf;
        rewrite Hx in Hf; discriminate
    end.
Qed.

(** C1.  Every model that the constructor builds with at least one layer and
    a worker dimension other than 1 raises in its first worker layer: no
    forward call returns, whatever the input, the mask, the flag and the
    dropout draws.  (The claim promises a result of the stated shapes.) *)
Theorem C1_forward_raises_in_worker_convolution :
  forall (sd : state_dict) (c : hrm.config) (m : hrm.HRM)
         (x : tensor) (mask : option tensor) (return_attention : bool) (st : run_state),
    hrm.HRM_init sd c = Ok m ->
    (1 <= hrm.cfg_num_layers c)%Z ->
    hrm.cfg_worker_dim c <> 1%Z ->
    is_ok (hrm.HRM_forward m x mask return_attention st) = false.
Proof.
  intros sd c m x mask ra st Hinit Hlayers Hdim.
  destruct (HRM_init_modules _ _ _ Hinit) as (_ & _ & Hw & _).
  destruct (Worker_init_layers _ _ _ _ _ _ _ _ Hw) as [Hn Hb].
  destruct (build_list_nth _ _ _ Hb 0) as (l & Hl & Hli); [lia|].
  apply WorkerLayer_init_ok in Hli.
  destruct Hli as (Hu & _ & Hpos & _ & _ & (cv & Hcv & Hin & _) & _).
  eapply HRM_forward_fails_in_worker; eauto.
  - rewrite Hn. lia.
  - rewrite Hin. intro Heq. apply Hdim. lia.
Qed.
(** ** Head configuration *)

(** C9.  A same-dimension attention whose head count does not divide the
    dimension, and a cross-dimension attention whose head dimension
    floor(min(dimQ, dimK, dimV) / heads) is not positive, are refused by the
    constructor: no module exists on which forward could be called.  With a
    non-zero head count the error is the assertion of the constructor; a zero
    head count raises in the division that precedes it. *)
Theorem C9_invalid_head_configuration_fails_construction :
  forall (sd : state_dict) (name : string) (dropout : Q),
    (forall dim num_heads use_gated,
        (dim mod num_heads <> 0)%Z \/ num_heads = 0%Z ->
        exists e, controller.MultiHeadAttention_init sd name dim num_heads dropout use_gated
                  = Err e /\
                  (num_heads <> 0%Z ->
                   e = AssertionError "dim must be divisible by num_heads")) /\
    (forall dim num_heads,
        (dim mod num_heads <> 0)%Z \/ num_heads = 0%Z ->
        exists e, attention.MultiHeadAttention_init sd name dim num_heads dropout = Err e /\
                  (num_heads <> 0%Z ->
                   e = AssertionError "dim must be divisible by num_heads")) /\
    (forall query_dim key_dim value_dim output_dim num_heads,
        (Z.min (Z.min query_dim key_dim) value_dim / num_heads <= 0)%Z ->
        exists e, attention.CrossModuleAttention_init sd name query_dim key_dim value_dim
                    output_dim num_heads dropout = Err e /\
                  (num_heads <> 0%Z ->
                   e = AssertionError "Head dimension must be positive")).
Proof.
  intros sd name dropout. split; [|split].
  - intros dim num_heads use_gated H.
    unfold controller.MultiHeadAttention_init, floordiv, pymod.
    destruct (num_heads =? 0)%Z eqn:E0.
    + simpl. eexists. split; [reflexivity|]. intro Hne. apply Z.eqb_eq in E0. contradiction.
    + simpl. apply Z.eqb_neq in E0. destruct H as [H|H]; [|contradiction].
      destruct (dim mod num_heads =? 0)%Z eqn:E1; [apply Z.eqb_eq in E1; contradiction|].
      simpl. eexists. split; reflexivity.
  - intros dim num_heads H.
    unfold attention.MultiHeadAttention_init, floordiv, pymod.
    destruct (num_heads =? 0)%Z eqn:E0.
    + simpl. eexists. split; [reflexivity|]. intro Hne. apply Z.eqb_eq in E0. contradiction.
    + simpl. apply Z.eqb_neq in E0. destruct H as [H|H]; [|contradiction].
      destruct (dim mod num_heads =? 0)%Z eqn:E1; [apply Z.eqb_eq in E1; contradiction|].
      simpl. eexists. split; reflexivity.
  - intros qd kd vd od num_heads H.
    unfold attention.CrossModuleAttention_init, floordiv.
    destruct (num_heads =? 0)%Z eqn:E0.
    + simpl. eexists. split; [reflexivity|]. intro Hne. apply Z.eqb_eq in E0. contradiction.
    + simpl.
      destruct (0 <? Z.min (Z.min qd kd) vd / num_heads)%Z eqn:E1;
        [apply Z.ltb_lt in E1; lia|].
      simpl. eexists. split; reflexivity.
Qed.
(** ** Broadcasting *)

Lemma bc_rev_same l : bc_rev l l = Some l.
Proof.
  induction l as [|h t IH]; simpl; [reflexivity|].
  rewrite IH, Nat.eqb_refl. reflexivity.
Qed.

Lemma broadcast_same s : broadcast_shapes s s = Ok s.
Proof. unfold broadcast_shapes. rewrite bc_rev_same, rev_involutive. reflexivity. Qed.

Lemma bc_index_rev_in_range s idx : Forall2 lt idx s -> bc_index_rev s idx = idx.
Proof.
  intro H. induction H as [|i d idx s Hlt _ IH]; simpl; [reflexivity|].
  rewrite IH. destruct (d =? 1) eqn:E; [|reflexivity].
  apply Nat.eqb_eq in E. f_equal. lia.
Qed.

Lemma Forall2_lt_rev (idx s : list nat) : Forall2 lt idx s -> Forall2 lt (rev idx) (rev s).
Proof.
  intro H. induction H; simpl; [constructor|].
  apply Forall2_app; [assumption | constructor; [assumption | constructor]].
Qed.

Lemma bc_index_in_range s idx : in_range s idx -> bc_index s idx = idx.
Proof.
  intro H. unfold bc_index.
  rewrite bc_index_rev_in_range by (apply Forall2_lt_rev; exact H).
  apply rev_involutive.
Qed.

Lemma map2_bc_same f a b c :
  shape a = shape b -> map2_bc f a b = Ok c ->
  shape c = shape a /\
  forall idx, in_range (shape a) idx -> data c idx = f (data a idx) (data b idx).
Proof.
  intros Hs H. unfold map2_bc in H. rewrite <- Hs, broadcast_same in H. simpl in H.
  inversion H; subst; simpl. split; [reflexivity|].
  intros idx Hr. rewrite bc_index_in_range by exact Hr. reflexivity.
Qed.

Lemma add_same a b c :
  shape a = shape b -> add a b = Ok c ->
  shape c = shape a /\
  forall idx, in_range (shape a) idx -> data c idx = (data a idx + data b idx)%R.
Proof. apply map2_bc_same. Qed.

Lemma mul_same a b c :
  shape a = shape b -> mul a b = Ok c ->
  shape c = shape a /\
  forall idx, in_range (shape a) idx -> data c idx = (data a idx * data b idx)%R.
Proof. apply map2_bc_same. Qed.

Lemma in_range2 b d i j : i < b -> j < d -> in_range [b; d] [i; j].
Proof. intros. repeat constructor; assumption. Qed.

Lemma in_range3 b s d i t j : i < b -> t < s -> j < d -> in_range [b; s; d] [i; t; j].
Proof. intros. repeat constructor; assumption. Qed.

(** ** Positional encoding *)

Lemma pe_value_row0 d : hrm.pe_value d 0 0 = 0%R.
Proof.
  unfold hrm.pe_value. simpl. rewrite Rmult_0_l. apply sin_0.
Qed.

Lemma pe_value_row1 d : hrm.pe_value d 1 0 = sin 1.
Proof.
  unfold hrm.pe_value. simpl. rewrite Rmult_0_l, exp_0, Rmult_1_r. reflexivity.
Qed.

Lemma sin_1_pos : (0 < sin 1)%R.
Proof.
  apply sin_gt_0; [lra|]. pose proof PI2_1. pose proof PI_RGT_0. lra.
Qed.

Lemma PositionalEncoding_init_table d_model max_len m :
  hrm.PositionalEncoding_init d_model max_len = Ok m ->
  hrm.pe m = mkT [Z.to_nat max_len; 1; Z.to_nat d_model]
               (fun idx => hrm.pe_value (Z.to_nat d_model) (nth 0 idx 0) (nth 2 idx 0)).
Proof.
  unfold hrm.PositionalEncoding_init. intro H. minv H.
  apply size_of_ok in E, E0. destruct E as [-> _], E0 as [-> _].
  destruct (Z.to_nat d_model =? 0); [discriminate|].
  destruct (Nat.odd (Z.to_nat d_model) && (3 <=? Z.to_nat d_model)); [discriminate|].
  inversion H. reflexivity.
Qed.

Lemma PositionalEncoding_forward_values (m : hrm.PositionalEncoding) d ml x b s :
  hrm.pe m = mkT [ml; 1; d] (fun idx => hrm.pe_value d (nth 0 idx 0) (nth 2 idx 0)) ->
  shape x = [b; s; d] -> b <= ml ->
  exists y, hrm.PositionalEncoding_forward m x = Ok y /\
            shape y = [b; s; d] /\
            forall i t c, i < b -> t < s -> c < d ->
              data y [i; t; c] = (data x [i; t; c] + hrm.pe_value d i c)%R.
Proof.
  intros Hpe Hx Hb. unfold hrm.PositionalEncoding_forward, worker.shape0.
  rewrite Hx, Hpe. simpl. rewrite Nat.min_l by exact Hb.
  unfold add, map2_bc. rewrite Hx. simpl shape.
  assert (Hbc : broadcast_shapes [b; s; d] [b; 1; d] = Ok [b; s; d]).
  { unfold broadcast_shapes. simpl. rewrite !Nat.eqb_refl.
    destruct (s =? 1) eqn:E; simpl; [reflexivity|].
    reflexivity. }
  rewrite Hbc. simpl. eexists. split; [reflexivity|]. split; [reflexivity|].
  intros i t c Hi Ht Hc. simpl.
  rewrite (bc_index_in_range [b; s; d]) by (apply in_range3; assumption).
  f_equal. unfold bc_index. simpl.
  destruct (b =? 1) eqn:E1; destruct (d =? 1) eqn:E2; simpl;
    repeat match goal with
           | H : (_ =? _) = true |- _ => apply Nat.eqb_eq in H
           end;
    try replace i with 0 by lia; try replace c with 0 by lia; reflexivity.
Qed.

(** C4.  What [PositionalEncoding.forward] adds to the (batch-first) input it
    is given by [HRM.forward]: entry (i, t, c) receives the table row of its
    batch index i, the same for every sequence position t.  At batch 0 and
    position 1 the first feature receives sin(0) = 0 where the encoding of
    position 1 is sin(1). *)
Theorem C4_encoding_follows_batch_index :
  forall (d_model max_len : Z) (m : hrm.PositionalEncoding) (x : tensor) (b s : nat),
    hrm.PositionalEncoding_init d_model max_len = Ok m ->
    shape x = [b; s; Z.to_nat d_model] ->
    b <= Z.to_nat max_len ->
    exists y, hrm.PositionalEncoding_forward m x = Ok y /\
      (forall i t c, i < b -> t < s -> c < Z.to_nat d_model ->
         data y [i; t; c] = (data x [i; t; c] + hrm.pe_value (Z.to_nat d_model) i c)%R) /\
      hrm.pe_value (Z.to_nat d_model) 0 0 <> hrm.pe_value (Z.to_nat d_model) 1 0.
Proof.
  intros d_model max_len m x b s Hinit Hx Hb.
  pose proof (PositionalEncoding_init_table _ _ _ Hinit) as Hpe.
  destruct (PositionalEncoding_forward_values m _ _ x b s Hpe Hx Hb) as (y & Hy & _ & Hv).
  exists y. split; [exact Hy|]. split; [exact Hv|].
  rewrite pe_value_row0, pe_value_row1. pose proof sin_1_pos. lra.
Qed.
(** ** Attention weights *)

Lemma Rsum_ext n f g : (forall j, j < n -> f j = g j) -> Rsum n f = Rsum n g.
Proof.
  induction n as [|k IH]; intro H; simpl; [reflexivity|].
  rewrite IH by (intros; apply H; lia). rewrite H by lia. reflexivity.
Qed.

Lemma Rsum_div n f c : Rsum n (fun j => f j / c)%R = (Rsum n f / c)%R.
Proof.
  induction n as [|k IH]; simpl; [lra|]. rewrite IH. lra.
Qed.

Lemma Rsum_exp_pos n f : 0 < n -> (0 < Rsum n (fun j => exp (f j)))%R.
Proof.
  induction n as [|k IH]; intro H; [lia|]. simpl.
  pose proof (exp_pos (f k)).
  destruct k as [|k']; [simpl; lra|].
  assert (0 < Rsum (S k') (fun j => exp (f j)))%R by (apply IH; lia). lra.
Qed.

(** A softmax row adds up to one. *)
Lemma softmax_row_sum n f :
  0 < n ->
  Rsum n (fun j => exp (f j) / Rsum n (fun j' => exp (f j')))%R = 1%R.
Proof.
  intro H. rewrite Rsum_div. apply Rinv_r.
  pose proof (Rsum_exp_pos n f H). lra.
Qed.

Lemma softmax_last_rows (t : tensor) b h sq sk :
  shape t = [b; h; sq; sk] -> 0 < sk ->
  forall i0 i1 i2,
    Rsum sk (fun j => data (softmax_last t) [i0; i1; i2; j]) = 1%R.
Proof.
  intros Hs Hk i0 i1 i2. unfold softmax_last. simpl. rewrite Hs. simpl.
  apply (softmax_row_sum sk (fun j => data t [i0; i1; i2; j]) Hk).
Qed.

Lemma Dropout_forward_shape d x st y st' :
  Dropout_forward d x st = Ok (y, st') -> shape y = shape x /\ training st' = training st.
Proof.
  unfold Dropout_forward. destruct (training st) eqn:E; intro H; inversion H; subst; auto.
Qed.

Lemma Dropout_forward_off d x st y st' :
  dropout_off d st = true ->
  Dropout_forward d x st = Ok (y, st') ->
  shape y = shape x /\ forall idx, data y idx = data x idx.
Proof.
  unfold dropout_off, Dropout_forward. intros Hoff H.
  destruct (training st) eqn:E.
  - simpl in Hoff. inversion H; subst; simpl. rewrite Hoff. auto.
  - inversion H; subst. auto.
Qed.

Lemma view_shape sizes t y : view sizes t = Ok y -> shape y = map Z.to_nat sizes.
Proof.
  unfold view. destruct (forallb _ sizes); [|discriminate].
  destruct (numel _ =? numel _); [|discriminate].
  intro H. inversion H. reflexivity.
Qed.

Lemma split_heads_shape t b s H hd y :
  split_heads t b s H hd = Ok y -> shape y = [b; Z.to_nat H; s; Z.to_nat hd].
Proof.
  unfold split_heads. intro E. minv E. apply view_shape in E0. simpl in E0.
  rewrite !Nat2Z.id in E0. unfold transpose, rank in E. rewrite E0 in E. simpl in E.
  inversion E. reflexivity.
Qed.

Lemma unsqueeze1_rank2 t b d :
  shape t = [b; d] ->
  exists y, unsqueeze 1 t = Ok y /\ shape y = [b; 1; d] /\
            forall i j k, data y [i; j; k] = data t [i; k].
Proof.
  intro H. unfold unsqueeze, rank. rewrite H.
  eexists. split; [reflexivity|]. split; reflexivity.
Qed.

Lemma unsqueeze1_rank3 t b s d :
  shape t = [b; s; d] ->
  exists y, unsqueeze 1 t = Ok y /\ shape y = [b; 1; s; d].
Proof.
  intro H. unfold unsqueeze, rank. rewrite H.
  eexists. split; reflexivity.
Qed.

Lemma transpose12_rank4 t a b c d :
  shape t = [a; b; c; d] ->
  exists y, transpose 1 2 t = Ok y /\ shape y = [a; c; b; d].
Proof.
  intro H. unfold transpose, rank. rewrite H. eexists. split; reflexivity.
Qed.

Lemma transpose_last2_rank4 t a b c d :
  shape t = [a; b; c; d] ->
  exists y, transpose (-2) (-1) t = Ok y /\ shape y = [a; b; d; c].
Proof.
  intro H. unfold transpose, rank. rewrite H. eexists. split; reflexivity.
Qed.

Lemma matmul_rank4 x y b h n m m' q z :
  shape x = [b; h; n; m] -> shape y = [b; h; m'; q] ->
  matmul x y = Ok z -> shape z = [b; h; n; q].
Proof.
  intros Hx Hy H. unfold matmul in H. rewrite Hx, Hy in H.
  change (split_last2 [b; h; n; m]) with (Some ([b; h], n, m)) in H.
  change (split_last2 [b; h; m'; q]) with (Some ([b; h], m', q)) in H.
  cbv iota beta in H. destruct (m =? m'); [|discriminate].
  rewrite broadcast_same in H. unfold rbind in H. inversion H. reflexivity.
Qed.

Lemma masked_fill_shape t mask v y :
  masked_fill_eq0 t mask v = Ok y ->
  broadcast_shapes (shape mask) (shape t) = Ok (shape y).
Proof.
  unfold masked_fill_eq0. intro H. minv H. inversion H. simpl. exact E.
Qed.

Lemma bc_rev_cons_same x a b r :
  bc_rev a b = Some r -> bc_rev (x :: a) (x :: b) = Some (x :: r).
Proof. intro H. simpl. rewrite H, Nat.eqb_refl. reflexivity. Qed.

Lemma bc_rev_cons1_l y a b r :
  bc_rev a b = Some r -> bc_rev (1 :: a) (y :: b) = Some (y :: r).
Proof.
  intro H. cbn [bc_rev]. rewrite H. destruct (1 =? y) eqn:E.
  - apply Nat.eqb_eq in E. subst. reflexivity.
  - reflexivity.
Qed.

Lemma bc_rev_cons1_r x a b r :
  bc_rev a b = Some r -> bc_rev (x :: a) (1 :: b) = Some (x :: r).
Proof.
  intro H. cbn [bc_rev]. rewrite H. destruct (x =? 1) eqn:E; reflexivity.
Qed.

Lemma broadcast_mask b h sq sk :
  broadcast_shapes [b; 1; 1; sk] [b; h; sq; sk] = Ok [b; h; sq; sk].
Proof.
  unfold broadcast_shapes. cbn [rev app].
  assert (H : bc_rev [sk; 1; 1; b] [sk; sq; h; b] = Some [sk; sq; h; b])
    by (apply bc_rev_cons_same, bc_rev_cons1_l, bc_rev_cons1_l, bc_rev_same).
  rewrite H. reflexivity.
Qed.

Lemma attention_scores_shape Q K hd mask b h sq sk e e' sc :
  shape Q = [b; h; sq; e] -> shape K = [b; h; sk; e'] ->
  mask_fits b sk mask ->
  attention_scores Q K hd mask = Ok sc ->
  shape sc = [b; h; sq; sk].
Proof.
  intros HQ HK Hm H. unfold attention_scores in H. minv H.
  destruct (transpose_last2_rank4 K _ _ _ _ HK) as (Kt & HKt & HsKt).
  rewrite HKt in E. inversion E; subst v. clear E.
  pose proof (matmul_rank4 _ _ _ _ _ _ _ _ _ HQ HsKt E0) as Hqk.
  destruct mask as [m|]; simpl in Hm.
  - minv H.
    destruct (unsqueeze1_rank2 m _ _ Hm) as (m1 & Hm1 & Hs1 & _).
    rewrite Hm1 in E. inversion E; subst v. clear E.
    destruct (unsqueeze1_rank3 m1 _ _ _ Hs1) as (m2 & Hm2 & Hs2).
    rewrite Hm2 in E1. inversion E1; subst v1. clear E1.
    apply masked_fill_shape in H. rewrite Hs2 in H.
    change (shape (div_scalar v0 (sqrt (IZR hd)))) with (shape v0) in H.
    rewrite Hqk, broadcast_mask in H. inversion H. reflexivity.
  - inversion H. subst sc. exact Hqk.
Qed.

Lemma attention_core_weights d Q K V hd mask st att w st' b h sq sk e e' :
  shape Q = [b; h; sq; e] -> shape K = [b; h; sk; e'] ->
  mask_fits b sk mask ->
  dropout_off d st = true ->
  attention_core d Q K V hd mask st = Ok ((att, w), st') ->
  shape w = [b; h; sq; sk] /\
  (0 < sk -> forall i0 i1 i2, Rsum sk (fun j => data w [i0; i1; i2; j]) = 1%R).
Proof.
  intros HQ HK Hm Hoff H. unfold attention_core in H. minv H.
  inversion E2; subst. clear E2.
  pose proof E as Hs. eapply attention_scores_shape in Hs; eauto.
  destruct (Dropout_forward_off _ _ _ _ _ Hoff E0) as [Hsh Hd].
  split; [rewrite Hsh; exact Hs|].
  intros Hk i0 i1 i2.
  rewrite (Rsum_ext sk _ (fun j => data (softmax_last v) [i0; i1; i2; j]))
    by (intros; apply Hd).
  eapply softmax_last_rows; eauto.
Qed.
Lemma unpack3_shape t a b c : unpack3 t = Ok (a, b, c) -> shape t = [a; b; c].
Proof.
  unfold unpack3. destruct (shape t) as [|x [|y [|z [|w r]]]]; intro H; inversion H.
  reflexivity.
Qed.

Ltac unpack_shapes :=
  repeat match goal with
         | Hu : unpack3 ?t = Ok (?a, ?b, ?c), Hs : shape ?t = [_; _; _] |- _ =>
             apply unpack3_shape in Hu; rewrite Hs in Hu;
             injection Hu as ? ? ?; subst a b c
         end.

Lemma CrossModuleAttention_weights (m : attention.CrossModuleAttention)
    q k v mask st r st' b sq sk dq dk :
  shape q = [b; sq; dq] -> shape k = [b; sk; dk] ->
  mask_fits b sk mask ->
  dropout_off (attention.cm_dropout_layer m) st = true ->
  attention.CrossModuleAttention_forward m q k v mask st = Ok (r, st') ->
  shape (attn_weights r) = [b; Z.to_nat (attention.cm_num_heads m); sq; sk] /\
  (0 < sk -> forall i0 i1 i2,
      Rsum sk (fun j => data (attn_weights r) [i0; i1; i2; j]) = 1%R).
Proof.
  intros Hq Hk Hm Hoff H. unfold attention.CrossModuleAttention_forward in H.
  minv H. unpack_shapes. subst. simpl.
  repeat match goal with
         | Hs : split_heads _ _ _ _ _ = Ok _ |- _ => apply split_heads_shape in Hs
         end.
  match goal with
  | Hc : attention_core _ ?Q ?K _ _ _ _ = Ok _,
    HQ : shape ?Q = _, HK : shape ?K = _ |- _ =>
      exact (attention_core_weights _ _ _ _ _ _ _ _ _ _ _ _ _ _ _ _ HQ HK Hm Hoff Hc)
  end.
Qed.

Lemma attention_MultiHeadAttention_weights (m : attention.MultiHeadAttention)
    q k v mask st r st' b s d :
  shape q = [b; s; d] ->
  mask_fits b s mask ->
  dropout_off (attention.mha_dropout_layer m) st = true ->
  attention.MultiHeadAttention_forward m q k v mask st = Ok (r, st') ->
  shape (attn_weights r) = [b; Z.to_nat (attention.mha_num_heads m); s; s] /\
  (0 < s -> forall i0 i1 i2,
      Rsum s (fun j => data (attn_weights r) [i0; i1; i2; j]) = 1%R).
Proof.
  intros Hq Hm Hoff H. unfold attention.MultiHeadAttention_forward in H.
  minv H. unpack_shapes. subst. simpl.
  repeat match goal with
         | Hs : split_heads _ _ _ _ _ = Ok _ |- _ => apply split_heads_shape in Hs
         end.
  match goal with
  | Hc : attention_core _ ?Q ?K _ _ _ _ = Ok _,
    HQ : shape ?Q = _, HK : shape ?K = _ |- _ =>
      exact (attention_core_weights _ _ _ _ _ _ _ _ _ _ _ _ _ _ _ _ HQ HK Hm Hoff Hc)
  end.
Qed.

Lemma controller_MultiHeadAttention_weights (m : controller.MultiHeadAttention)
    q k v mask st r st' b s d :
  shape q = [b; s; d] ->
  mask_fits b s mask ->
  dropout_off (controller.mha_dropout_layer m) st = true ->
  controller.MultiHeadAttention_forward m q k v mask st = Ok (r, st') ->
  shape (attn_weights r) = [b; Z.to_nat (controller.mha_num_heads m); s; s] /\
  (0 < s -> forall i0 i1 i2,
      Rsum s (fun j => data (attn_weights r) [i0; i1; i2; j]) = 1%R).
Proof.
  intros Hq Hm Hoff H. unfold controller.MultiHeadAttention_forward in H.
  minv H. unpack_shapes. subst. simpl.
  repeat match goal with
         | Hs : split_heads _ _ _ _ _ = Ok _ |- _ => apply split_heads_shape in Hs
         end.
  match goal with
  | Hc : attention_core _ ?Q ?K _ _ _ _ = Ok _,
    HQ : shape ?Q = _, HK : shape ?K = _ |- _ =>
      exact (attention_core_weights _ _ _ _ _ _ _ _ _ _ _ _ _ _ _ _ HQ HK Hm Hoff Hc)
  end.
Qed.

(** C3.  With dropout disabled (evaluation mode or rate 0), the weights that
    an attention call returns have shape (batch, heads, seqLenQ, seqLenK) and,
    the key axis being non-empty, every row along it sums to 1; so for the
    cross-dimension attention, for the standard multi-head attention and for
    the controller's gated one, with or without a (batch, seqLenK) mask. *)
Theorem C3_attention_weights_shape_and_row_sums :
  forall (b sq sk : nat) (q k v : tensor) (mask : option tensor)
         (st st' : run_state) (r : attention_output),
    0 < sk ->
    mask_fits b sk mask ->
    (forall (m : attention.CrossModuleAttention) dq dk,
        shape q = [b; sq; dq] -> shape k = [b; sk; dk] ->
        dropout_off (attention.cm_dropout_layer m) st = true ->
        attention.CrossModuleAttention_forward m q k v mask st = Ok (r, st') ->
        shape (attn_weights r) = [b; Z.to_nat (attention.cm_num_heads m); sq; sk] /\
        forall i0 i1 i2, Rsum sk (fun j => data (attn_weights r) [i0; i1; i2; j]) = 1%R) /\
    (forall (m : attention.MultiHeadAttention) d,
        shape q = [b; sk; d] ->
        dropout_off (attention.mha_dropout_layer m) st = true ->
        attention.MultiHeadAttention_forward m q k v mask st = Ok (r, st') ->
        shape (attn_weights r) = [b; Z.to_nat (attention.mha_num_heads m); sk; sk] /\
        forall i0 i1 i2, Rsum sk (fun j => data (attn_weights r) [i0; i1; i2; j]) = 1%R) /\
    (forall (m : controller.MultiHeadAttention) d,
        shape q = [b; sk; d] ->
        dropout_off (controller.mha_dropout_layer m) st = true ->
        controller.MultiHeadAttention_forward m q k v mask st = Ok (r, st') ->
        shape (attn_weights r) = [b; Z.to_nat (controller.mha_num_heads m); sk; sk] /\
        forall i0 i1 i2, Rsum sk (fun j => data (attn_weights r) [i0; i1; i2; j]) = 1%R).
Proof.
  intros b sq sk q k v mask st st' r Hsk Hm. split; [|split].
  - intros m dq dk Hq Hk Hoff H.
    destruct (CrossModuleAttention_weights m q k v mask st r st' b sq sk dq dk
                Hq Hk Hm Hoff H) as [Hs Hr].
    split; [exact Hs | exact (Hr Hsk)].
  - intros m d Hq Hoff H.
    destruct (attention_MultiHeadAttention_weights m q k v mask st r st' b sk d
                Hq Hm Hoff H) as [Hs Hr].
    split; [exact Hs | exact (Hr Hsk)].
  - intros m d Hq Hoff H.
    destruct (controller_MultiHeadAttention_weights m q k v mask st r st' b sk d
                Hq Hm Hoff H) as [Hs Hr].
    split; [exact Hs | exact (Hr Hsk)].
Qed.
(** ** Shapes: layers *)

Lemma Linear_forward_shape l x y :
  Linear_forward l x = Ok y ->
  shape y = removelast (shape x) ++ [out_features l].
Proof.
  unfold Linear_forward. destruct (rev (shape x)) as [|d r] eqn:E; [discriminate|].
  destruct (d =? in_features l); [|discriminate].
  intro H. inversion H; subst; simpl.
  apply (f_equal (@rev nat)) in E. rewrite rev_involutive in E. simpl in E.
  rewrite E, removelast_last. reflexivity.
Qed.

Lemma Linear_forward_shape2 l x y b d :
  shape x = [b; d] -> Linear_forward l x = Ok y -> shape y = [b; out_features l].
Proof. intros Hx H. apply Linear_forward_shape in H. rewrite Hx in H. exact H. Qed.

Lemma Linear_forward_shape3 l x y b s d :
  shape x = [b; s; d] -> Linear_forward l x = Ok y -> shape y = [b; s; out_features l].
Proof. intros Hx H. apply Linear_forward_shape in H. rewrite Hx in H. exact H. Qed.

Lemma LayerNorm_forward_shape n x y : LayerNorm_forward n x = Ok y -> shape y = shape x.
Proof.
  unfold LayerNorm_forward. destruct (rev (shape x)) as [|d r]; [discriminate|].
  destruct (d =? normalized_shape n); [|discriminate].
  intro H. inversion H. reflexivity.
Qed.

Lemma merge_heads_shape t b s width y :
  merge_heads t b s width = Ok y -> shape y = [b; s; Z.to_nat width].
Proof.
  unfold merge_heads. intro H. minv H. apply view_shape in H. simpl in H.
  rewrite !Nat2Z.id in H. exact H.
Qed.

Lemma mean_dim1_rank3 x b s d y :
  shape x = [b; s; d] -> mean_dim1 x = Ok y ->
  shape y = [b; d] /\
  forall i j, data y [i; j] = (Rsum s (fun t => data x [i; t; j]) / INR s)%R.
Proof.
  intros Hx H. unfold mean_dim1, rank in H. rewrite Hx in H.
  change (norm_dim (length [b; s; d]) 1) with (@Ok nat 1) in H.
  unfold rbind in H. inversion H; subst; simpl. split; reflexivity.
Qed.

Lemma expand_goal t b d s :
  shape t = [b; 1; d] ->
  exists y, expand [(-1)%Z; Z.of_nat s; (-1)%Z] t = Ok y /\ shape y = [b; s; d].
Proof.
  intro H. unfold expand. rewrite H. cbn [rev app expand_rev].
  change (-1 =? -1)%Z with true. cbv iota.
  destruct (Z.of_nat s =? -1)%Z eqn:E1; [apply Z.eqb_eq in E1; lia|].
  destruct (Z.of_nat s <? 0)%Z eqn:E2; [apply Z.ltb_lt in E2; lia|].
  rewrite Nat2Z.id.
  destruct (1 =? s) eqn:E3.
  - apply Nat.eqb_eq in E3. subst s. eexists. split; reflexivity.
  - change (1 =? 1) with true. cbv iota. eexists. split; reflexivity.
Qed.

(** Elementwise operations on operands of one shape. *)
Ltac same_shape_step :=
  match goal with
  | H : add ?a ?b = Ok ?c, Ha : shape ?a = ?s, Hb : shape ?b = ?s |- _ =>
      let Hc := fresh "Hs" in let Hd := fresh "Hd" in
      destruct (add_same a b c (eq_trans Ha (eq_sym Hb)) H) as [Hc Hd];
      rewrite Ha in Hc, Hd; clear H
  | H : mul ?a ?b = Ok ?c, Ha : shape ?a = ?s, Hb : shape ?b = ?s |- _ =>
      let Hc := fresh "Hs" in let Hd := fresh "Hd" in
      destruct (mul_same a b c (eq_trans Ha (eq_sym Hb)) H) as [Hc Hd];
      rewrite Ha in Hc, Hd; clear H
  end.

Ltac shape_step :=
  match goal with
  | H : Linear_forward _ ?x = Ok ?y, Hx : shape ?x = [_; _] |- _ =>
      apply (Linear_forward_shape2 _ _ _ _ _ Hx) in H
  | H : Linear_forward _ ?x = Ok ?y, Hx : shape ?x = [_; _; _] |- _ =>
      apply (Linear_forward_shape3 _ _ _ _ _ _ Hx) in H
  | H : LayerNorm_forward _ ?x = Ok ?y, Hx : shape ?x = _ |- _ =>
      apply LayerNorm_forward_shape in H; rewrite Hx in H
  | H : Dropout_forward _ ?x _ = Ok (?y, _), Hx : shape ?x = _ |- _ =>
      apply Dropout_forward_shape in H; destruct H as [H _]; rewrite Hx in H
  | H : merge_heads _ _ _ _ = Ok _ |- _ => apply merge_heads_shape in H
  end.
(** ** Gates *)

Lemma sigmoid_range x : (0 < sigmoid x < 1)%R.
Proof.
  unfold sigmoid. pose proof (exp_pos (- x)) as He.
  assert (Hd : (0 < 1 + exp (- x))%R) by lra.
  split.
  - apply Rdiv_lt_0_compat; lra.
  - apply (Rmult_lt_reg_r (1 + exp (- x))); [exact Hd|].
    unfold Rdiv. rewrite Rmult_assoc, Rinv_l by lra. lra.
Qed.

Lemma tmap_sigmoid_unit t : unit_interval (tmap sigmoid t).
Proof. intro idx. simpl. pose proof (sigmoid_range (data t idx)). lra. Qed.

Lemma cat_last_rank2 a b' n d1 d2 y :
  shape a = [n; d1] -> shape b' = [n; d2] -> cat_last a b' = Ok y ->
  shape y = [n; d1 + d2].
Proof.
  intros Ha Hb H. unfold cat_last in H. rewrite Ha, Hb in H. cbn [rev app] in H.
  destruct (shape_eqb [n] [n]); [|discriminate]. inversion H. reflexivity.
Qed.

Lemma cat_last_rank3 a b' n s d1 d2 y :
  shape a = [n; s; d1] -> shape b' = [n; s; d2] -> cat_last a b' = Ok y ->
  shape y = [n; s; d1 + d2].
Proof.
  intros Ha Hb H. unfold cat_last in H. rewrite Ha, Hb in H. cbn [rev app] in H.
  destruct (shape_eqb [s; n] [s; n]); [|discriminate]. inversion H. reflexivity.
Qed.

(** A blend [gate * A + (1 - gate) * B] of operands of one shape. *)
Lemma blend_same gate A B ga gb out s :
  shape gate = s -> shape A = s -> shape B = s ->
  mul gate A = Ok ga -> mul (one_minus gate) B = Ok gb -> add ga gb = Ok out ->
  shape out = s /\
  forall idx, in_range s idx ->
    data out idx = (data gate idx * data A idx + (1 - data gate idx) * data B idx)%R.
Proof.
  intros Hg HA HB H1 H2 H3.
  assert (Hg' : shape (one_minus gate) = s) by exact Hg.
  repeat same_shape_step. split; [assumption|].
  intros idx Hr. rewrite Hd1, Hd, Hd0 by exact Hr. reflexivity.
Qed.

Lemma bridge_blend_spec g state attended out b d :
  out_features g = d -> shape state = [b; d] -> shape attended = [b; d] ->
  attention.bridge_blend g state attended = Ok out ->
  exists gate, attention.bridge_gate g state attended = Ok gate /\
    unit_interval gate /\ shape out = [b; d] /\
    forall i j, i < b -> j < d ->
      data out [i; j] = (data gate [i; j] * data attended [i; j]
                         + (1 - data gate [i; j]) * data state [i; j])%R.
Proof.
  intros Hg Hs Ha H. unfold attention.bridge_blend in H. minv H.
  exists v. split; [exact E|].
  pose proof E as Eg. unfold attention.bridge_gate in Eg. minv Eg.
  inversion Eg; subst v. clear Eg.
  pose proof (cat_last_rank2 _ _ _ _ _ _ Hs Ha E2) as Hc.
  apply (Linear_forward_shape2 _ _ _ _ _ Hc) in E3. rewrite Hg in E3.
  split; [apply tmap_sigmoid_unit|].
  destruct (blend_same (tmap sigmoid v3) attended state v0 v1 out [b; d] E3 Ha Hs E0 E1 H)
    as [Hso Hdo].
  split; [exact Hso|]. intros i j Hi Hj. apply Hdo, in_range2; assumption.
Qed.

Lemma WorkerLayer_fuse_spec (l : worker.WorkerLayer) conv gru out b d :
  out_features (worker.wl_gate l) = d -> shape conv = [b; d] -> shape gru = [b; d] ->
  worker.WorkerLayer_fuse l conv gru = Ok out ->
  exists gate, worker.WorkerLayer_gate l conv gru = Ok gate /\
    unit_interval gate /\ shape out = [b; d] /\
    forall i j, i < b -> j < d ->
      data out [i; j] = (data gate [i; j] * data conv [i; j]
                         + (1 - data gate [i; j]) * data gru [i; j])%R.
Proof.
  intros Hg Hc Hr H. unfold worker.WorkerLayer_fuse in H. minv H.
  exists v. split; [exact E|].
  pose proof E as Eg. unfold worker.WorkerLayer_gate in Eg. minv Eg.
  inversion Eg; subst v. clear Eg.
  pose proof (cat_last_rank2 _ _ _ _ _ _ Hc Hr E2) as Hcat.
  apply (Linear_forward_shape2 _ _ _ _ _ Hcat) in E3. rewrite Hg in E3.
  split; [apply tmap_sigmoid_unit|].
  destruct (blend_same (tmap sigmoid v3) conv gru v0 v1 out [b; d] E3 Hc Hr E0 E1 H)
    as [Hso Hdo].
  split; [exact Hso|]. intros i j Hi Hj. apply Hdo, in_range2; assumption.
Qed.

Lemma MultiHeadAttention_gating_spec (m : controller.MultiHeadAttention) g query output
    out b s d :
  controller.mha_gate m = Some g -> out_features g = d ->
  shape query = [b; s; d] -> shape output = [b; s; d] ->
  controller.MultiHeadAttention_gating m query output = Ok out ->
  exists gate, controller.MultiHeadAttention_gate m query = Ok gate /\
    unit_interval gate /\ shape out = [b; s; d] /\
    forall i t j, i < b -> t < s -> j < d ->
      data out [i; t; j] = (data gate [i; t; j] * data output [i; t; j]
                            + (1 - data gate [i; t; j]) * data query [i; t; j])%R.
Proof.
  intros Hgate Hg Hq Ho H. unfold controller.MultiHeadAttention_gating in H. minv H.
  exists v. split; [exact E|].
  pose proof E as Eg. unfold controller.MultiHeadAttention_gate in Eg.
  rewrite Hgate in Eg. minv Eg. inversion Eg; subst v. clear Eg.
  apply (Linear_forward_shape3 _ _ _ _ _ _ Hq) in E2. rewrite Hg in E2.
  split; [apply tmap_sigmoid_unit|].
  destruct (blend_same (tmap sigmoid v2) output query v0 v1 out [b; s; d]
              E2 Ho Hq E0 E1 H) as [Hso Hdo].
  split; [exact Hso|]. intros i t j Hi Ht Hj. apply Hdo, in_range3; assumption.
Qed.

Lemma FeedForward_gating_spec (f : controller.FeedForward) x combined b s d h :
  out_features (controller.ff_gate_proj f) = h ->
  out_features (controller.ff_up_proj f) = h ->
  shape x = [b; s; d] ->
  controller.FeedForward_gating f x = Ok combined ->
  exists gate up, controller.FeedForward_gate f x = Ok gate /\
    controller.FeedForward_up f x = Ok up /\
    unit_interval gate /\ shape combined = [b; s; h] /\
    forall i t j, i < b -> t < s -> j < h ->
      data combined [i; t; j] = (data gate [i; t; j] * data up [i; t; j])%R.
Proof.
  intros Hg Hu Hx H. unfold controller.FeedForward_gating in H. minv H.
  exists v, v0. split; [exact E|]. split; [exact E0|].
  pose proof E as Eg. unfold controller.FeedForward_gate in Eg. minv Eg.
  inversion Eg; subst v. clear Eg.
  pose proof E0 as Eu. unfold controller.FeedForward_up in Eu. minv Eu.
  inversion Eu; subst v0. clear Eu.
  apply (Linear_forward_shape3 _ _ _ _ _ _ Hx) in E1, E2. rewrite Hg in E1. rewrite Hu in E2.
  split; [apply tmap_sigmoid_unit|].
  assert (Hsg : shape (tmap sigmoid v1) = [b; s; h]) by exact E1.
  assert (Hsu : shape (tmap gelu v) = [b; s; h]) by exact E2.
  destruct (mul_same _ _ _ (eq_trans Hsg (eq_sym Hsu)) H) as [Hsc Hdc].
  rewrite Hsg in Hsc, Hdc. split; [exact Hsc|].
  intros i t j Hi Ht Hj. apply Hdc, in_range3; assumption.
Qed.
(** ** The controller *)

Ltac init_facts :=
  repeat match goal with
         | H : Linear_init _ _ _ _ = Ok _ |- _ =>
             apply Linear_init_ok in H; destruct H as (? & ? & ? & ?)
         end.

Lemma MultiHeadAttention_init_wf sd name dim num_heads dropout use_gated m :
  controller.MultiHeadAttention_init sd name dim num_heads dropout use_gated = Ok m ->
  MultiHeadAttention_wf (Z.to_nat dim) m.
Proof.
  unfold controller.MultiHeadAttention_init. intro H. minv H. inversion H; subst. clear H.
  unfold MultiHeadAttention_wf. simpl.
  destruct use_gated.
  - match goal with
    | Hg : rbind _ _ = Ok _ |- _ => minv Hg; inversion Hg; subst; clear Hg
    end.
    init_facts. split; [lia|]. split; [assumption|]. intros _. eauto.
  - init_facts. split; [lia|]. split; [assumption|]. discriminate.
Qed.

Lemma FeedForward_init_wf sd name dim dropout f :
  controller.FeedForward_init sd name dim dropout = Ok f ->
  FeedForward_wf (Z.to_nat dim) f.
Proof.
  unfold controller.FeedForward_init. intro H. minv H. inversion H; subst. clear H.
  unfold FeedForward_wf. simpl. init_facts. split; congruence.
Qed.

Lemma Controller_init_wf sd name dim num_layers num_heads dropout use_gated c :
  controller.Controller_init sd name dim num_layers num_heads dropout use_gated = Ok c ->
  Controller_wf (Z.to_nat dim) c /\ controller.num_layers c = num_layers.
Proof.
  unfold controller.Controller_init. intro H. minv H. inversion H; subst. clear H.
  unfold Controller_wf. simpl. split; [|reflexivity]. repeat split.
  - eapply build_list_Forall; [|eassumption]. intros i a Ha.
    eapply MultiHeadAttention_init_wf; exact Ha.
  - eapply build_list_Forall; [|eassumption]. intros i a Ha.
    eapply FeedForward_init_wf; exact Ha.
  - match goal with
    | Hp : controller.PlanningNetwork_init _ _ _ _ = Ok _ |- _ =>
        unfold controller.PlanningNetwork_init in Hp; minv Hp; inversion Hp; subst
    end.
    simpl. init_facts. assumption.
  - match goal with
    | Hp : controller.GoalEncoder_init _ _ _ = Ok _ |- _ =>
        unfold controller.GoalEncoder_init in Hp; minv Hp; inversion Hp; subst
    end.
    simpl. init_facts. assumption.
Qed.

Lemma controller_MultiHeadAttention_shape (m : controller.MultiHeadAttention)
    q k v mask st r st' b s d :
  MultiHeadAttention_wf d m -> shape q = [b; s; d] ->
  controller.MultiHeadAttention_forward m q k v mask st = Ok (r, st') ->
  shape (attn_output r) = [b; s; d].
Proof.
  intros Hwf Hq H. unfold controller.MultiHeadAttention_forward in H.
  minv H. unpack_shapes. subst. simpl. destruct Hwf as (Hdim & Hout & Hgate).
  repeat shape_step.
  match goal with
  | Hm : shape ?a = [_; _; Z.to_nat (controller.mha_dim m)] |- _ =>
      rewrite Hdim, Nat2Z.id in Hm
  end.
  repeat shape_step.
  match goal with
  | Hm : shape _ = [_; _; out_features (controller.mha_output_proj m)] |- _ =>
      rewrite Hout in Hm
  end.
  destruct (controller.mha_use_gated m) eqn:Hu.
  - destruct (Hgate eq_refl) as (g & Hg & Hgo).
    match goal with
    | Hx : controller.MultiHeadAttention_gating m q ?o = Ok ?out, Ho : shape ?o = _ |- _ =>
        destruct (MultiHeadAttention_gating_spec m g q o out _ _ _ Hg Hgo Hq Ho Hx)
          as (gate & _ & _ & Hs & _); exact Hs
    end.
  - match goal with
    | Hx : Ok _ = Ok _ |- _ => inversion Hx; subst; assumption
    end.
Qed.

Lemma FeedForward_forward_shape (f : controller.FeedForward) x st y st' b s d :
  FeedForward_wf d f -> shape x = [b; s; d] ->
  controller.FeedForward_forward f x st = Ok (y, st') ->
  shape y = [b; s; d].
Proof.
  intros Hwf Hx H. unfold controller.FeedForward_forward in H. minv H. subst.
  destruct Hwf as (Hgu & Hdown).
  match goal with
  | Hx0 : controller.FeedForward_gating f x = Ok _ |- _ =>
      destruct (FeedForward_gating_spec f x _ b s d _ Hgu eq_refl Hx Hx0)
        as (gate & up & _ & _ & _ & Hs & _)
  end.
  repeat shape_step. rewrite <- Hdown. assumption.
Qed.

Ltac drop_step :=
  match goal with
  | H : Dropout_forward _ ?x _ = Ok (?y, _) |- _ =>
      apply Dropout_forward_shape in H; destruct H as [H _];
      unfold tmap in H; cbn [shape] in H;
      match type of H with
      | shape _ = shape ?t =>
          match goal with Hx : shape t = _ |- _ => rewrite Hx in H end
      end
  end.

Lemma PlanningNetwork_forward_shape (n : controller.PlanningNetwork) x st y st' b d :
  shape x = [b; d] ->
  controller.PlanningNetwork_forward n x st = Ok (y, st') ->
  shape y = [b; out_features (controller.pn_linear6 n)].
Proof.
  intros Hx H. unfold controller.PlanningNetwork_forward in H. minv H. subst.
  repeat (first [shape_step | drop_step]). assumption.
Qed.
Lemma Controller_layer_spec (c : controller.Controller) mask layer_idx s st s' st' b sq d :
  Controller_wf d c ->
  shape (controller.ls_x s) = [b; sq; d] ->
  shape (controller.ls_current_hidden s) = [b; d] ->
  controller.Controller_layer c mask layer_idx s st = Ok (s', st') ->
  shape (controller.ls_x s') = [b; sq; d] /\
  shape (controller.ls_current_hidden s') = [b; d] /\
  forall i j, i < b -> j < d ->
    data (controller.ls_current_hidden s') [i; j]
    = (data (controller.ls_current_hidden s) [i; j]
       + Rsum sq (fun t => data (controller.ls_x s') [i; t; j]) / INR sq)%R.
Proof.
  intros Hwf Hx Hh H. unfold controller.Controller_layer in H. minv H. subst. simpl.
  destruct Hwf as (Hsa & Hff & _ & _).
  match goal with
  | Hm : module_at (controller.self_attention c) _ = Ok _ |- _ =>
      apply (module_at_Forall _ _ _ _ Hsa) in Hm
  end.
  match goal with
  | Hm : module_at (controller.feed_forward c) _ = Ok _ |- _ =>
      apply (module_at_Forall _ _ _ _ Hff) in Hm
  end.
  repeat shape_step.
  match goal with
  | Hf : controller.MultiHeadAttention_forward ?m ?q _ _ _ _ = Ok _,
    Hm : MultiHeadAttention_wf d ?m, Hq : shape ?q = [b; sq; d] |- _ =>
      apply (controller_MultiHeadAttention_shape _ _ _ _ _ _ _ _ _ _ _ Hm Hq) in Hf
  end.
  repeat (first [shape_step | drop_step | same_shape_step]).
  match goal with
  | Hf : controller.FeedForward_forward ?f ?q _ = Ok _,
    Hm : FeedForward_wf d ?f, Hq : shape ?q = [b; sq; d] |- _ =>
      apply (FeedForward_forward_shape _ _ _ _ _ _ _ _ Hm Hq) in Hf
  end.
  repeat (first [shape_step | drop_step | same_shape_step]).
  match goal with
  | Hm : mean_dim1 ?x = Ok _, Hs : shape ?x = [b; sq; d] |- _ =>
      destruct (mean_dim1_rank3 _ _ _ _ _ Hs Hm) as [Hms Hmd]; clear Hm
  end.
  repeat same_shape_step.
  split; [assumption|]. split; [assumption|].
  intros i j Hi Hj.
  match goal with
  | Hd : forall idx, in_range [b; d] idx -> data _ idx = _ |- _ =>
      rewrite Hd by (apply in_range2; assumption)
  end.
  rewrite Hmd. reflexivity.
Qed.

Lemma Controller_layers_shape (c : controller.Controller) mask n s st s' st' b sq d :
  Controller_wf d c ->
  shape (controller.ls_x s) = [b; sq; d] ->
  shape (controller.ls_current_hidden s) = [b; d] ->
  for_range n (controller.Controller_layer c mask) s st = Ok (s', st') ->
  shape (controller.ls_x s') = [b; sq; d] /\
  shape (controller.ls_current_hidden s') = [b; d].
Proof.
  intros Hwf Hx Hh H.
  apply (for_range_invariant
           (fun s0 => shape (controller.ls_x s0) = [b; sq; d] /\
                      shape (controller.ls_current_hidden s0) = [b; d])
           (controller.Controller_layer c mask)) with (n := n) (s := s) (st := st) (st' := st');
    [| tauto | exact H].
  intros i s0 st0 s1 st1 [H1 H2] Hl.
  destruct (Controller_layer_spec c mask i s0 st0 s1 st1 b sq d Hwf H1 H2 Hl) as (? & ? & _).
  tauto.
Qed.

Lemma GoalEncoder_forward_shape (g : controller.GoalEncoder) h y b d :
  shape h = [b; d] -> controller.GoalEncoder_forward g h = Ok y ->
  shape y = [b; out_features (controller.ge_linear2 g)].
Proof.
  intros Hh H. unfold controller.GoalEncoder_forward in H. minv H.
  match goal with
  | Hl : Linear_forward (controller.ge_linear0 g) h = Ok ?t |- _ =>
      apply (Linear_forward_shape2 _ _ _ _ _ Hh) in Hl;
      assert (Hg : shape (tmap gelu t) = [b; out_features (controller.ge_linear0 g)])
        by exact Hl
  end.
  apply (Linear_forward_shape2 _ _ _ _ _ Hg) in H. exact H.
Qed.

Lemma Controller_forward_spec (c : controller.Controller) x h mask st r st' b sq d :
  Controller_wf d c ->
  shape x = [b; sq; d] -> shape h = [b; d] ->
  controller.Controller_forward c x h mask st = Ok (r, st') ->
  exists x0 s st1,
    Controller_goal_augmented c x h = Ok x0 /\
    shape x0 = [b; sq; d] /\
    for_range (Z.to_nat (controller.num_layers c)) (controller.Controller_layer c mask)
      (controller.mkLayerState x0 [] h) st = Ok (s, st1) /\
    shape (controller.ls_current_hidden s) = [b; d] /\
    controller.PlanningNetwork_forward (controller.planning_network c)
      (controller.ls_current_hidden s) st1 = Ok (controller.planning_output r, st') /\
    shape (controller.hidden_state r) = [b; d] /\
    forall i j, i < b -> j < d ->
      data (controller.hidden_state r) [i; j]
      = (data (controller.ls_current_hidden s) [i; j]
         + data (controller.planning_output r) [i; j])%R.
Proof.
  intros Hwf Hx Hh H. unfold controller.Controller_forward in H. minv H.
  unpack_shapes. subst r st'. simpl.
  match goal with
  | Hf : for_range _ _ (controller.mkLayerState ?x0 _ _) _ = Ok (?s, ?st1) |- _ =>
      exists x0, s, st1
  end.
  assert (Hx0 : Controller_goal_augmented c x h = Ok v2).
  { unfold Controller_goal_augmented, unpack3. rewrite Hx. simpl.
    rewrite E0. simpl. rewrite E1. simpl. rewrite E2. simpl. exact E3. }
  assert (Hs0 : shape v2 = [b; sq; d]).
  { destruct Hwf as (_ & _ & _ & Hge).
    apply (GoalEncoder_forward_shape _ _ _ _ _ Hh) in E0. rewrite Hge in E0.
    destruct (unsqueeze1_rank2 _ _ _ E0) as (g1 & Hg1 & Hsg1 & _).
    rewrite Hg1 in E1. inversion E1; subst v0.
    destruct (expand_goal _ _ _ sq Hsg1) as (g2 & Hg2 & Hsg2).
    rewrite Hg2 in E2. inversion E2; subst v1.
    repeat same_shape_step. assumption. }
  split; [exact Hx0|]. split; [exact Hs0|]. split; [eassumption|].
  match goal with
  | Hf : for_range ?n _ ?s0 ?st0 = Ok (?s, ?st1) |- _ =>
      destruct (Controller_layers_shape c mask n s0 st0 s st1 b sq d Hwf Hs0 Hh Hf)
        as [Hsx Hsh]
  end.
  split; [exact Hsh|]. split; [eassumption|].
  match goal with
  | Hp : controller.PlanningNetwork_forward _ _ _ = Ok _ |- _ =>
      apply (PlanningNetwork_forward_shape _ _ _ _ _ _ _ Hsh) in Hp
  end.
  destruct Hwf as (_ & _ & Hpn & _).
  match goal with
  | Hp : shape _ = [b; out_features _] |- _ => rewrite Hpn in Hp
  end.
  repeat same_shape_step. split; [assumption|].
  intros i j Hi Hj.
  match goal with
  | Hd : forall idx, in_range [b; d] idx -> data _ idx = _ |- _ =>
      apply Hd, in_range2; assumption
  end.
Qed.
(** ** The worker *)

Lemma WorkerLayer_init_wf sd name dim dropout use_conv use_gru l :
  worker.WorkerLayer_init sd name dim dropout use_conv use_gru = Ok l ->
  WorkerLayer_wf (Z.to_nat dim) l.
Proof.
  intro H. apply WorkerLayer_init_ok in H.
  destruct H as (_ & _ & _ & Hlt & Hg & Hc & Hr).
  unfold WorkerLayer_wf. split; [exact Hlt|]. split; [exact Hg|]. split.
  - intros c Hcs. destruct use_conv.
    + destruct Hc as (c' & Hc' & Hin & Hout). rewrite Hcs in Hc'.
      inversion Hc'; subst. tauto.
    + rewrite Hc in Hcs. discriminate.
  - intros g Hgs. destruct use_gru.
    + destruct Hr as (g' & Hg' & Hh). rewrite Hgs in Hg'. inversion Hg'; subst. exact Hh.
    + rewrite Hr in Hgs. discriminate.
Qed.

Lemma Worker_init_wf sd name dim n dropout use_conv use_gru w :
  worker.Worker_init sd name dim n dropout use_conv use_gru = Ok w ->
  Worker_wf (Z.to_nat dim) w.
Proof.
  unfold worker.Worker_init. intro H. minv H. inversion H; subst. clear H.
  unfold Worker_wf. simpl. repeat split.
  - init_facts. assumption.
  - eapply build_list_Forall; [|eassumption]. intros i a Ha.
    eapply WorkerLayer_init_wf; exact Ha.
  - match goal with
    | Hp : worker.PatternRecognitionNetwork_init _ _ _ _ = Ok _ |- _ =>
        unfold worker.PatternRecognitionNetwork_init in Hp; minv Hp; inversion Hp; subst
    end.
    simpl. init_facts. assumption.
  - match goal with
    | Hp : worker.FastResponseNetwork_init _ _ _ _ = Ok _ |- _ =>
        unfold worker.FastResponseNetwork_init in Hp; minv Hp; inversion Hp; subst
    end.
    simpl. init_facts. assumption.
Qed.

Lemma GRUCell_forward_rank2 g x h y b d :
  shape x = [b; d] -> GRUCell_forward g x h = Ok y -> shape y = [b; hidden_size g].
Proof.
  intros Hx H. unfold GRUCell_forward in H. rewrite Hx in H.
  destruct (shape h) as [|b' [|hs [|z r]]]; try discriminate.
  destruct ((d =? input_size g) && (hs =? hidden_size g)); [|discriminate].
  destruct (b =? b'); [|discriminate]. inversion H. reflexivity.
Qed.

Lemma WorkerLayer_conv_output_shape (l : worker.WorkerLayer) x conv b d :
  WorkerLayer_wf d l -> shape x = [b; d] ->
  worker.WorkerLayer_conv_output l x = Ok conv ->
  shape conv = [b; d] /\ (worker.wl_use_conv l = false -> conv = x).
Proof.
  intros Hwf Hx H. unfold worker.WorkerLayer_conv_output in H.
  destruct (worker.wl_use_conv l).
  - split; [|discriminate].
    destruct (worker.wl_conv_layer l) as [c|] eqn:Hc; [|discriminate].
    destruct Hwf as (_ & _ & Hcv & _). destruct (Hcv c Hc) as [Hin Hout].
    minv H.
    destruct (WorkerLayer_conv_input_shape x v v0 E E0) as (b' & d' & Hx' & Hxc).
    { destruct (Conv1d_forward_input _ _ _ E1) as [(n & len & Hs)|(len & Hs)];
        rewrite Hs; simpl; lia. }
    rewrite Hx in Hx'. inversion Hx'; subst b' d'.
    unfold Conv1d_forward in E1. rewrite Hxc in E1.
    destruct (1 =? in_channels c) eqn:E1c; [|discriminate].
    apply Nat.eqb_eq in E1c. rewrite Hin in E1c. subst d.
    rewrite Hout in E1. simpl in E1. inversion E1; subst v1. clear E1.
    unfold squeeze, rank in H. simpl in H. inversion H. reflexivity.
  - inversion H; subst. split; [exact Hx | reflexivity].
Qed.

Lemma WorkerLayer_gru_output_shape (l : worker.WorkerLayer) x h gru b d :
  WorkerLayer_wf d l -> shape x = [b; d] ->
  worker.WorkerLayer_gru_output l x h = Ok gru ->
  shape gru = [b; d] /\ (worker.wl_use_gru l = false -> gru = x).
Proof.
  intros Hwf Hx H. unfold worker.WorkerLayer_gru_output in H.
  destruct (worker.wl_use_gru l).
  - split; [|discriminate].
    destruct (worker.wl_gru_cell l) as [g|] eqn:Hg; [|discriminate].
    destruct Hwf as (_ & _ & _ & Hgr). rewrite <- (Hgr g Hg).
    eapply GRUCell_forward_rank2; eauto.
  - inversion H; subst. split; [exact Hx | reflexivity].
Qed.

Lemma WorkerLayer_forward_spec (l : worker.WorkerLayer) x h st r st' b d :
  WorkerLayer_wf d l -> shape x = [b; d] -> shape h = [b; d] ->
  worker.WorkerLayer_forward l x h st = Ok (r, st') ->
  exists conv gru gate fused lin pre,
    worker.WorkerLayer_conv_output l x = Ok conv /\
    (worker.wl_use_conv l = false -> conv = x) /\
    worker.WorkerLayer_gru_output l x h = Ok gru /\
    (worker.wl_use_gru l = false -> gru = x) /\
    worker.WorkerLayer_gate l conv gru = Ok gate /\
    worker.WorkerLayer_fuse l conv gru = Ok fused /\
    Linear_forward (worker.wl_linear_transform l) x = Ok lin /\
    add fused lin = Ok pre /\
    Dropout_forward (worker.wl_dropout_layer l) pre st = Ok (worker.lo_output r, st') /\
    shape (worker.lo_output r) = [b; d] /\
    shape (worker.lo_hidden_state r) = [b; d] /\
    forall i j, i < b -> j < d ->
      data fused [i; j] = (data gate [i; j] * data conv [i; j]
                           + (1 - data gate [i; j]) * data gru [i; j])%R /\
      data pre [i; j] = (data fused [i; j] + data lin [i; j])%R /\
      data (worker.lo_hidden_state r) [i; j]
      = (data h [i; j] + data (worker.lo_output r) [i; j])%R.
Proof.
  intros Hwf Hx Hh H. unfold worker.WorkerLayer_forward in H. minv H. subst r st'. simpl.
  match goal with
  | Hc : worker.WorkerLayer_conv_output l x = Ok ?conv,
    Hg : worker.WorkerLayer_gru_output l x h = Ok ?gru,
    Hf : worker.WorkerLayer_fuse l ?conv ?gru = Ok ?fused,
    Hl : Linear_forward (worker.wl_linear_transform l) x = Ok ?lin,
    Hp : add ?fused ?lin = Ok ?pre,
    Hdr : Dropout_forward _ ?pre _ = Ok (?out, _),
    Hn : add h ?out = Ok ?new |- _ =>
      destruct (WorkerLayer_conv_output_shape l x conv b d Hwf Hx Hc) as [Hsc Hcx];
      destruct (WorkerLayer_gru_output_shape l x h gru b d Hwf Hx Hg) as [Hsg Hgx];
      destruct Hwf as (Hlt & Hgt & _ & _);
      destruct (WorkerLayer_fuse_spec l conv gru fused b d Hgt Hsc Hsg Hf)
        as (gate & Hgate & _ & Hsf & Hdf);
      pose proof (Linear_forward_shape2 _ _ _ _ _ Hx Hl) as Hsl; rewrite Hlt in Hsl;
      destruct (add_same fused lin pre (eq_trans Hsf (eq_sym Hsl)) Hp) as [Hsp Hdp];
      rewrite Hsf in Hsp, Hdp;
      pose proof (Dropout_forward_shape _ _ _ _ _ Hdr) as [Hso _]; rewrite Hsp in Hso;
      destruct (add_same h out new (eq_trans Hh (eq_sym Hso)) Hn) as [Hsn Hdn];
      rewrite Hh in Hsn, Hdn;
      exists conv, gru, gate, fused, lin, pre
  end.
  repeat (split; [assumption|]).
  intros i j Hi Hj. split; [apply Hdf; assumption|].
  split; [apply Hdp | apply Hdn]; apply in_range2; assumption.
Qed.
Lemma PatternRecognitionNetwork_forward_shape (n : worker.PatternRecognitionNetwork)
    x st y st' b d :
  shape x = [b; d] ->
  worker.PatternRecognitionNetwork_forward n x st = Ok (y, st') ->
  shape y = [b; out_features (worker.pr_linear6 n)].
Proof.
  intros Hx H. unfold worker.PatternRecognitionNetwork_forward in H. minv H. subst.
  repeat (first [shape_step | drop_step]). assumption.
Qed.

Lemma FastResponseNetwork_forward_shape (n : worker.FastResponseNetwork) x st y st' b d :
  shape x = [b; d] ->
  worker.FastResponseNetwork_forward n x st = Ok (y, st') ->
  shape y = [b; out_features (worker.fr_linear3 n)].
Proof.
  intros Hx H. unfold worker.FastResponseNetwork_forward in H. minv H. subst.
  repeat (first [shape_step | drop_step]). assumption.
Qed.

Lemma Worker_layer_shape (w : worker.Worker) layer_idx s st s' st' b d :
  Worker_wf d w ->
  shape (worker.ls_x s) = [b; d] ->
  shape (worker.ls_current_hidden s) = [b; d] ->
  worker.Worker_layer w layer_idx s st = Ok (s', st') ->
  shape (worker.ls_x s') = [b; d] /\ shape (worker.ls_current_hidden s') = [b; d].
Proof.
  intros Hwf Hx Hh H. unfold worker.Worker_layer in H. minv H. subst s' st'. simpl.
  destruct Hwf as (_ & Hl & _ & _).
  match goal with
  | Hm : module_at (worker.worker_layers w) _ = Ok _ |- _ =>
      apply (module_at_Forall _ _ _ _ Hl) in Hm
  end.
  repeat shape_step.
  match goal with
  | Hf : worker.WorkerLayer_forward ?l ?x0 ?h0 ?st0 = Ok (?r, ?st1),
    Hm : WorkerLayer_wf d ?l, Hx0 : shape ?x0 = [b; d] |- _ =>
      destruct (WorkerLayer_forward_spec l x0 h0 st0 r st1 b d Hm Hx0 Hh Hf)
        as (? & ? & ? & ? & ? & ? & _ & _ & _ & _ & _ & _ & _ & _ & _ & Hso & Hsh & _)
  end.
  repeat (first [drop_step | same_shape_step]).
  split; assumption.
Qed.

Lemma Worker_forward_shape (w : worker.Worker) x h st r st' b k d :
  Worker_wf d w -> shape x = [b; k] -> shape h = [b; d] ->
  worker.Worker_forward w x h st = Ok (r, st') ->
  shape (worker.hidden_state r) = [b; d].
Proof.
  intros Hwf Hx Hh H. unfold worker.Worker_forward in H. minv H. subst r st'. simpl.
  pose proof Hwf as (Hip & _ & Hpn & Hrn).
  repeat shape_step.
  match goal with
  | Hp : shape _ = [b; out_features (worker.input_projection w)] |- _ => rewrite Hip in Hp
  end.
  match goal with
  | Hf : for_range ?nn (worker.Worker_layer w) ?s0 ?st0 = Ok (?sf, ?stf) |- _ =>
      assert (Hinv : shape (worker.ls_x sf) = [b; d] /\
                     shape (worker.ls_current_hidden sf) = [b; d]);
      [ apply (for_range_invariant
                 (fun s1 => shape (worker.ls_x s1) = [b; d] /\
                            shape (worker.ls_current_hidden s1) = [b; d])
                 (worker.Worker_layer w)) with (n := nn) (s := s0) (st := st0) (st' := stf);
        [ intros i sa sta sb stb [Ha Hb] Hl;
          exact (Worker_layer_shape w i sa sta sb stb b d Hwf Ha Hb Hl)
        | simpl; split; assumption
        | exact Hf ]
      | ]
  end.
  destruct Hinv as [_ Hcur].
  match goal with
  | Hp : worker.PatternRecognitionNetwork_forward _ _ _ = Ok _ |- _ =>
      apply (PatternRecognitionNetwork_forward_shape _ _ _ _ _ _ _ Hcur) in Hp;
      rewrite Hpn in Hp
  end.
  match goal with
  | Hp : worker.FastResponseNetwork_forward _ _ _ = Ok _ |- _ =>
      apply (FastResponseNetwork_forward_shape _ _ _ _ _ _ _ Hcur) in Hp;
      rewrite Hrn in Hp
  end.
  repeat same_shape_step. assumption.
Qed.

(** ** The attention bridge *)

Lemma CrossModuleAttention_init_out sd name qd kd vd od heads dropout m :
  attention.CrossModuleAttention_init sd name qd kd vd od heads dropout = Ok m ->
  out_features (attention.cm_output_proj m) = Z.to_nat od.
Proof.
  unfold attention.CrossModuleAttention_init. intro H. minv H. inversion H; subst. simpl.
  init_facts. assumption.
Qed.

Lemma HierarchicalAttention_init_wf sd name cd wd heads dropout cross a :
  attention.HierarchicalAttention_init sd name cd wd heads dropout cross = Ok a ->
  HierarchicalAttention_wf (Z.to_nat cd) (Z.to_nat wd) a.
Proof.
  unfold attention.HierarchicalAttention_init. intro H. minv H. inversion H; subst. clear H.
  unfold HierarchicalAttention_wf. simpl.
  repeat match goal with
         | Hc : attention.CrossModuleAttention_init _ _ _ _ _ _ _ _ = Ok _ |- _ =>
             apply CrossModuleAttention_init_out in Hc
         end.
  init_facts. repeat split; try assumption.
  intros ca Hca. subst. destruct cross.
  - match goal with
    | Hx : rbind _ _ = Ok _ |- _ => minv Hx; inversion Hx; subst
    end.
    eapply CrossModuleAttention_init_out; eauto.
  - match goal with
    | Hx : Ok None = Ok _ |- _ => inversion Hx
    end.
Qed.

Lemma CrossModuleAttention_forward_shape (m : attention.CrossModuleAttention)
    q k v mask st r st' b sq dq :
  shape q = [b; sq; dq] ->
  attention.CrossModuleAttention_forward m q k v mask st = Ok (r, st') ->
  shape (attn_output r) = [b; sq; out_features (attention.cm_output_proj m)].
Proof.
  intros Hq H. unfold attention.CrossModuleAttention_forward in H. minv H.
  unpack_shapes. subst r. simpl.
  match goal with
  | Hm : merge_heads _ _ _ _ = Ok _ |- _ => apply merge_heads_shape in Hm
  end.
  match goal with
  | Hm : shape ?a = [b; sq; _],
    Hl : Linear_forward (attention.cm_output_proj m) ?a = Ok _ |- _ =>
      exact (Linear_forward_shape3 _ _ _ _ _ _ Hm Hl)
  end.
Qed.

Lemma squeeze1_rank3 t b d y :
  shape t = [b; 1; d] -> squeeze 1 t = Ok y -> shape y = [b; d].
Proof.
  intros Ht H. unfold squeeze, rank in H. rewrite Ht in H.
  change (norm_dim (length [b; 1; d]) 1) with (@Ok nat 1) in H.
  unfold rbind in H. cbn [nth] in H. rewrite Nat.eqb_refl in H.
  inversion H. reflexivity.
Qed.

Lemma bridge_cross_term_shape (a : attention.HierarchicalAttention)
    cseq wseq mask st cross st' pre post b cd :
  (forall ca, attention.cross_attention a = Some ca ->
              out_features (attention.cm_output_proj ca) = cd) ->
  shape cseq = [b; 1; cd] -> shape pre = [b; cd] ->
  (if attention.use_cross_attention a
   then match attention.cross_attention a with
        | Some ca =>
            o <- attention.CrossModuleAttention_forward ca cseq wseq wseq mask ;;
            ret (Some o)
        | None => raise (AttributeError
            "'HierarchicalAttention' object has no attribute 'cross_attention'")
        end
   else ret None) st = Ok (cross, st') ->
  match cross with
  | Some co => let* cross_attended := squeeze 1 (attn_output co) in add pre cross_attended
  | None => Ok pre
  end = Ok post ->
  shape post = [b; cd].
Proof.
  intros Hcross Hseq Hpre Hcr Hx.
  destruct cross as [co|].
  - destruct (attention.use_cross_attention a).
    + destruct (attention.cross_attention a) as [ca|] eqn:Hca; [|discriminate].
      minv Hcr.
      match goal with
      | Hsome : Some co = Some _ |- _ => injection Hsome as Hsome; subst co
      end.
      match goal with
      | Hf : attention.CrossModuleAttention_forward ca _ _ _ _ _ = Ok _ |- _ =>
          apply (CrossModuleAttention_forward_shape _ _ _ _ _ _ _ _ _ _ _ Hseq) in Hf;
          rewrite (Hcross ca eq_refl) in Hf;
          minv Hx;
          match goal with
          | Hsq : squeeze 1 _ = Ok _ |- _ => apply (squeeze1_rank3 _ _ _ _ Hf) in Hsq
          end
      end.
      repeat same_shape_step. assumption.
    + apply ret_ok in Hcr. destruct Hcr as [Hcr _]. discriminate.
  - injection Hx as Hx. subst post. assumption.
Qed.

Lemma HierarchicalAttention_forward_shape (a : attention.HierarchicalAttention)
    cs ws mask st r st' b cd wd :
  HierarchicalAttention_wf cd wd a ->
  shape cs = [b; cd] -> shape ws = [b; wd] ->
  attention.HierarchicalAttention_forward a cs ws mask st = Ok (r, st') ->
  shape (attention.controller_output r) = [b; cd] /\
  shape (attention.worker_output r) = [b; wd].
Proof.
  intros Hwf Hc Hw H. unfold attention.HierarchicalAttention_forward in H. minv H.
  subst r st'. simpl.
  destruct Hwf as (Hw2c & Hc2w & Hcross & Hcg & Hwg).
  destruct (unsqueeze1_rank2 cs b cd Hc) as (cseq & Hcseq & Hscseq & _).
  destruct (unsqueeze1_rank2 ws b wd Hw) as (wseq & Hwseq & Hswseq & _).
  repeat match goal with
         | Hu : unsqueeze 1 cs = Ok ?t |- _ =>
             rewrite Hcseq in Hu; injection Hu as Hu; subst t
         | Hu : unsqueeze 1 ws = Ok ?t |- _ =>
             rewrite Hwseq in Hu; injection Hu as Hu; subst t
         end.
  repeat match goal with
         | Hf : attention.CrossModuleAttention_forward
                  (attention.controller_to_worker_attn a) _ _ _ _ _ = Ok _ |- _ =>
             apply (CrossModuleAttention_forward_shape _ _ _ _ _ _ _ _ _ _ _ Hswseq) in Hf;
             rewrite Hc2w in Hf
         | Hf : attention.CrossModuleAttention_forward
                  (attention.worker_to_controller_attn a) _ _ _ _ _ = Ok _ |- _ =>
             apply (CrossModuleAttention_forward_shape _ _ _ _ _ _ _ _ _ _ _ Hscseq) in Hf;
             rewrite Hw2c in Hf
         end.
  repeat match goal with
         | Hs : squeeze 1 (attn_output ?o) = Ok _, Ho : shape (attn_output ?o) = [b; 1; _]
           |- _ => apply (squeeze1_rank3 _ _ _ _ Ho) in Hs
         end.
  repeat match goal with
         | Hb : attention.bridge_blend (attention.controller_gate a) cs ?att = Ok ?out,
           Ha : shape ?att = [b; cd] |- _ =>
             destruct (bridge_blend_spec _ cs att out b cd Hcg Hc Ha Hb)
               as (? & _ & _ & ? & _); clear Hb
         | Hb : attention.bridge_blend (attention.worker_gate a) ws ?att = Ok ?out,
           Ha : shape ?att = [b; wd] |- _ =>
             destruct (bridge_blend_spec _ ws att out b wd Hwg Hw Ha Hb)
               as (? & _ & _ & ? & _); clear Hb
         end.
  match goal with
  | Hx : match ?cross with Some _ => _ | None => Ok ?pre end = Ok ?post,
    Hpre : shape ?pre = [b; cd],
    Hcr : _ ?stc = Ok (?cross, ?std) |- _ =>
      pose proof (bridge_cross_term_shape a cseq wseq mask stc cross std pre post b cd
                    Hcross Hscseq Hpre Hcr Hx) as Hco
  end.
  repeat (first [shape_step | drop_step]).
  split; assumption.
Qed.
(** ** The orchestrator *)

Lemma HRM_init_wf sd c m :
  hrm.HRM_init sd c = Ok m ->
  HRM_wf (Z.to_nat (hrm.cfg_input_dim c)) (Z.to_nat (hrm.cfg_controller_dim c))
         (Z.to_nat (hrm.cfg_worker_dim c)) m.
Proof.
  intro H.
  destruct (HRM_init_fields _ _ _ H) as (_ & Hcd & Hwd & _).
  destruct (HRM_init_modules _ _ _ H) as (Hip & Hc & Hw & Hc2w & Hw2c & Hop & Hpos & Hatt).
  apply Controller_init_wf in Hc. destruct Hc as [Hc _].
  apply Worker_init_wf in Hw.
  init_facts.
  unfold HRM_wf. repeat (split; [first [assumption | lia]|]). split.
  - intros a Ha. destruct (hrm.cfg_use_attention c).
    + destruct Hatt as (a' & Ha' & Hinit). rewrite Ha in Ha'. injection Ha' as <-.
      eapply HierarchicalAttention_init_wf; eauto.
    + rewrite Ha in Hatt. discriminate.
  - intros p Hp. destruct (hrm.cfg_use_positional_encoding c).
    + destruct Hpos as (p' & Hp' & Hinit). rewrite Hp in Hp'. injection Hp' as <-.
      apply PositionalEncoding_init_table in Hinit. rewrite Hinit. reflexivity.
    + rewrite Hp in Hpos. discriminate.
Qed.

Lemma HRM_cycle_steps m x mask ra cycle s st s' st' :
  hrm.HRM_cycle m x mask ra cycle s st = Ok (s', st') ->
  exists t, cycle_steps m x mask s st t s' st'.
Proof.
  intro H. unfold hrm.HRM_cycle in H. minv H. subst s' st'.
  match goal with
  | Hc : controller.Controller_forward _ _ _ _ _ = Ok (?co, ?st1),
    Hwi : Linear_forward (hrm.controller_to_worker m) _ = Ok ?wi,
    Hw : worker.Worker_forward _ _ _ _ = Ok (?wo, ?st2),
    Hfb : Linear_forward (hrm.worker_to_controller m) ?fw = Ok ?fb,
    Hsum : add ?fc ?fb = Ok ?sum,
    Hln : LayerNorm_forward _ ?sum = Ok _ |- _ =>
      exists (mkCycleTrace co wi wo fc fw fb sum); exists st1, st2; simpl;
      repeat (split; [first [assumption | reflexivity]|]);
      repeat split; try assumption
  end.
  destruct (hrm.use_attention m).
  - destruct (hrm.attention m) as [att|]; [|discriminate].
    match goal with
    | Hf : bind _ _ _ = Ok _ |- _ => minv Hf
    end.
    match goal with
    | Heq : (_, _, _) = _ |- _ => injection Heq as ? ? ?; subst
    end.
    eexists _, _. repeat split; eauto.
  - match goal with
    | Hf : ret _ _ = Ok _ |- _ => apply ret_ok in Hf; destruct Hf as [Heq ?]
    end.
    injection Heq as ? ? ?; subst. repeat split; reflexivity.
Qed.

Lemma cycle_steps_shapes m x mask s st t s' st' idim cd wd b sq :
  HRM_wf idim cd wd m ->
  shape x = [b; sq; cd] ->
  shape (hrm.cs_controller_state s) = [b; cd] ->
  shape (hrm.cs_worker_state s) = [b; wd] ->
  cycle_steps m x mask s st t s' st' ->
  shape (controller.hidden_state (ct_controller t)) = [b; cd] /\
  shape (worker.hidden_state (ct_worker t)) = [b; wd] /\
  shape (hrm.cs_controller_state s') = [b; cd] /\
  shape (hrm.cs_worker_state s') = [b; wd].
Proof.
  intros Hwf Hx Hc Hw (st1 & st2 & Hco & _ & Hwi & Hwo & _ & Hfuse & Hfb & Hsum & Hln & Hws).
  destruct Hwf as (Hcwf & Hwwf & _ & Hc2w & Hw2c & _ & _ & _ & Hatt & _).
  destruct (Controller_forward_spec _ _ _ _ _ _ _ b sq cd Hcwf Hx Hc Hco)
    as (_ & _ & _ & _ & _ & _ & _ & _ & Hsc & _).
  pose proof (Linear_forward_shape2 _ _ _ _ _ Hsc Hwi) as Hswi.
  pose proof (Worker_forward_shape _ _ _ _ _ _ b _ wd Hwwf Hswi Hw Hwo) as Hsw.
  assert (Hf : shape (ct_fused_controller t) = [b; cd] /\
               shape (ct_fused_worker t) = [b; wd]).
  { destruct (hrm.use_attention m).
    - destruct Hfuse as (att & bo & Ha & Hfw & -> & ->).
      eapply HierarchicalAttention_forward_shape; eauto.
    - destruct Hfuse as (-> & -> & _). split; assumption. }
  destruct Hf as [Hfc Hfw].
  pose proof (Linear_forward_shape2 _ _ _ _ _ Hfw Hfb) as Hsfb. rewrite Hw2c in Hsfb.
  destruct (add_same _ _ _ (eq_trans Hfc (eq_sym Hsfb)) Hsum) as [Hss _].
  rewrite Hfc in Hss.
  apply LayerNorm_forward_shape in Hln. rewrite Hss in Hln.
  rewrite Hws. repeat split; assumption.
Qed.
Lemma for_range_count {S} (f : S -> nat) (body : nat -> S -> M S) :
  (forall i s st s' st', body i s st = Ok (s', st') -> f s' = Datatypes.S (f s)) ->
  forall n s st s' st', for_range n body s st = Ok (s', st') -> f s' = n + f s.
Proof.
  intros Hbody n. induction n as [|k IH]; intros s st s' st' H; simpl in H.
  - apply ret_ok in H. destruct H as [-> _]. reflexivity.
  - apply bind_ok in H. destruct H as (s1 & st1 & H1 & H2).
    rewrite (Hbody _ _ _ _ _ H2), (IH _ _ _ _ H1). reflexivity.
Qed.

Lemma for_range_steps {S} (R : S -> S -> Prop) (body : nat -> S -> M S) :
  (forall s, R s s) ->
  (forall a b c, R a b -> R b c -> R a c) ->
  (forall i s st s' st', body i s st = Ok (s', st') -> R s s') ->
  forall n s st s' st',
    for_range n body s st = Ok (s', st') ->
    forall k, k < n ->
      exists sk stk sk' stk',
        for_range k body s st = Ok (sk, stk) /\
        body k sk stk = Ok (sk', stk') /\
        R sk' s' /\
        (Datatypes.S k = n -> sk' = s' /\ stk' = st').
Proof.
  intros Hrefl Htrans Hbody n. induction n as [|m IH]; intros s st s' st' H k Hk; [lia|].
  simpl in H. apply bind_ok in H. destruct H as (s1 & st1 & H1 & H2).
  destruct (Nat.eq_dec k m) as [->|Hne].
  - exists s1, st1, s', st'. auto.
  - destruct (IH _ _ _ _ H1 k) as (sk & stk & sk' & stk' & Ha & Hb & Hr & _); [lia|].
    exists sk, stk, sk', stk'. split; [exact Ha|]. split; [exact Hb|]. split.
    + eapply Htrans; [exact Hr|]. eapply Hbody; eauto.
    + intro Hk'. lia.
Qed.

Lemma for_range_runs_or_raises {S} (body : nat -> S -> M S) n s st :
  (exists s' st', for_range n body s st = Ok (s', st')) \/
  (exists k sk stk e,
      k < n /\ for_range k body s st = Ok (sk, stk) /\ body k sk stk = Err e /\
      for_range n body s st = Err e).
Proof.
  induction n as [|m IH].
  - left. exists s, st. reflexivity.
  - change (for_range (Datatypes.S m) body s st)
      with (bind (for_range m body s) (body m) st).
    unfold bind. destruct IH as [(s1 & st1 & H1)|(k & sk & stk & e & Hk & Ha & Hb & Hc)].
    + rewrite H1. destruct (body m s1 st1) as [[s2 st2]|e] eqn:E.
      * left. exists s2, st2. reflexivity.
      * right. exists m, s1, st1, e. repeat split; auto.
    + right. exists k, sk, stk, e. rewrite Hc. repeat split; auto.
Qed.

Lemma as_tensors_map l : as_tensors (map PyTensor l) = Ok l.
Proof. induction l as [|t l IH]; simpl; [reflexivity|]. rewrite IH. reflexivity. Qed.

Lemma stack_rank2 (l : list tensor) t b d :
  stack (map PyTensor l) 1 = Ok t ->
  Forall (fun u => shape u = [b; d]) l ->
  l <> [] /\ shape t = [b; length l; d] /\
  forall i k j, k < length l -> data t [i; k; j] = data (nth k l (zeros [])) [i; j].
Proof.
  intros H HF. unfold stack in H. rewrite as_tensors_map in H. cbn [rbind] in H.
  destruct l as [|t0 l']; [discriminate|]. split; [discriminate|].
  destruct (forallb _ _); [|discriminate].
  inversion HF as [|? ? Ht0 _]; subst. unfold rank in H. rewrite Ht0 in H.
  change (norm_dim (Datatypes.S (length [b; d])) 1) with (@Ok nat 1) in H.
  unfold rbind in H. injection H as <-. split; [reflexivity|].
  intros i k j Hk. destruct k as [|k']; [reflexivity|].
  simpl. f_equal. apply nth_indep. simpl in Hk. lia.
Qed.

Lemma bc_rev_cons_inv x a y b r :
  bc_rev (x :: a) (y :: b) = Some r ->
  exists z r', r = z :: r' /\ bc_rev a b = Some r' /\
               ((x = y /\ z = x) \/ (x = 1 /\ z = y) \/ (y = 1 /\ z = x)).
Proof.
  cbn [bc_rev]. destruct (bc_rev a b) as [r'|]; [|discriminate].
  destruct (x =? y) eqn:E1.
  - apply Nat.eqb_eq in E1. intro H. injection H as <-. eauto 10.
  - destruct (x =? 1) eqn:E2.
    + apply Nat.eqb_eq in E2. intro H. injection H as <-. eauto 10.
    + destruct (y =? 1) eqn:E3; [|discriminate].
      apply Nat.eqb_eq in E3. intro H. injection H as <-. eauto 10.
Qed.

Lemma PositionalEncoding_forward_shape (p : hrm.PositionalEncoding) x y b sq cd :
  shape (hrm.pe p) = [1000; 1; cd] -> shape x = [b; sq; cd] ->
  hrm.PositionalEncoding_forward p x = Ok y ->
  shape y = [b; sq; cd].
Proof.
  intros Hpe Hx H. unfold hrm.PositionalEncoding_forward, worker.shape0 in H.
  rewrite Hx, Hpe in H. cbn [rbind nth tl] in H.
  unfold add, map2_bc in H. rewrite Hx in H. cbn [shape] in H.
  destruct (broadcast_shapes [b; sq; cd] [Nat.min b 1000; 1; cd]) as [s|] eqn:Hb;
    [|discriminate].
  cbn [rbind] in H. injection H as <-. cbn [shape].
  unfold broadcast_shapes in Hb. cbn [rev app] in Hb.
  destruct (bc_rev [cd; sq; b] [cd; 1; Nat.min b 1000]) as [r|] eqn:Hr; [|discriminate].
  injection Hb as <-.
  apply bc_rev_cons_inv in Hr. destruct Hr as (z1 & r1 & -> & Hr & Hz1).
  apply bc_rev_cons_inv in Hr. destruct Hr as (z2 & r2 & -> & Hr & Hz2).
  apply bc_rev_cons_inv in Hr. destruct Hr as (z3 & r3 & -> & Hr & Hz3).
  simpl in Hr. injection Hr as <-. cbn [rev app].
  assert (z1 = cd) by lia. assert (z2 = sq) by lia. assert (z3 = b) by lia.
  subst. reflexivity.
Qed.

Lemma HRM_forward_steps m x mask ra st r st' idim cd wd b sq k :
  HRM_wf idim cd wd m ->
  shape x = [b; sq; k] ->
  hrm.HRM_forward m x mask ra st = Ok (r, st') ->
  exists x0 final,
    HRM_projected_input m x = Ok x0 /\
    shape x0 = [b; sq; cd] /\
    for_range (Z.to_nat (hrm.num_cycles m)) (hrm.HRM_cycle m x0 mask ra)
      (initial_cycle_state b cd wd) st = Ok (final, st') /\
    Linear_forward (hrm.output_projection m) (hrm.cs_controller_state final)
      = Ok (hrm.output r) /\
    stack (map PyTensor (hrm.cs_controller_states final)) 1 = Ok (hrm.controller_states r) /\
    stack (map PyTensor (hrm.cs_worker_states final)) 1 = Ok (hrm.worker_states r) /\
    hrm.final_controller_state r = hrm.cs_controller_state final /\
    hrm.final_worker_state r = hrm.cs_worker_state final.
Proof.
  intros Hwf Hx H. unfold hrm.HRM_forward in H. minv H. unpack_shapes. subst r st'.
  destruct Hwf as (_ & _ & Hip & _ & _ & _ & Hcd & Hwd & _ & Hpos).
  repeat match goal with
         | Hs : size_of _ = Ok _ |- _ => apply size_of_ok in Hs; destruct Hs as [-> _]
         end.
  rewrite Hcd, Hwd, !Nat2Z.id in *.
  match goal with
  | Hf : for_range _ (hrm.HRM_cycle m ?x0 _ _) _ _ = Ok (?final, _) |- _ =>
      exists x0, final
  end.
  simpl.
  match goal with
  | Hl : Linear_forward (hrm.input_projection m) x = Ok ?x1,
    Hp : _ = Ok ?x0 |- _ =>
      match type of Hp with
      | context [hrm.use_positional_encoding m] =>
          assert (Hx0 : HRM_projected_input m x = Ok x0)
            by (unfold HRM_projected_input; rewrite Hl; exact Hp);
          assert (Hs0 : shape x0 = [b; sq; cd]);
          [ apply (Linear_forward_shape3 _ _ _ _ _ _ Hx) in Hl; rewrite Hip in Hl;
            destruct (hrm.use_positional_encoding m);
            [ destruct (hrm.pos_encoding m) as [pos|] eqn:Hpe; [|discriminate];
              exact (PositionalEncoding_forward_shape pos x1 x0 b sq cd
                       (Hpos pos eq_refl) Hl Hp)
            | injection Hp as <-; exact Hl ]
          | ]
      end
  end.
  repeat (split; [first [assumption | reflexivity]|]). reflexivity.
Qed.
Lemma for_range_last {S} (body : nat -> S -> M S) n s st s' st' :
  for_range (Datatypes.S n) body s st = Ok (s', st') ->
  exists s1 st1, for_range n body s st = Ok (s1, st1) /\ body n s1 st1 = Ok (s', st').
Proof. simpl. apply bind_ok. Qed.

Lemma histories_extend_refl a : histories_extend a a.
Proof. split; exists []; rewrite app_nil_r; reflexivity. Qed.

Lemma histories_extend_trans a b c :
  histories_extend a b -> histories_extend b c -> histories_extend a c.
Proof.
  intros [[r1 H1] [w1 H2]] [[r2 H3] [w2 H4]]. split.
  - exists (r1 ++ r2). rewrite H3, H1, app_assoc. reflexivity.
  - exists (w1 ++ w2). rewrite H4, H2, app_assoc. reflexivity.
Qed.

Lemma HRM_cycle_extends m x mask ra i s st s' st' :
  hrm.HRM_cycle m x mask ra i s st = Ok (s', st') -> histories_extend s s'.
Proof.
  intro H. destruct (HRM_cycle_steps _ _ _ _ _ _ _ _ _ H)
    as (t & st1 & st2 & _ & Hc & _ & _ & Hw & _).
  split; eexists; eassumption.
Qed.

Lemma HRM_cycles_invariant m x mask ra n st final st' idim cd wd b sq :
  HRM_wf idim cd wd m ->
  shape x = [b; sq; cd] ->
  for_range n (hrm.HRM_cycle m x mask ra) (initial_cycle_state b cd wd) st
    = Ok (final, st') ->
  shape (hrm.cs_controller_state final) = [b; cd] /\
  shape (hrm.cs_worker_state final) = [b; wd] /\
  Forall (fun u => shape u = [b; cd]) (hrm.cs_controller_states final) /\
  Forall (fun u => shape u = [b; wd]) (hrm.cs_worker_states final) /\
  length (hrm.cs_controller_states final) = n /\
  length (hrm.cs_worker_states final) = n.
Proof.
  intros Hwf Hx H.
  assert (Hinv : shape (hrm.cs_controller_state final) = [b; cd] /\
                 shape (hrm.cs_worker_state final) = [b; wd] /\
                 Forall (fun u => shape u = [b; cd]) (hrm.cs_controller_states final) /\
                 Forall (fun u => shape u = [b; wd]) (hrm.cs_worker_states final)).
  { apply (for_range_invariant
             (fun s => shape (hrm.cs_controller_state s) = [b; cd] /\
                       shape (hrm.cs_worker_state s) = [b; wd] /\
                       Forall (fun u => shape u = [b; cd]) (hrm.cs_controller_states s) /\
                       Forall (fun u => shape u = [b; wd]) (hrm.cs_worker_states s))
             (hrm.HRM_cycle m x mask ra))
      with (n := n) (s := initial_cycle_state b cd wd) (st := st) (st' := st');
      [ | simpl; repeat split; constructor | exact H ].
    intros i s0 st0 s1 st1 (Hc & Hw & Hcs & Hws) Hcycle.
    destruct (HRM_cycle_steps _ _ _ _ _ _ _ _ _ Hcycle) as (t & Hsteps).
    destruct (cycle_steps_shapes _ _ _ _ _ _ _ _ idim cd wd b sq Hwf Hx Hc Hw Hsteps)
      as (Hco & Hwo & Hc' & Hw').
    destruct Hsteps as (? & ? & _ & Hlc & _ & _ & Hlw & _).
    split; [exact Hc'|]. split; [exact Hw'|]. rewrite Hlc, Hlw.
    split; apply Forall_app; split; try assumption; constructor; auto. }
  destruct Hinv as (H1 & H2 & H3 & H4).
  repeat (split; [assumption|]).
  split.
  - rewrite (for_range_count (fun s => length (hrm.cs_controller_states s))
               (hrm.HRM_cycle m x mask ra)) with (n := n) (s := initial_cycle_state b cd wd)
                                                 (st := st) (st' := st');
      [simpl; lia | | exact H].
    intros i s0 st0 s1 st1 Hcycle.
    destruct (HRM_cycle_steps _ _ _ _ _ _ _ _ _ Hcycle) as (t & ? & ? & _ & Hlc & _).
    rewrite Hlc, length_app. simpl. lia.
  - rewrite (for_range_count (fun s => length (hrm.cs_worker_states s))
               (hrm.HRM_cycle m x mask ra)) with (n := n) (s := initial_cycle_state b cd wd)
                                                 (st := st) (st' := st');
      [simpl; lia | | exact H].
    intros i s0 st0 s1 st1 Hcycle.
    destruct (HRM_cycle_steps _ _ _ _ _ _ _ _ _ Hcycle)
      as (t & ? & ? & _ & _ & _ & _ & Hlw & _).
    rewrite Hlw, length_app. simpl. lia.
Qed.

(** Whenever a forward call returns, its result has the documented shapes. *)
Lemma HRM_forward_shapes m x mask ra st r st' idim cd wd b sq k :
  HRM_wf idim cd wd m ->
  shape x = [b; sq; k] ->
  hrm.HRM_forward m x mask ra st = Ok (r, st') ->
  shape (hrm.output r) = [b; idim] /\
  shape (hrm.final_controller_state r) = [b; cd] /\
  shape (hrm.final_worker_state r) = [b; wd] /\
  shape (hrm.controller_states r) = [b; Z.to_nat (hrm.num_cycles m); cd] /\
  shape (hrm.worker_states r) = [b; Z.to_nat (hrm.num_cycles m); wd].
Proof.
  intros Hwf Hx H.
  destruct (HRM_forward_steps _ _ _ _ _ _ _ idim cd wd b sq k Hwf Hx H)
    as (x0 & final & _ & Hx0 & Hloop & Hout & Hcs & Hws & Hfc & Hfw).
  destruct (HRM_cycles_invariant _ _ _ _ _ _ _ _ idim cd wd b sq Hwf Hx0 Hloop)
    as (Hc & Hw & Hlc & Hlw & Hnc & Hnw).
  destruct (stack_rank2 _ _ b cd Hcs Hlc) as (_ & Hsc & _).
  destruct (stack_rank2 _ _ b wd Hws Hlw) as (_ & Hsw & _).
  rewrite Hnc in Hsc. rewrite Hnw in Hsw. rewrite Hfc, Hfw.
  apply (Linear_forward_shape2 _ _ _ _ _ Hc) in Hout.
  destruct Hwf as (_ & _ & _ & _ & _ & Hop & _). rewrite Hop in Hout.
  repeat split; assumption.
Qed.

(** C2.  The cycle loop has no exit of its own: it ends after the cycle body
    has run num_cycles times, or in the exception that a cycle body raised.
    A forward call that returns has run the cycle body for each of the
    indices 0 .. num_cycles - 1 in turn, whatever the input holds, and each
    run appended one entry to each history; the stacked histories have shape
    (batch, num_cycles, dim). *)
Theorem C2_cycle_loop_runs_num_cycles_times :
  (forall (m : hrm.HRM) (x0 : tensor) (mask : option tensor) (return_attention : bool)
          (s : hrm.cycle_state) (st : run_state),
      let n := Z.to_nat (hrm.num_cycles m) in
      (exists final st',
          for_range n (hrm.HRM_cycle m x0 mask return_attention) s st = Ok (final, st')) \/
      (exists cycle sk stk e,
          cycle < n /\
          for_range cycle (hrm.HRM_cycle m x0 mask return_attention) s st = Ok (sk, stk) /\
          hrm.HRM_cycle m x0 mask return_attention cycle sk stk = Err e /\
          for_range n (hrm.HRM_cycle m x0 mask return_attention) s st = Err e)) /\
  forall (sd : state_dict) (c : hrm.config) (m : hrm.HRM) (x : tensor)
         (mask : option tensor) (return_attention : bool) (st st' : run_state)
         (r : hrm.forward_result) (b sq k : nat),
    hrm.HRM_init sd c = Ok m ->
    shape x = [b; sq; k] ->
    hrm.HRM_forward m x mask return_attention st = Ok (r, st') ->
    let n := Z.to_nat (hrm.cfg_num_cycles c) in
    let cd := Z.to_nat (hrm.cfg_controller_dim c) in
    let wd := Z.to_nat (hrm.cfg_worker_dim c) in
    exists x0 final,
      for_range n (hrm.HRM_cycle m x0 mask return_attention)
        (initial_cycle_state b cd wd) st = Ok (final, st') /\
      (forall cycle, cycle < n ->
         exists s stc s' stc',
           for_range cycle (hrm.HRM_cycle m x0 mask return_attention)
             (initial_cycle_state b cd wd) st = Ok (s, stc) /\
           hrm.HRM_cycle m x0 mask return_attention cycle s stc = Ok (s', stc') /\
           length (hrm.cs_controller_states s') = S cycle /\
           length (hrm.cs_worker_states s') = S cycle) /\
      length (hrm.cs_controller_states final) = n /\
      length (hrm.cs_worker_states final) = n /\
      stack (map PyTensor (hrm.cs_controller_states final)) 1 = Ok (hrm.controller_states r) /\
      stack (map PyTensor (hrm.cs_worker_states final)) 1 = Ok (hrm.worker_states r) /\
      shape (hrm.controller_states r) = [b; n; cd] /\
      shape (hrm.worker_states r) = [b; n; wd].
Proof.
  split; [intros m x0 mask ra s st n; apply for_range_runs_or_raises|].
  intros sd c m x mask ra st st' r b sq k Hinit Hx H n cd wd.
  pose proof (HRM_init_wf _ _ _ Hinit) as Hwf.
  destruct (HRM_init_fields _ _ _ Hinit) as (_ & _ & _ & _ & Hn & _).
  destruct (HRM_forward_steps _ _ _ _ _ _ _ _ cd wd b sq k Hwf Hx H)
    as (x0 & final & _ & Hx0 & Hloop & _ & Hcs & Hws & _).
  destruct (HRM_forward_shapes _ _ _ _ _ _ _ _ cd wd b sq k Hwf Hx H)
    as (_ & _ & _ & Hsc & Hsw).
  rewrite Hn in Hloop, Hsc, Hsw. fold n in Hloop, Hsc, Hsw.
  destruct (HRM_cycles_invariant _ _ _ _ _ _ _ _ _ cd wd b sq Hwf Hx0 Hloop)
    as (_ & _ & _ & _ & Hnc & Hnw).
  exists x0, final. split; [exact Hloop|]. split.
  - intros cycle Hlt.
    destruct (for_range_steps (fun _ _ => True) (hrm.HRM_cycle m x0 mask ra)
                (fun _ => I) (fun _ _ _ _ _ => I) (fun _ _ _ _ _ _ => I)
                n _ _ _ _ Hloop cycle Hlt) as (s & stc & s' & stc' & Ha & Hb & _).
    exists s, stc, s', stc'. split; [exact Ha|]. split; [exact Hb|].
    assert (Hnext : for_range (S cycle) (hrm.HRM_cycle m x0 mask ra)
                      (initial_cycle_state b cd wd) st = Ok (s', stc')).
    { simpl. unfold bind. rewrite Ha. exact Hb. }
    destruct (HRM_cycles_invariant _ _ _ _ _ _ _ _ _ cd wd b sq Hwf Hx0 Hnext)
      as (_ & _ & _ & _ & H1 & H2).
    split; assumption.
  - repeat (split; [assumption|]). assumption.
Qed.
(** C6.  A worker layer built with the convolution branch (the default, and
    what [Worker] and [HRM] always build) raises on every input when its
    dimension is not 1: line 201 hands the convolution a single channel.  The
    step the claim describes is reached only with the convolution disabled
    or at dimension 1 (see [WorkerLayer_forward_spec]). *)
Theorem C6_worker_layer_raises_in_convolution :
  forall (sd : state_dict) (name : string) (dim : Z) (dropout : Q) (use_gru : bool)
         (l : worker.WorkerLayer) (x h : tensor) (st : run_state),
    worker.WorkerLayer_init sd name dim dropout true use_gru = Ok l ->
    dim <> 1%Z ->
    is_ok (worker.WorkerLayer_forward l x h st) = false.
Proof.
  intros sd name dim dropout use_gru l x h st Hinit Hdim.
  apply WorkerLayer_init_ok in Hinit.
  destruct Hinit as (Hu & _ & Hpos & _ & _ & (c & Hc & Hin & _) & _).
  apply (WorkerLayer_forward_fails l c x h st Hu Hc).
  rewrite Hin. intro Heq. apply Hdim. lia.
Qed.

(** C7.  In a controller built by the constructor, each layer of the stack
    adds to the hidden state the mean over the sequence positions of the
    layer's output, and the hidden state that [Controller.forward] returns is
    the state accumulated by the [num_layers] layers plus the output of the
    planning network on it. *)
Theorem C7_controller_hidden_state_accumulation :
  forall (sd : state_dict) (name : string) (dim num_layers num_heads : Z) (dropout : Q)
         (use_gated : bool) (c : controller.Controller)
         (x h : tensor) (mask : option tensor) (b sq : nat),
    controller.Controller_init sd name dim num_layers num_heads dropout use_gated = Ok c ->
    shape x = [b; sq; Z.to_nat dim] ->
    shape h = [b; Z.to_nat dim] ->
    (forall layer_idx s st s' st',
        shape (controller.ls_x s) = [b; sq; Z.to_nat dim] ->
        shape (controller.ls_current_hidden s) = [b; Z.to_nat dim] ->
        controller.Controller_layer c mask layer_idx s st = Ok (s', st') ->
        shape (controller.ls_x s') = [b; sq; Z.to_nat dim] /\
        shape (controller.ls_current_hidden s') = [b; Z.to_nat dim] /\
        forall i j, i < b -> j < Z.to_nat dim ->
          data (controller.ls_current_hidden s') [i; j]
          = (data (controller.ls_current_hidden s) [i; j]
             + Rsum sq (fun t => data (controller.ls_x s') [i; t; j]) / INR sq)%R) /\
    (forall st r st',
        controller.Controller_forward c x h mask st = Ok (r, st') ->
        exists x0 s st1,
          Controller_goal_augmented c x h = Ok x0 /\
          shape x0 = [b; sq; Z.to_nat dim] /\
          for_range (Z.to_nat num_layers) (controller.Controller_layer c mask)
            (controller.mkLayerState x0 [] h) st = Ok (s, st1) /\
          controller.PlanningNetwork_forward (controller.planning_network c)
            (controller.ls_current_hidden s) st1 = Ok (controller.planning_output r, st') /\
          forall i j, i < b -> j < Z.to_nat dim ->
            data (controller.hidden_state r) [i; j]
            = (data (controller.ls_current_hidden s) [i; j]
               + data (controller.planning_output r) [i; j])%R).
Proof.
  intros sd name dim num_layers num_heads dropout use_gated c x h mask b sq Hinit Hx Hh.
  apply Controller_init_wf in Hinit. destruct Hinit as [Hwf Hn]. split.
  - intros layer_idx s st s' st' Hsx Hsh Hl.
    exact (Controller_layer_spec c mask layer_idx s st s' st' b sq _ Hwf Hsx Hsh Hl).
  - intros st r st' H.
    destruct (Controller_forward_spec c x h mask st r st' b sq _ Hwf Hx Hh H)
      as (x0 & s & st1 & Hx0 & Hs0 & Hloop & _ & Hpn & _ & Hd).
    exists x0, s, st1. rewrite Hn in Hloop. repeat (split; [assumption|]). exact Hd.
Qed.
(** ** GELU at a positive argument *)

Lemma erf_nonneg y : (0 <= y)%R -> (0 <= erf y)%R.
Proof.
  intro Hy. unfold erf.
  assert (Hint : (0 <= RiemannInt (gauss_integrable 0 y))%R).
  { pose proof (@RiemannInt_P19 (fct_cte 0) gauss 0 y (RiemannInt_P14 0 y 0)
                  (gauss_integrable 0 y) Hy) as H.
    rewrite RiemannInt_P15 in H. rewrite Rmult_0_l in H. apply H.
    intros t _. unfold fct_cte, gauss. left. apply exp_pos. }
  assert (Hc : (0 < 2 / sqrt PI)%R).
  { apply Rdiv_lt_0_compat; [lra|]. apply sqrt_lt_R0, PI_RGT_0. }
  apply Rmult_le_pos; [lra | exact Hint].
Qed.

Lemma gelu_1_pos : (0 < gelu 1)%R.
Proof.
  unfold gelu.
  assert (H : (0 <= erf (1 / sqrt 2))%R).
  { apply erf_nonneg. apply Rlt_le, Rdiv_lt_0_compat; [lra|]. apply sqrt_lt_R0. lra. }
  lra.
Qed.

(** ** The gate of the feed-forward network *)

(** Counterexample to C8 as stated.  For the feed-forward gate there is no
    second branch: the gated value is [gate * up], and it is not
    [gate * up + (1 - gate) * B] for any tensor B that the layer holds (its
    input, its gate, its up branch). *)
Lemma C8_feed_forward_gate_is_not_a_convex_weight :
  exists gate up combined,
    controller.FeedForward_gate ff_example (ones [1; 1; 1]) = Ok gate /\
    controller.FeedForward_up ff_example (ones [1; 1; 1]) = Ok up /\
    controller.FeedForward_gating ff_example (ones [1; 1; 1]) = Ok combined /\
    data combined first_entry = (data gate first_entry * data up first_entry)%R /\
    forall B, In B [ones [1; 1; 1]; gate; up] ->
      data combined first_entry
      <> (data gate first_entry * data up first_entry
          + (1 - data gate first_entry) * data B first_entry)%R.
Proof.
  eexists. eexists. eexists.
  split; [reflexivity|]. split; [reflexivity|]. split; [reflexivity|].
  assert (Hg : forall a b : R, (0 + 0 * a + b = b)%R) by (intros; lra).
  unfold first_entry, ff_example, ones. simpl. rewrite !Hg.
  split; [reflexivity|].
  intros B HB.
  pose proof (sigmoid_range 1) as [Hs0 Hs1]. pose proof gelu_1_pos as Hu.
  assert (HBpos : (0 < data B first_entry)%R).
  { destruct HB as [<-|[<-|[<-|[]]]]; simpl; rewrite ?Hg; lra. }
  assert (0 < (1 - sigmoid 1) * data B first_entry)%R by (apply Rmult_lt_0_compat; lra).
  unfold first_entry in *. intro Heq. lra.
Qed.

(** C8 (amended).  Every gate tensor lies in [0, 1].  The gates of the
    attention bridge, the fusion gate of the worker layer and the gate of the
    controller's attention weigh two branches, [gate * A + (1 - gate) * B];
    the gate of the controller's feed-forward network multiplies its one
    branch, [gate * gelu(up_proj(x))]. *)
Theorem C8_gates_in_unit_interval_and_their_use :
  (forall g state attended out b d,
      out_features g = d -> shape state = [b; d] -> shape attended = [b; d] ->
      attention.bridge_blend g state attended = Ok out ->
      exists gate, attention.bridge_gate g state attended = Ok gate /\
        unit_interval gate /\ shape out = [b; d] /\
        forall i j, i < b -> j < d ->
          data out [i; j] = (data gate [i; j] * data attended [i; j]
                             + (1 - data gate [i; j]) * data state [i; j])%R) /\
  (forall (l : worker.WorkerLayer) conv gru out b d,
      out_features (worker.wl_gate l) = d -> shape conv = [b; d] -> shape gru = [b; d] ->
      worker.WorkerLayer_fuse l conv gru = Ok out ->
      exists gate, worker.WorkerLayer_gate l conv gru = Ok gate /\
        unit_interval gate /\ shape out = [b; d] /\
        forall i j, i < b -> j < d ->
          data out [i; j] = (data gate [i; j] * data conv [i; j]
                             + (1 - data gate [i; j]) * data gru [i; j])%R) /\
  (forall (m : controller.MultiHeadAttention) g query output out b s d,
      controller.mha_gate m = Some g -> out_features g = d ->
      shape query = [b; s; d] -> shape output = [b; s; d] ->
      controller.MultiHeadAttention_gating m query output = Ok out ->
      exists gate, controller.MultiHeadAttention_gate m query = Ok gate /\
        unit_interval gate /\ shape out = [b; s; d] /\
        forall i t j, i < b -> t < s -> j < d ->
          data out [i; t; j] = (data gate [i; t; j] * data output [i; t; j]
                                + (1 - data gate [i; t; j]) * data query [i; t; j])%R) /\
  (forall (f : controller.FeedForward) x combined b s d h,
      out_features (controller.ff_gate_proj f) = h ->
      out_features (controller.ff_up_proj f) = h ->
      shape x = [b; s; d] ->
      controller.FeedForward_gating f x = Ok combined ->
      exists gate up, controller.FeedForward_gate f x = Ok gate /\
        controller.FeedForward_up f x = Ok up /\
        unit_interval gate /\ shape combined = [b; s; h] /\
        forall i t j, i < b -> t < s -> j < h ->
          data combined [i; t; j] = (data gate [i; t; j] * data up [i; t; j])%R).
Proof.
  split; [exact bridge_blend_spec|]. split; [exact WorkerLayer_fuse_spec|].
  split; [exact MultiHeadAttention_gating_spec | exact FeedForward_gating_spec].
Qed.
(** ** Histories and final states *)

Ltac eval_tensors_in H :=
  cbv -[Rplus Rmult Rminus Rdiv Rinv Ropp sqrt gelu sigmoid relu exp sin cos INR IZR ln_eps]
    in H.

Lemma single_cycle_final_state :
  exists m r st',
    hrm.HRM_init sd_planning_bias single_cycle_config = Ok m /\
    hrm.HRM_forward m (zeros [1; 1; 1]) None false eval_mode = Ok (r, st') /\
    shape (hrm.controller_states r) = [1; 1; 1] /\
    shape (hrm.final_controller_state r) = [1; 1] /\
    data (hrm.controller_states r) [0; 0; 0] = 1%R /\
    data (hrm.final_controller_state r) [0; 0] = 0%R.
Proof.
  destruct (hrm.HRM_init sd_planning_bias single_cycle_config) as [m|e] eqn:E;
    [|eval_tensors_in E; discriminate].
  exists m. eval_tensors_in E. injection E as <-.
  destruct (hrm.HRM_forward _ (zeros [1; 1; 1]) None false eval_mode)
    as [[r st']|e] eqn:F; [|eval_tensors_in F; discriminate].
  exists r, st'. split; [reflexivity|]. split; [reflexivity|].
  eval_tensors_in F. injection F as <- <-.
  cbn [hrm.controller_states hrm.final_controller_state shape data].
  split; [reflexivity|]. split; [reflexivity|]. split; ring.
Qed.

Lemma HRM_history_entries m x mask ra st r st' idim cd wd b sq k :
  HRM_wf idim cd wd m ->
  shape x = [b; sq; k] ->
  hrm.HRM_forward m x mask ra st = Ok (r, st') ->
  exists x0,
    HRM_projected_input m x = Ok x0 /\
    forall cycle, cycle < Z.to_nat (hrm.num_cycles m) ->
      exists s stc t s' stc',
        for_range cycle (hrm.HRM_cycle m x0 mask ra) (initial_cycle_state b cd wd) st
          = Ok (s, stc) /\
        cycle_steps m x0 mask s stc t s' stc' /\
        (forall i j, data (hrm.controller_states r) [i; cycle; j]
                     = data (controller.hidden_state (ct_controller t)) [i; j]) /\
        (forall i j, data (hrm.worker_states r) [i; cycle; j]
                     = data (worker.hidden_state (ct_worker t)) [i; j]) /\
        (S cycle = Z.to_nat (hrm.num_cycles m) ->
           hrm.final_controller_state r = hrm.cs_controller_state s' /\
           hrm.final_worker_state r = hrm.cs_worker_state s').
Proof.
  intros Hwf Hx H.
  destruct (HRM_forward_steps _ _ _ _ _ _ _ idim cd wd b sq k Hwf Hx H)
    as (x0 & final & Hp & Hx0 & Hloop & _ & Hcs & Hws & Hfc & Hfw).
  exists x0. split; [exact Hp|]. intros cycle Hlt.
  destruct (for_range_steps histories_extend (hrm.HRM_cycle m x0 mask ra)
              histories_extend_refl histories_extend_trans
              (HRM_cycle_extends m x0 mask ra)
              _ _ _ _ _ Hloop cycle Hlt)
    as (s & stc & s' & stc' & Ha & Hb & [[rc Hrc] [rw Hrw]] & Hlast).
  destruct (HRM_cycle_steps _ _ _ _ _ _ _ _ _ Hb) as (t & Hsteps).
  exists s, stc, t, s', stc'. split; [exact Ha|]. split; [exact Hsteps|].
  destruct (HRM_cycles_invariant _ _ _ _ _ _ _ _ idim cd wd b sq Hwf Hx0 Ha)
    as (_ & _ & _ & _ & Hnc & Hnw).
  destruct (HRM_cycles_invariant _ _ _ _ _ _ _ _ idim cd wd b sq Hwf Hx0 Hloop)
    as (_ & _ & Hlc & Hlw & Hfc_len & Hfw_len).
  destruct Hsteps as (st1 & st2 & _ & Hc' & _ & _ & Hw' & _).
  destruct (stack_rank2 _ _ b cd Hcs Hlc) as (_ & _ & Hdc).
  destruct (stack_rank2 _ _ b wd Hws Hlw) as (_ & _ & Hdw).
  split; [|split].
  - intros i j. rewrite Hdc by (rewrite Hfc_len; exact Hlt).
    rewrite Hrc, Hc', <- app_assoc, app_nth2 by lia.
    rewrite Hnc, Nat.sub_diag. reflexivity.
  - intros i j. rewrite Hdw by (rewrite Hfw_len; exact Hlt).
    rewrite Hrw, Hw', <- app_assoc, app_nth2 by lia.
    rewrite Hnw, Nat.sub_diag. reflexivity.
  - intro Hn. destruct (Hlast Hn) as [-> _]. split; assumption.
Qed.

(** C10.  In a forward call that returns, entry [cycle] of the returned
    controller (worker) history is the hidden state that the controller
    (worker) step of that cycle returned; the bridge, the feedback addition
    and the layer normalisation of the cycle come after it and only feed the
    state carried to the next cycle, which after the last cycle is the
    returned final state.  The final controller state can differ from the
    last history entry. *)
Theorem C10_histories_hold_states_before_fusion :
  (forall (sd : state_dict) (c : hrm.config) (m : hrm.HRM) (x : tensor)
          (mask : option tensor) (return_attention : bool) (st st' : run_state)
          (r : hrm.forward_result) (b sq k : nat),
      hrm.HRM_init sd c = Ok m ->
      shape x = [b; sq; k] ->
      hrm.HRM_forward m x mask return_attention st = Ok (r, st') ->
      let n := Z.to_nat (hrm.cfg_num_cycles c) in
      let cd := Z.to_nat (hrm.cfg_controller_dim c) in
      let wd := Z.to_nat (hrm.cfg_worker_dim c) in
      exists x0,
        HRM_projected_input m x = Ok x0 /\
        forall cycle, cycle < n ->
          exists s stc t s' stc',
            for_range cycle (hrm.HRM_cycle m x0 mask return_attention)
              (initial_cycle_state b cd wd) st = Ok (s, stc) /\
            cycle_steps m x0 mask s stc t s' stc' /\
            (forall i j, data (hrm.controller_states r) [i; cycle; j]
                         = data (controller.hidden_state (ct_controller t)) [i; j]) /\
            (forall i j, data (hrm.worker_states r) [i; cycle; j]
                         = data (worker.hidden_state (ct_worker t)) [i; j]) /\
            (S cycle = n ->
               hrm.final_controller_state r = hrm.cs_controller_state s' /\
               hrm.final_worker_state r = hrm.cs_worker_state s')) /\
  (exists m r st',
      hrm.HRM_init sd_planning_bias single_cycle_config = Ok m /\
      hrm.HRM_forward m (zeros [1; 1; 1]) None false eval_mode = Ok (r, st') /\
      shape (hrm.controller_states r) = [1; 1; 1] /\
      shape (hrm.final_controller_state r) = [1; 1] /\
      data (hrm.final_controller_state r) [0; 0]
      <> data (hrm.controller_states r) [0; 0; 0]).
Proof.
  split.
  - intros sd c m x mask ra st st' r b sq k Hinit Hx H n cd wd.
    pose proof (HRM_init_wf _ _ _ Hinit) as Hwf.
    destruct (HRM_init_fields _ _ _ Hinit) as (_ & _ & _ & _ & Hn & _).
    unfold n. rewrite <- Hn.
    exact (HRM_history_entries m x mask ra st r st' _ cd wd b sq k Hwf Hx H).
  - destruct single_cycle_final_state as (m & r & st' & Hm & Hr & Hs & Hf & Hh & Hd).
    exists m, r, st'. repeat (split; [assumption|]). rewrite Hh, Hd. lra.
Qed.
(** ** Concrete models *)

Ltac ok_by_evaluation E e :=
  exfalso;
  let H := fresh "H" in
  assert (H : is_ok e = true) by (vm_compute; reflexivity);
  rewrite E in H; discriminate H.

(** C1 at the default configuration, on a batch of two sequences of length 5. *)
Lemma C1_default_model_raises :
  exists m,
    hrm.HRM_init sd_zero hrm.default_config = Ok m /\
    is_ok (hrm.HRM_forward m (zeros [2; 5; 128]) None false eval_mode) = false.
Proof.
  destruct (hrm.HRM_init sd_zero hrm.default_config) as [m|e] eqn:E.
  - exists m. split; [reflexivity|].
    apply (C1_forward_raises_in_worker_convolution sd_zero hrm.default_config m
             (zeros [2; 5; 128]) None false eval_mode E).
    + simpl. lia.
    + simpl. lia.
  - ok_by_evaluation E (hrm.HRM_init sd_zero hrm.default_config).
Defined.

(** C5 at a model with the bridge, with the diagnostics flag set. *)
Lemma C5_bridged_model_with_diagnostics_raises :
  exists m,
    hrm.HRM_init sd_zero bridged_config = Ok m /\
    is_ok (hrm.HRM_forward m (zeros [2; 5; 8]) None true eval_mode) = false.
Proof.
  assert (Hu : match hrm.HRM_init sd_zero bridged_config with
               | Ok m => hrm.use_attention m
               | Err _ => false
               end = true) by (vm_compute; reflexivity).
  destruct (hrm.HRM_init sd_zero bridged_config) as [m|e] eqn:E; [|discriminate Hu].
  exists m. split; [reflexivity|].
  exact (C5_forward_with_diagnostics_never_completes m (zeros [2; 5; 8]) None eval_mode Hu).
Defined.

(** C6 at a worker layer of dimension 4 with both branches enabled. *)
Lemma C6_worker_layer_of_dimension_4_raises :
  exists l,
    worker.WorkerLayer_init sd_zero "worker.worker_layers.0" 4 0 true true = Ok l /\
    is_ok (worker.WorkerLayer_forward l (zeros [2; 4]) (zeros [2; 4]) eval_mode) = false.
Proof.
  destruct (worker.WorkerLayer_init sd_zero "worker.worker_layers.0" 4 0 true true)
    as [l|e] eqn:E.
  - exists l. split; [reflexivity|].
    apply (C6_worker_layer_raises_in_convolution sd_zero "worker.worker_layers.0" 4 0 true l
             (zeros [2; 4]) (zeros [2; 4]) eval_mode E).
    lia.
  - ok_by_evaluation E (worker.WorkerLayer_init sd_zero "worker.worker_layers.0" 4 0 true true).
Defined.

(** C9 at dimension 10 with 4 heads, and at a cross attention whose smallest
    dimension 2 is below its 8 heads. *)
Lemma C9_dim_10_heads_4_is_refused :
  (exists e, controller.MultiHeadAttention_init sd_zero "attention" 10 4 0 true = Err e /\
             e = AssertionError "dim must be divisible by num_heads") /\
  (exists e, attention.MultiHeadAttention_init sd_zero "attention" 10 4 0 = Err e /\
             e = AssertionError "dim must be divisible by num_heads") /\
  (exists e, attention.CrossModuleAttention_init sd_zero "attention" 4 2 4 4 8 0 = Err e /\
             e = AssertionError "Head dimension must be positive").
Proof.
  destruct (C9_invalid_head_configuration_fails_construction sd_zero "attention" 0)
    as (H1 & H2 & H3).
  split; [|split].
  - destruct (H1 10%Z 4%Z true) as (e & He & Hmsg); [left; vm_compute; discriminate|].
    exists e. split; [exact He|]. apply Hmsg. lia.
  - destruct (H2 10%Z 4%Z) as (e & He & Hmsg); [left; vm_compute; discriminate|].
    exists e. split; [exact He|]. apply Hmsg. lia.
  - destruct (H3 4%Z 2%Z 4%Z 4%Z 8%Z) as (e & He & Hmsg); [vm_compute; discriminate|].
    exists e. split; [exact He|]. apply Hmsg. lia.
Defined.

(** C4 at a batch of two sequences of length 3: the second sequence receives
    the table row of position 1 at its positions 0 and 2 alike. *)
Lemma C4_second_batch_row_gets_position_1 :
  exists m y,
    hrm.PositionalEncoding_init 4 1000 = Ok m /\
    hrm.PositionalEncoding_forward m (zeros [2; 3; 4]) = Ok y /\
    data y [1; 0; 0] = hrm.pe_value 4 1 0 /\
    data y [1; 2; 0] = hrm.pe_value 4 1 0.
Proof.
  destruct (hrm.PositionalEncoding_init 4 1000) as [m|e] eqn:E.
  - destruct (C4_encoding_follows_batch_index 4 1000 m (zeros [2; 3; 4]) 2 3 E)
      as (y & Hy & Hd & _); [reflexivity | simpl; lia |].
    exists m, y. split; [reflexivity|]. split; [exact Hy|].
    split; rewrite (Hd 1 _ 0) by (simpl; lia); apply Rplus_0_l.
  - ok_by_evaluation E (hrm.PositionalEncoding_init 4 1000).
Defined.

(** C8 at a bridge gate of dimension 1 blending two constant states. *)
Lemma C8_blend_of_ones :
  exists out gate,
    attention.bridge_blend blend_gate_example (ones [1; 1]) (ones [1; 1]) = Ok out /\
    attention.bridge_gate blend_gate_example (ones [1; 1]) (ones [1; 1]) = Ok gate /\
    unit_interval gate /\
    data out [0; 0] = (data gate [0; 0]%nat * 1 + (1 - data gate [0; 0]%nat) * 1)%R.
Proof.
  destruct (attention.bridge_blend blend_gate_example (ones [1; 1]) (ones [1; 1]))
    as [out|e] eqn:E.
  - destruct (proj1 C8_gates_in_unit_interval_and_their_use blend_gate_example
                (ones [1; 1]) (ones [1; 1]) out 1 1 eq_refl eq_refl eq_refl E)
      as (gate & Hg & Hu & _ & Hd).
    exists out, gate. split; [reflexivity|]. split; [exact Hg|]. split; [exact Hu|].
    apply (Hd 0 0); lia.
  - ok_by_evaluation E
      (attention.bridge_blend blend_gate_example (ones [1; 1]) (ones [1; 1])).
Defined.

Ltac returns_by_evaluation E F :=
  exfalso;
  match type of F with
  | ?run = Err _ =>
      match type of E with
      | ?build = Ok ?m =>
          let H := fresh "H" in
          let run' := eval pattern m in run in
          match run' with
          | ?f _ =>
              assert (H : match build with Ok m' => is_ok (f m') | Err _ => false end = true)
                by (vm_compute; reflexivity);
              rewrite E in H; cbv beta in H; rewrite F in H; discriminate H
          end
      end
  end.

(** C2 at a model of three cycles whose forward pass returns. *)
Lemma C2_three_cycles_of_the_narrow_model :
  exists m r st',
    hrm.HRM_init sd_zero narrow_worker_config = Ok m /\
    hrm.HRM_forward m (zeros [2; 5; 8]) None false eval_mode = Ok (r, st') /\
    shape (hrm.controller_states r) = [2; 3; 16] /\
    shape (hrm.worker_states r) = [2; 3; 1].
Proof.
  destruct (hrm.HRM_init sd_zero narrow_worker_config) as [m|e] eqn:E;
    [|ok_by_evaluation E (hrm.HRM_init sd_zero narrow_worker_config)].
  destruct (hrm.HRM_forward m (zeros [2; 5; 8]) None false eval_mode) as [[r st']|e] eqn:F;
    [|returns_by_evaluation E F].
  exists m, r, st'. split; [reflexivity|]. split; [exact F|].
  destruct (proj2 C2_cycle_loop_runs_num_cycles_times sd_zero narrow_worker_config m
              (zeros [2; 5; 8]) None false eval_mode st' r 2 5 8 E eq_refl F)
    as (x0 & final & _ & _ & _ & _ & _ & _ & Hc & Hw).
  split; [exact Hc | exact Hw].
Defined.

(** C10 at the last of the three cycles of the same model. *)
Lemma C10_last_cycle_of_the_narrow_model :
  exists m r st' t s',
    hrm.HRM_init sd_zero narrow_worker_config = Ok m /\
    hrm.HRM_forward m (zeros [2; 5; 8]) None false eval_mode = Ok (r, st') /\
    data (hrm.controller_states r) [0; 2; 0]
    = data (controller.hidden_state (ct_controller t)) [0; 0] /\
    LayerNorm_forward (hrm.layer_norm m) (ct_sum t) = Ok (hrm.cs_controller_state s') /\
    hrm.final_controller_state r = hrm.cs_controller_state s'.
Proof.
  destruct (hrm.HRM_init sd_zero narrow_worker_config) as [m|e] eqn:E;
    [|ok_by_evaluation E (hrm.HRM_init sd_zero narrow_worker_config)].
  destruct (hrm.HRM_forward m (zeros [2; 5; 8]) None false eval_mode) as [[r st']|e] eqn:F;
    [|returns_by_evaluation E F].
  destruct (proj1 C10_histories_hold_states_before_fusion sd_zero narrow_worker_config m
              (zeros [2; 5; 8]) None false eval_mode st' r 2 5 8 E eq_refl F)
    as (x0 & _ & Hcycles).
  destruct (Hcycles 2) as (s & stc & t & s' & stc' & _ & Hsteps & Hc & _ & Hlast);
    [simpl; lia|].
  destruct Hsteps as (st1 & st2 & _ & _ & _ & _ & _ & _ & _ & _ & Hln & _).
  exists m, r, st', t, s'. split; [reflexivity|]. split; [exact F|].
  split; [apply Hc|]. split; [exact Hln|]. apply Hlast. reflexivity.
Defined.

(** C7 at a controller of two layers, dimension 16 and 8 heads. *)
Lemma C7_two_layer_controller :
  exists c r st' s st1,
    controller.Controller_init sd_zero "controller" 16 2 8 0 true = Ok c /\
    controller.Controller_forward c (zeros [2; 5; 16]) (zeros [2; 16]) None eval_mode
      = Ok (r, st') /\
    controller.PlanningNetwork_forward (controller.planning_network c)
      (controller.ls_current_hidden s) st1 = Ok (controller.planning_output r, st') /\
    data (controller.hidden_state r) [0; 0]
    = (data (controller.ls_current_hidden s) [0; 0]%nat
       + data (controller.planning_output r) [0; 0]%nat)%R.
Proof.
  destruct (controller.Controller_init sd_zero "controller" 16 2 8 0 true) as [c|e] eqn:E;
    [|ok_by_evaluation E (controller.Controller_init sd_zero "controller" 16 2 8 0 true)].
  destruct (controller.Controller_forward c (zeros [2; 5; 16]) (zeros [2; 16]) None eval_mode)
    as [[r st']|e] eqn:F; [|returns_by_evaluation E F].
  destruct (C7_controller_hidden_state_accumulation sd_zero "controller" 16 2 8 0 true c
              (zeros [2; 5; 16]) (zeros [2; 16]) None 2 5 E eq_refl eq_refl) as [_ Hfinal].
  destruct (Hfinal eval_mode r st' F) as (x0 & s & st1 & _ & _ & _ & Hpn & Hd).
  exists c, r, st', s, st1. split; [reflexivity|]. split; [exact F|].
  split; [exact Hpn|]. apply (Hd 0 0); simpl; lia.
Defined.

(** C3 at a cross attention of 8 heads over 3 queries and 5 keys, with a
    mask. *)
Lemma C3_masked_cross_attention :
  exists m r st',
    attention.CrossModuleAttention_init sd_zero "attention" 16 8 8 16 8 0 = Ok m /\
    attention.CrossModuleAttention_forward m (zeros [2; 3; 16]) (zeros [2; 5; 8])
      (zeros [2; 5; 8]) (Some cross_attention_mask) eval_mode = Ok (r, st') /\
    shape (attn_weights r) = [2; 8; 3; 5] /\
    Rsum 5 (fun j => data (attn_weights r) [0; 0; 0; j]) = 1%R.
Proof.
  assert (Hh : match attention.CrossModuleAttention_init sd_zero "attention" 16 8 8 16 8 0
               with
               | Ok m => Z.to_nat (attention.cm_num_heads m) =? 8
               | Err _ => false
               end = true) by (vm_compute; reflexivity).
  destruct (attention.CrossModuleAttention_init sd_zero "attention" 16 8 8 16 8 0)
    as [m|e] eqn:E; [|discriminate Hh].
  destruct (attention.CrossModuleAttention_forward m (zeros [2; 3; 16]) (zeros [2; 5; 8])
              (zeros [2; 5; 8]) (Some cross_attention_mask) eval_mode)
    as [[r st']|e] eqn:F; [|returns_by_evaluation E F].
  destruct (proj1 (C3_attention_weights_shape_and_row_sums 2 3 5 (zeros [2; 3; 16])
                     (zeros [2; 5; 8]) (zeros [2; 5; 8]) (Some cross_attention_mask)
                     eval_mode st' r ltac:(lia) eq_refl)
              m 16 8 eq_refl eq_refl eq_refl F) as [Hs Hsum].
  exists m, r, st'. split; [reflexivity|]. split; [exact F|].
  apply Nat.eqb_eq in Hh. rewrite Hh in Hs. split; [exact Hs | apply Hsum].
Defined.

(** * Further properties *)

(** ** Running the monads forwards *)

Lemma rbind_step {A B} (r : result A) (k : A -> result B) a :
  r = Ok a -> rbind r k = k a.
Proof. intros ->. reflexivity. Qed.

Lemma bind_lift_step {A B} (r : result A) (k : A -> M B) st a :
  r = Ok a -> bind (lift r) k st = k a st.
Proof. intros ->. reflexivity. Qed.

Lemma for_range_total {S} (P : S -> Prop) (body : nat -> S -> M S) n :
  (forall i s st, i < n -> P s -> exists s' st', body i s st = Ok (s', st') /\ P s') ->
  forall s st, P s -> exists s' st', for_range n body s st = Ok (s', st') /\ P s'.
Proof.
  induction n as [|k IH]; intros Hbody s st Hs.
  - exists s, st. split; [reflexivity | exact Hs].
  - destruct (IH (fun i s0 st0 Hi => Hbody i s0 st0 (Nat.lt_lt_succ_r _ _ Hi)) s st Hs)
      as (s1 & st1 & H1 & P1).
    destruct (Hbody k s1 st1 (Nat.lt_succ_diag_r k) P1) as (s2 & st2 & H2 & P2).
    exists s2, st2. split; [|exact P2].
    change (for_range (Datatypes.S k) body s st)
      with (bind (for_range k body s) (body k) st).
    rewrite (bind_step _ _ _ _ _ H1). exact H2.
Qed.

Lemma build_list_nth_error {A} (f : nat -> result A) n l i :
  build_list f n = Ok l -> i < n -> exists a, module_at l i = Ok a /\ f i = Ok a.
Proof.
  intros H Hi. destruct (build_list_nth f n l H i Hi) as (a & Ha & Hf).
  exists a. unfold module_at. rewrite Ha. auto.
Qed.

(** ** Operations that cannot fail on operands of the right shape *)

Lemma Linear_forward_total l x pre :
  shape x = pre ++ [in_features l] ->
  exists y, Linear_forward l x = Ok y /\ shape y = pre ++ [out_features l].
Proof.
  intro Hx. unfold Linear_forward. rewrite Hx, rev_app_distr. simpl.
  rewrite Nat.eqb_refl. eexists. split; [reflexivity|]. simpl.
  rewrite rev_involutive. reflexivity.
Qed.

Lemma LayerNorm_forward_total n x pre :
  shape x = pre ++ [normalized_shape n] ->
  exists y, LayerNorm_forward n x = Ok y /\ shape y = shape x.
Proof.
  intro Hx. unfold LayerNorm_forward. rewrite Hx, rev_app_distr. simpl.
  rewrite Nat.eqb_refl. eexists. split; reflexivity.
Qed.

Lemma map2_bc_total f a b :
  shape a = shape b -> exists c, map2_bc f a b = Ok c /\ shape c = shape a.
Proof.
  intro H. unfold map2_bc. rewrite H, broadcast_same. eexists. split; reflexivity.
Qed.

Lemma add_total a b : shape a = shape b -> exists c, add a b = Ok c /\ shape c = shape a.
Proof. apply map2_bc_total. Qed.

Lemma mul_total a b : shape a = shape b -> exists c, mul a b = Ok c /\ shape c = shape a.
Proof. apply map2_bc_total. Qed.

Lemma Dropout_forward_total d x st :
  exists y st', Dropout_forward d x st = Ok (y, st') /\ shape y = shape x /\
                training st' = training st.
Proof.
  unfold Dropout_forward. destruct (training st) eqn:E.
  - eexists _, _. split; [reflexivity|]. simpl. auto.
  - exists x, st. auto.
Qed.

Lemma cat_last_total a b pre la lb :
  shape a = pre ++ [la] -> shape b = pre ++ [lb] ->
  exists y, cat_last a b = Ok y /\ shape y = pre ++ [la + lb].
Proof.
  intros Ha Hb. unfold cat_last. rewrite Ha, Hb, !rev_app_distr. simpl.
  unfold shape_eqb. destruct (list_eq_dec Nat.eq_dec (rev pre) (rev pre)); [|congruence].
  eexists. split; [reflexivity|]. simpl. rewrite rev_involutive. reflexivity.
Qed.

Lemma GRUCell_forward_total g x h b :
  shape x = [b; input_size g] -> shape h = [b; hidden_size g] ->
  exists y, GRUCell_forward g x h = Ok y /\ shape y = [b; hidden_size g].
Proof.
  intros Hx Hh. unfold GRUCell_forward. rewrite Hx, Hh, !Nat.eqb_refl. simpl.
  eexists. split; reflexivity.
Qed.

Lemma blend_total gate A B s :
  shape gate = s -> shape A = s -> shape B = s ->
  exists ga gb out, mul gate A = Ok ga /\ mul (one_minus gate) B = Ok gb /\
                    add ga gb = Ok out /\ shape out = s.
Proof.
  intros Hg HA HB.
  destruct (mul_total gate A) as (ga & Hga & Hsa); [congruence|].
  destruct (mul_total (one_minus gate) B) as (gb & Hgb & Hsb); [simpl; congruence|].
  destruct (add_total ga gb) as (out & Hout & Hso); [simpl in *; congruence|].
  exists ga, gb, out. simpl in *. repeat split; congruence.
Qed.

(** ** What the constructors build, in full *)

Lemma Linear_init_dims sd name i o l :
  Linear_init sd name i o = Ok l -> Linear_dims (Z.to_nat i) (Z.to_nat o) l.
Proof. intro H. apply Linear_init_ok in H. destruct H as (? & ? & _). split; assumption. Qed.

Lemma LayerNorm_init_ok sd name d n :
  LayerNorm_init sd name d = Ok n -> normalized_shape n = Z.to_nat d /\ (0 <= d)%Z.
Proof.
  unfold LayerNorm_init. intro H. minv H. apply size_of_ok in E. destruct E as [-> ?].
  inversion H; subst. simpl. auto.
Qed.

Lemma WorkerLayer_init_built sd name dim dropout use_conv use_gru l :
  worker.WorkerLayer_init sd name dim dropout use_conv use_gru = Ok l ->
  WorkerLayer_built (Z.to_nat dim) use_conv use_gru l.
Proof.
  unfold worker.WorkerLayer_init. intro H. minv H. inversion H; subst; clear H.
  unfold WorkerLayer_built. cbn [worker.wl_use_conv worker.wl_use_gru
    worker.wl_linear_transform worker.wl_gate worker.wl_conv_layer worker.wl_gru_cell].
  repeat match goal with
         | Hl : Linear_init _ _ _ _ = Ok _ |- _ =>
             let Hd := fresh "Hd" in
             pose proof (Linear_init_dims _ _ _ _ _ Hl) as Hd;
             apply Linear_init_ok in Hl
         end.
  split; [reflexivity|]. split; [reflexivity|]. split; [assumption|].
  split.
  { match goal with
    | Hd : Linear_dims (Z.to_nat (dim * 2)) _ _ |- _ =>
        replace (Z.to_nat (dim * 2)) with (Z.to_nat dim + Z.to_nat dim) in Hd by lia;
        exact Hd
    end. }
  split.
  - intros ->.
    match goal with
    | Hc : rbind (Conv1d_init _ _ _ _) _ = Ok _ |- _ =>
        apply rbind_ok in Hc; destruct Hc as (c & Hc & Heq); inversion Heq; subst;
        apply Conv1d_init_ok in Hc; destruct Hc as (? & ? & _); eauto
    end.
  - intros ->.
    match goal with
    | Hg : rbind (GRUCell_init _ _ _ _) _ = Ok _ |- _ =>
        apply rbind_ok in Hg; destruct Hg as (g & Hg & Heq); inversion Heq; subst;
        apply GRUCell_init_ok in Hg; destruct Hg as (? & ? & _); eauto
    end.
Qed.

(** ** The worker layer *)

Lemma WorkerLayer_conv_output_total (l : worker.WorkerLayer) x b d uc ug :
  WorkerLayer_built d uc ug l -> uc = false \/ d = 1 -> shape x = [b; d] ->
  exists y, worker.WorkerLayer_conv_output l x = Ok y /\ shape y = [b; d].
Proof.
  intros (Huc & _ & _ & _ & Hconv & _) Hor Hx. unfold worker.WorkerLayer_conv_output.
  rewrite Huc. destruct uc.
  - destruct Hor as [Hor|Hor]; [discriminate|]. subst d.
    destruct (Hconv eq_refl) as (c & -> & Hin & Hout).
    unfold unsqueeze, rank. rewrite Hx. cbn [length norm_dim].
    change (norm_dim 3 (-1)) with (@Ok nat 2). cbn [rbind].
    unfold transpose, rank. cbn [shape insert_at firstn skipn app length].
    change (norm_dim 3 1) with (@Ok nat 1). change (norm_dim 3 2) with (@Ok nat 2).
    cbn [rbind]. unfold Conv1d_forward. cbn [shape swap nth set_nth].
    rewrite Hin. cbn [Nat.eqb Nat.leb]. cbn [rbind].
    unfold squeeze, rank. cbn [shape length]. change (norm_dim 3 (-1)) with (@Ok nat 2).
    cbn [rbind nth]. rewrite Hout. cbn [Nat.eqb].
    eexists. split; reflexivity.
  - exists x. auto.
Qed.

Lemma WorkerLayer_gru_output_total (l : worker.WorkerLayer) x h b d uc ug :
  WorkerLayer_built d uc ug l -> shape x = [b; d] -> shape h = [b; d] ->
  exists y, worker.WorkerLayer_gru_output l x h = Ok y /\ shape y = [b; d].
Proof.
  intros (_ & Hug & _ & _ & _ & Hgru) Hx Hh. unfold worker.WorkerLayer_gru_output.
  rewrite Hug. destruct ug.
  - destruct (Hgru eq_refl) as (g & -> & Hin & Hhid).
    destruct (GRUCell_forward_total g x h b) as (y & Hy & Hs); [congruence..|].
    exists y. split; [exact Hy | congruence].
  - exists x. auto.
Qed.

Lemma WorkerLayer_fuse_total (l : worker.WorkerLayer) conv gru b d :
  Linear_dims (d + d) d (worker.wl_gate l) -> shape conv = [b; d] -> shape gru = [b; d] ->
  exists y, worker.WorkerLayer_fuse l conv gru = Ok y /\ shape y = [b; d].
Proof.
  intros [Hin Hout] Hc Hg. unfold worker.WorkerLayer_fuse, worker.WorkerLayer_gate.
  destruct (cat_last_total conv gru [b] d d Hc Hg) as (cat & Hcat & Hscat).
  rewrite (rbind_step _ _ _ Hcat).
  destruct (Linear_forward_total (worker.wl_gate l) cat [b]) as (z & Hz & Hsz);
    [rewrite Hscat, Hin; reflexivity|].
  rewrite (rbind_step _ _ _ Hz). cbn [rbind].
  destruct (blend_total (tmap sigmoid z) conv gru [b; d]) as (ga & gb & out & H1 & H2 & H3 & Hs);
    [simpl; rewrite Hsz, Hout; reflexivity | assumption | assumption |].
  rewrite H1, H2. cbn [rbind]. exists out. auto.
Qed.

Lemma WorkerLayer_forward_total (l : worker.WorkerLayer) x h st b d uc ug :
  WorkerLayer_built d uc ug l -> uc = false \/ d = 1 ->
  shape x = [b; d] -> shape h = [b; d] ->
  exists r st', worker.WorkerLayer_forward l x h st = Ok (r, st') /\
                shape (worker.lo_output r) = [b; d] /\
                shape (worker.lo_hidden_state r) = [b; d].
Proof.
  intros Hb Hor Hx Hh. pose proof Hb as (_ & _ & [Hlin Hlout] & Hgate & _).
  unfold worker.WorkerLayer_forward, worker.shape0. rewrite Hx.
  rewrite (bind_lift_step _ _ _ _ eq_refl).
  destruct (Linear_forward_total (worker.wl_linear_transform l) x [b]) as (lin & Hl & Hsl);
    [rewrite Hx, Hlin; reflexivity|].
  rewrite (bind_lift_step _ _ _ _ Hl).
  destruct (WorkerLayer_conv_output_total l x b d uc ug Hb Hor Hx) as (conv & Hc & Hsc).
  rewrite (bind_lift_step _ _ _ _ Hc).
  destruct (WorkerLayer_gru_output_total l x h b d uc ug Hb Hx Hh) as (gru & Hg & Hsg).
  rewrite (bind_lift_step _ _ _ _ Hg).
  destruct (WorkerLayer_fuse_total l conv gru b d Hgate Hsc Hsg) as (fused & Hf & Hsf).
  rewrite (bind_lift_step _ _ _ _ Hf).
  destruct (add_total fused lin) as (pre & Hp & Hsp); [simpl in *; congruence|].
  rewrite (bind_lift_step _ _ _ _ Hp).
  destruct (Dropout_forward_total (worker.wl_dropout_layer l) pre st)
    as (out & st1 & Hd & Hso & _).
  rewrite (bind_step _ _ _ _ _ Hd).
  destruct (add_total h out) as (new & Hn & Hsn); [simpl in *; congruence|].
  rewrite (bind_lift_step _ _ _ _ Hn).
  eexists _, _. split; [reflexivity|]. simpl. split; congruence.
Qed.

Lemma module_at_total {A} (P : A -> Prop) (l : list A) i :
  Forall P l -> i < length l -> exists a, module_at l i = Ok a /\ P a.
Proof.
  intros HF Hi. unfold module_at.
  destruct (nth_error l i) as [a|] eqn:E.
  - exists a. split; [reflexivity|].
    rewrite Forall_forall in HF. apply HF. eapply nth_error_In; eauto.
  - apply nth_error_None in E. lia.
Qed.

Ltac dims_of_inits :=
  repeat match goal with
         | Hl : Linear_init _ _ _ _ = Ok _ |- _ => apply Linear_init_dims in Hl
         | Hl : LayerNorm_init _ _ _ = Ok _ |- _ =>
             apply LayerNorm_init_ok in Hl; destruct Hl as [Hl _]
         end.

Ltac double_dims dim :=
  repeat match goal with
         | H : context [Z.to_nat (dim * 2)] |- _ =>
             replace (Z.to_nat (dim * 2)) with (Z.to_nat dim + Z.to_nat dim) in H by lia
         end.

Lemma PatternRecognitionNetwork_init_built sd name dim dropout n :
  worker.PatternRecognitionNetwork_init sd name dim dropout = Ok n ->
  PatternRecognitionNetwork_built (Z.to_nat dim) n.
Proof.
  unfold worker.PatternRecognitionNetwork_init. intro H. minv H. inversion H; subst; clear H.
  dims_of_inits. double_dims dim. repeat split; simpl; try assumption;
    match goal with H : Linear_dims _ _ ?l |- _ ?l = _ => apply H end.
Qed.

Lemma FastResponseNetwork_init_built sd name dim dropout n :
  worker.FastResponseNetwork_init sd name dim dropout = Ok n ->
  FastResponseNetwork_built (Z.to_nat dim) n.
Proof.
  unfold worker.FastResponseNetwork_init. intro H. minv H. inversion H; subst; clear H.
  dims_of_inits. repeat split; simpl; try assumption;
    match goal with H : Linear_dims _ _ ?l |- _ ?l = _ => apply H end.
Qed.

Lemma Worker_init_built sd name dim n dropout use_conv use_gru w :
  worker.Worker_init sd name dim n dropout use_conv use_gru = Ok w ->
  Worker_built (Z.to_nat dim) use_conv use_gru (Z.to_nat n) w.
Proof.
  unfold worker.Worker_init. intro H. minv H. inversion H; subst; clear H.
  unfold Worker_built. cbn [worker.num_layers worker.input_projection worker.worker_layers
    worker.layer_norms worker.pattern_network worker.response_network].
  match goal with
  | Hwl : build_list (fun i => worker.WorkerLayer_init _ _ _ _ _ _) _ = Ok ?wl,
    Hln : build_list (fun i => LayerNorm_init _ _ _) _ = Ok ?ln,
    Hip : Linear_init _ _ _ _ = Ok _,
    Hpn : worker.PatternRecognitionNetwork_init _ _ _ _ = Ok _,
    Hrn : worker.FastResponseNetwork_init _ _ _ _ = Ok _ |- _ =>
      split; [reflexivity|];
      split; [exact (Linear_init_dims _ _ _ _ _ Hip)|];
      split; [exact (build_list_length _ _ _ Hwl)|];
      split; [refine (build_list_Forall _ _ _ _ _ Hwl); intros i a Ha;
              exact (WorkerLayer_init_built _ _ _ _ _ _ _ Ha)|];
      split; [exact (build_list_length _ _ _ Hln)|];
      split; [refine (build_list_Forall _ _ _ _ _ Hln); intros i a Ha;
              apply LayerNorm_init_ok in Ha; apply Ha|];
      split; [exact (PatternRecognitionNetwork_init_built _ _ _ _ _ Hpn)
             | exact (FastResponseNetwork_init_built _ _ _ _ _ Hrn)]
  end.
Qed.

(** ** The worker *)

Lemma PatternRecognitionNetwork_forward_total (n : worker.PatternRecognitionNetwork)
    x st b d :
  PatternRecognitionNetwork_built d n -> shape x = [b; d] ->
  exists y st', worker.PatternRecognitionNetwork_forward n x st = Ok (y, st') /\
                shape y = [b; d].
Proof.
  intros ([Hi0 Ho0] & [Hi3 Ho3] & [Hi6 Ho6] & Hln) Hx.
  unfold worker.PatternRecognitionNetwork_forward.
  destruct (LayerNorm_forward_total (worker.pr_layer_norm n) x [b]) as (xn & Hxn & Hsxn);
    [rewrite Hx, Hln; reflexivity|].
  rewrite (bind_lift_step _ _ _ _ Hxn).
  destruct (Linear_forward_total (worker.pr_linear0 n) xn [b]) as (h0 & Hh0 & Hs0);
    [rewrite Hsxn, Hx, Hi0; reflexivity|].
  rewrite (bind_lift_step _ _ _ _ Hh0).
  destruct (Dropout_forward_total (worker.pr_dropout2 n) (tmap relu h0) st)
    as (h1 & st1 & Hh1 & Hs1 & _).
  rewrite (bind_step _ _ _ _ _ Hh1).
  destruct (Linear_forward_total (worker.pr_linear3 n) h1 [b]) as (h2 & Hh2 & Hs2);
    [rewrite Hs1; simpl; rewrite Hs0, Ho0, Hi3; reflexivity|].
  rewrite (bind_lift_step _ _ _ _ Hh2).
  destruct (Dropout_forward_total (worker.pr_dropout5 n) (tmap relu h2) st1)
    as (h3 & st2 & Hh3 & Hs3 & _).
  rewrite (bind_step _ _ _ _ _ Hh3).
  destruct (Linear_forward_total (worker.pr_linear6 n) h3 [b]) as (y & Hy & Hsy);
    [rewrite Hs3; simpl; rewrite Hs2, Ho3, Hi6; reflexivity|].
  rewrite (bind_lift_step _ _ _ _ Hy).
  exists y, st2. split; [reflexivity|]. rewrite Hsy, Ho6. reflexivity.
Qed.

Lemma FastResponseNetwork_forward_total (n : worker.FastResponseNetwork) x st b d :
  FastResponseNetwork_built d n -> shape x = [b; d] ->
  exists y st', worker.FastResponseNetwork_forward n x st = Ok (y, st') /\
                shape y = [b; d].
Proof.
  intros ([Hi0 Ho0] & [Hi3 Ho3] & Hln) Hx.
  unfold worker.FastResponseNetwork_forward.
  destruct (LayerNorm_forward_total (worker.fr_layer_norm n) x [b]) as (xn & Hxn & Hsxn);
    [rewrite Hx, Hln; reflexivity|].
  rewrite (bind_lift_step _ _ _ _ Hxn).
  destruct (Linear_forward_total (worker.fr_linear0 n) xn [b]) as (h0 & Hh0 & Hs0);
    [rewrite Hsxn, Hx, Hi0; reflexivity|].
  rewrite (bind_lift_step _ _ _ _ Hh0).
  destruct (Dropout_forward_total (worker.fr_dropout2 n) (tmap relu h0) st)
    as (h1 & st1 & Hh1 & Hs1 & _).
  rewrite (bind_step _ _ _ _ _ Hh1).
  destruct (Linear_forward_total (worker.fr_linear3 n) h1 [b]) as (y & Hy & Hsy);
    [rewrite Hs1; simpl; rewrite Hs0, Ho0, Hi3; reflexivity|].
  rewrite (bind_lift_step _ _ _ _ Hy).
  exists y, st1. split; [reflexivity|]. rewrite Hsy, Ho3. reflexivity.
Qed.

Lemma Worker_layer_total (w : worker.Worker) i s st b d uc ug L :
  Worker_built d uc ug L w -> uc = false \/ d = 1 -> i < L ->
  shape (worker.ls_x s) = [b; d] -> shape (worker.ls_current_hidden s) = [b; d] ->
  exists s' st', worker.Worker_layer w i s st = Ok (s', st') /\
                 shape (worker.ls_x s') = [b; d] /\
                 shape (worker.ls_current_hidden s') = [b; d].
Proof.
  intros Hb Hor Hi Hx Hh.
  pose proof Hb as (_ & _ & Hlw & HFw & Hln & HFn & _).
  unfold worker.Worker_layer.
  destruct (module_at_total _ (worker.layer_norms w) i HFn) as (ln & Hm & Hd); [lia|].
  rewrite (bind_lift_step _ _ _ _ Hm).
  destruct (LayerNorm_forward_total ln (worker.ls_x s) [b]) as (xn & Hxn & Hsxn);
    [rewrite Hx, Hd; reflexivity|].
  rewrite (bind_lift_step _ _ _ _ Hxn).
  destruct (module_at_total _ (worker.worker_layers w) i HFw) as (wl & Hwl & Hwb); [lia|].
  rewrite (bind_lift_step _ _ _ _ Hwl).
  destruct (WorkerLayer_forward_total wl xn (worker.ls_current_hidden s) st b d uc ug
              Hwb Hor) as (r & st1 & Hr & Hso & Hsnh); [congruence | assumption |].
  rewrite (bind_step _ _ _ _ _ Hr).
  destruct (Dropout_forward_total (worker.dropout_layer w) (worker.lo_output r) st1)
    as (dr & st2 & Hdr & Hsdr & _).
  rewrite (bind_step _ _ _ _ _ Hdr).
  destruct (add_total (worker.ls_x s) dr) as (x' & Hx' & Hsx'); [congruence|].
  rewrite (bind_lift_step _ _ _ _ Hx').
  eexists _, _. split; [reflexivity|]. simpl. split; congruence.
Qed.

Lemma Worker_forward_total (w : worker.Worker) x h st b d uc ug L :
  Worker_built d uc ug L w -> uc = false \/ d = 1 \/ L = 0 ->
  shape x = [b; d] -> shape h = [b; d] ->
  exists r st', worker.Worker_forward w x h st = Ok (r, st') /\
                shape (worker.hidden_state r) = [b; d] /\
                length (worker.layer_outputs r) = L.
Proof.
  intros Hb Hor Hx Hh.
  pose proof Hb as (HL & [Hin Hout] & _ & _ & _ & _ & Hpn & Hrn).
  unfold worker.Worker_forward, worker.shape0. rewrite Hx.
  rewrite (bind_lift_step _ _ _ _ eq_refl).
  destruct (Linear_forward_total (worker.input_projection w) x [b]) as (x0 & Hx0 & Hsx0);
    [rewrite Hx, Hin; reflexivity|].
  rewrite (bind_lift_step _ _ _ _ Hx0). rewrite Hout in Hsx0.
  destruct (for_range_total
              (fun s => shape (worker.ls_x s) = [b; d] /\
                        shape (worker.ls_current_hidden s) = [b; d])
              (worker.Worker_layer w) L) with (s := worker.mkLayerState x0 h [])
                                              (st := st)
    as (s & st1 & Hloop & Hsx & Hsh).
  { intros i s0 st0 Hi [H1 H2].
    assert (Hor' : uc = false \/ d = 1) by (destruct Hor as [?|[?|?]]; [auto | auto | lia]).
    destruct (Worker_layer_total w i s0 st0 b d uc ug L Hb Hor' Hi H1 H2)
      as (s' & st' & Hs' & ? & ?).
    exists s', st'. auto. }
  { split; assumption. }
  rewrite HL. rewrite (bind_step _ _ _ _ _ Hloop).
  destruct (PatternRecognitionNetwork_forward_total _ (worker.ls_current_hidden s) st1 b d
              Hpn Hsh) as (po & st2 & Hpo & Hspo).
  rewrite (bind_step _ _ _ _ _ Hpo).
  destruct (FastResponseNetwork_forward_total _ (worker.ls_current_hidden s) st2 b d
              Hrn Hsh) as (ro & st3 & Hro & Hsro).
  rewrite (bind_step _ _ _ _ _ Hro).
  destruct (add_total (worker.ls_current_hidden s) po) as (h1 & Hh1 & Hsh1); [congruence|].
  rewrite (bind_lift_step _ _ _ _ Hh1).
  destruct (add_total h1 ro) as (fh & Hfh & Hsfh); [congruence|].
  rewrite (bind_lift_step _ _ _ _ Hfh).
  eexists _, _. split; [reflexivity|]. simpl. split; [congruence|].
  rewrite (for_range_count (fun s => length (worker.ls_layer_outputs s))
             (worker.Worker_layer w)) with (n := L) (s := worker.mkLayerState x0 h [])
                                           (st := st) (st' := st1);
    [simpl; lia | | exact Hloop].
  intros i s0 st0 s1 st4 Hl. unfold worker.Worker_layer in Hl. minv Hl.
  match goal with
  | Heq : _ = s1 |- _ => rewrite <- Heq
  | Heq : s1 = _ |- _ => rewrite Heq
  end.
  simpl. rewrite length_app. simpl. lia.
Qed.

(** ** The attention block *)

Lemma view_total sizes t :
  numel (map Z.to_nat (map Z.of_nat sizes)) = numel (shape t) ->
  exists y, view (map Z.of_nat sizes) t = Ok y /\ shape y = sizes.
Proof.
  intro Hn. unfold view.
  assert (Hpos : forallb (fun z => (0 <=? z)%Z) (map Z.of_nat sizes) = true).
  { apply forallb_forall. intros z Hz. apply in_map_iff in Hz.
    destruct Hz as (n & <- & _). apply Z.leb_le. lia. }
  rewrite Hpos, Hn, Nat.eqb_refl. eexists. split; [reflexivity|]. simpl.
  rewrite map_map. rewrite <- (map_id sizes) at 2. apply map_ext. intro. apply Nat2Z.id.
Qed.

Lemma split_heads_total t b s d H hd :
  shape t = [b; s; d] -> H * hd = d ->
  exists y, split_heads t b s (Z.of_nat H) (Z.of_nat hd) = Ok y /\
            shape y = [b; H; s; hd].
Proof.
  intros Ht Hd. unfold split_heads.
  destruct (view_total [b; s; H; hd] t) as (v & Hv & Hsv).
  { rewrite Ht. simpl. rewrite !Nat2Z.id. subst d. ring. }
  change [Z.of_nat b; Z.of_nat s; Z.of_nat H; Z.of_nat hd]
    with (map Z.of_nat [b; s; H; hd]).
  rewrite (rbind_step _ _ _ Hv).
  destruct (transpose12_rank4 v b s H hd Hsv) as (y & Hy & Hsy). eauto.
Qed.

Lemma merge_heads_total t b s d H hd :
  shape t = [b; H; s; hd] -> H * hd = d ->
  exists y, merge_heads t b s (Z.of_nat d) = Ok y /\ shape y = [b; s; d].
Proof.
  intros Ht Hd. unfold merge_heads.
  destruct (transpose12_rank4 t b H s hd Ht) as (tt & Htt & Hstt).
  rewrite (rbind_step _ _ _ Htt). unfold contiguous.
  destruct (view_total [b; s; d] tt) as (v & Hv & Hsv).
  { rewrite Hstt. simpl. rewrite !Nat2Z.id. subst d. ring. }
  exists v. auto.
Qed.

Lemma matmul_total x y b h n m q :
  shape x = [b; h; n; m] -> shape y = [b; h; m; q] ->
  exists z, matmul x y = Ok z /\ shape z = [b; h; n; q].
Proof.
  intros Hx Hy. unfold matmul, split_last2. rewrite Hx, Hy. cbn [rev app].
  rewrite Nat.eqb_refl, broadcast_same. eexists. split; reflexivity.
Qed.

Lemma attention_scores_total Q K hd mask b h sq sk e :
  shape Q = [b; h; sq; e] -> shape K = [b; h; sk; e] ->
  mask_fits b sk mask ->
  exists sc, attention_scores Q K hd mask = Ok sc /\ shape sc = [b; h; sq; sk].
Proof.
  intros HQ HK Hm. unfold attention_scores.
  destruct (transpose_last2_rank4 K b h sk e HK) as (Kt & HKt & HsKt).
  rewrite (rbind_step _ _ _ HKt).
  destruct (matmul_total Q Kt b h sq e sk HQ HsKt) as (qk & Hqk & Hsqk).
  rewrite (rbind_step _ _ _ Hqk).
  destruct mask as [m|]; [|eexists; split; [reflexivity | exact Hsqk]].
  simpl in Hm.
  destruct (unsqueeze1_rank2 m b sk Hm) as (m1 & Hm1 & Hsm1 & _).
  rewrite (rbind_step _ _ _ Hm1).
  destruct (unsqueeze1_rank3 m1 b 1 sk Hsm1) as (m2 & Hm2 & Hsm2).
  rewrite (rbind_step _ _ _ Hm2).
  unfold masked_fill_eq0. rewrite Hsm2. cbn [shape div_scalar tmap]. rewrite Hsqk.
  rewrite broadcast_mask. eexists. split; reflexivity.
Qed.

Lemma attention_core_total d Q K V hd mask st b h sq sk e :
  shape Q = [b; h; sq; e] -> shape K = [b; h; sk; e] -> shape V = [b; h; sk; e] ->
  mask_fits b sk mask ->
  exists att w st', attention_core d Q K V hd mask st = Ok ((att, w), st') /\
                    shape att = [b; h; sq; e] /\ shape w = [b; h; sq; sk].
Proof.
  intros HQ HK HV Hm. unfold attention_core.
  destruct (attention_scores_total Q K hd mask b h sq sk e HQ HK Hm) as (sc & Hsc & Hssc).
  rewrite (bind_lift_step _ _ _ _ Hsc).
  destruct (Dropout_forward_total d (softmax_last sc) st) as (w & st1 & Hw & Hsw & _).
  rewrite (bind_step _ _ _ _ _ Hw). simpl in Hsw. rewrite Hssc in Hsw.
  destruct (matmul_total w V b h sq sk e Hsw HV) as (att & Hatt & Hsatt).
  rewrite (bind_lift_step _ _ _ _ Hatt).
  exists att, w, st1. auto.
Qed.

(** ** The controller, built and run *)

Lemma heads_times_head_dim dim num_heads :
  (0 <= dim)%Z -> (0 < num_heads)%Z -> (dim mod num_heads = 0)%Z ->
  Z.to_nat num_heads * Z.to_nat (dim / num_heads) = Z.to_nat dim.
Proof.
  intros Hd Hh Hm. rewrite <- Z2Nat.inj_mul; [|lia|apply Z.div_pos; lia].
  f_equal. symmetry. apply Z_div_exact_full_2; [lia | exact Hm].
Qed.

Lemma floordiv_ok a b q : floordiv a b = Ok q -> b <> 0%Z /\ q = (a / b)%Z.
Proof.
  unfold floordiv. destruct (b =? 0)%Z eqn:E; [discriminate|].
  intro H. inversion H. apply Z.eqb_neq in E. auto.
Qed.

Lemma pymod_ok a b r : pymod a b = Ok r -> b <> 0%Z /\ r = (a mod b)%Z.
Proof.
  unfold pymod. destruct (b =? 0)%Z eqn:E; [discriminate|].
  intro H. inversion H. apply Z.eqb_neq in E. auto.
Qed.

Lemma assert_ok c msg u : assert c msg = Ok u -> c = true.
Proof. unfold assert. destruct c; [reflexivity | discriminate]. Qed.

Lemma MultiHeadAttention_init_built sd name dim num_heads dropout gated m :
  (0 < num_heads)%Z ->
  controller.MultiHeadAttention_init sd name dim num_heads dropout gated = Ok m ->
  MultiHeadAttention_built (Z.to_nat dim) (Z.to_nat num_heads)
    (Z.to_nat (dim / num_heads)) gated m.
Proof.
  intros Hh H. unfold controller.MultiHeadAttention_init in H. minv H.
  inversion H; subst; clear H.
  match goal with
  | Hf : floordiv _ _ = Ok _, Hp : pymod _ _ = Ok _, Ha : assert _ _ = Ok _ |- _ =>
      apply floordiv_ok in Hf; destruct Hf as [_ ->];
      apply pymod_ok in Hp; destruct Hp as [_ ->];
      apply assert_ok in Ha; apply Z.eqb_eq in Ha
  end.
  assert (Hdim : (0 <= dim)%Z).
  { match goal with
    | Hl : Linear_init _ (sub name "query_proj") _ _ = Ok _ |- _ =>
        apply Linear_init_ok in Hl; lia
    end. }
  unfold MultiHeadAttention_built.
  cbn [controller.mha_dim controller.mha_num_heads controller.mha_head_dim
       controller.mha_use_gated controller.mha_query_proj controller.mha_key_proj
       controller.mha_value_proj controller.mha_output_proj controller.mha_gate].
  split; [lia|]. split; [lia|].
  split; [rewrite Z2Nat.id; [reflexivity | apply Z.div_pos; lia]|].
  split; [apply heads_times_head_dim; assumption|].
  split; [reflexivity|].
  repeat match goal with
         | Hl : Linear_init _ _ _ _ = Ok ?l |- Linear_dims _ _ ?l /\ _ =>
             split; [exact (Linear_init_dims _ _ _ _ _ Hl)|]
         end.
  intros ->.
  match goal with
  | Hg : rbind (Linear_init _ _ _ _) _ = Ok _ |- _ =>
      apply rbind_ok in Hg; destruct Hg as (g & Hg & Heq); inversion Heq; subst;
      exists g; split; [reflexivity | exact (Linear_init_dims _ _ _ _ _ Hg)]
  end.
Qed.

Lemma FeedForward_init_built sd name dim dropout f :
  controller.FeedForward_init sd name dim dropout = Ok f ->
  FeedForward_built (Z.to_nat dim) f.
Proof.
  unfold controller.FeedForward_init. intro H. minv H. inversion H; subst; clear H.
  dims_of_inits. double_dims dim. repeat split; simpl;
    match goal with H : Linear_dims _ _ ?l |- _ ?l = _ => apply H end.
Qed.

Lemma PlanningNetwork_init_built sd name dim dropout n :
  controller.PlanningNetwork_init sd name dim dropout = Ok n ->
  PlanningNetwork_built (Z.to_nat dim) n.
Proof.
  unfold controller.PlanningNetwork_init. intro H. minv H. inversion H; subst; clear H.
  dims_of_inits. double_dims dim. repeat split; simpl; try assumption;
    match goal with H : Linear_dims _ _ ?l |- _ ?l = _ => apply H end.
Qed.

Lemma GoalEncoder_init_built sd name dim g :
  controller.GoalEncoder_init sd name dim = Ok g -> GoalEncoder_built (Z.to_nat dim) g.
Proof.
  unfold controller.GoalEncoder_init. intro H. minv H. inversion H; subst; clear H.
  dims_of_inits. split; simpl; assumption.
Qed.

Lemma Controller_init_built sd name dim num_layers num_heads dropout gated c :
  (0 < num_heads)%Z ->
  controller.Controller_init sd name dim num_layers num_heads dropout gated = Ok c ->
  Controller_built (Z.to_nat dim) (Z.to_nat num_heads) (Z.to_nat (dim / num_heads))
    gated (Z.to_nat num_layers) c.
Proof.
  intros Hh H. unfold controller.Controller_init in H. minv H. inversion H; subst; clear H.
  unfold Controller_built.
  cbn [controller.num_layers controller.self_attention controller.feed_forward
       controller.layer_norms controller.planning_network controller.goal_encoder].
  match goal with
  | Hsa : build_list (fun i => controller.MultiHeadAttention_init _ _ _ _ _ _) _ = Ok _,
    Hff : build_list (fun i => controller.FeedForward_init _ _ _ _) _ = Ok _,
    Hln : build_list (fun i => LayerNorm_init _ _ _) _ = Ok _,
    Hpn : controller.PlanningNetwork_init _ _ _ _ = Ok _,
    Hge : controller.GoalEncoder_init _ _ _ = Ok _ |- _ =>
      split; [reflexivity|];
      split; [exact (build_list_length _ _ _ Hsa)|];
      split; [refine (build_list_Forall _ _ _ _ _ Hsa); intros i a Ha;
              exact (MultiHeadAttention_init_built _ _ _ _ _ _ _ Hh Ha)|];
      split; [exact (build_list_length _ _ _ Hff)|];
      split; [refine (build_list_Forall _ _ _ _ _ Hff); intros i a Ha;
              exact (FeedForward_init_built _ _ _ _ _ Ha)|];
      split; [rewrite (build_list_length _ _ _ Hln); lia|];
      split; [refine (build_list_Forall _ _ _ _ _ Hln); intros i a Ha;
              apply LayerNorm_init_ok in Ha; apply Ha|];
      split; [exact (PlanningNetwork_init_built _ _ _ _ _ Hpn)
             | exact (GoalEncoder_init_built _ _ _ _ Hge)]
  end.
Qed.

Lemma unpack3_total t a b c : shape t = [a; b; c] -> unpack3 t = Ok (a, b, c).
Proof. unfold unpack3. intros ->. reflexivity. Qed.

Lemma MultiHeadAttention_gating_total (m : controller.MultiHeadAttention) g query output
    b s d :
  controller.mha_gate m = Some g -> Linear_dims d d g ->
  shape query = [b; s; d] -> shape output = [b; s; d] ->
  exists y, controller.MultiHeadAttention_gating m query output = Ok y /\
            shape y = [b; s; d].
Proof.
  intros Hg [Hin Hout] Hq Ho.
  unfold controller.MultiHeadAttention_gating, controller.MultiHeadAttention_gate.
  rewrite Hg.
  destruct (Linear_forward_total g query [b; s]) as (z & Hz & Hsz);
    [rewrite Hq, Hin; reflexivity|].
  rewrite (rbind_step _ _ _ Hz). cbn [rbind].
  destruct (blend_total (tmap sigmoid z) output query [b; s; d])
    as (ga & gb & out & H1 & H2 & H3 & Hs);
    [simpl; rewrite Hsz, Hout; reflexivity | assumption | assumption |].
  rewrite H1, H2. cbn [rbind]. exists out. auto.
Qed.

Lemma controller_MultiHeadAttention_total (m : controller.MultiHeadAttention)
    q k v mask st b s d H hd gated :
  MultiHeadAttention_built d H hd gated m ->
  shape q = [b; s; d] -> shape k = [b; s; d] -> shape v = [b; s; d] ->
  mask_fits b s mask ->
  exists r st', controller.MultiHeadAttention_forward m q k v mask st = Ok (r, st') /\
                shape (attn_output r) = [b; s; d] /\
                shape (attn_weights r) = [b; H; s; s].
Proof.
  intros (Hdim & Hnh & Hhd & HHd & Hug & [Hqi Hqo] & [Hki Hko] & [Hvi Hvo] & [Hoi Hoo] & Hgate)
         Hq Hk Hv Hm.
  unfold controller.MultiHeadAttention_forward.
  rewrite (bind_lift_step _ _ _ _ (unpack3_total q b s d Hq)).
  destruct (Linear_forward_total (controller.mha_query_proj m) q [b; s]) as (Q & HQ & HsQ);
    [rewrite Hq, Hqi; reflexivity|].
  rewrite (bind_lift_step _ _ _ _ HQ).
  destruct (Linear_forward_total (controller.mha_key_proj m) k [b; s]) as (K & HK & HsK);
    [rewrite Hk, Hki; reflexivity|].
  rewrite (bind_lift_step _ _ _ _ HK).
  destruct (Linear_forward_total (controller.mha_value_proj m) v [b; s]) as (V & HV & HsV);
    [rewrite Hv, Hvi; reflexivity|].
  rewrite (bind_lift_step _ _ _ _ HV).
  rewrite Hqo in HsQ. rewrite Hko in HsK. rewrite Hvo in HsV.
  rewrite Hnh, Hhd, Hdim.
  destruct (split_heads_total Q b s d H hd HsQ HHd) as (Q' & HQ' & HsQ').
  rewrite (bind_lift_step _ _ _ _ HQ').
  destruct (split_heads_total K b s d H hd HsK HHd) as (K' & HK' & HsK').
  rewrite (bind_lift_step _ _ _ _ HK').
  destruct (split_heads_total V b s d H hd HsV HHd) as (V' & HV' & HsV').
  rewrite (bind_lift_step _ _ _ _ HV').
  destruct (attention_core_total (controller.mha_dropout_layer m) Q' K' V' (Z.of_nat hd)
              mask st b H s s hd HsQ' HsK' HsV' Hm) as (att & w & st1 & Hcore & Hsatt & Hsw).
  rewrite (bind_step _ _ _ _ _ Hcore).
  destruct (merge_heads_total att b s d H hd Hsatt HHd) as (mg & Hmg & Hsmg).
  rewrite (bind_lift_step _ _ _ _ Hmg).
  destruct (Linear_forward_total (controller.mha_output_proj m) mg [b; s]) as (o & Ho & Hso);
    [rewrite Hsmg, Hoi; reflexivity|].
  rewrite (bind_lift_step _ _ _ _ Ho). rewrite Hoo in Hso.
  rewrite Hug. destruct gated.
  - destruct (Hgate eq_refl) as (g & Hg & Hgd).
    destruct (MultiHeadAttention_gating_total m g q o b s d Hg Hgd Hq Hso) as (y & Hy & Hsy).
    rewrite (bind_lift_step _ _ _ _ Hy).
    eexists _, _. split; [reflexivity|]. simpl. auto.
  - rewrite (bind_lift_step _ _ _ _ eq_refl).
    eexists _, _. split; [reflexivity|]. simpl. auto.
Qed.

Lemma FeedForward_forward_total (f : controller.FeedForward) x st b s d :
  FeedForward_built d f -> shape x = [b; s; d] ->
  exists y st', controller.FeedForward_forward f x st = Ok (y, st') /\ shape y = [b; s; d].
Proof.
  intros ([Hgi Hgo] & [Hui Huo] & [Hdi Hdo]) Hx.
  unfold controller.FeedForward_forward, controller.FeedForward_gating,
    controller.FeedForward_gate, controller.FeedForward_up.
  destruct (Linear_forward_total (controller.ff_gate_proj f) x [b; s]) as (g & Hg & Hsg);
    [rewrite Hx, Hgi; reflexivity|].
  destruct (Linear_forward_total (controller.ff_up_proj f) x [b; s]) as (u & Hu & Hsu);
    [rewrite Hx, Hui; reflexivity|].
  rewrite Hg, Hu. cbn [rbind].
  destruct (mul_total (tmap sigmoid g) (tmap gelu u)) as (c & Hc & Hsc);
    [simpl; congruence|].
  rewrite (bind_lift_step _ _ _ _ Hc).
  destruct (Dropout_forward_total (controller.ff_dropout_layer f) c st)
    as (c' & st1 & Hc' & Hsc' & _).
  rewrite (bind_step _ _ _ _ _ Hc').
  destruct (Linear_forward_total (controller.ff_down_proj f) c' [b; s]) as (y & Hy & Hsy);
    [rewrite Hsc', Hsc; simpl; rewrite Hsg, Hgo, Hdi; reflexivity|].
  rewrite (bind_lift_step _ _ _ _ Hy).
  exists y, st1. split; [reflexivity|]. rewrite Hsy, Hdo. reflexivity.
Qed.

Lemma PlanningNetwork_forward_total (n : controller.PlanningNetwork) x st b d :
  PlanningNetwork_built d n -> shape x = [b; d] ->
  exists y st', controller.PlanningNetwork_forward n x st = Ok (y, st') /\
                shape y = [b; d].
Proof.
  intros ([Hi0 Ho0] & [Hi3 Ho3] & [Hi6 Ho6] & Hln) Hx.
  unfold controller.PlanningNetwork_forward.
  destruct (LayerNorm_forward_total (controller.pn_layer_norm n) x [b])
    as (xn & Hxn & Hsxn); [rewrite Hx, Hln; reflexivity|].
  rewrite (bind_lift_step _ _ _ _ Hxn).
  destruct (Linear_forward_total (controller.pn_linear0 n) xn [b]) as (h0 & Hh0 & Hs0);
    [rewrite Hsxn, Hx, Hi0; reflexivity|].
  rewrite (bind_lift_step _ _ _ _ Hh0).
  destruct (Dropout_forward_total (controller.pn_dropout2 n) (tmap gelu h0) st)
    as (h1 & st1 & Hh1 & Hs1 & _).
  rewrite (bind_step _ _ _ _ _ Hh1).
  destruct (Linear_forward_total (controller.pn_linear3 n) h1 [b]) as (h2 & Hh2 & Hs2);
    [rewrite Hs1; simpl; rewrite Hs0, Ho0, Hi3; reflexivity|].
  rewrite (bind_lift_step _ _ _ _ Hh2).
  destruct (Dropout_forward_total (controller.pn_dropout5 n) (tmap gelu h2) st1)
    as (h3 & st2 & Hh3 & Hs3 & _).
  rewrite (bind_step _ _ _ _ _ Hh3).
  destruct (Linear_forward_total (controller.pn_linear6 n) h3 [b]) as (y & Hy & Hsy);
    [rewrite Hs3; simpl; rewrite Hs2, Ho3, Hi6; reflexivity|].
  rewrite (bind_lift_step _ _ _ _ Hy).
  exists y, st2. split; [reflexivity|]. rewrite Hsy, Ho6. reflexivity.
Qed.

Lemma GoalEncoder_forward_total (g : controller.GoalEncoder) h b d :
  GoalEncoder_built d g -> shape h = [b; d] ->
  exists y, controller.GoalEncoder_forward g h = Ok y /\ shape y = [b; d].
Proof.
  intros ([Hi0 Ho0] & [Hi2 Ho2]) Hh. unfold controller.GoalEncoder_forward.
  destruct (Linear_forward_total (controller.ge_linear0 g) h [b]) as (h0 & Hh0 & Hs0);
    [rewrite Hh, Hi0; reflexivity|].
  rewrite (rbind_step _ _ _ Hh0).
  destruct (Linear_forward_total (controller.ge_linear2 g) (tmap gelu h0) [b])
    as (y & Hy & Hsy); [simpl; rewrite Hs0, Ho0, Hi2; reflexivity|].
  exists y. split; [exact Hy|]. rewrite Hsy, Ho2. reflexivity.
Qed.

Lemma mean_dim1_total x b s d :
  shape x = [b; s; d] -> exists y, mean_dim1 x = Ok y /\ shape y = [b; d].
Proof.
  intro Hx. unfold mean_dim1, rank. rewrite Hx. cbn [length].
  change (norm_dim 3 1) with (@Ok nat 1). cbn [rbind].
  eexists. split; reflexivity.
Qed.

Lemma Controller_layer_total (c : controller.Controller) mask i s st b sq d H hd gated L :
  Controller_built d H hd gated L c -> i < L ->
  mask_fits b sq mask ->
  shape (controller.ls_x s) = [b; sq; d] ->
  shape (controller.ls_current_hidden s) = [b; d] ->
  exists s' st', controller.Controller_layer c mask i s st = Ok (s', st') /\
    shape (controller.ls_x s') = [b; sq; d] /\
    shape (controller.ls_current_hidden s') = [b; d] /\
    exists w, controller.ls_attention_weights s' = controller.ls_attention_weights s ++ [w] /\
              shape w = [b; H; sq; sq].
Proof.
  intros (_ & Hlsa & HFsa & Hlff & HFff & Hlln & HFln & _) Hi Hm Hx Hh.
  unfold controller.Controller_layer.
  destruct (module_at_total _ (controller.layer_norms c) (i * 2) HFln) as (ln1 & Hln1 & Hd1);
    [lia|].
  rewrite (bind_lift_step _ _ _ _ Hln1).
  destruct (LayerNorm_forward_total ln1 (controller.ls_x s) [b; sq]) as (xn & Hxn & Hsxn);
    [rewrite Hx, Hd1; reflexivity|].
  rewrite (bind_lift_step _ _ _ _ Hxn). rewrite Hx in Hsxn.
  destruct (module_at_total _ (controller.self_attention c) i HFsa) as (sa & Hsa & Hsab);
    [lia|].
  rewrite (bind_lift_step _ _ _ _ Hsa).
  destruct (controller_MultiHeadAttention_total sa xn xn xn mask st b sq d H hd gated
              Hsab Hsxn Hsxn Hsxn Hm) as (attn & st1 & Hattn & Hso & Hsw).
  rewrite (bind_step _ _ _ _ _ Hattn).
  destruct (Dropout_forward_total (controller.dropout_layer c) (attn_output attn) st1)
    as (dr & st2 & Hdr & Hsdr & _).
  rewrite (bind_step _ _ _ _ _ Hdr).
  destruct (add_total (controller.ls_x s) dr) as (x1 & Hx1 & Hsx1); [congruence|].
  rewrite (bind_lift_step _ _ _ _ Hx1). rewrite Hx in Hsx1.
  destruct (module_at_total _ (controller.layer_norms c) (i * 2 + 1) HFln)
    as (ln2 & Hln2 & Hd2); [lia|].
  rewrite (bind_lift_step _ _ _ _ Hln2).
  destruct (LayerNorm_forward_total ln2 x1 [b; sq]) as (xn2 & Hxn2 & Hsxn2);
    [rewrite Hsx1, Hd2; reflexivity|].
  rewrite (bind_lift_step _ _ _ _ Hxn2). rewrite Hsx1 in Hsxn2.
  destruct (module_at_total _ (controller.feed_forward c) i HFff) as (ff & Hff & Hffb);
    [lia|].
  rewrite (bind_lift_step _ _ _ _ Hff).
  destruct (FeedForward_forward_total ff xn2 st2 b sq d Hffb Hsxn2)
    as (fo & st3 & Hfo & Hsfo).
  rewrite (bind_step _ _ _ _ _ Hfo).
  destruct (Dropout_forward_total (controller.dropout_layer c) fo st3)
    as (dr2 & st4 & Hdr2 & Hsdr2 & _).
  rewrite (bind_step _ _ _ _ _ Hdr2).
  destruct (add_total x1 dr2) as (x2 & Hx2 & Hsx2); [congruence|].
  rewrite (bind_lift_step _ _ _ _ Hx2). rewrite Hsx1 in Hsx2.
  destruct (mean_dim1_total x2 b sq d Hsx2) as (gi & Hgi & Hsgi).
  rewrite (bind_lift_step _ _ _ _ Hgi).
  destruct (add_total (controller.ls_current_hidden s) gi) as (ch & Hch & Hsch);
    [congruence|].
  rewrite (bind_lift_step _ _ _ _ Hch).
  eexists _, _. split; [reflexivity|]. simpl.
  split; [assumption|]. split; [congruence|]. eauto.
Qed.

Lemma Controller_forward_total (c : controller.Controller) x h mask st b sq d H hd gated L :
  Controller_built d H hd gated L c ->
  mask_fits b sq mask ->
  shape x = [b; sq; d] -> shape h = [b; d] ->
  exists r st', controller.Controller_forward c x h mask st = Ok (r, st') /\
    shape (controller.hidden_state r) = [b; d] /\
    shape (controller.goal_encoding r) = [b; d] /\
    length (controller.attention_weights r) = L /\
    weights_of_shape [b; H; sq; sq] (controller.attention_weights r).
Proof.
  intros Hb Hm Hx Hh. pose proof Hb as (HL & _ & _ & _ & _ & _ & _ & Hpn & Hge).
  unfold controller.Controller_forward.
  rewrite (bind_lift_step _ _ _ _ (unpack3_total x b sq d Hx)).
  destruct (GoalEncoder_forward_total _ h b d Hge Hh) as (ge & Hgev & Hsge).
  rewrite (bind_lift_step _ _ _ _ Hgev).
  destruct (unsqueeze1_rank2 ge b d Hsge) as (g1 & Hg1 & Hsg1 & _).
  rewrite (bind_lift_step _ _ _ _ Hg1).
  destruct (expand_goal g1 b d sq Hsg1) as (g2 & Hg2 & Hsg2).
  rewrite (bind_lift_step _ _ _ _ Hg2).
  destruct (add_total x g2) as (x0 & Hx0 & Hsx0); [congruence|].
  rewrite (bind_lift_step _ _ _ _ Hx0). rewrite Hx in Hsx0.
  destruct (for_range_total
              (fun s => shape (controller.ls_x s) = [b; sq; d] /\
                        shape (controller.ls_current_hidden s) = [b; d] /\
                        weights_of_shape [b; H; sq; sq] (controller.ls_attention_weights s))
              (controller.Controller_layer c mask) L)
    with (s := controller.mkLayerState x0 [] h) (st := st)
    as (s & st1 & Hloop & Hsx & Hsh & Hws).
  { intros i s0 st0 Hi (H1 & H2 & H3).
    destruct (Controller_layer_total c mask i s0 st0 b sq d H hd gated L Hb Hi Hm H1 H2)
      as (s' & st' & Hs' & ? & ? & w & Hw & Hsw).
    exists s', st'. repeat (split; [assumption|]). rewrite Hw.
    apply Forall_app. split; [exact H3 | constructor; [exact Hsw | constructor]]. }
  { simpl. repeat split; try assumption. constructor. }
  rewrite HL. rewrite (bind_step _ _ _ _ _ Hloop).
  destruct (PlanningNetwork_forward_total _ (controller.ls_current_hidden s) st1 b d
              Hpn Hsh) as (po & st2 & Hpo & Hspo).
  rewrite (bind_step _ _ _ _ _ Hpo).
  destruct (add_total (controller.ls_current_hidden s) po) as (fh & Hfh & Hsfh);
    [congruence|].
  rewrite (bind_lift_step _ _ _ _ Hfh).
  eexists _, _. split; [reflexivity|]. simpl.
  split; [congruence|]. split; [assumption|]. split; [|assumption].
  rewrite (for_range_count (fun s => length (controller.ls_attention_weights s))
             (controller.Controller_layer c mask)) with (n := L)
      (s := controller.mkLayerState x0 [] h) (st := st) (st' := st1);
    [simpl; lia | | exact Hloop].
  intros i s0 st0 s1 st4 Hl. unfold controller.Controller_layer in Hl. minv Hl.
  match goal with
  | Heq : _ = s1 |- _ => rewrite <- Heq
  | Heq : s1 = _ |- _ => rewrite Heq
  end.
  simpl. rewrite length_app. simpl. lia.
Qed.

(** ** The attention bridge, built and run *)

Lemma CrossModuleAttention_init_built sd name qd kd vd od heads dropout m :
  attention.CrossModuleAttention_init sd name qd kd vd od heads dropout = Ok m ->
  CrossModuleAttention_built (Z.to_nat qd) (Z.to_nat kd) (Z.to_nat vd) (Z.to_nat od)
    (Z.to_nat heads) (cross_head_dim qd kd vd heads) m.
Proof.
  unfold attention.CrossModuleAttention_init. intro H. minv H.
  inversion H; subst; clear H.
  match goal with
  | Hf : floordiv _ _ = Ok _, Ha : assert _ _ = Ok _ |- _ =>
      apply floordiv_ok in Hf; destruct Hf as [Hne ->];
      apply assert_ok in Ha; apply Z.ltb_lt in Ha
  end.
  set (hd := (Z.min (Z.min qd kd) vd / heads)%Z) in *.
  assert (Hheads : (0 < heads)%Z).
  { match goal with
    | Hl : Linear_init _ (sub name "query_proj") _ _ = Ok _ |- _ =>
        apply Linear_init_ok in Hl; destruct Hl as (_ & _ & _ & Hpos)
    end.
    destruct (Z_lt_le_dec 0 heads) as [|Hle]; [assumption|].
    exfalso. assert (heads < 0)%Z by lia. nia. }
  unfold CrossModuleAttention_built, cross_head_dim. fold hd.
  cbn [attention.cm_num_heads attention.cm_head_dim attention.cm_query_proj
       attention.cm_key_proj attention.cm_value_proj attention.cm_output_proj].
  dims_of_inits.
  repeat match goal with
         | Hd : context [Z.to_nat (heads * hd)] |- _ =>
             rewrite (Z2Nat.inj_mul heads hd) in Hd by lia
         end.
  split; [lia|]. split; [lia|]. split; [lia|]. split; [lia|].
  repeat split; match goal with H : Linear_dims _ _ ?l |- _ ?l = _ => apply H end.
Qed.

Lemma CrossModuleAttention_forward_total (m : attention.CrossModuleAttention)
    q k v mask st b sq sk dq dk dv dout H hd :
  CrossModuleAttention_built dq dk dv dout H hd m ->
  shape q = [b; sq; dq] -> shape k = [b; sk; dk] -> shape v = [b; sk; dv] ->
  mask_fits b sk mask ->
  exists r st', attention.CrossModuleAttention_forward m q k v mask st = Ok (r, st') /\
                shape (attn_output r) = [b; sq; dout] /\
                shape (attn_weights r) = [b; H; sq; sk].
Proof.
  intros (Hnh & Hhd & _ & _ & [Hqi Hqo] & [Hki Hko] & [Hvi Hvo] & [Hoi Hoo]) Hq Hk Hv Hm.
  unfold attention.CrossModuleAttention_forward.
  rewrite (bind_lift_step _ _ _ _ (unpack3_total q b sq dq Hq)).
  rewrite (bind_lift_step _ _ _ _ (unpack3_total k b sk dk Hk)).
  destruct (Linear_forward_total (attention.cm_query_proj m) q [b; sq]) as (Q & HQ & HsQ);
    [rewrite Hq, Hqi; reflexivity|].
  rewrite (bind_lift_step _ _ _ _ HQ).
  destruct (Linear_forward_total (attention.cm_key_proj m) k [b; sk]) as (K & HK & HsK);
    [rewrite Hk, Hki; reflexivity|].
  rewrite (bind_lift_step _ _ _ _ HK).
  destruct (Linear_forward_total (attention.cm_value_proj m) v [b; sk]) as (V & HV & HsV);
    [rewrite Hv, Hvi; reflexivity|].
  rewrite (bind_lift_step _ _ _ _ HV).
  rewrite Hqo in HsQ. rewrite Hko in HsK. rewrite Hvo in HsV.
  rewrite Hnh, Hhd.
  destruct (split_heads_total Q b sq (H * hd) H hd HsQ eq_refl) as (Q' & HQ' & HsQ').
  rewrite (bind_lift_step _ _ _ _ HQ').
  destruct (split_heads_total K b sk (H * hd) H hd HsK eq_refl) as (K' & HK' & HsK').
  rewrite (bind_lift_step _ _ _ _ HK').
  destruct (split_heads_total V b sk (H * hd) H hd HsV eq_refl) as (V' & HV' & HsV').
  rewrite (bind_lift_step _ _ _ _ HV').
  destruct (attention_core_total (attention.cm_dropout_layer m) Q' K' V' (Z.of_nat hd)
              mask st b H sq sk hd HsQ' HsK' HsV' Hm) as (att & w & st1 & Hcore & Hsatt & Hsw).
  rewrite (bind_step _ _ _ _ _ Hcore).
  rewrite <- Nat2Z.inj_mul.
  destruct (merge_heads_total att b sq (H * hd) H hd Hsatt eq_refl) as (mg & Hmg & Hsmg).
  rewrite (bind_lift_step _ _ _ _ Hmg).
  destruct (Linear_forward_total (attention.cm_output_proj m) mg [b; sq]) as (o & Ho & Hso);
    [rewrite Hsmg, Hoi; reflexivity|].
  rewrite (bind_lift_step _ _ _ _ Ho). rewrite Hoo in Hso.
  eexists _, _. split; [reflexivity|]. simpl. auto.
Qed.

Lemma HierarchicalAttention_init_built sd name cd wd heads dropout cross a :
  attention.HierarchicalAttention_init sd name cd wd heads dropout cross = Ok a ->
  HierarchicalAttention_built (Z.to_nat cd) (Z.to_nat wd) (Z.to_nat heads) cross a.
Proof.
  unfold attention.HierarchicalAttention_init. intro H. minv H.
  inversion H; subst; clear H.
  unfold HierarchicalAttention_built.
  cbn [attention.use_cross_attention attention.controller_to_worker_attn
       attention.worker_to_controller_attn attention.cross_attention
       attention.controller_gate attention.worker_gate attention.controller_norm
       attention.worker_norm].
  split; [reflexivity|].
  repeat match goal with
         | Hc : attention.CrossModuleAttention_init _ _ _ _ _ _ _ _ = Ok ?m
           |- (exists hd, CrossModuleAttention_built _ _ _ _ _ hd ?m) /\ _ =>
             split; [eexists; exact (CrossModuleAttention_init_built _ _ _ _ _ _ _ _ _ Hc)|]
         end.
  split.
  { intros ->.
    match goal with
    | Hc : rbind (attention.CrossModuleAttention_init _ _ _ _ _ _ _ _) _ = Ok _ |- _ =>
        apply rbind_ok in Hc; destruct Hc as (ca & Hc & Heq); inversion Heq; subst;
        exists ca; eexists; split;
        [reflexivity | exact (CrossModuleAttention_init_built _ _ _ _ _ _ _ _ _ Hc)]
    end. }
  dims_of_inits. double_dims cd. double_dims wd.
  repeat split; try assumption;
    match goal with H : Linear_dims _ _ ?l |- _ ?l = _ => apply H end.
Qed.

Lemma squeeze1_total t b d :
  shape t = [b; 1; d] -> exists y, squeeze 1 t = Ok y /\ shape y = [b; d].
Proof.
  intro Ht. unfold squeeze, rank. rewrite Ht. cbn [length].
  change (norm_dim 3 1) with (@Ok nat 1). cbn [rbind nth Nat.eqb].
  eexists. split; reflexivity.
Qed.

Lemma bridge_blend_total g state attended b d :
  Linear_dims (d + d) d g -> shape state = [b; d] -> shape attended = [b; d] ->
  exists y, attention.bridge_blend g state attended = Ok y /\ shape y = [b; d].
Proof.
  intros [Hin Hout] Hs Ha. unfold attention.bridge_blend, attention.bridge_gate.
  destruct (cat_last_total state attended [b] d d Hs Ha) as (cat & Hcat & Hscat).
  rewrite (rbind_step _ _ _ Hcat).
  destruct (Linear_forward_total g cat [b]) as (z & Hz & Hsz);
    [rewrite Hscat, Hin; reflexivity|].
  rewrite (rbind_step _ _ _ Hz). cbn [rbind].
  destruct (blend_total (tmap sigmoid z) attended state [b; d])
    as (ga & gb & out & H1 & H2 & H3 & Hso);
    [simpl; rewrite Hsz, Hout; reflexivity | assumption | assumption |].
  rewrite H1, H2. cbn [rbind]. exists out. auto.
Qed.

Lemma HierarchicalAttention_forward_total (a : attention.HierarchicalAttention)
    cs ws mask st b cd wd H cross :
  HierarchicalAttention_built cd wd H cross a ->
  shape cs = [b; cd] -> shape ws = [b; wd] ->
  mask_fits b 1 mask ->
  exists r st', attention.HierarchicalAttention_forward a cs ws mask st = Ok (r, st') /\
    shape (attention.controller_output r) = [b; cd] /\
    shape (attention.worker_output r) = [b; wd] /\
    map fst (attention.attention_weights r)
    = ["controller_to_worker"; "worker_to_controller"]%string
      ++ (if cross then ["cross_attention"%string] else []) /\
    Forall (fun kv => shape (snd kv) = [b; H; 1; 1]) (attention.attention_weights r).
Proof.
  intros (Hcross & (hd1 & Hc2w) & (hd2 & Hw2c) & Hca & Hcg & Hwg & Hcn & Hwn) Hcs Hws Hm.
  unfold attention.HierarchicalAttention_forward, worker.shape0. rewrite Hcs.
  rewrite (bind_lift_step _ _ _ _ eq_refl).
  destruct (unsqueeze1_rank2 cs b cd Hcs) as (cseq & Hcseq & Hscseq & _).
  rewrite (bind_lift_step _ _ _ _ Hcseq).
  destruct (unsqueeze1_rank2 ws b wd Hws) as (wseq & Hwseq & Hswseq & _).
  rewrite (bind_lift_step _ _ _ _ Hwseq).
  destruct (CrossModuleAttention_forward_total _ wseq cseq cseq mask st b 1 1 _ _ _ _ _ _
              Hc2w Hswseq Hscseq Hscseq Hm) as (c2w & st1 & Hc2wv & Hso1 & Hsw1).
  rewrite (bind_step _ _ _ _ _ Hc2wv).
  destruct (CrossModuleAttention_forward_total _ cseq wseq wseq mask st1 b 1 1 _ _ _ _ _ _
              Hw2c Hscseq Hswseq Hswseq Hm) as (w2c & st2 & Hw2cv & Hso2 & Hsw2).
  rewrite (bind_step _ _ _ _ _ Hw2cv).
  rewrite Hcross.
  assert (Hcrossv : exists co st3,
             (if cross then
                match attention.cross_attention a with
                | Some ca =>
                    o <- attention.CrossModuleAttention_forward ca cseq wseq wseq mask ;;
                    ret (Some o)
                | None => raise (AttributeError
                    "'HierarchicalAttention' object has no attribute 'cross_attention'")
                end
              else ret None) st2 = Ok (co, st3) /\
             match co with
             | Some o => cross = true /\ shape (attn_output o) = [b; 1; cd] /\
                         shape (attn_weights o) = [b; H; 1; 1]
             | None => cross = false
             end).
  { destruct cross.
    - destruct (Hca eq_refl) as (ca & hd3 & Hcav & Hcab). rewrite Hcav.
      destruct (CrossModuleAttention_forward_total _ cseq wseq wseq mask st2 b 1 1
                  _ _ _ _ _ _ Hcab Hscseq Hswseq Hswseq Hm) as (o & st3 & Ho & Hso3 & Hsw3).
      rewrite (bind_step _ _ _ _ _ Ho). exists (Some o), st3. auto.
    - exists None, st2. auto. }
  destruct Hcrossv as (co & st3 & Hco & Hcoshape).
  rewrite (bind_step _ _ _ _ _ Hco).
  destruct (squeeze1_total (attn_output w2c) b cd Hso2) as (catt & Hcatt & Hscatt).
  rewrite (bind_lift_step _ _ _ _ Hcatt).
  destruct (bridge_blend_total _ cs catt b cd Hcg Hcs Hscatt) as (cout & Hcout & Hscout).
  rewrite (bind_lift_step _ _ _ _ Hcout).
  assert (Hplus : exists cout', match co with
                                | Some co0 =>
                                    let* cross_attended := squeeze 1 (attn_output co0) in
                                    add cout cross_attended
                                | None => Ok cout
                                end = Ok cout' /\ shape cout' = [b; cd]).
  { destruct co as [o|].
    - destruct Hcoshape as (_ & Hso3 & _).
      destruct (squeeze1_total (attn_output o) b cd Hso3) as (xa & Hxa & Hsxa).
      rewrite (rbind_step _ _ _ Hxa).
      destruct (add_total cout xa) as (y & Hy & Hsy); [congruence|].
      exists y. split; [exact Hy | congruence].
    - exists cout. auto. }
  destruct Hplus as (cout' & Hcout' & Hscout').
  rewrite (bind_lift_step _ _ _ _ Hcout').
  destruct (squeeze1_total (attn_output c2w) b wd Hso1) as (watt & Hwatt & Hswatt).
  rewrite (bind_lift_step _ _ _ _ Hwatt).
  destruct (bridge_blend_total _ ws watt b wd Hwg Hws Hswatt) as (wout & Hwout & Hswout).
  rewrite (bind_lift_step _ _ _ _ Hwout).
  destruct (LayerNorm_forward_total (attention.controller_norm a) cout' [b])
    as (cn & Hcnv & Hscn); [rewrite Hscout', Hcn; reflexivity|].
  rewrite (bind_lift_step _ _ _ _ Hcnv).
  destruct (LayerNorm_forward_total (attention.worker_norm a) wout [b])
    as (wn & Hwnv & Hswn); [rewrite Hswout, Hwn; reflexivity|].
  rewrite (bind_lift_step _ _ _ _ Hwnv).
  destruct (Dropout_forward_total (attention.dropout_layer a) cn st3)
    as (cd' & st4 & Hcd' & Hscd' & _).
  rewrite (bind_step _ _ _ _ _ Hcd').
  destruct (Dropout_forward_total (attention.dropout_layer a) wn st4)
    as (wd' & st5 & Hwd' & Hswd' & _).
  rewrite (bind_step _ _ _ _ _ Hwd').
  eexists _, _. split; [reflexivity|]. simpl.
  split; [congruence|]. split; [congruence|].
  destruct co as [o|].
  - destruct Hcoshape as (Hc & _ & Hsw3). rewrite Hc. split; [reflexivity|].
    repeat constructor; assumption.
  - rewrite Hcoshape. split; [reflexivity|]. repeat constructor; assumption.
Qed.

(** ** The orchestrator, built and run *)

Lemma HRM_init_built sd c m :
  hrm.HRM_init sd c = Ok m ->
  HRM_built (Z.to_nat (hrm.cfg_input_dim c)) (Z.to_nat (hrm.cfg_controller_dim c))
    (Z.to_nat (hrm.cfg_worker_dim c)) (Z.to_nat (hrm.cfg_num_layers c))
    (hrm.cfg_use_attention c) (hrm.cfg_use_positional_encoding c) m.
Proof.
  intro H. unfold hrm.HRM_init in H. minv H. inversion H; subst; clear H.
  unfold HRM_built.
  cbn [hrm.controller_dim hrm.worker_dim hrm.num_layers hrm.use_attention
       hrm.use_positional_encoding hrm.input_projection hrm.controller hrm.worker
       hrm.attention hrm.controller_to_worker hrm.worker_to_controller
       hrm.output_projection hrm.layer_norm hrm.pos_encoding].
  pose proof (Linear_init_ok _ _ _ _ _ E3) as (_ & _ & Hcd & Hwd).
  split; [lia|]. split; [lia|]. split; [reflexivity|].
  split; [reflexivity|]. split; [reflexivity|].
  split; [exact (Linear_init_dims _ _ _ _ _ E)|].
  split.
  { exists (Z.to_nat (hrm.cfg_controller_dim c / 8)).
    exact (Controller_init_built _ _ _ _ 8%Z _ _ _ eq_refl E0). }
  split; [exact (Worker_init_built _ _ _ _ _ _ _ _ E1)|].
  split.
  { intro Hu. rewrite Hu in E2. apply rbind_ok in E2. destruct E2 as (a & Ha & Heq).
    inversion Heq; subst. exists a. split; [reflexivity|].
    exact (HierarchicalAttention_init_built _ _ _ _ 8%Z _ _ _ Ha). }
  split; [exact (Linear_init_dims _ _ _ _ _ E3)|].
  split; [exact (Linear_init_dims _ _ _ _ _ E4)|].
  split; [exact (Linear_init_dims _ _ _ _ _ E5)|].
  split; [apply LayerNorm_init_ok in E6; apply E6|].
  intro Hu. rewrite Hu in E7. apply rbind_ok in E7. destruct E7 as (p & Hp & Heq).
  inversion Heq; subst. exists p. split; [reflexivity|].
  apply PositionalEncoding_init_table in Hp. exact Hp.
Qed.

Lemma HRM_cycle_total (m : hrm.HRM) x ra cycle s st idim cd wd L ua up b sq :
  HRM_built idim cd wd L ua up m -> wd = 1 \/ L = 0 ->
  shape x = [b; sq; cd] ->
  shape (hrm.cs_controller_state s) = [b; cd] ->
  shape (hrm.cs_worker_state s) = [b; wd] ->
  exists s' st', hrm.HRM_cycle m x None ra cycle s st = Ok (s', st') /\
    shape (hrm.cs_controller_state s') = [b; cd] /\
    shape (hrm.cs_worker_state s') = [b; wd] /\
    (exists c w, hrm.cs_controller_states s' = hrm.cs_controller_states s ++ [c] /\
                 shape c = [b; cd] /\
                 hrm.cs_worker_states s' = hrm.cs_worker_states s ++ [w] /\
                 shape w = [b; wd]).
Proof.
  intros (_ & _ & _ & Hua & _ & _ & (hd & Hc) & Hw & Hatt & [Hc2wi Hc2wo] & [Hw2ci Hw2co]
          & _ & Hln & _) Hrun Hx Hcs Hws.
  unfold hrm.HRM_cycle.
  destruct (Controller_forward_total _ x (hrm.cs_controller_state s) None st b sq cd 8 hd
              true L Hc I Hx Hcs) as (co & st1 & Hco & Hsco & _).
  rewrite (bind_step _ _ _ _ _ Hco).
  destruct (Linear_forward_total (hrm.controller_to_worker m) (controller.hidden_state co)
              [b]) as (wi & Hwi & Hswi); [rewrite Hsco, Hc2wi; reflexivity|].
  rewrite (bind_lift_step _ _ _ _ Hwi). rewrite Hc2wo in Hswi.
  destruct (Worker_forward_total _ wi (hrm.cs_worker_state s) st1 b wd true true L Hw
              (or_intror Hrun) Hswi Hws) as (wo & st2 & Hwo & Hswo & _).
  rewrite (bind_step _ _ _ _ _ Hwo).
  assert (Hfuse : exists fc fw aw st3,
             (if hrm.use_attention m then
                match hrm.attention m with
                | Some att =>
                    attended_output <- attention.HierarchicalAttention_forward att
                                         (controller.hidden_state co)
                                         (worker.hidden_state wo) None ;;
                    ret (attention.controller_output attended_output,
                         attention.worker_output attended_output,
                         if ra
                         then hrm.cs_attention_weights s
                              ++ [PyDict (attention.attention_weights attended_output)]
                         else hrm.cs_attention_weights s)
                | None => raise (AttributeError "'HRM' object has no attribute 'attention'")
                end
              else ret (controller.hidden_state co, worker.hidden_state wo,
                        hrm.cs_attention_weights s)) st2 = Ok ((fc, fw, aw), st3) /\
             shape fc = [b; cd] /\ shape fw = [b; wd]).
  { rewrite Hua. destruct ua.
    - destruct (Hatt eq_refl) as (a & -> & Hab).
      destruct (HierarchicalAttention_forward_total a _ _ None st2 b cd wd 8 true Hab
                  Hsco Hswo I) as (bo & st3 & Hbo & Hs1 & Hs2 & _).
      rewrite (bind_step _ _ _ _ _ Hbo). eexists _, _, _, _. split; [reflexivity|]. auto.
    - eexists _, _, _, _. split; [reflexivity|]. auto. }
  destruct Hfuse as (fc & fw & aw & st3 & Hfuse & Hsfc & Hsfw).
  rewrite (bind_step _ _ _ _ _ Hfuse).
  destruct (Linear_forward_total (hrm.worker_to_controller m) fw [b]) as (fb & Hfb & Hsfb);
    [rewrite Hsfw, Hw2ci; reflexivity|].
  rewrite (bind_lift_step _ _ _ _ Hfb). rewrite Hw2co in Hsfb.
  destruct (add_total fc fb) as (sm & Hsm & Hssm); [rewrite Hsfc, Hsfb; reflexivity|].
  rewrite (bind_lift_step _ _ _ _ Hsm).
  destruct (LayerNorm_forward_total (hrm.layer_norm m) sm [b]) as (nc & Hnc & Hsnc);
    [rewrite Hssm, Hsfc, Hln; reflexivity|].
  rewrite (bind_lift_step _ _ _ _ Hnc).
  eexists _, _. split; [reflexivity|]. simpl.
  split; [congruence|]. split; [assumption|]. eauto 10.
Qed.

Lemma stack_total (l : list tensor) b d :
  l <> [] -> Forall (fun t => shape t = [b; d]) l ->
  exists y, stack (map PyTensor l) 1 = Ok y.
Proof.
  intros Hne HF. unfold stack. rewrite as_tensors_map. cbn [rbind].
  destruct l as [|t0 l']; [congruence|].
  assert (Hall : forallb (fun t => shape_eqb (shape t) (shape t0)) (t0 :: l') = true).
  { apply forallb_forall. intros t Ht. rewrite Forall_forall in HF.
    rewrite (HF t Ht), (HF t0 (or_introl eq_refl)). unfold shape_eqb.
    destruct (list_eq_dec Nat.eq_dec [b; d] [b; d]); congruence. }
  rewrite Hall. unfold rank. inversion HF as [|? ? Ht0 _]; subst. rewrite Ht0.
  change (norm_dim (S (length [b; d])) 1) with (@Ok nat 1). cbn [rbind].
  eexists. reflexivity.
Qed.

Lemma HRM_forward_total (m : hrm.HRM) x ra st idim cd wd L ua up b sq :
  HRM_built idim cd wd L ua up m -> wd = 1 \/ L = 0 ->
  shape x = [b; sq; idim] ->
  (up = true -> b <= 1000) ->
  0 < Z.to_nat (hrm.num_cycles m) ->
  ra = false \/ ua = false ->
  exists r st', hrm.HRM_forward m x None ra st = Ok (r, st').
Proof.
  intros Hb Hrun Hx Hpe Hn Hra.
  pose proof Hb as (Hcd & Hwd & _ & Hua & Hup & [Hipi Hipo] & _ & _ & _ & _ & _
                    & [Hopi Hopo] & _ & Hpos).
  unfold hrm.HRM_forward.
  rewrite (bind_lift_step _ _ _ _ (unpack3_total x b sq idim Hx)).
  destruct (Linear_forward_total (hrm.input_projection m) x [b; sq]) as (x1 & Hx1 & Hsx1);
    [rewrite Hx, Hipi; reflexivity|].
  rewrite (bind_lift_step _ _ _ _ Hx1). rewrite Hipo in Hsx1.
  assert (Hx0 : exists x0,
             (if hrm.use_positional_encoding m then
                match hrm.pos_encoding m with
                | Some pos => hrm.PositionalEncoding_forward pos x1
                | None => Err (AttributeError "'HRM' object has no attribute 'pos_encoding'")
                end
              else Ok x1) = Ok x0 /\ shape x0 = [b; sq; cd]).
  { rewrite Hup. destruct up.
    - destruct (Hpos eq_refl) as (p & -> & Hp).
      destruct (PositionalEncoding_forward_values p cd 1000 x1 b sq Hp Hsx1 (Hpe eq_refl))
        as (y & Hy & Hsy & _).
      exists y. auto.
    - exists x1. auto. }
  destruct Hx0 as (x0 & Hx0 & Hsx0).
  rewrite (bind_lift_step _ _ _ _ Hx0).
  unfold size_of. rewrite Hcd, Hwd.
  replace (0 <=? Z.of_nat cd)%Z with true by (symmetry; apply Z.leb_le; lia).
  replace (0 <=? Z.of_nat wd)%Z with true by (symmetry; apply Z.leb_le; lia).
  rewrite !(bind_lift_step _ _ _ _ eq_refl). rewrite !Nat2Z.id.
  destruct (for_range_total
              (fun s => shape (hrm.cs_controller_state s) = [b; cd] /\
                        shape (hrm.cs_worker_state s) = [b; wd] /\
                        Forall (fun t => shape t = [b; cd]) (hrm.cs_controller_states s) /\
                        Forall (fun t => shape t = [b; wd]) (hrm.cs_worker_states s))
              (hrm.HRM_cycle m x0 None ra) (Z.to_nat (hrm.num_cycles m)))
    with (s := hrm.mkCycleState (zeros [b; cd]) (zeros [b; wd]) [] [] []) (st := st)
    as (s & st1 & Hloop & Hsc & Hsw & HFc & HFw).
  { intros i s0 st0 Hi (H1 & H2 & H3 & H4).
    destruct (HRM_cycle_total m x0 ra i s0 st0 idim cd wd L ua up b sq Hb Hrun Hsx0 H1 H2)
      as (s' & st' & Hs' & ? & ? & c' & w' & Hcs' & ? & Hws' & ?).
    exists s', st'. repeat (split; [assumption|]). rewrite Hcs', Hws'.
    split; apply Forall_app; split; try assumption; repeat constructor; assumption. }
  { simpl. repeat split; constructor. }
  rewrite (bind_step _ _ _ _ _ Hloop).
  destruct (Linear_forward_total (hrm.output_projection m) (hrm.cs_controller_state s) [b])
    as (out & Hout & _); [rewrite Hsc, Hopi; reflexivity|].
  rewrite (bind_lift_step _ _ _ _ Hout).
  assert (Hlen : length (hrm.cs_controller_states s) = Z.to_nat (hrm.num_cycles m) /\
                 length (hrm.cs_worker_states s) = Z.to_nat (hrm.num_cycles m)).
  { split.
    - rewrite (for_range_count (fun s => length (hrm.cs_controller_states s))
                 (hrm.HRM_cycle m x0 None ra)) with (n := Z.to_nat (hrm.num_cycles m))
          (s := hrm.mkCycleState (zeros [b; cd]) (zeros [b; wd]) [] [] [])
          (st := st) (st' := st1); [simpl; lia | | exact Hloop].
      intros i s0 st0 s1 st4 Hcycle.
      destruct (HRM_cycle_steps _ _ _ _ _ _ _ _ _ Hcycle) as (t & ? & ? & _ & Hlc & _).
      rewrite Hlc, length_app. simpl. lia.
    - rewrite (for_range_count (fun s => length (hrm.cs_worker_states s))
                 (hrm.HRM_cycle m x0 None ra)) with (n := Z.to_nat (hrm.num_cycles m))
          (s := hrm.mkCycleState (zeros [b; cd]) (zeros [b; wd]) [] [] [])
          (st := st) (st' := st1); [simpl; lia | | exact Hloop].
      intros i s0 st0 s1 st4 Hcycle.
      destruct (HRM_cycle_steps _ _ _ _ _ _ _ _ _ Hcycle)
        as (t & ? & ? & _ & _ & _ & _ & Hlw & _).
      rewrite Hlw, length_app. simpl. lia. }
  destruct Hlen as [Hlc Hlw].
  destruct (stack_total (hrm.cs_controller_states s) b cd) as (cst & Hcst);
    [intro Hnil; rewrite Hnil in Hlc; simpl in Hlc; lia | assumption |].
  rewrite (bind_lift_step _ _ _ _ Hcst).
  destruct (stack_total (hrm.cs_worker_states s) b wd) as (wst & Hwst);
    [intro Hnil; rewrite Hnil in Hlw; simpl in Hlw; lia | assumption |].
  rewrite (bind_lift_step _ _ _ _ Hwst).
  assert (Hflag : ra && hrm.use_attention m = false).
  { rewrite Hua. destruct Hra as [->| ->]; [reflexivity | apply andb_false_r]. }
  rewrite Hflag. rewrite (bind_lift_step _ _ _ _ eq_refl).
  eexists _, _. reflexivity.
Qed.

(** * Further properties *)

(** ** When the forward passes return *)

(** X4.  A worker layer built by the constructor, run on an input and a
    hidden state of shape (batch, dim), returns exactly when its convolution
    branch is disabled or its dimension is 1. *)
Theorem WorkerLayer_forward_returns_iff :
  forall (sd : state_dict) (name : string) (dim : Z) (dropout : Q) (use_conv use_gru : bool)
         (l : worker.WorkerLayer) (x h : tensor) (st : run_state) (b : nat),
    worker.WorkerLayer_init sd name dim dropout use_conv use_gru = Ok l ->
    shape x = [b; Z.to_nat dim] ->
    shape h = [b; Z.to_nat dim] ->
    is_ok (worker.WorkerLayer_forward l x h st) = negb use_conv || (dim =? 1)%Z.
Proof.
  intros sd name dim dropout uc ug l x h st b Hinit Hx Hh.
  pose proof (WorkerLayer_init_built _ _ _ _ _ _ _ Hinit) as Hb.
  pose proof (WorkerLayer_init_ok _ _ _ _ _ _ _ Hinit) as (Huc & _ & Hpos & _ & _ & Hconv & _).
  destruct (negb uc || (dim =? 1)%Z) eqn:E.
  - assert (Hor : uc = false \/ Z.to_nat dim = 1).
    { apply orb_true_iff in E. destruct E as [E|E].
      - left. destruct uc; [discriminate | reflexivity].
      - right. apply Z.eqb_eq in E. subst dim. reflexivity. }
    destruct (WorkerLayer_forward_total l x h st b _ uc ug Hb Hor Hx Hh) as (r & st' & Hr & _).
    rewrite Hr. reflexivity.
  - apply orb_false_iff in E. destruct E as [E1 E2].
    destruct uc; [|discriminate]. destruct Hconv as (c & Hc & Hin & _).
    apply (WorkerLayer_forward_fails l c x h st Huc Hc).
    rewrite Hin. apply Z.eqb_neq in E2. lia.
Qed.

(** X4 at a layer of dimension 4 without the convolution branch. *)
Lemma WorkerLayer_without_convolution_returns :
  exists l,
    worker.WorkerLayer_init sd_zero "worker.worker_layers.0" 4 0 false true = Ok l /\
    is_ok (worker.WorkerLayer_forward l (zeros [2; 4]) (zeros [2; 4]) eval_mode) = true.
Proof.
  destruct (worker.WorkerLayer_init sd_zero "worker.worker_layers.0" 4 0 false true)
    as [l|e] eqn:E.
  - exists l. split; [reflexivity|].
    exact (WorkerLayer_forward_returns_iff sd_zero "worker.worker_layers.0" 4 0 false true l
             (zeros [2; 4]) (zeros [2; 4]) eval_mode 2 E eq_refl eq_refl).
  - ok_by_evaluation E
      (worker.WorkerLayer_init sd_zero "worker.worker_layers.0" 4 0 false true).
Defined.

(** X6.  A worker built by the constructor, run on an input and a hidden
    state of shape (batch, dim), returns exactly when the convolution branch
    is disabled, the dimension is 1, or there is no layer. *)
Theorem Worker_forward_returns_iff :
  forall (sd : state_dict) (name : string) (dim num_layers : Z) (dropout : Q)
         (use_conv use_gru : bool) (w : worker.Worker) (x h : tensor) (st : run_state)
         (b : nat),
    worker.Worker_init sd name dim num_layers dropout use_conv use_gru = Ok w ->
    shape x = [b; Z.to_nat dim] ->
    shape h = [b; Z.to_nat dim] ->
    is_ok (worker.Worker_forward w x h st)
    = negb use_conv || (dim =? 1)%Z || (num_layers <=? 0)%Z.
Proof.
  intros sd name dim n dropout uc ug w x h st b Hinit Hx Hh.
  pose proof (Worker_init_built _ _ _ _ _ _ _ _ Hinit) as Hb.
  destruct (negb uc || (dim =? 1)%Z || (n <=? 0)%Z) eqn:E.
  - assert (Hor : uc = false \/ Z.to_nat dim = 1 \/ Z.to_nat n = 0).
    { apply orb_true_iff in E. destruct E as [E|E]; [apply orb_true_iff in E; destruct E as [E|E]|].
      - left. destruct uc; [discriminate | reflexivity].
      - right. left. apply Z.eqb_eq in E. subst dim. reflexivity.
      - right. right. apply Z.leb_le in E. lia. }
    destruct (Worker_forward_total w x h st b _ uc ug _ Hb Hor Hx Hh) as (r & st' & Hr & _).
    rewrite Hr. reflexivity.
  - apply orb_false_iff in E. destruct E as [E E3].
    apply orb_false_iff in E. destruct E as [E1 E2].
    destruct uc; [|discriminate].
    apply Z.leb_gt in E3. apply Z.eqb_neq in E2.
    destruct (Worker_init_layers _ _ _ _ _ _ _ _ Hinit) as [Hn Hbl].
    destruct (build_list_nth _ _ _ Hbl 0) as (l & Hl & Hli); [lia|].
    apply WorkerLayer_init_ok in Hli.
    destruct Hli as (Hu & _ & Hpos & _ & _ & (cv & Hcv & Hin & _) & _).
    apply (Worker_forward_fails w l cv x h st); try assumption.
    + rewrite Hn. lia.
    + rewrite Hin. lia.
Qed.

(** X6 at a worker of two layers without the convolution branch. *)
Lemma Worker_without_convolution_returns :
  exists w,
    worker.Worker_init sd_zero "worker" 4 2 0 false true = Ok w /\
    is_ok (worker.Worker_forward w (zeros [2; 4]) (zeros [2; 4]) eval_mode) = true.
Proof.
  destruct (worker.Worker_init sd_zero "worker" 4 2 0 false true) as [w|e] eqn:E.
  - exists w. split; [reflexivity|].
    exact (Worker_forward_returns_iff sd_zero "worker" 4 2 0 false true w
             (zeros [2; 4]) (zeros [2; 4]) eval_mode 2 E eq_refl eq_refl).
  - ok_by_evaluation E (worker.Worker_init sd_zero "worker" 4 2 0 false true).
Defined.

(** X7.  A controller built by the constructor with a positive head count
    returns on every input of shape (batch, seq, dim) with a hidden state of
    shape (batch, dim), without a mask or with a mask of shape (batch, seq).
    The hidden state and the goal encoding it returns have shape
    (batch, dim), and it returns one attention-weight tensor per layer, each
    of shape (batch, heads, seq, seq). *)
Theorem Controller_forward_returns :
  forall (sd : state_dict) (name : string) (dim num_layers num_heads : Z) (dropout : Q)
         (use_gated : bool) (c : controller.Controller)
         (x h : tensor) (mask : option tensor) (st : run_state) (b sq : nat),
    controller.Controller_init sd name dim num_layers num_heads dropout use_gated = Ok c ->
    (0 < num_heads)%Z ->
    shape x = [b; sq; Z.to_nat dim] ->
    shape h = [b; Z.to_nat dim] ->
    mask_fits b sq mask ->
    exists r st',
      controller.Controller_forward c x h mask st = Ok (r, st') /\
      shape (controller.hidden_state r) = [b; Z.to_nat dim] /\
      shape (controller.goal_encoding r) = [b; Z.to_nat dim] /\
      length (controller.attention_weights r) = Z.to_nat num_layers /\
      Forall (fun w => shape w = [b; Z.to_nat num_heads; sq; sq])
        (controller.attention_weights r).
Proof.
  intros sd name dim n heads dropout gated c x h mask st b sq Hinit Hh Hx Hhs Hm.
  pose proof (Controller_init_built _ _ _ _ _ _ _ _ Hh Hinit) as Hb.
  exact (Controller_forward_total c x h mask st b sq _ _ _ _ _ Hb Hm Hx Hhs).
Qed.

(** X7 at a controller of two layers, on a masked batch. *)
Lemma Controller_of_two_layers_returns :
  exists c r st',
    controller.Controller_init sd_zero "controller" 16 2 8 0 true = Ok c /\
    controller.Controller_forward c (zeros [2; 5; 16]) (zeros [2; 16])
      (Some cross_attention_mask) eval_mode = Ok (r, st') /\
    length (controller.attention_weights r) = 2.
Proof.
  destruct (controller.Controller_init sd_zero "controller" 16 2 8 0 true) as [c|e] eqn:E.
  - destruct (Controller_forward_returns sd_zero "controller" 16 2 8 0 true c
                (zeros [2; 5; 16]) (zeros [2; 16]) (Some cross_attention_mask) eval_mode
                2 5 E eq_refl eq_refl eq_refl eq_refl) as (r & st' & Hr & _ & _ & Hlen & _).
    exists c, r, st'. split; [reflexivity|]. split; [exact Hr | exact Hlen].
  - ok_by_evaluation E (controller.Controller_init sd_zero "controller" 16 2 8 0 true).
Defined.

(** X2.  A model built by the constructor, called without a mask and without
    the diagnostics flag on an input of shape (batch, seq, input_dim) (and a
    batch of at most 1000 when the positional encoding is on), returns
    exactly when it has at least one cycle and either no layer or a worker of
    dimension 1. *)
Theorem HRM_forward_returns_iff :
  forall (sd : state_dict) (c : hrm.config) (m : hrm.HRM) (x : tensor) (st : run_state)
         (b sq : nat),
    hrm.HRM_init sd c = Ok m ->
    shape x = [b; sq; Z.to_nat (hrm.cfg_input_dim c)] ->
    (hrm.cfg_use_positional_encoding c = true -> b <= 1000) ->
    is_ok (hrm.HRM_forward m x None false st)
    = (1 <=? hrm.cfg_num_cycles c)%Z
      && ((hrm.cfg_num_layers c <=? 0)%Z || (hrm.cfg_worker_dim c =? 1)%Z).
Proof.
  intros sd c m x st b sq Hinit Hx Hpe.
  pose proof (HRM_init_built _ _ _ Hinit) as Hb.
  destruct (HRM_init_fields _ _ _ Hinit) as (_ & _ & _ & _ & Hn & _).
  destruct (1 <=? hrm.cfg_num_cycles c)%Z eqn:Ecyc.
  - apply Z.leb_le in Ecyc. cbn [andb].
    destruct ((hrm.cfg_num_layers c <=? 0)%Z || (hrm.cfg_worker_dim c =? 1)%Z) eqn:E.
    + assert (Hrun : Z.to_nat (hrm.cfg_worker_dim c) = 1 \/ Z.to_nat (hrm.cfg_num_layers c) = 0).
      { apply orb_true_iff in E. destruct E as [E|E].
        - right. apply Z.leb_le in E. lia.
        - left. apply Z.eqb_eq in E. rewrite E. reflexivity. }
      destruct (HRM_forward_total m x false st _ _ _ _ _ _ b sq Hb Hrun Hx Hpe)
        as (r & st' & Hr); [rewrite Hn; lia | left; reflexivity |].
      rewrite Hr. reflexivity.
    + apply orb_false_iff in E. destruct E as [E1 E2].
      apply Z.leb_gt in E1. apply Z.eqb_neq in E2.
      destruct (HRM_init_modules _ _ _ Hinit) as (_ & _ & Hw & _).
      destruct (Worker_init_layers _ _ _ _ _ _ _ _ Hw) as [Hnl Hbl].
      destruct (build_list_nth _ _ _ Hbl 0) as (l & Hl & Hli); [lia|].
      apply WorkerLayer_init_ok in Hli.
      destruct Hli as (Hu & _ & Hpos & _ & _ & (cv & Hcv & Hin & _) & _).
      apply (HRM_forward_fails_in_worker m l cv); try assumption.
      * rewrite Hnl. lia.
      * rewrite Hin. lia.
  - apply Z.leb_gt in Ecyc. cbn [andb].
    destruct (hrm.HRM_forward m x None false st) as [[r st']|e] eqn:H; [|reflexivity].
    exfalso. unfold hrm.HRM_forward in H. minv H.
    replace (Z.to_nat (hrm.num_cycles m)) with 0 in * by (rewrite Hn; lia).
    match goal with
    | Hx0 : for_range 0 _ _ _ = Ok _ |- _ =>
        simpl in Hx0; apply ret_ok in Hx0; destruct Hx0 as [Hx0 _]; subst
    end.
    match goal with
    | Hx0 : stack (map PyTensor (hrm.cs_controller_states _)) _ = Ok _ |- _ =>
        simpl in Hx0; discriminate
    end.
Qed.

(** X2 at a model without layers, with the bridge and the positional
    encoding. *)
Lemma HRM_without_layers_returns :
  exists m,
    hrm.HRM_init sd_zero bridged_config = Ok m /\
    is_ok (hrm.HRM_forward m (zeros [2; 5; 8]) None false eval_mode) = true.
Proof.
  destruct (hrm.HRM_init sd_zero bridged_config) as [m|e] eqn:E.
  - exists m. split; [reflexivity|].
    apply (HRM_forward_returns_iff sd_zero bridged_config m (zeros [2; 5; 8]) eval_mode 2 5 E
             eq_refl). intros _. lia.
  - ok_by_evaluation E (hrm.HRM_init sd_zero bridged_config).
Defined.

(** X1.  Whenever a forward call of a model built by the constructor returns,
    on an input of three dimensions whose first is the batch: the output has
    shape (batch, input_dim), the final states (batch, controller_dim) and
    (batch, worker_dim), and the histories (batch, num_cycles, controller_dim)
    and (batch, num_cycles, worker_dim); the input's last dimension is
    input_dim; and the result holds no attention diagnostics (a call that
    would stack them raises instead). *)
Theorem HRM_forward_result_shapes :
  forall (sd : state_dict) (c : hrm.config) (m : hrm.HRM) (x : tensor)
         (mask : option tensor) (return_attention : bool) (st st' : run_state)
         (r : hrm.forward_result) (b sq k : nat),
    hrm.HRM_init sd c = Ok m ->
    shape x = [b; sq; k] ->
    hrm.HRM_forward m x mask return_attention st = Ok (r, st') ->
    shape (hrm.output r) = [b; Z.to_nat (hrm.cfg_input_dim c)] /\
    shape (hrm.final_controller_state r) = [b; Z.to_nat (hrm.cfg_controller_dim c)] /\
    shape (hrm.final_worker_state r) = [b; Z.to_nat (hrm.cfg_worker_dim c)] /\
    shape (hrm.controller_states r)
    = [b; Z.to_nat (hrm.cfg_num_cycles c); Z.to_nat (hrm.cfg_controller_dim c)] /\
    shape (hrm.worker_states r)
    = [b; Z.to_nat (hrm.cfg_num_cycles c); Z.to_nat (hrm.cfg_worker_dim c)] /\
    k = Z.to_nat (hrm.cfg_input_dim c) /\
    hrm.attention_weights r = None.
Proof.
  intros sd c m x mask ra st st' r b sq k Hinit Hx H.
  pose proof (HRM_init_wf _ _ _ Hinit) as Hwf.
  destruct (HRM_init_fields _ _ _ Hinit) as (_ & _ & _ & _ & Hn & _).
  destruct (HRM_forward_shapes _ _ _ _ _ _ _ _ _ _ b sq k Hwf Hx H)
    as (H1 & H2 & H3 & H4 & H5).
  rewrite Hn in H4, H5. repeat (split; [assumption|]).
  pose proof (HRM_init_built _ _ _ Hinit) as (_ & _ & _ & _ & _ & [Hipi _] & _).
  unfold hrm.HRM_forward in H. minv H.
  split.
  - match goal with
    | Hl : Linear_forward (hrm.input_projection m) x = Ok _ |- _ =>
        unfold Linear_forward in Hl; rewrite Hx in Hl; cbn [rev app] in Hl;
        destruct (k =? in_features (hrm.input_projection m)) eqn:Ek; [|discriminate];
        apply Nat.eqb_eq in Ek; congruence
    end.
  - match goal with
    | Hr : _ = r |- _ => rewrite <- Hr
    | Hr : r = _ |- _ => rewrite Hr
    end.
    cbn [hrm.attention_weights].
    match goal with
    | Ha : (if ra && hrm.use_attention m then _ else _) = Ok _ |- _ => rename Ha into Hflag
    end.
    match goal with
    | Hl : for_range _ _ _ _ = Ok _ |- _ => rename Hl into Hloop
    end.
    destruct (ra && hrm.use_attention m); [|inversion Hflag; reflexivity].
    exfalso. cbv iota in Hflag. apply rbind_ok in Hflag. destruct Hflag as (a & Ha & _).
    match type of Hloop with
    | for_range _ _ _ _ = Ok (?s, _) =>
        assert (HF : Forall is_dict (hrm.cs_attention_weights s))
    end.
    { eapply for_range_invariant
        with (P := fun s0 => Forall is_dict (hrm.cs_attention_weights s0));
        [ | | exact Hloop ];
        [ intros; eapply HRM_cycle_attention_weights; eauto
        | simpl; constructor ]. }
    pose proof (stack_dicts_fails _ 1%Z HF) as Hd. rewrite Ha in Hd. discriminate.
Qed.

(** X1 at a model of three cycles whose forward pass returns. *)
Lemma HRM_result_shapes_of_the_narrow_model :
  exists m r st',
    hrm.HRM_init sd_zero narrow_worker_config = Ok m /\
    hrm.HRM_forward m (zeros [2; 5; 8]) None false eval_mode = Ok (r, st') /\
    shape (hrm.output r) = [2; 8] /\
    shape (hrm.final_controller_state r) = [2; 16] /\
    shape (hrm.final_worker_state r) = [2; 1].
Proof.
  destruct (hrm.HRM_init sd_zero narrow_worker_config) as [m|e] eqn:E;
    [|ok_by_evaluation E (hrm.HRM_init sd_zero narrow_worker_config)].
  destruct (hrm.HRM_forward m (zeros [2; 5; 8]) None false eval_mode) as [[r st']|e] eqn:F;
    [|returns_by_evaluation E F].
  destruct (HRM_forward_result_shapes sd_zero narrow_worker_config m (zeros [2; 5; 8]) None
              false eval_mode st' r 2 5 8 E eq_refl F) as (H1 & H2 & H3 & _).
  exists m, r, st'. split; [reflexivity|]. split; [exact F|].
  split; [exact H1|]. split; [exact H2 | exact H3].
Defined.

(** ** The attention bridge *)

Lemma attention_core_training d Q K V hd mask st r st' :
  attention_core d Q K V hd mask st = Ok (r, st') -> training st' = training st.
Proof.
  intro H. unfold attention_core in H. minv H.
  match goal with
  | Hd : Dropout_forward _ _ _ = Ok _ |- _ => apply Dropout_forward_shape in Hd
  end.
  subst. intuition congruence.
Qed.

Lemma CrossModuleAttention_forward_training (m : attention.CrossModuleAttention)
    q k v mask st r st' :
  attention.CrossModuleAttention_forward m q k v mask st = Ok (r, st') ->
  training st' = training st.
Proof.
  intro H. unfold attention.CrossModuleAttention_forward in H. minv H.
  match goal with
  | Hc : attention_core _ _ _ _ _ _ _ = Ok _ |- _ => apply attention_core_training in Hc
  end.
  subst. congruence.
Qed.

Lemma eval_dropout_off d st : training st = false -> dropout_off d st = true.
Proof. unfold dropout_off. intros ->. reflexivity. Qed.

(** X10.  A cross-module attention built by the constructor returns on every
    query of shape (batch, seqQ, query_dim) with a key of shape
    (batch, seqK, key_dim) and a value of shape (batch, seqK, value_dim),
    without a mask or with a mask of shape (batch, seqK): the two sequence
    lengths may differ.  The output has shape (batch, seqQ, output_dim) and
    the weights have shape (batch, heads, seqQ, seqK). *)
Theorem CrossModuleAttention_forward_returns :
  forall (sd : state_dict) (name : string) (query_dim key_dim value_dim output_dim
          num_heads : Z) (dropout : Q) (m : attention.CrossModuleAttention)
         (q k v : tensor) (mask : option tensor) (st : run_state) (b sq sk : nat),
    attention.CrossModuleAttention_init sd name query_dim key_dim value_dim output_dim
      num_heads dropout = Ok m ->
    shape q = [b; sq; Z.to_nat query_dim] ->
    shape k = [b; sk; Z.to_nat key_dim] ->
    shape v = [b; sk; Z.to_nat value_dim] ->
    mask_fits b sk mask ->
    exists r st',
      attention.CrossModuleAttention_forward m q k v mask st = Ok (r, st') /\
      shape (attn_output r) = [b; sq; Z.to_nat output_dim] /\
      shape (attn_weights r) = [b; Z.to_nat num_heads; sq; sk].
Proof.
  intros sd name qd kd vd od heads dropout m q k v mask st b sq sk Hinit Hq Hk Hv Hm.
  pose proof (CrossModuleAttention_init_built _ _ _ _ _ _ _ _ _ Hinit) as Hb.
  exact (CrossModuleAttention_forward_total m q k v mask st b sq sk _ _ _ _ _ _
           Hb Hq Hk Hv Hm).
Qed.

(** X10 at 3 queries over 5 keys of another dimension, with a mask. *)
Lemma CrossModuleAttention_of_unequal_lengths_returns :
  exists m r st',
    attention.CrossModuleAttention_init sd_zero "attention" 16 8 8 16 8 0 = Ok m /\
    attention.CrossModuleAttention_forward m (zeros [2; 3; 16]) (zeros [2; 5; 8])
      (zeros [2; 5; 8]) (Some cross_attention_mask) eval_mode = Ok (r, st') /\
    shape (attn_output r) = [2; 3; 16] /\
    shape (attn_weights r) = [2; 8; 3; 5].
Proof.
  destruct (attention.CrossModuleAttention_init sd_zero "attention" 16 8 8 16 8 0)
    as [m|e] eqn:E.
  - destruct (CrossModuleAttention_forward_returns sd_zero "attention" 16 8 8 16 8 0 m
                (zeros [2; 3; 16]) (zeros [2; 5; 8]) (zeros [2; 5; 8])
                (Some cross_attention_mask) eval_mode 2 3 5 E eq_refl eq_refl eq_refl eq_refl)
      as (r & st' & Hr & Ho & Hw).
    exists m, r, st'. split; [reflexivity|]. split; [exact Hr|]. split; [exact Ho | exact Hw].
  - ok_by_evaluation E
      (attention.CrossModuleAttention_init sd_zero "attention" 16 8 8 16 8 0).
Defined.

Lemma single_key_weight (w : tensor) i0 i1 i2 :
  Rsum 1 (fun j => data w [i0; i1; i2; j]) = 1%R -> data w [i0; i1; i2; 0] = 1%R.
Proof. simpl. intro H. lra. Qed.

Lemma HierarchicalAttention_forward_weights (a : attention.HierarchicalAttention)
    cs ws mask st r st' b cd wd :
  shape cs = [b; cd] -> shape ws = [b; wd] ->
  mask_fits b 1 mask ->
  training st = false ->
  attention.HierarchicalAttention_forward a cs ws mask st = Ok (r, st') ->
  Forall (fun kv => forall i h, data (snd kv) [i; h; 0; 0] = 1%R)
    (attention.attention_weights r).
Proof.
  intros Hcs Hws Hm Hev H. unfold attention.HierarchicalAttention_forward in H. minv H.
  match goal with
  | Hr : _ = r |- _ => rewrite <- Hr
  | Hr : r = _ |- _ => rewrite Hr
  end.
  cbn [attention.attention_weights].
  repeat match goal with
         | Hu : unsqueeze 1 ?t = Ok ?y, Ht : shape ?t = [_; ?d] |- _ =>
             let Hy := fresh "Hseq" in
             destruct (unsqueeze1_rank2 t _ d Ht) as (? & Hy & ? & _);
             rewrite Hu in Hy; injection Hy as <-; clear Hu
         end.
  match goal with
  | H1 : attention.CrossModuleAttention_forward (attention.controller_to_worker_attn a)
           _ _ _ _ _ = Ok _ |- _ => rename H1 into Hc2w
  end.
  match goal with
  | H2 : attention.CrossModuleAttention_forward (attention.worker_to_controller_attn a)
           _ _ _ _ _ = Ok _ |- _ => rename H2 into Hw2c
  end.
  match goal with
  | Hco : (if attention.use_cross_attention a then _ else _) _ = Ok _ |- _ =>
      rename Hco into Hcross
  end.
  match goal with
  | Hsc : shape _ = [b; 1; cd], Hsw : shape _ = [b; 1; wd] |- _ =>
      rename Hsc into Hscseq; rename Hsw into Hswseq
  end.
  pose proof (CrossModuleAttention_forward_training _ _ _ _ _ _ _ _ Hc2w) as Ht1.
  pose proof (CrossModuleAttention_forward_training _ _ _ _ _ _ _ _ Hw2c) as Ht2.
  destruct (CrossModuleAttention_weights _ _ _ _ _ _ _ _ b 1 1 wd cd Hswseq Hscseq Hm
              (eval_dropout_off _ _ Hev) Hc2w) as [_ Hw1].
  destruct (CrossModuleAttention_weights _ _ _ _ _ _ _ _ b 1 1 cd wd Hscseq Hswseq Hm
              (eval_dropout_off _ _ (eq_trans Ht1 Hev)) Hw2c) as [_ Hw2].
  cbn [app].
  constructor; [intros i h; apply single_key_weight, Hw1; lia|].
  constructor; [intros i h; apply single_key_weight, Hw2; lia|].
  match type of Hcross with
  | _ = Ok (?co, _) => destruct co as [o|]; [|constructor]
  end.
  destruct (attention.use_cross_attention a);
    [|apply ret_ok in Hcross; destruct Hcross as [Hcross _]; discriminate].
  destruct (attention.cross_attention a) as [ca|]; [|discriminate].
  minv Hcross.
  match goal with
  | H3 : attention.CrossModuleAttention_forward ca _ _ _ _ _ = Ok _ |- _ =>
      destruct (CrossModuleAttention_weights _ _ _ _ _ _ _ _ b 1 1 cd wd Hscseq Hswseq Hm
                  (eval_dropout_off _ _ (eq_trans Ht2 (eq_trans Ht1 Hev))) H3)
        as [_ Hw3]
  end.
  match goal with
  | Heq : Some _ = Some _ |- _ => injection Heq as Heq; subst o
  end.
  constructor; [intros i h; apply single_key_weight, Hw3; lia | constructor].
Qed.

(** X8.  An attention bridge built by the constructor returns on every pair
    of states of shapes (batch, controller_dim) and (batch, worker_dim),
    without a mask or with a mask of shape (batch, 1).  Its outputs keep the
    shapes of the states; its weight dictionary holds the entries
    controller_to_worker and worker_to_controller, and cross_attention when
    the cross attention is enabled, each of shape (batch, heads, 1, 1); and in
    evaluation mode every one of these weights is 1, each state being the only
    key the other attends to. *)
Theorem HierarchicalAttention_forward_returns :
  forall (sd : state_dict) (name : string) (controller_dim worker_dim num_heads : Z)
         (dropout : Q) (use_cross_attention : bool) (a : attention.HierarchicalAttention)
         (controller_state worker_state : tensor) (mask : option tensor) (st : run_state)
         (b : nat),
    attention.HierarchicalAttention_init sd name controller_dim worker_dim num_heads
      dropout use_cross_attention = Ok a ->
    shape controller_state = [b; Z.to_nat controller_dim] ->
    shape worker_state = [b; Z.to_nat worker_dim] ->
    mask_fits b 1 mask ->
    exists r st',
      attention.HierarchicalAttention_forward a controller_state worker_state mask st
      = Ok (r, st') /\
      shape (attention.controller_output r) = [b; Z.to_nat controller_dim] /\
      shape (attention.worker_output r) = [b; Z.to_nat worker_dim] /\
      map fst (attention.attention_weights r)
      = ["controller_to_worker"; "worker_to_controller"]%string
        ++ (if use_cross_attention then ["cross_attention"%string] else []) /\
      Forall (fun kv => shape (snd kv) = [b; Z.to_nat num_heads; 1; 1])
        (attention.attention_weights r) /\
      (training st = false ->
       Forall (fun kv => forall i h, data (snd kv) [i; h; 0; 0] = 1%R)
         (attention.attention_weights r)).
Proof.
  intros sd name cd wd heads dropout cross a cs ws mask st b Hinit Hcs Hws Hm.
  pose proof (HierarchicalAttention_init_built _ _ _ _ _ _ _ _ Hinit) as Hb.
  destruct (HierarchicalAttention_forward_total a cs ws mask st b _ _ _ _ Hb Hcs Hws Hm)
    as (r & st' & Hr & H1 & H2 & H3 & H4).
  exists r, st'. repeat (split; [assumption|]).
  intro Hev.
  exact (HierarchicalAttention_forward_weights a cs ws mask st r st' b _ _ Hcs Hws Hm Hev Hr).
Qed.

(** X8 at a bridge between states of dimensions 16 and 8. *)
Lemma HierarchicalAttention_weights_are_one :
  exists a r st',
    attention.HierarchicalAttention_init sd_zero "attention" 16 8 8 0 true = Ok a /\
    attention.HierarchicalAttention_forward a (zeros [2; 16]) (zeros [2; 8]) None eval_mode
    = Ok (r, st') /\
    map fst (attention.attention_weights r)
    = ["controller_to_worker"; "worker_to_controller"; "cross_attention"]%string /\
    Forall (fun kv => forall i h, data (snd kv) [i; h; 0; 0] = 1%R)
      (attention.attention_weights r).
Proof.
  destruct (attention.HierarchicalAttention_init sd_zero "attention" 16 8 8 0 true)
    as [a|e] eqn:E.
  - destruct (HierarchicalAttention_forward_returns sd_zero "attention" 16 8 8 0 true a
                (zeros [2; 16]) (zeros [2; 8]) None eval_mode 2 E eq_refl eq_refl I)
      as (r & st' & Hr & _ & _ & Hkeys & _ & Hone).
    exists a, r, st'. split; [reflexivity|]. split; [exact Hr|]. split; [exact Hkeys|].
    exact (Hone eq_refl).
  - ok_by_evaluation E
      (attention.HierarchicalAttention_init sd_zero "attention" 16 8 8 0 true).
Defined.

(** ** A single key *)

Lemma transpose_same_data d1 d2 a b a' b' :
  shape a = shape b -> same_data a b ->
  transpose d1 d2 a = Ok a' -> transpose d1 d2 b = Ok b' ->
  shape a' = shape b' /\ same_data a' b'.
Proof.
  intros Hs Hd Ha Hb. unfold transpose, rank in *. rewrite Hs in Ha.
  destruct (norm_dim (length (shape b)) d1) as [p1|]; [|discriminate].
  destruct (norm_dim (length (shape b)) d2) as [p2|]; [|discriminate].
  cbn [rbind] in *. injection Ha as <-. injection Hb as <-. cbn [shape data].
  split; [reflexivity|]. intro idx. apply Hd.
Qed.

Lemma view_same_data sizes a b a' b' :
  shape a = shape b -> same_data a b ->
  view sizes a = Ok a' -> view sizes b = Ok b' ->
  shape a' = shape b' /\ same_data a' b'.
Proof.
  intros Hs Hd Ha Hb. unfold view in *. rewrite Hs in Ha.
  destruct (forallb _ sizes); [|discriminate].
  destruct (numel _ =? numel _); [|discriminate].
  injection Ha as <-. injection Hb as <-. cbn [shape data].
  split; [reflexivity|]. intro idx. apply Hd.
Qed.

Lemma Linear_forward_same_data l a b a' b' :
  shape a = shape b -> same_data a b ->
  Linear_forward l a = Ok a' -> Linear_forward l b = Ok b' ->
  shape a' = shape b' /\ same_data a' b'.
Proof.
  intros Hs Hd Ha Hb. unfold Linear_forward in *. rewrite Hs in Ha.
  destruct (rev (shape b)) as [|d r]; [discriminate|].
  destruct (d =? in_features l); [|discriminate].
  injection Ha as <-. injection Hb as <-. cbn [shape data].
  split; [reflexivity|]. intro idx. cbn [data]. f_equal.
  apply Rsum_ext. intros j _. rewrite Hd. reflexivity.
Qed.

Lemma merge_heads_same_data a b bsz s width a' b' :
  shape a = shape b -> same_data a b ->
  merge_heads a bsz s width = Ok a' -> merge_heads b bsz s width = Ok b' ->
  shape a' = shape b' /\ same_data a' b'.
Proof.
  intros Hs Hd Ha Hb. unfold merge_heads, contiguous in *.
  apply rbind_ok in Ha. destruct Ha as (ta & Hta & Ha).
  apply rbind_ok in Hb. destruct Hb as (tb & Htb & Hb).
  destruct (transpose_same_data _ _ _ _ _ _ Hs Hd Hta Htb) as [Hst Hdt].
  exact (view_same_data _ _ _ _ _ Hst Hdt Ha Hb).
Qed.

Lemma softmax_single_key sc pre i :
  last (shape sc) 1 = 1 ->
  data (softmax_last sc) (pre ++ [i; 0]) = 1%R.
Proof.
  intro Hl. unfold softmax_last. cbn [data]. rewrite Hl. cbn [Rsum].
  assert (Hset : set_last (pre ++ [i; 0]) 0 = pre ++ [i; 0]).
  { unfold set_last. change (pre ++ [i; 0]) with (pre ++ [i] ++ [0]).
    rewrite app_assoc, removelast_last. reflexivity. }
  rewrite Hset. pose proof (exp_pos (data sc (pre ++ [i; 0]))). field. lra.
Qed.

Lemma matmul_single_key w V z b h n q :
  shape w = [b; h; n; 1] -> shape V = [b; h; 1; q] ->
  (forall pre i, data w (pre ++ [i; 0]) = 1%R) ->
  matmul w V = Ok z ->
  shape z = [b; h; n; q] /\
  forall idx, data z idx
              = data V (bc_index [b; h] (firstn (length idx - 2) idx)
                        ++ [0; nth (S (length idx - 2)) idx 0]).
Proof.
  intros Hw HV Hone H. unfold matmul, split_last2 in H. rewrite Hw, HV in H.
  cbn [rev app Nat.eqb] in H. rewrite broadcast_same in H. cbn [rbind] in H.
  injection H as <-. cbn [shape data]. split; [reflexivity|].
  intro idx. cbn [Rsum]. rewrite Hone. lra.
Qed.

Lemma attention_core_single_key d Q K V hd mask st att w st' b h sq e :
  shape Q = [b; h; sq; e] -> shape K = [b; h; 1; e] -> shape V = [b; h; 1; e] ->
  mask_fits b 1 mask ->
  dropout_off d st = true ->
  attention_core d Q K V hd mask st = Ok ((att, w), st') ->
  shape att = [b; h; sq; e] /\
  forall idx, data att idx
              = data V (bc_index [b; h] (firstn (length idx - 2) idx)
                        ++ [0; nth (S (length idx - 2)) idx 0]).
Proof.
  intros HQ HK HV Hm Hoff H. unfold attention_core in H. minv H.
  match goal with
  | Heq : (_, _) = (att, w) |- _ => injection Heq as ? ?; subst
  | Heq : (att, w) = (_, _) |- _ => injection Heq as ? ?; subst
  end.
  match goal with
  | Hs : attention_scores Q K hd mask = Ok ?sc,
    Hd : Dropout_forward d (softmax_last ?sc) st = Ok (?w0, _),
    Hmm : matmul ?w0 V = Ok _ |- _ =>
      pose proof (attention_scores_shape _ _ _ _ _ _ _ _ _ _ _ HQ HK Hm Hs) as Hssc;
      destruct (Dropout_forward_off _ _ _ _ _ Hoff Hd) as [Hsw Hdw];
      cbn [softmax_last shape] in Hsw; rewrite Hssc in Hsw;
      apply (matmul_single_key w0 V _ b h sq e Hsw HV); [|exact Hmm];
      intros pre i; rewrite Hdw; apply softmax_single_key; rewrite Hssc; reflexivity
  end.
Qed.

(** X9.  With a single key and dropout disabled, a cross-module attention
    returns the same output for every query of a given shape: the one weight
    of each row is 1, so the output is the projected value at every query
    position.  (The bridge always attends over a single key.) *)
Theorem CrossModuleAttention_single_key_ignores_query :
  forall (m : attention.CrossModuleAttention) (q1 q2 k v : tensor) (mask : option tensor)
         (st st1 st2 : run_state) (r1 r2 : attention_output) (b sq dq dk : nat),
    shape q1 = [b; sq; dq] ->
    shape q2 = [b; sq; dq] ->
    shape k = [b; 1; dk] ->
    mask_fits b 1 mask ->
    dropout_off (attention.cm_dropout_layer m) st = true ->
    attention.CrossModuleAttention_forward m q1 k v mask st = Ok (r1, st1) ->
    attention.CrossModuleAttention_forward m q2 k v mask st = Ok (r2, st2) ->
    shape (attn_output r1) = shape (attn_output r2) /\
    forall idx, data (attn_output r1) idx = data (attn_output r2) idx.
Proof.
  intros m q1 q2 k v mask st st1 st2 r1 r2 b sq dq dk Hq1 Hq2 Hk Hm Hoff H1 H2.
  unfold attention.CrossModuleAttention_forward in H1, H2.
  minv H1. minv H2. unpack_shapes. subst r1 r2. cbn [attn_output].
  repeat match goal with
         | Ha : ?e = Ok ?x, Hb : ?e = Ok ?y |- _ =>
             rewrite Ha in Hb; injection Hb as <-
         end.
  repeat match goal with
         | Hs : split_heads _ _ _ _ _ = Ok _ |- _ => apply split_heads_shape in Hs
         end.
  match goal with
  | Hc1 : attention_core _ ?Q1 ?K ?V _ _ _ = Ok (?a1, ?w1, _),
    Hc2 : attention_core _ ?Q2 ?K ?V _ _ _ = Ok (?a2, ?w2, _),
    HQ1 : shape ?Q1 = _, HQ2 : shape ?Q2 = _, HK : shape ?K = _, HV : shape ?V = _,
    Hm1 : merge_heads ?a1 _ _ _ = Ok ?g1, Hm2 : merge_heads ?a2 _ _ _ = Ok ?g2,
    Hl1 : Linear_forward _ ?g1 = Ok _, Hl2 : Linear_forward _ ?g2 = Ok _ |- _ =>
      destruct (attention_core_single_key _ _ _ _ _ _ _ _ _ _ _ _ _ _ HQ1 HK HV Hm Hoff Hc1)
        as [Hs1 Hd1];
      destruct (attention_core_single_key _ _ _ _ _ _ _ _ _ _ _ _ _ _ HQ2 HK HV Hm Hoff Hc2)
        as [Hs2 Hd2];
      assert (Hsame : same_data a1 a2) by (intro idx; rewrite Hd1, Hd2; reflexivity);
      destruct (merge_heads_same_data _ _ _ _ _ _ _ (eq_trans Hs1 (eq_sym Hs2)) Hsame
                  Hm1 Hm2) as [Hsg Hdg];
      exact (Linear_forward_same_data _ _ _ _ _ Hsg Hdg Hl1 Hl2)
  end.
Qed.

(** X9 at two different queries (all zeros, all ones) over one key. *)
Lemma CrossModuleAttention_same_output_for_two_queries :
  exists m r1 r2 st1 st2,
    attention.CrossModuleAttention_init sd_zero "attention" 16 8 8 16 8 0 = Ok m /\
    attention.CrossModuleAttention_forward m (zeros [2; 3; 16]) (zeros [2; 1; 8])
      (zeros [2; 1; 8]) None eval_mode = Ok (r1, st1) /\
    attention.CrossModuleAttention_forward m (ones [2; 3; 16]) (zeros [2; 1; 8])
      (zeros [2; 1; 8]) None eval_mode = Ok (r2, st2) /\
    forall idx, data (attn_output r1) idx = data (attn_output r2) idx.
Proof.
  destruct (attention.CrossModuleAttention_init sd_zero "attention" 16 8 8 16 8 0)
    as [m|e] eqn:E;
    [|ok_by_evaluation E
        (attention.CrossModuleAttention_init sd_zero "attention" 16 8 8 16 8 0)].
  destruct (attention.CrossModuleAttention_forward m (zeros [2; 3; 16]) (zeros [2; 1; 8])
              (zeros [2; 1; 8]) None eval_mode) as [[r1 st1]|e] eqn:F1;
    [|returns_by_evaluation E F1].
  destruct (attention.CrossModuleAttention_forward m (ones [2; 3; 16]) (zeros [2; 1; 8])
              (zeros [2; 1; 8]) None eval_mode) as [[r2 st2]|e] eqn:F2;
    [|returns_by_evaluation E F2].
  exists m, r1, r2, st1, st2. split; [reflexivity|]. split; [exact F1|]. split; [exact F2|].
  exact (proj2 (CrossModuleAttention_single_key_ignores_query m (zeros [2; 3; 16])
                  (ones [2; 3; 16]) (zeros [2; 1; 8]) (zeros [2; 1; 8]) None eval_mode
                  st1 st2 r1 r2 2 3 16 8 eq_refl eq_refl eq_refl I eq_refl F1 F2)).
Defined.

(** ** Masks and the bridge *)

Lemma broadcast_last_dim bm b h sq s sh :
  broadcast_shapes [bm; 1; 1; s] [b; h; sq; 1] = Ok sh ->
  exists z0 z1 z2, sh = [z0; z1; z2; s].
Proof.
  unfold broadcast_shapes. cbn [rev app].
  destruct (bc_rev [s; 1; 1; bm] [1; sq; h; b]) as [r|] eqn:Hr; [|discriminate].
  intro H. injection H as <-.
  apply bc_rev_cons_inv in Hr. destruct Hr as (z3 & r3 & -> & Hr & Hz3).
  apply bc_rev_cons_inv in Hr. destruct Hr as (z2 & r2 & -> & Hr & _).
  apply bc_rev_cons_inv in Hr. destruct Hr as (z1 & r1 & -> & Hr & _).
  apply bc_rev_cons_inv in Hr. destruct Hr as (z0 & r0 & -> & Hr & _).
  simpl in Hr. injection Hr as <-. cbn [rev app].
  exists z0, z1, z2. assert (z3 = s) by lia. subst. reflexivity.
Qed.

Lemma attention_core_single_key_mask d Q K V hd mask st r st' b h sq e bm s :
  shape Q = [b; h; sq; e] -> shape K = [b; h; 1; e] -> shape V = [b; h; 1; e] ->
  shape mask = [bm; s] ->
  attention_core d Q K V hd (Some mask) st = Ok (r, st') ->
  s = 1.
Proof.
  intros HQ HK HV Hmask H. unfold attention_core in H. minv H.
  match goal with
  | Hs : attention_scores Q K hd (Some mask) = Ok ?sc,
    Hd : Dropout_forward d (softmax_last ?sc) st = Ok (?w, _),
    Hmm : matmul ?w V = Ok _ |- _ =>
      unfold attention_scores in Hs; minv Hs;
      apply Dropout_forward_shape in Hd; destruct Hd as [Hsw _];
      cbn [softmax_last shape] in Hsw
  end.
  match goal with
  | Ht : transpose (-2) (-1) K = Ok ?Kt, Hqk : matmul Q ?Kt = Ok ?qk,
    Hu1 : unsqueeze 1 mask = Ok ?m1, Hu2 : unsqueeze 1 ?m1 = Ok ?m2,
    Hmf : masked_fill_eq0 _ ?m2 _ = Ok ?sc, Hmm : matmul ?w V = Ok _ |- _ =>
      destruct (transpose_last2_rank4 K b h 1 e HK) as (Kt' & HKt' & HsKt);
      rewrite Ht in HKt'; injection HKt' as <-;
      pose proof (matmul_rank4 _ _ _ _ _ _ _ _ _ HQ HsKt Hqk) as Hsqk;
      destruct (unsqueeze1_rank2 mask bm s Hmask) as (m1' & Hm1' & Hsm1 & _);
      rewrite Hu1 in Hm1'; injection Hm1' as <-;
      destruct (unsqueeze1_rank3 m1 bm 1 s Hsm1) as (m2' & Hm2' & Hsm2);
      rewrite Hu2 in Hm2'; injection Hm2' as <-;
      apply masked_fill_shape in Hmf; rewrite Hsm2 in Hmf;
      cbn [div_scalar tmap shape] in Hmf; rewrite Hsqk in Hmf;
      destruct (broadcast_last_dim _ _ _ _ _ _ Hmf) as (z0 & z1 & z2 & Hsc);
      rewrite Hsc in Hsw;
      unfold matmul, split_last2 in Hmm; rewrite Hsw, HV in Hmm; cbn [rev app] in Hmm;
      destruct (s =? 1) eqn:Es; [apply Nat.eqb_eq in Es; exact Es | discriminate]
  end.
Qed.

Lemma CrossModuleAttention_single_key_mask (m : attention.CrossModuleAttention)
    q k v mask st r st' bk dk bm s :
  shape k = [bk; 1; dk] -> shape mask = [bm; s] ->
  attention.CrossModuleAttention_forward m q k v (Some mask) st = Ok (r, st') ->
  s = 1.
Proof.
  intros Hk Hmask H. unfold attention.CrossModuleAttention_forward in H. minv H.
  unpack_shapes.
  repeat match goal with
         | Hs : split_heads _ _ _ _ _ = Ok _ |- _ => apply split_heads_shape in Hs
         end.
  match goal with
  | Hc : attention_core _ ?Q ?K ?V _ _ _ = Ok _,
    HQ : shape ?Q = _, HK : shape ?K = _, HV : shape ?V = _ |- _ =>
      exact (attention_core_single_key_mask _ _ _ _ _ _ _ _ _ _ _ _ _ _ _ HQ HK HV Hmask Hc)
  end.
Qed.

Lemma HierarchicalAttention_forward_mask (a : attention.HierarchicalAttention)
    cs ws mask st r st' b cd bm s :
  shape cs = [b; cd] -> shape mask = [bm; s] ->
  attention.HierarchicalAttention_forward a cs ws (Some mask) st = Ok (r, st') ->
  s = 1.
Proof.
  intros Hcs Hmask H. unfold attention.HierarchicalAttention_forward in H. minv H.
  match goal with
  | Hu : unsqueeze 1 cs = Ok ?cseq,
    Hc : attention.CrossModuleAttention_forward (attention.controller_to_worker_attn a)
           _ ?cseq _ _ _ = Ok _ |- _ =>
      destruct (unsqueeze1_rank2 cs b cd Hcs) as (y & Hy & Hsy & _);
      rewrite Hu in Hy; injection Hy as <-;
      exact (CrossModuleAttention_single_key_mask _ _ _ _ _ _ _ _ _ _ _ _ Hsy Hmask Hc)
  end.
Qed.

(** X3.  With the attention bridge, a forward call with a mask of two
    dimensions whose last is not 1 never returns: the bridge attends over a
    single key, so the masked scores get the mask's last dimension and cannot
    be multiplied with the single value row.  In particular the documented
    mask of shape (batch, seq_len) is refused whenever seq_len is not 1. *)
Theorem HRM_forward_with_bridge_refuses_sequence_mask :
  forall (sd : state_dict) (c : hrm.config) (m : hrm.HRM) (x mask : tensor)
         (return_attention : bool) (st : run_state) (bm s : nat),
    hrm.HRM_init sd c = Ok m ->
    hrm.cfg_use_attention c = true ->
    shape mask = [bm; s] -> s <> 1 ->
    is_ok (hrm.HRM_forward m x (Some mask) return_attention st) = false.
Proof.
  intros sd c m x mask ra st bm s Hinit Hatt Hmask Hs.
  destruct (hrm.HRM_forward m x (Some mask) ra st) as [[r st']|e] eqn:H; [|reflexivity].
  exfalso. apply Hs.
  pose proof (HRM_init_wf _ _ _ Hinit) as Hwf.
  destruct (HRM_init_fields _ _ _ Hinit) as (_ & _ & _ & _ & _ & Hua & _).
  assert (Hx : exists b sq k, shape x = [b; sq; k]).
  { unfold hrm.HRM_forward in H. apply bind_ok in H.
    destruct H as ([[b sq] k] & st1 & Hu & _). apply lift_ok in Hu. destruct Hu as [Hu _].
    apply unpack3_shape in Hu. eauto. }
  destruct Hx as (b & sq & k & Hx).
  destruct (HRM_forward_steps _ _ _ _ _ _ _ _ _ _ _ _ _ Hwf Hx H)
    as (x0 & final & _ & Hsx0 & Hloop & _ & Hstack & _).
  destruct (Z.to_nat (hrm.num_cycles m)) as [|n] eqn:En.
  - simpl in Hloop. apply ret_ok in Hloop. destruct Hloop as [Hf _]. subst final.
    simpl in Hstack. discriminate.
  - destruct (for_range_steps (fun _ _ => True) _ (fun _ => I) (fun _ _ _ _ _ => I)
                (fun _ _ _ _ _ _ => I) _ _ _ _ _ Hloop 0)
      as (s0 & st0 & s1 & st1 & H0 & Hbody & _); [lia|].
    simpl in H0. apply ret_ok in H0. destruct H0 as [H0 H0']. subst s0 st0.
    apply HRM_cycle_steps in Hbody. destruct Hbody as (t & Hsteps).
    assert (Hsc : shape (controller.hidden_state (ct_controller t))
                  = [b; Z.to_nat (hrm.cfg_controller_dim c)]).
    { eapply cycle_steps_shapes; [exact Hwf | exact Hsx0 | | | exact Hsteps]; reflexivity. }
    destruct Hsteps as (sa & sb & _ & _ & _ & _ & _ & Hfuse & _).
    rewrite Hua, Hatt in Hfuse. destruct Hfuse as (att & bo & _ & Hfw & _).
    exact (HierarchicalAttention_forward_mask _ _ _ _ _ _ _ _ _ _ _ Hsc Hmask Hfw).
Qed.

(** X3 at the bridged model and a mask of shape (2, 5). *)
Lemma HRM_bridged_model_refuses_the_mask :
  exists m,
    hrm.HRM_init sd_zero bridged_config = Ok m /\
    is_ok (hrm.HRM_forward m (zeros [2; 5; 8]) (Some cross_attention_mask) false eval_mode)
    = false.
Proof.
  destruct (hrm.HRM_init sd_zero bridged_config) as [m|e] eqn:E.
  - exists m. split; [reflexivity|].
    apply (HRM_forward_with_bridge_refuses_sequence_mask sd_zero bridged_config m
             (zeros [2; 5; 8]) cross_attention_mask false eval_mode 2 5 E eq_refl eq_refl).
    lia.
  - ok_by_evaluation E (hrm.HRM_init sd_zero bridged_config).
Defined.

(** ** Evaluation mode *)

Lemma eval_pure_ret {A} (a : A) : eval_pure (ret a).
Proof. intros st _. reflexivity. Qed.

Lemma eval_pure_lift {A} (r : result A) : eval_pure (lift r).
Proof. intros st _. unfold lift. destruct r; reflexivity. Qed.

Lemma eval_pure_raise {A} (e : error) : eval_pure (@raise A e).
Proof. intros st _. reflexivity. Qed.

Lemma eval_pure_bind {A B} (m : M A) (k : A -> M B) :
  eval_pure m -> (forall a, eval_pure (k a)) -> eval_pure (bind m k).
Proof.
  intros Hm Hk st Hst. unfold bind.
  rewrite (Hm st Hst). pose proof (Hm eval_mode eq_refl) as He.
  destruct (m eval_mode) as [[a s]|e]; [|reflexivity].
  injection He as He. rewrite He. apply Hk. exact Hst.
Qed.

Lemma eval_pure_Dropout d x : eval_pure (Dropout_forward d x).
Proof. intros st Hst. unfold Dropout_forward. rewrite Hst. reflexivity. Qed.

Lemma eval_pure_for_range {S} (body : nat -> S -> M S) n :
  (forall i s, eval_pure (body i s)) -> forall s, eval_pure (for_range n body s).
Proof.
  intros Hb. induction n as [|k IH]; intro s.
  - apply eval_pure_ret.
  - simpl. apply eval_pure_bind; [apply IH | intro; apply Hb].
Qed.

Ltac eval_pure_step :=
  first
    [ apply eval_pure_ret
    | apply eval_pure_lift
    | apply eval_pure_raise
    | apply eval_pure_Dropout
    | assumption
    | apply eval_pure_for_range; intros
    | apply eval_pure_bind; [|intros]
    | match goal with
      | |- eval_pure (match ?p with (_, _) => _ end) => destruct p
      | |- eval_pure (if ?b then _ else _) => destruct b
      | |- eval_pure (match ?o with Some _ => _ | None => _ end) => destruct o
      end ].

Ltac eval_pure_solve := repeat eval_pure_step.

Lemma eval_pure_attention_core d Q K V hd mask :
  eval_pure (attention_core d Q K V hd mask).
Proof. unfold attention_core. eval_pure_solve. Qed.

Lemma eval_pure_controller_MultiHeadAttention (m : controller.MultiHeadAttention) q k v mask :
  eval_pure (controller.MultiHeadAttention_forward m q k v mask).
Proof.
  pose proof eval_pure_attention_core.
  unfold controller.MultiHeadAttention_forward. eval_pure_solve.
Qed.

Lemma eval_pure_FeedForward (f : controller.FeedForward) x :
  eval_pure (controller.FeedForward_forward f x).
Proof. unfold controller.FeedForward_forward. eval_pure_solve. Qed.

Lemma eval_pure_PlanningNetwork (n : controller.PlanningNetwork) x :
  eval_pure (controller.PlanningNetwork_forward n x).
Proof. unfold controller.PlanningNetwork_forward. eval_pure_solve. Qed.

Lemma eval_pure_Controller_layer (c : controller.Controller) mask i s :
  eval_pure (controller.Controller_layer c mask i s).
Proof.
  pose proof eval_pure_controller_MultiHeadAttention.
  pose proof eval_pure_FeedForward.
  unfold controller.Controller_layer. eval_pure_solve.
Qed.

Lemma eval_pure_Controller (c : controller.Controller) x h mask :
  eval_pure (controller.Controller_forward c x h mask).
Proof.
  pose proof eval_pure_Controller_layer.
  pose proof eval_pure_PlanningNetwork.
  unfold controller.Controller_forward. eval_pure_solve.
Qed.

Lemma eval_pure_WorkerLayer (l : worker.WorkerLayer) x h :
  eval_pure (worker.WorkerLayer_forward l x h).
Proof. unfold worker.WorkerLayer_forward. eval_pure_solve. Qed.

Lemma eval_pure_PatternRecognitionNetwork (n : worker.PatternRecognitionNetwork) x :
  eval_pure (worker.PatternRecognitionNetwork_forward n x).
Proof. unfold worker.PatternRecognitionNetwork_forward. eval_pure_solve. Qed.

Lemma eval_pure_FastResponseNetwork (n : worker.FastResponseNetwork) x :
  eval_pure (worker.FastResponseNetwork_forward n x).
Proof. unfold worker.FastResponseNetwork_forward. eval_pure_solve. Qed.

Lemma eval_pure_Worker_layer (w : worker.Worker) i s :
  eval_pure (worker.Worker_layer w i s).
Proof.
  pose proof eval_pure_WorkerLayer.
  unfold worker.Worker_layer. eval_pure_solve.
Qed.

Lemma eval_pure_Worker (w : worker.Worker) x h :
  eval_pure (worker.Worker_forward w x h).
Proof.
  pose proof eval_pure_Worker_layer.
  pose proof eval_pure_PatternRecognitionNetwork.
  pose proof eval_pure_FastResponseNetwork.
  unfold worker.Worker_forward. eval_pure_solve.
Qed.

Lemma eval_pure_CrossModuleAttention (m : attention.CrossModuleAttention) q k v mask :
  eval_pure (attention.CrossModuleAttention_forward m q k v mask).
Proof.
  pose proof eval_pure_attention_core.
  unfold attention.CrossModuleAttention_forward. eval_pure_solve.
Qed.

Lemma eval_pure_HierarchicalAttention (a : attention.HierarchicalAttention) cs ws mask :
  eval_pure (attention.HierarchicalAttention_forward a cs ws mask).
Proof.
  pose proof eval_pure_CrossModuleAttention.
  unfold attention.HierarchicalAttention_forward. eval_pure_solve.
Qed.

Lemma eval_pure_HRM_cycle (m : hrm.HRM) x mask ra i s :
  eval_pure (hrm.HRM_cycle m x mask ra i s).
Proof.
  pose proof eval_pure_Controller.
  pose proof eval_pure_Worker.
  pose proof eval_pure_HierarchicalAttention.
  unfold hrm.HRM_cycle. eval_pure_solve.
Qed.

Lemma eval_pure_HRM (m : hrm.HRM) x mask ra :
  eval_pure (hrm.HRM_forward m x mask ra).
Proof.
  pose proof eval_pure_HRM_cycle.
  unfold hrm.HRM_forward. eval_pure_solve.
Qed.

(** X19.  In evaluation mode a forward call neither reads nor advances the
    random generator: from any state in evaluation mode it returns the result
    (or raises the error) it gives from the reference state, and hands the
    state back as it was. *)
Theorem HRM_forward_in_evaluation_mode :
  forall (m : hrm.HRM) (x : tensor) (mask : option tensor) (return_attention : bool)
         (st : run_state),
    training st = false ->
    hrm.HRM_forward m x mask return_attention st
    = match hrm.HRM_forward m x mask return_attention eval_mode with
      | Ok (r, _) => Ok (r, st)
      | Err e => Err e
      end.
Proof. intros m x mask ra st Hst. apply eval_pure_HRM. exact Hst. Qed.

(** X19 at the narrow model, from a state that has already drawn seven
    masks. *)
Lemma HRM_forward_from_a_used_generator :
  exists m,
    hrm.HRM_init sd_zero narrow_worker_config = Ok m /\
    hrm.HRM_forward m (zeros [2; 5; 8]) None false (mkRun false (fun _ _ => false) 7)
    = match hrm.HRM_forward m (zeros [2; 5; 8]) None false eval_mode with
      | Ok (r, _) => Ok (r, mkRun false (fun _ _ => false) 7)
      | Err e => Err e
      end.
Proof.
  destruct (hrm.HRM_init sd_zero narrow_worker_config) as [m|e] eqn:E.
  - exists m. split; [reflexivity|].
    apply (HRM_forward_in_evaluation_mode m (zeros [2; 5; 8]) None false
             (mkRun false (fun _ _ => false) 7)).
    reflexivity.
  - ok_by_evaluation E (hrm.HRM_init sd_zero narrow_worker_config).
Defined.

(** ** A worker without layers *)

(** ** A model without layers *)

Lemma Controller_forward_without_layers (c : controller.Controller) x1 x2 h mask st
    r1 r2 st1 st2 :
  (controller.num_layers c <= 0)%Z ->
  controller.Controller_forward c x1 h mask st = Ok (r1, st1) ->
  controller.Controller_forward c x2 h mask st = Ok (r2, st2) ->
  r1 = r2 /\ st1 = st2.
Proof.
  intros Hn H1 H2. unfold controller.Controller_forward in H1, H2.
  replace (Z.to_nat (controller.num_layers c)) with 0 in H1, H2 by lia.
  apply bind_ok in H1. destruct H1 as ([[b1 s1] k1] & sa & Ha & H1).
  apply lift_ok in Ha. destruct Ha as [_ <-].
  apply bind_ok in H1. destruct H1 as (g & sb & Hb & H1).
  apply lift_ok in Hb. destruct Hb as [Hg <-].
  apply bind_ok in H1. destruct H1 as (g1 & sc & Hc & H1).
  apply lift_ok in Hc. destruct Hc as [_ <-].
  apply bind_ok in H1. destruct H1 as (g2 & sd & Hd & H1).
  apply lift_ok in Hd. destruct Hd as [_ <-].
  apply bind_ok in H1. destruct H1 as (y1 & se & He & H1).
  apply lift_ok in He. destruct He as [_ <-].
  apply bind_ok in H2. destruct H2 as ([[b2 s2] k2] & ta & Ha & H2).
  apply lift_ok in Ha. destruct Ha as [_ <-].
  apply bind_ok in H2. destruct H2 as (g' & tb & Hb & H2).
  apply lift_ok in Hb. destruct Hb as [Hg' <-].
  apply bind_ok in H2. destruct H2 as (g1' & tc & Hc & H2).
  apply lift_ok in Hc. destruct Hc as [_ <-].
  apply bind_ok in H2. destruct H2 as (g2' & td & Hd & H2).
  apply lift_ok in Hd. destruct Hd as [_ <-].
  apply bind_ok in H2. destruct H2 as (y2 & te & He & H2).
  apply lift_ok in He. destruct He as [_ <-].
  rewrite Hg in Hg'. injection Hg' as <-.
  cbn [for_range] in H1, H2. unfold bind at 1, ret at 1 in H1.
  unfold bind at 1, ret at 1 in H2.
  cbn [controller.ls_current_hidden controller.ls_attention_weights] in *.
  rewrite H1 in H2. injection H2 as <- <-. split; reflexivity.
Qed.

Lemma HRM_cycle_without_layers (m : hrm.HRM) x1 x2 mask ra i s st s1 s2 st1 st2 :
  (controller.num_layers (hrm.controller m) <= 0)%Z ->
  hrm.HRM_cycle m x1 mask ra i s st = Ok (s1, st1) ->
  hrm.HRM_cycle m x2 mask ra i s st = Ok (s2, st2) ->
  s1 = s2 /\ st1 = st2.
Proof.
  intros Hn H1 H2. unfold hrm.HRM_cycle in H1, H2.
  apply bind_ok in H1. destruct H1 as (c1 & sa & Hc1 & H1).
  apply bind_ok in H2. destruct H2 as (c2 & sb & Hc2 & H2).
  destruct (Controller_forward_without_layers _ _ _ _ _ _ _ _ _ _ Hn Hc1 Hc2) as [<- <-].
  rewrite H1 in H2. injection H2 as <- <-. split; reflexivity.
Qed.

Lemma HRM_cycles_without_layers (m : hrm.HRM) x1 x2 mask ra s :
  (controller.num_layers (hrm.controller m) <= 0)%Z ->
  forall n st f1 f2 st1 st2,
    for_range n (hrm.HRM_cycle m x1 mask ra) s st = Ok (f1, st1) ->
    for_range n (hrm.HRM_cycle m x2 mask ra) s st = Ok (f2, st2) ->
    f1 = f2 /\ st1 = st2.
Proof.
  intros Hn n. induction n as [|k IH]; intros st f1 f2 st1 st2 H1 H2.
  - simpl in H1, H2. apply ret_ok in H1, H2. destruct H1 as [<- <-], H2 as [<- <-]. auto.
  - simpl in H1, H2. apply bind_ok in H1, H2.
    destruct H1 as (a1 & sa1 & Ha1 & Hb1), H2 as (a2 & sa2 & Ha2 & Hb2).
    destruct (IH _ _ _ _ _ Ha1 Ha2) as [<- <-].
    exact (HRM_cycle_without_layers _ _ _ _ _ _ _ _ _ _ _ _ Hn Hb1 Hb2).
Qed.

Lemma HRM_forward_input_rank (m : hrm.HRM) x mask ra st r st' :
  hrm.HRM_forward m x mask ra st = Ok (r, st') -> exists b sq k, shape x = [b; sq; k].
Proof.
  intro H. unfold hrm.HRM_forward in H. apply bind_ok in H.
  destruct H as ([[b sq] k] & st1 & Hu & _). apply lift_ok in Hu. destruct Hu as [Hu _].
  apply unpack3_shape in Hu. eauto.
Qed.

(** X5.  A model without layers never looks at the contents of its input:
    the controller only reads the input inside its layers.  Two forward
    calls of such a model on inputs of the same batch size, whatever their
    contents and lengths, with the same mask and from the same state, return
    the same result and leave the same state. *)
Theorem HRM_without_layers_ignores_input :
  forall (sd : state_dict) (c : hrm.config) (m : hrm.HRM) (x1 x2 : tensor)
         (mask : option tensor) (return_attention : bool)
         (st st1 st2 : run_state) (r1 r2 : hrm.forward_result),
    hrm.HRM_init sd c = Ok m ->
    (hrm.cfg_num_layers c <= 0)%Z ->
    nth 0 (shape x1) 0 = nth 0 (shape x2) 0 ->
    hrm.HRM_forward m x1 mask return_attention st = Ok (r1, st1) ->
    hrm.HRM_forward m x2 mask return_attention st = Ok (r2, st2) ->
    r1 = r2 /\ st1 = st2.
Proof.
  intros sd c m x1 x2 mask ra st st1 st2 r1 r2 Hinit HL Hb H1 H2.
  destruct (HRM_init_modules _ _ _ Hinit) as (_ & Hc & _).
  assert (Hn : (controller.num_layers (hrm.controller m) <= 0)%Z).
  { unfold controller.Controller_init in Hc. minv Hc.
    match goal with
    | Heq : Ok _ = Ok (hrm.controller m) |- _ => injection Heq as Heq; rewrite <- Heq
    end.
    exact HL. }
  destruct (HRM_forward_input_rank _ _ _ _ _ _ _ H1) as (b1 & sq1 & k1 & Hx1).
  destruct (HRM_forward_input_rank _ _ _ _ _ _ _ H2) as (b2 & sq2 & k2 & Hx2).
  rewrite Hx1, Hx2 in Hb. simpl in Hb. subst b2.
  unfold hrm.HRM_forward in H1, H2.
  rewrite (bind_lift_step _ _ _ _ (unpack3_total x1 _ _ _ Hx1)) in H1.
  rewrite (bind_lift_step _ _ _ _ (unpack3_total x2 _ _ _ Hx2)) in H2.
  apply bind_ok in H1. destruct H1 as (y1 & sa & Ha & H1).
  apply lift_ok in Ha. destruct Ha as [_ <-].
  apply bind_ok in H1. destruct H1 as (z1 & sb & Hb & H1).
  apply lift_ok in Hb. destruct Hb as [_ <-].
  apply bind_ok in H1. destruct H1 as (cd & sc & Hcd & H1).
  apply lift_ok in Hcd. destruct Hcd as [Hcd <-].
  apply bind_ok in H1. destruct H1 as (wd & sd' & Hwd & H1).
  apply lift_ok in Hwd. destruct Hwd as [Hwd <-].
  apply bind_ok in H1. destruct H1 as (f1 & se & Hloop1 & H1).
  apply bind_ok in H2. destruct H2 as (y2 & ta & Ha & H2).
  apply lift_ok in Ha. destruct Ha as [_ <-].
  apply bind_ok in H2. destruct H2 as (z2 & tb & Hb & H2).
  apply lift_ok in Hb. destruct Hb as [_ <-].
  apply bind_ok in H2. destruct H2 as (cd' & tc & Hcd' & H2).
  apply lift_ok in Hcd'. destruct Hcd' as [Hcd' <-].
  apply bind_ok in H2. destruct H2 as (wd' & td & Hwd' & H2).
  apply lift_ok in Hwd'. destruct Hwd' as [Hwd' <-].
  apply bind_ok in H2. destruct H2 as (f2 & te & Hloop2 & H2).
  rewrite Hcd in Hcd'. injection Hcd' as <-.
  rewrite Hwd in Hwd'. injection Hwd' as <-.
  destruct (HRM_cycles_without_layers _ _ _ _ _ _ Hn _ _ _ _ _ _ Hloop1 Hloop2) as [<- <-].
  rewrite H1 in H2. injection H2 as <- <-. split; reflexivity.
Qed.

(** X5 at the model with the bridge and no layers, on the all-zero and the
    all-one input of different lengths. *)
Lemma HRM_same_result_for_two_inputs :
  exists m r1 r2 st1 st2,
    hrm.HRM_init sd_zero bridged_config = Ok m /\
    hrm.HRM_forward m (zeros [2; 5; 8]) None false eval_mode = Ok (r1, st1) /\
    hrm.HRM_forward m (ones [2; 3; 8]) None false eval_mode = Ok (r2, st2) /\
    r1 = r2.
Proof.
  destruct (hrm.HRM_init sd_zero bridged_config) as [m|e] eqn:E;
    [|ok_by_evaluation E (hrm.HRM_init sd_zero bridged_config)].
  destruct (hrm.HRM_forward m (zeros [2; 5; 8]) None false eval_mode)
    as [[r1 st1]|e] eqn:F1; [|returns_by_evaluation E F1].
  destruct (hrm.HRM_forward m (ones [2; 3; 8]) None false eval_mode)
    as [[r2 st2]|e] eqn:F2; [|returns_by_evaluation E F2].
  exists m, r1, r2, st1, st2. split; [reflexivity|]. split; [exact F1|]. split; [exact F2|].
  apply (HRM_without_layers_ignores_input sd_zero bridged_config m
           (zeros [2; 5; 8]) (ones [2; 3; 8]) None false eval_mode st1 st2 r1 r2 E);
    [vm_compute; discriminate | reflexivity | exact F1 | exact F2].
Defined.

(** ** The last entry of the worker history *)

Lemma HRM_forward_has_cycles (m : hrm.HRM) x mask ra st r st' :
  hrm.HRM_forward m x mask ra st = Ok (r, st') -> 0 < Z.to_nat (hrm.num_cycles m).
Proof.
  intro H. unfold hrm.HRM_forward in H. minv H.
  destruct (Z.to_nat (hrm.num_cycles m)) as [|ncyc]; [|lia]. exfalso.
  match goal with
  | Hx0 : for_range 0 _ _ _ = Ok _ |- _ =>
      simpl in Hx0; apply ret_ok in Hx0; destruct Hx0 as [Hx0 _]; subst
  end.
  match goal with
  | Hx0 : stack (map PyTensor (hrm.cs_controller_states _)) _ = Ok _ |- _ =>
      simpl in Hx0; discriminate
  end.
Qed.

(** X18.  Without the bridge nothing touches the worker state after the
    worker step: whenever a forward call returns, the model has at least one
    cycle and the returned final worker state is, entry by entry, the last
    entry of the returned worker history. *)
Theorem HRM_final_worker_state_without_bridge :
  forall (sd : state_dict) (c : hrm.config) (m : hrm.HRM) (x : tensor)
         (mask : option tensor) (return_attention : bool) (st st' : run_state)
         (r : hrm.forward_result),
    hrm.HRM_init sd c = Ok m ->
    hrm.cfg_use_attention c = false ->
    hrm.HRM_forward m x mask return_attention st = Ok (r, st') ->
    (1 <= hrm.cfg_num_cycles c)%Z /\
    forall i j,
      data (hrm.worker_states r) [i; Z.to_nat (hrm.cfg_num_cycles c) - 1; j]
      = data (hrm.final_worker_state r) [i; j].
Proof.
  intros sd c m x mask ra st st' r Hinit Hatt H.
  pose proof (HRM_init_wf _ _ _ Hinit) as Hwf.
  destruct (HRM_init_fields _ _ _ Hinit) as (_ & _ & _ & _ & Hn & Hua & _).
  rewrite Hatt in Hua.
  pose proof (HRM_forward_has_cycles _ _ _ _ _ _ _ H) as Hpos.
  destruct (HRM_forward_input_rank _ _ _ _ _ _ _ H) as (b & sq & k & Hx).
  destruct (HRM_history_entries _ _ _ _ _ _ _ _ _ _ _ _ _ Hwf Hx H) as (x0 & _ & Hent).
  rewrite Hn in Hpos, Hent. split; [lia|].
  destruct (Hent (Z.to_nat (hrm.cfg_num_cycles c) - 1)) as
    (s & stc & t & s' & stc' & _ & Hsteps & _ & Hw & Hlast); [lia|].
  destruct Hlast as [_ Hfin]; [lia|].
  destruct Hsteps as (p1 & p2 & _ & _ & _ & _ & _ & Hfuse & _ & _ & _ & Hs').
  rewrite Hua in Hfuse. destruct Hfuse as (_ & Hfw & _).
  intros i j. rewrite Hw, Hfin, Hs', Hfw. reflexivity.
Qed.

(** X18 at the model of three cycles without layers and bridge. *)
Lemma HRM_last_worker_entry_of_the_unbridged_model :
  exists m r st',
    hrm.HRM_init sd_zero unbridged_config = Ok m /\
    hrm.HRM_forward m (zeros [2; 5; 8]) None false eval_mode = Ok (r, st') /\
    forall i j, data (hrm.worker_states r) [i; 2; j] = data (hrm.final_worker_state r) [i; j].
Proof.
  destruct (hrm.HRM_init sd_zero unbridged_config) as [m|e] eqn:E;
    [|ok_by_evaluation E (hrm.HRM_init sd_zero unbridged_config)].
  destruct (hrm.HRM_forward m (zeros [2; 5; 8]) None false eval_mode)
    as [[r st']|e] eqn:F; [|returns_by_evaluation E F].
  exists m, r, st'. split; [reflexivity|]. split; [exact F|].
  exact (proj2 (HRM_final_worker_state_without_bridge sd_zero unbridged_config m
                  (zeros [2; 5; 8]) None false eval_mode st' r E eq_refl F)).
Defined.

(** ** What the constructor of the model requires *)

Lemma Dropout_init_ok rate d :
  Dropout_init rate = Ok d -> (0 <= rate)%Q /\ (rate <= 1)%Q.
Proof.
  unfold Dropout_init.
  destruct (Qle_bool 0 rate && Qle_bool rate 1)%bool eqn:E; [|discriminate].
  intros _. apply andb_true_iff in E. destruct E as [E1 E2].
  split; apply Qle_bool_iff; assumption.
Qed.

Lemma CrossModuleAttention_init_requires sd name qd kd vd od heads dropout m :
  attention.CrossModuleAttention_init sd name qd kd vd od heads dropout = Ok m ->
  (0 < Z.min (Z.min qd kd) vd / heads)%Z.
Proof.
  unfold attention.CrossModuleAttention_init. intro H. minv H.
  repeat match goal with
         | Hf : floordiv _ _ = Ok _ |- _ => apply floordiv_ok in Hf; destruct Hf as [? ->]
         | Ha : assert _ _ = Ok _ |- _ => apply assert_ok in Ha; apply Z.ltb_lt in Ha
         end.
  assumption.
Qed.

Lemma controller_MultiHeadAttention_init_requires sd name dim heads dropout gated m :
  controller.MultiHeadAttention_init sd name dim heads dropout gated = Ok m ->
  (dim mod heads = 0)%Z.
Proof.
  unfold controller.MultiHeadAttention_init. intro H. minv H.
  repeat match goal with
         | Hf : pymod _ _ = Ok _ |- _ => apply pymod_ok in Hf; destruct Hf as [? ->]
         | Ha : assert _ _ = Ok _ |- _ => apply assert_ok in Ha; apply Z.eqb_eq in Ha
         end.
  assumption.
Qed.

Lemma PositionalEncoding_init_requires d ml p :
  hrm.PositionalEncoding_init d ml = Ok p ->
  (0 < d)%Z /\ (0 <= ml)%Z /\ (Z.odd d = true -> d = 1%Z).
Proof.
  unfold hrm.PositionalEncoding_init. intro H. minv H.
  repeat match goal with
         | Hs : size_of _ = Ok _ |- _ => apply size_of_ok in Hs; destruct Hs as [-> ?]
         end.
  destruct (Z.to_nat d =? 0) eqn:E0; [discriminate|]. apply Nat.eqb_neq in E0.
  destruct (Nat.odd (Z.to_nat d) && (3 <=? Z.to_nat d)) eqn:E1; [discriminate|].
  split; [lia|]. split; [assumption|]. intro Hodd.
  apply andb_false_iff in E1. destruct E1 as [E1|E1].
  - exfalso. apply Z.odd_spec in Hodd. destruct Hodd as [q Hq].
    assert (Hn : Nat.odd (Z.to_nat d) = true).
    { apply Nat.odd_spec. exists (Z.to_nat q). lia. }
    rewrite Hn in E1. discriminate.
  - apply Nat.leb_gt in E1. apply Z.odd_spec in Hodd. destruct Hodd as [q Hq]. lia.
Qed.

(** X16.  A model is only constructed from a configuration with
    non-negative dimensions and a dropout rate between 0 and 1; with at least
    one layer the controller dimension is a multiple of 8 (the head count of
    the controller); with the bridge both module dimensions are at least 8;
    with the positional encoding the controller dimension is positive and
    either even or 1. *)
Theorem HRM_init_requirements :
  forall (sd : state_dict) (c : hrm.config) (m : hrm.HRM),
    hrm.HRM_init sd c = Ok m ->
    (0 <= hrm.cfg_input_dim c)%Z /\
    (0 <= hrm.cfg_controller_dim c)%Z /\
    (0 <= hrm.cfg_worker_dim c)%Z /\
    (0 <= hrm.cfg_dropout c)%Q /\ (hrm.cfg_dropout c <= 1)%Q /\
    ((1 <= hrm.cfg_num_layers c)%Z -> (hrm.cfg_controller_dim c mod 8 = 0)%Z) /\
    (hrm.cfg_use_attention c = true ->
     (8 <= hrm.cfg_controller_dim c)%Z /\ (8 <= hrm.cfg_worker_dim c)%Z) /\
    (hrm.cfg_use_positional_encoding c = true ->
     (0 < hrm.cfg_controller_dim c)%Z /\
     (Z.odd (hrm.cfg_controller_dim c) = true -> hrm.cfg_controller_dim c = 1%Z)).
Proof.
  intros sd c m Hinit.
  destruct (HRM_init_modules _ _ _ Hinit) as (Hip & Hc & Hw & Hc2w & _ & _ & Hpos & Hatt).
  apply Linear_init_ok in Hip, Hc2w.
  destruct Hip as (_ & _ & Hi & Hcd), Hc2w as (_ & _ & _ & Hwd).
  split; [exact Hi|]. split; [exact Hcd|]. split; [exact Hwd|].
  assert (Hdr : (0 <= hrm.cfg_dropout c)%Q /\ (hrm.cfg_dropout c <= 1)%Q).
  { unfold controller.Controller_init in Hc. minv Hc.
    match goal with
    | Hd : Dropout_init _ = Ok _ |- _ => exact (Dropout_init_ok _ _ Hd)
    end. }
  destruct Hdr as [Hd0 Hd1]. split; [exact Hd0|]. split; [exact Hd1|].
  split; [|split].
  - intro HL. unfold controller.Controller_init in Hc. minv Hc.
    match goal with
    | Hb : build_list (fun i => controller.MultiHeadAttention_init _ _ _ _ _ _) _ = Ok _
      |- _ =>
        destruct (build_list_nth _ _ _ Hb 0) as (a & _ & Ha); [lia|];
        exact (controller_MultiHeadAttention_init_requires _ _ _ _ _ _ _ Ha)
    end.
  - intro Hua. rewrite Hua in Hatt. destruct Hatt as (a & _ & Ha).
    unfold attention.HierarchicalAttention_init in Ha. minv Ha.
    match goal with
    | Hcm : attention.CrossModuleAttention_init _ _ (hrm.cfg_worker_dim c) _ _ _ _ _ = Ok _
      |- _ => apply CrossModuleAttention_init_requires in Hcm;
              assert (8 <= Z.min (Z.min (hrm.cfg_worker_dim c) (hrm.cfg_controller_dim c))
                                 (hrm.cfg_controller_dim c))%Z
                by (Z.to_euclidean_division_equations; lia); lia
    end.
  - intro Hpe. rewrite Hpe in Hpos. destruct Hpos as (p & _ & Hp).
    apply PositionalEncoding_init_requires in Hp. tauto.
Qed.

(** X16 at the configuration with the bridge and no layers. *)
Lemma HRM_requirements_of_the_bridged_model :
  exists m,
    hrm.HRM_init sd_zero bridged_config = Ok m /\
    (8 <= hrm.cfg_controller_dim bridged_config)%Z /\
    (8 <= hrm.cfg_worker_dim bridged_config)%Z.
Proof.
  destruct (hrm.HRM_init sd_zero bridged_config) as [m|e] eqn:E.
  - exists m. split; [reflexivity|].
    destruct (HRM_init_requirements sd_zero bridged_config m E)
      as (_ & _ & _ & _ & _ & _ & Hb & _).
    exact (Hb eq_refl).
  - ok_by_evaluation E (hrm.HRM_init sd_zero bridged_config).
Defined.

(** ** The positional encoding and the batch size *)

Lemma PositionalEncoding_forward_large_batch (p : hrm.PositionalEncoding) x n s d ml :
  shape (hrm.pe p) = [ml; 1; d] -> shape x = [n; s; d] ->
  ml < n -> n <> 1 -> ml <> 1 ->
  is_ok (hrm.PositionalEncoding_forward p x) = false.
Proof.
  intros Hpe Hx Hlt Hn Hml.
  unfold hrm.PositionalEncoding_forward, worker.shape0. rewrite Hx, Hpe.
  cbn [rbind nth tl]. unfold add, map2_bc. rewrite Hx. cbn [shape].
  unfold broadcast_shapes. cbn [rev app].
  replace (Nat.min n ml) with ml by lia.
  cbn [bc_rev]. rewrite Nat.eqb_refl.
  destruct (s =? 1); cbn [bc_rev];
    (destruct (n =? ml) eqn:E1; [apply Nat.eqb_eq in E1; lia|]);
    (destruct (n =? 1) eqn:E2; [apply Nat.eqb_eq in E2; lia|]);
    (destruct (ml =? 1) eqn:E3; [apply Nat.eqb_eq in E3; lia|]); reflexivity.
Qed.

Lemma PositionalEncoding_forward_total (p : hrm.PositionalEncoding) x n s d ml :
  shape (hrm.pe p) = [ml; 1; d] -> shape x = [n; s; d] ->
  n <= ml \/ n = 1 \/ ml = 1 ->
  is_ok (hrm.PositionalEncoding_forward p x) = true.
Proof.
  intros Hpe Hx Hor.
  unfold hrm.PositionalEncoding_forward, worker.shape0. rewrite Hx, Hpe.
  cbn [rbind nth tl]. unfold add, map2_bc. rewrite Hx. cbn [shape].
  unfold broadcast_shapes. cbn [rev app bc_rev]. rewrite Nat.eqb_refl.
  assert (Hb : exists r, (if n =? Nat.min n ml then Some [n]
                          else if n =? 1 then Some [Nat.min n ml]
                          else if Nat.min n ml =? 1 then Some [n] else None)
                         = Some r).
  { destruct (n =? Nat.min n ml) eqn:E1; [eauto|].
    destruct (n =? 1) eqn:E2; [eauto|].
    destruct (Nat.min n ml =? 1) eqn:E3; [eauto|].
    apply Nat.eqb_neq in E1, E2, E3. lia. }
  destruct Hb as [r ->].
  destruct (s =? 1); rewrite Nat.eqb_refl; reflexivity.
Qed.

(** X17.  The positional encoding indexes its table by the first dimension
    of its input.  On an input of shape (n, s, d_model) it returns exactly
    when n is at most max_len (or one of n and max_len is 1, where
    broadcasting applies): a larger first dimension is refused. *)
Theorem PositionalEncoding_forward_returns_iff :
  forall (d_model max_len : Z) (p : hrm.PositionalEncoding) (x : tensor) (n s : nat),
    hrm.PositionalEncoding_init d_model max_len = Ok p ->
    shape x = [n; s; Z.to_nat d_model] ->
    is_ok (hrm.PositionalEncoding_forward p x)
    = (n <=? Z.to_nat max_len) || (n =? 1) || (Z.to_nat max_len =? 1).
Proof.
  intros d ml p x n s Hinit Hx.
  apply PositionalEncoding_init_table in Hinit.
  assert (Hpe : shape (hrm.pe p) = [Z.to_nat ml; 1; Z.to_nat d])
    by (rewrite Hinit; reflexivity).
  destruct ((n <=? Z.to_nat ml) || (n =? 1) || (Z.to_nat ml =? 1)) eqn:E.
  - apply (PositionalEncoding_forward_total p x n s _ _ Hpe Hx).
    apply orb_true_iff in E. destruct E as [E|E].
    + apply orb_true_iff in E. destruct E as [E|E].
      * left. apply Nat.leb_le. exact E.
      * right. left. apply Nat.eqb_eq. exact E.
    + right. right. apply Nat.eqb_eq. exact E.
  - apply orb_false_iff in E. destruct E as [E E3].
    apply orb_false_iff in E. destruct E as [E1 E2].
    apply Nat.leb_gt in E1. apply Nat.eqb_neq in E2, E3.
    exact (PositionalEncoding_forward_large_batch p x n s _ _ Hpe Hx E1 E2 E3).
Qed.

(** X17 at a table of 4 positions and inputs with first dimension 4 and 5. *)
Lemma PositionalEncoding_of_four_positions :
  exists p,
    hrm.PositionalEncoding_init 6 4 = Ok p /\
    is_ok (hrm.PositionalEncoding_forward p (zeros [4; 2; 6])) = true /\
    is_ok (hrm.PositionalEncoding_forward p (zeros [5; 2; 6])) = false.
Proof.
  destruct (hrm.PositionalEncoding_init 6 4) as [p|e] eqn:E.
  - exists p. split; [reflexivity|]. split.
    + exact (PositionalEncoding_forward_returns_iff 6 4 p (zeros [4; 2; 6]) 4 2 E eq_refl).
    + exact (PositionalEncoding_forward_returns_iff 6 4 p (zeros [5; 2; 6]) 5 2 E eq_refl).
  - ok_by_evaluation E (hrm.PositionalEncoding_init 6 4).
Defined.

(** X20.  A model with the positional encoding refuses every batch of more
    than 1000 sequences: the encoding table, of 1000 rows, is indexed by the
    batch dimension. *)
Theorem HRM_forward_refuses_large_batch :
  forall (sd : state_dict) (c : hrm.config) (m : hrm.HRM) (x : tensor)
         (mask : option tensor) (return_attention : bool) (st : run_state) (b : nat),
    hrm.HRM_init sd c = Ok m ->
    hrm.cfg_use_positional_encoding c = true ->
    nth 0 (shape x) 0 = b -> 1000 < b ->
    is_ok (hrm.HRM_forward m x mask return_attention st) = false.
Proof.
  intros sd c m x mask ra st b Hinit Hpe Hb Hlt.
  destruct (hrm.HRM_forward m x mask ra st) as [[r st']|e] eqn:H; [|reflexivity].
  exfalso.
  destruct (HRM_forward_input_rank _ _ _ _ _ _ _ H) as (b' & sq & k & Hx).
  rewrite Hx in Hb. simpl in Hb. subst b'.
  pose proof (HRM_init_wf _ _ _ Hinit) as Hwf.
  destruct (HRM_init_fields _ _ _ Hinit) as (_ & _ & _ & _ & _ & _ & Hup).
  destruct (HRM_init_modules _ _ _ Hinit) as (_ & _ & _ & _ & _ & _ & Hpos & _).
  rewrite Hpe in Hpos, Hup. destruct Hpos as (pos & Hsome & Hpinit).
  apply PositionalEncoding_init_table in Hpinit.
  destruct Hwf as (_ & _ & Hip & _).
  unfold hrm.HRM_forward in H.
  apply bind_ok in H. destruct H as (sh & s1 & _ & H).
  destruct sh as [[b0 sq0] k0].
  apply bind_ok in H. destruct H as (x1 & s2 & Hl & H).
  apply lift_ok in Hl. destruct Hl as [Hl _].
  apply bind_ok in H. destruct H as (x2 & s3 & Hp & _).
  apply lift_ok in Hp. destruct Hp as [Hp _].
  rewrite Hup, Hsome in Hp.
  apply (Linear_forward_shape3 _ _ _ _ _ _ Hx) in Hl. rewrite Hip in Hl.
  assert (Hf : is_ok (hrm.PositionalEncoding_forward pos x1) = false).
  { apply (PositionalEncoding_forward_large_batch pos x1 b sq
             (Z.to_nat (hrm.cfg_controller_dim c)) 1000);
      [rewrite Hpinit; reflexivity | exact Hl | exact Hlt | lia | lia]. }
  rewrite Hp in Hf. discriminate.
Qed.

(** X20 at the narrow model and a batch of 1001 sequences. *)
Lemma HRM_narrow_model_refuses_1001_sequences :
  exists m,
    hrm.HRM_init sd_zero narrow_worker_config = Ok m /\
    is_ok (hrm.HRM_forward m (zeros [1001; 5; 8]) None false eval_mode) = false.
Proof.
  destruct (hrm.HRM_init sd_zero narrow_worker_config) as [m|e] eqn:E.
  - exists m. split; [reflexivity|].
    apply (HRM_forward_refuses_large_batch sd_zero narrow_worker_config m
             (zeros [1001; 5; 8]) None false eval_mode 1001 E eq_refl eq_refl).
    lia.
  - ok_by_evaluation E (hrm.HRM_init sd_zero narrow_worker_config).
Defined.

(** ** The self-attention classes *)

Lemma attention_MultiHeadAttention_block (m : attention.MultiHeadAttention) q k v mask :
  attention.MultiHeadAttention_forward m q k v mask
  = self_attention_block (attention.mha_dim m) (attention.mha_num_heads m)
      (attention.mha_head_dim m) (attention.mha_query_proj m) (attention.mha_key_proj m)
      (attention.mha_value_proj m) (attention.mha_output_proj m)
      (attention.mha_dropout_layer m) q k v mask.
Proof. reflexivity. Qed.

Lemma EfficientAttention_block (m : worker.EfficientAttention) q k v :
  worker.EfficientAttention_forward m q k v
  = self_attention_block (worker.ea_dim m) (worker.ea_num_heads m)
      (worker.ea_head_dim m) (worker.ea_query_proj m) (worker.ea_key_proj m)
      (worker.ea_value_proj m) (worker.ea_output_proj m)
      (worker.ea_dropout_layer m) q k v None.
Proof. reflexivity. Qed.

Lemma attention_MultiHeadAttention_init_built sd name dim num_heads dropout m :
  (0 < num_heads)%Z ->
  attention.MultiHeadAttention_init sd name dim num_heads dropout = Ok m ->
  self_attention_built (Z.to_nat dim) (Z.to_nat num_heads) (Z.to_nat (dim / num_heads))
    (attention.mha_dim m) (attention.mha_num_heads m) (attention.mha_head_dim m)
    (attention.mha_query_proj m) (attention.mha_key_proj m)
    (attention.mha_value_proj m) (attention.mha_output_proj m).
Proof.
  intros Hh H. unfold attention.MultiHeadAttention_init in H. minv H.
  inversion H; subst; clear H.
  repeat match goal with
         | Hf : floordiv _ _ = Ok _ |- _ => apply floordiv_ok in Hf; destruct Hf as [_ ->]
         | Hf : pymod _ _ = Ok _ |- _ => apply pymod_ok in Hf; destruct Hf as [_ ->]
         | Ha : assert _ _ = Ok _ |- _ => apply assert_ok in Ha; apply Z.eqb_eq in Ha
         end.
  match goal with
  | Hl : Linear_init _ _ dim dim = Ok _ |- _ =>
      pose proof (Linear_init_ok _ _ _ _ _ Hl) as (_ & _ & Hd & _)
  end.
  dims_of_inits.
  unfold self_attention_built.
  cbn [attention.mha_dim attention.mha_num_heads attention.mha_head_dim
       attention.mha_query_proj attention.mha_key_proj attention.mha_value_proj
       attention.mha_output_proj].
  split; [lia|]. split; [lia|]. split; [rewrite Z2Nat.id; [reflexivity | apply Z.div_pos; lia]|].
  split; [apply heads_times_head_dim; assumption|]. auto.
Qed.

Lemma EfficientAttention_init_built sd name dim num_heads dropout m :
  (0 < num_heads)%Z ->
  worker.EfficientAttention_init sd name dim num_heads dropout = Ok m ->
  self_attention_built (Z.to_nat dim) (Z.to_nat num_heads) (Z.to_nat (dim / num_heads))
    (worker.ea_dim m) (worker.ea_num_heads m) (worker.ea_head_dim m)
    (worker.ea_query_proj m) (worker.ea_key_proj m)
    (worker.ea_value_proj m) (worker.ea_output_proj m).
Proof.
  intros Hh H. unfold worker.EfficientAttention_init in H. minv H.
  inversion H; subst; clear H.
  repeat match goal with
         | Hf : floordiv _ _ = Ok _ |- _ => apply floordiv_ok in Hf; destruct Hf as [_ ->]
         | Hf : pymod _ _ = Ok _ |- _ => apply pymod_ok in Hf; destruct Hf as [_ ->]
         | Ha : assert _ _ = Ok _ |- _ => apply assert_ok in Ha; apply Z.eqb_eq in Ha
         end.
  match goal with
  | Hl : Linear_init _ _ dim dim = Ok _ |- _ =>
      pose proof (Linear_init_ok _ _ _ _ _ Hl) as (_ & _ & Hd & _)
  end.
  dims_of_inits.
  unfold self_attention_built.
  cbn [worker.ea_dim worker.ea_num_heads worker.ea_head_dim
       worker.ea_query_proj worker.ea_key_proj worker.ea_value_proj
       worker.ea_output_proj].
  split; [lia|]. split; [lia|]. split; [rewrite Z2Nat.id; [reflexivity | apply Z.div_pos; lia]|].
  split; [apply heads_times_head_dim; assumption|]. auto.
Qed.

Lemma split_heads_numel t b s H hd :
  numel (shape t) = b * s * (H * hd) ->
  exists y, split_heads t b s (Z.of_nat H) (Z.of_nat hd) = Ok y /\
            shape y = [b; H; s; hd].
Proof.
  intro Hn. unfold split_heads.
  destruct (view_total [b; s; H; hd] t) as (v & Hv & Hsv).
  { rewrite Hn. simpl. rewrite !Nat2Z.id. ring. }
  change [Z.of_nat b; Z.of_nat s; Z.of_nat H; Z.of_nat hd]
    with (map Z.of_nat [b; s; H; hd]).
  rewrite (rbind_step _ _ _ Hv).
  destruct (transpose12_rank4 v b s H hd Hsv) as (y & Hy & Hsy). eauto.
Qed.

Lemma split_heads_needs_numel t b s H hd y :
  split_heads t b s (Z.of_nat H) (Z.of_nat hd) = Ok y ->
  numel (shape t) = b * s * (H * hd).
Proof.
  unfold split_heads, view. intro Hy.
  destruct (forallb _ _); [|discriminate].
  destruct (numel _ =? numel (shape t)) eqn:E; [|discriminate].
  apply Nat.eqb_eq in E. rewrite <- E. simpl. rewrite !Nat2Z.id. ring.
Qed.

Lemma self_attention_block_total dim nh hdz qp kp vp op dr q k v mask st
    d H hd b s bk sk bv sv :
  self_attention_built d H hd dim nh hdz qp kp vp op ->
  shape q = [b; s; d] -> shape k = [bk; sk; d] -> shape v = [bv; sv; d] ->
  bk * sk = b * s -> bv * sv = b * s ->
  mask_fits b s mask ->
  exists r st', self_attention_block dim nh hdz qp kp vp op dr q k v mask st = Ok (r, st') /\
                shape (attn_output r) = [b; s; d] /\
                shape (attn_weights r) = [b; H; s; s].
Proof.
  intros (-> & -> & -> & HHd & [Hqi Hqo] & [Hki Hko] & [Hvi Hvo] & [Hoi Hoo])
         Hq Hk Hv Hnk Hnv Hm.
  unfold self_attention_block.
  rewrite (bind_lift_step _ _ _ _ (unpack3_total q b s d Hq)).
  destruct (Linear_forward_total qp q [b; s]) as (Q & HQ & HsQ);
    [rewrite Hq, Hqi; reflexivity|].
  rewrite (bind_lift_step _ _ _ _ HQ).
  destruct (Linear_forward_total kp k [bk; sk]) as (K & HK & HsK);
    [rewrite Hk, Hki; reflexivity|].
  rewrite (bind_lift_step _ _ _ _ HK).
  destruct (Linear_forward_total vp v [bv; sv]) as (V & HV & HsV);
    [rewrite Hv, Hvi; reflexivity|].
  rewrite (bind_lift_step _ _ _ _ HV).
  rewrite Hqo in HsQ. rewrite Hko in HsK. rewrite Hvo in HsV.
  destruct (split_heads_total Q b s d H hd HsQ HHd) as (Q' & HQ' & HsQ').
  rewrite (bind_lift_step _ _ _ _ HQ').
  destruct (split_heads_numel K b s H hd) as (K' & HK' & HsK').
  { rewrite HsK. simpl. rewrite HHd. nia. }
  rewrite (bind_lift_step _ _ _ _ HK').
  destruct (split_heads_numel V b s H hd) as (V' & HV' & HsV').
  { rewrite HsV. simpl. rewrite HHd. nia. }
  rewrite (bind_lift_step _ _ _ _ HV').
  destruct (attention_core_total dr Q' K' V' (Z.of_nat hd)
              mask st b H s s hd HsQ' HsK' HsV' Hm) as (att & w & st1 & Hcore & Hsatt & Hsw).
  rewrite (bind_step _ _ _ _ _ Hcore).
  destruct (merge_heads_total att b s d H hd Hsatt HHd) as (mg & Hmg & Hsmg).
  rewrite (bind_lift_step _ _ _ _ Hmg).
  destruct (Linear_forward_total op mg [b; s]) as (o & Ho & Hso);
    [rewrite Hsmg, Hoi; reflexivity|].
  rewrite (bind_lift_step _ _ _ _ Ho). rewrite Hoo in Hso.
  eexists _, _. split; [reflexivity|]. simpl. auto.
Qed.

Lemma self_attention_block_needs_rows dim nh hdz qp kp vp op dr q k v mask st r st'
    d H hd b s bk sk bv sv :
  self_attention_built d H hd dim nh hdz qp kp vp op ->
  0 < d ->
  shape q = [b; s; d] -> shape k = [bk; sk; d] -> shape v = [bv; sv; d] ->
  self_attention_block dim nh hdz qp kp vp op dr q k v mask st = Ok (r, st') ->
  bk * sk = b * s /\ bv * sv = b * s.
Proof.
  intros (-> & -> & -> & HHd & [Hqi Hqo] & [Hki Hko] & [Hvi Hvo] & _) Hd Hq Hk Hv Hrun.
  unfold self_attention_block in Hrun.
  rewrite (bind_lift_step _ _ _ _ (unpack3_total q b s d Hq)) in Hrun.
  apply bind_ok in Hrun. destruct Hrun as (Q & s1 & HQ & Hrun). apply lift_ok in HQ.
  destruct HQ as [HQ <-].
  apply bind_ok in Hrun. destruct Hrun as (K & s2 & HK & Hrun). apply lift_ok in HK.
  destruct HK as [HK <-].
  apply bind_ok in Hrun. destruct Hrun as (V & s3 & HV & Hrun). apply lift_ok in HV.
  destruct HV as [HV <-].
  apply bind_ok in Hrun. destruct Hrun as (Q' & s4 & HQ' & Hrun). apply lift_ok in HQ'.
  destruct HQ' as [HQ' <-].
  apply bind_ok in Hrun. destruct Hrun as (K' & s5 & HK' & Hrun). apply lift_ok in HK'.
  destruct HK' as [HK' <-].
  apply bind_ok in Hrun. destruct Hrun as (V' & s6 & HV' & _). apply lift_ok in HV'.
  destruct HV' as [HV' _].
  apply (Linear_forward_shape3 _ _ _ _ _ _ Hk) in HK. rewrite Hko in HK.
  apply (Linear_forward_shape3 _ _ _ _ _ _ Hv) in HV. rewrite Hvo in HV.
  apply split_heads_needs_numel in HK', HV'.
  rewrite HK in HK'. rewrite HV in HV'. simpl in HK', HV'. rewrite HHd in HK', HV'.
  split; nia.
Qed.

(** X11.  The standard multi-head attention never checks the key and value
    against the query: it reshapes their projections to the query's batch
    size and length.  For a module of positive dimension built by the
    constructor and a query of shape (b, s, dim), a call with a key of shape
    (bk, sk, dim) and a value of shape (bv, sv, dim) returns exactly when
    bk * sk = b * s and bv * sv = b * s; a key of another length is refused,
    one of another layout with as many rows is silently reinterpreted. *)
Theorem attention_MultiHeadAttention_returns_iff :
  forall (sd : state_dict) (name : string) (dim num_heads : Z) (dropout : Q)
         (m : attention.MultiHeadAttention) (q k v : tensor) (mask : option tensor)
         (st : run_state) (b s bk sk bv sv : nat),
    attention.MultiHeadAttention_init sd name dim num_heads dropout = Ok m ->
    (0 < num_heads)%Z -> (0 < dim)%Z ->
    shape q = [b; s; Z.to_nat dim] ->
    shape k = [bk; sk; Z.to_nat dim] ->
    shape v = [bv; sv; Z.to_nat dim] ->
    mask_fits b s mask ->
    is_ok (attention.MultiHeadAttention_forward m q k v mask st)
    = (bk * sk =? b * s) && (bv * sv =? b * s).
Proof.
  intros sd name dim nh dropout m q k v mask st b s bk sk bv sv Hinit Hh Hd Hq Hk Hv Hm.
  pose proof (attention_MultiHeadAttention_init_built _ _ _ _ _ _ Hh Hinit) as Hb.
  rewrite attention_MultiHeadAttention_block.
  destruct ((bk * sk =? b * s) && (bv * sv =? b * s)) eqn:E.
  - apply andb_true_iff in E. destruct E as [E1 E2]. apply Nat.eqb_eq in E1, E2.
    destruct (self_attention_block_total _ _ _ _ _ _ _ (attention.mha_dropout_layer m)
                q k v mask st _ _ _ b s bk sk bv sv Hb Hq Hk Hv E1 E2 Hm)
      as (r & st' & Hr & _).
    rewrite Hr. reflexivity.
  - destruct (self_attention_block _ _ _ _ _ _ _ _ q k v mask st) as [[r st']|e] eqn:Hr;
      [|reflexivity].
    exfalso.
    destruct (self_attention_block_needs_rows _ _ _ _ _ _ _ _ _ _ _ _ _ _ _ _ _ _
                b s bk sk bv sv Hb ltac:(lia) Hq Hk Hv Hr) as [E1 E2].
    rewrite E1, E2, !Nat.eqb_refl in E. discriminate.
Qed.

(** X11 at a module of dimension 8 with 2 heads: a key of shape (1, 6, 8)
    passes for a query of shape (2, 3, 8), a key of shape (2, 4, 8) does
    not. *)
Lemma attention_MultiHeadAttention_keys_of_other_shapes :
  exists m,
    attention.MultiHeadAttention_init sd_zero "attention" 8 2 0 = Ok m /\
    is_ok (attention.MultiHeadAttention_forward m (zeros [2; 3; 8]) (zeros [1; 6; 8])
             (zeros [2; 3; 8]) None eval_mode) = true /\
    is_ok (attention.MultiHeadAttention_forward m (zeros [2; 3; 8]) (zeros [2; 4; 8])
             (zeros [2; 3; 8]) None eval_mode) = false.
Proof.
  destruct (attention.MultiHeadAttention_init sd_zero "attention" 8 2 0) as [m|e] eqn:E.
  - exists m. split; [reflexivity|]. split.
    + apply (attention_MultiHeadAttention_returns_iff sd_zero "attention" 8 2 0 m
               (zeros [2; 3; 8]) (zeros [1; 6; 8]) (zeros [2; 3; 8]) None eval_mode
               2 3 1 6 2 3 E); first [lia | reflexivity | exact I].
    + apply (attention_MultiHeadAttention_returns_iff sd_zero "attention" 8 2 0 m
               (zeros [2; 3; 8]) (zeros [2; 4; 8]) (zeros [2; 3; 8]) None eval_mode
               2 3 2 4 2 3 E); first [lia | reflexivity | exact I].
  - ok_by_evaluation E (attention.MultiHeadAttention_init sd_zero "attention" 8 2 0).
Defined.

(** X14.  The worker's attention class, built by the constructor with a
    positive head count, returns on a query, key and value of shape
    (b, s, dim): the output has shape (b, s, dim), the weights have shape
    (b, heads, s, s) and, dropout being off and s positive, each of their rows
    sums to 1. *)
Theorem EfficientAttention_forward_returns :
  forall (sd : state_dict) (name : string) (dim num_heads : Z) (dropout : Q)
         (m : worker.EfficientAttention) (q k v : tensor) (st : run_state) (b s : nat),
    worker.EfficientAttention_init sd name dim num_heads dropout = Ok m ->
    (0 < num_heads)%Z ->
    shape q = [b; s; Z.to_nat dim] ->
    shape k = [b; s; Z.to_nat dim] ->
    shape v = [b; s; Z.to_nat dim] ->
    exists r st',
      worker.EfficientAttention_forward m q k v st = Ok (r, st') /\
      shape (attn_output r) = [b; s; Z.to_nat dim] /\
      shape (attn_weights r) = [b; Z.to_nat num_heads; s; s] /\
      (dropout_off (worker.ea_dropout_layer m) st = true -> 0 < s ->
       forall i0 i1 i2, Rsum s (fun j => data (attn_weights r) [i0; i1; i2; j]) = 1%R).
Proof.
  intros sd name dim nh dropout m q k v st b s Hinit Hh Hq Hk Hv.
  pose proof (EfficientAttention_init_built _ _ _ _ _ _ Hh Hinit) as Hb.
  rewrite EfficientAttention_block.
  destruct (self_attention_block_total _ _ _ _ _ _ _ (worker.ea_dropout_layer m)
              q k v None st _ _ _ b s b s b s Hb Hq Hk Hv eq_refl eq_refl I)
    as (r & st' & Hr & Hso & Hsw).
  exists r, st'. split; [exact Hr|]. split; [exact Hso|]. split; [exact Hsw|].
  intros Hoff Hs.
  exact (proj2 (attention_MultiHeadAttention_weights
                  (attention.mkMultiHeadAttention (worker.ea_dim m) (worker.ea_num_heads m)
                     (worker.ea_head_dim m) (worker.ea_query_proj m) (worker.ea_key_proj m)
                     (worker.ea_value_proj m) (worker.ea_output_proj m)
                     (worker.ea_dropout_layer m))
                  q k v None st r st' b s _ Hq I Hoff Hr) Hs).
Qed.

(** X14 at a module of dimension 8 with 4 heads. *)
Lemma EfficientAttention_of_dimension_8_returns :
  exists m r st',
    worker.EfficientAttention_init sd_zero "attention" 8 4 0 = Ok m /\
    worker.EfficientAttention_forward m (zeros [2; 3; 8]) (zeros [2; 3; 8])
      (zeros [2; 3; 8]) eval_mode = Ok (r, st') /\
    shape (attn_weights r) = [2; 4; 3; 3] /\
    Rsum 3 (fun j => data (attn_weights r) [0; 0; 0; j]) = 1%R.
Proof.
  destruct (worker.EfficientAttention_init sd_zero "attention" 8 4 0) as [m|e] eqn:E;
    [|ok_by_evaluation E (worker.EfficientAttention_init sd_zero "attention" 8 4 0)].
  destruct (EfficientAttention_forward_returns sd_zero "attention" 8 4 0 m
              (zeros [2; 3; 8]) (zeros [2; 3; 8]) (zeros [2; 3; 8]) eval_mode 2 3 E
              ltac:(lia) eq_refl eq_refl eq_refl)
    as (r & st' & Hr & _ & Hsw & Hrows).
  exists m, r, st'. split; [reflexivity|]. split; [exact Hr|]. split; [exact Hsw|].
  apply Hrows; [reflexivity | lia].
Defined.

(** ** Hierarchical self-attention *)

Lemma HierarchicalSelfAttention_init_built sd name dim num_heads num_levels dropout m :
  (0 < num_heads)%Z ->
  attention.HierarchicalSelfAttention_init sd name dim num_heads num_levels dropout = Ok m ->
  HierarchicalSelfAttention_built (Z.to_nat dim) (Z.to_nat num_heads)
    (Z.to_nat (dim / num_heads)) (Z.to_nat num_levels) m.
Proof.
  intros Hh H. unfold attention.HierarchicalSelfAttention_init in H. minv H.
  inversion H; subst; clear H.
  unfold HierarchicalSelfAttention_built.
  cbn [attention.hs_num_levels attention.hs_level_attentions attention.hs_level_projections
       attention.hs_layer_norms attention.hs_output_proj].
  match goal with
  | Hla : build_list (fun i => attention.MultiHeadAttention_init _ _ _ _ _) _ = Ok _,
    Hlp : build_list (fun i => Linear_init _ _ _ _) _ = Ok _,
    Hln : build_list (fun i => LayerNorm_init _ _ _) _ = Ok _,
    Ho : Linear_init _ _ (dim * num_levels)%Z dim = Ok _ |- _ =>
      split; [reflexivity|];
      split; [exact (build_list_length _ _ _ Hla)|];
      split; [refine (build_list_Forall _ _ _ _ _ Hla); intros i a Ha;
              exact (attention_MultiHeadAttention_init_built _ _ _ _ _ _ Hh Ha)|];
      split; [exact (build_list_length _ _ _ Hlp)|];
      split; [refine (build_list_Forall _ _ _ _ _ Hlp); intros i a Ha;
              exact (Linear_init_dims _ _ _ _ _ Ha)|];
      split; [exact (build_list_length _ _ _ Hln)|];
      split; [refine (build_list_Forall _ _ _ _ _ Hln); intros i a Ha;
              apply LayerNorm_init_ok in Ha; apply Ha|];
      pose proof (Linear_init_ok _ _ _ _ _ Ho) as (Hin & Hout & Hi0 & Hd0);
      split; [rewrite Hin | exact Hout]
  end.
  destruct (Z_le_gt_dec 0 num_levels) as [HL|HL].
  - rewrite Z2Nat.inj_mul by lia. apply Nat.mul_comm.
  - assert (dim = 0%Z) by nia. subst dim. replace (Z.to_nat num_levels) with 0 by lia.
    reflexivity.
Qed.

Lemma cat_list_last_total (l : list tensor) pre d :
  l <> [] -> Forall (fun t => shape t = pre ++ [d]) l ->
  exists y, cat_list_last l = Ok y /\ shape y = pre ++ [length l * d].
Proof.
  intros Hne HF. destruct l as [|t0 rest]; [congruence|]. clear Hne.
  inversion HF as [|? ? Ht0 Hrest]; subst.
  unfold cat_list_last, rank. rewrite Ht0, length_app. simpl length.
  replace (length pre + 1 =? 0) with false by (symmetry; apply Nat.eqb_neq; lia).
  assert (Hgen : forall (acc : tensor) k,
             shape acc = pre ++ [k * d] ->
             exists y, fold_left (fun a t => let* a' := a in cat_last a' t) rest (Ok acc)
                       = Ok y /\
                       shape y = pre ++ [(k + length rest) * d]).
  { clear Ht0 HF. induction rest as [|t1 rest IH]; intros acc k Hacc.
    - exists acc. split; [reflexivity|]. simpl. rewrite Nat.add_0_r. exact Hacc.
    - inversion Hrest as [|? ? Ht1 Hrest']; subst.
      destruct (cat_last_total acc t1 pre (k * d) d Hacc Ht1) as (y & Hy & Hsy).
      cbn [fold_left rbind]. rewrite Hy.
      destruct (IH Hrest' y (S k)) as (z & Hz & Hsz).
      { rewrite Hsy. f_equal. f_equal. simpl. lia. }
      exists z. split; [exact Hz|]. rewrite Hsz. f_equal. f_equal. simpl. lia. }
  destruct (Hgen t0 1) as (y & Hy & Hsy); [rewrite Ht0; simpl; f_equal; f_equal; lia|].
  exists y. split; [exact Hy|]. rewrite Hsy. reflexivity.
Qed.

Lemma attention_MultiHeadAttention_total (m : attention.MultiHeadAttention) x mask st
    d H hd b s :
  MultiHeadAttention_block_built d H hd m ->
  shape x = [b; s; d] -> mask_fits b s mask ->
  exists r st', attention.MultiHeadAttention_forward m x x x mask st = Ok (r, st') /\
                shape (attn_output r) = [b; s; d] /\
                shape (attn_weights r) = [b; H; s; s].
Proof.
  intros Hb Hx Hm. rewrite attention_MultiHeadAttention_block.
  exact (self_attention_block_total _ _ _ _ _ _ _ _ x x x mask st _ _ _ b s b s b s
           Hb Hx Hx Hx eq_refl eq_refl Hm).
Qed.

Lemma HierarchicalSelfAttention_level_total (m : attention.HierarchicalSelfAttention)
    x mask i s st d H hd L b sq :
  HierarchicalSelfAttention_built d H hd L m ->
  shape x = [b; sq; d] -> mask_fits b sq mask -> i < L ->
  exists r st',
    attention.HierarchicalSelfAttention_level m x mask i s st
    = Ok (attention.mkLevelState (attention.lv_level_outputs s ++ [attn_output r])
            (attention.lv_attention_weights s ++ [attn_weights r]), st') /\
    shape (attn_output r) = [b; sq; d] /\
    shape (attn_weights r) = [b; H; sq; sq].
Proof.
  intros (_ & Hla & Fla & Hlp & Flp & Hln & Fln & _) Hx Hm Hi.
  unfold attention.HierarchicalSelfAttention_level.
  destruct (module_at_total _ _ i Flp) as (lp & Hlp' & [Hpi Hpo]); [lia|].
  rewrite (bind_lift_step _ _ _ _ Hlp').
  destruct (Linear_forward_total lp x [b; sq]) as (xl & Hxl & Hsxl);
    [rewrite Hx, Hpi; reflexivity|].
  rewrite (bind_lift_step _ _ _ _ Hxl). rewrite Hpo in Hsxl.
  destruct (module_at_total _ _ i Fln) as (ln & Hln' & Hnd); [lia|].
  rewrite (bind_lift_step _ _ _ _ Hln').
  destruct (LayerNorm_forward_total ln xl [b; sq]) as (xn & Hxn & Hsxn);
    [rewrite Hsxl, Hnd; reflexivity|].
  rewrite (bind_lift_step _ _ _ _ Hxn). rewrite Hsxl in Hsxn.
  destruct (module_at_total _ _ i Fla) as (la & Hla' & Hbuilt); [lia|].
  rewrite (bind_lift_step _ _ _ _ Hla').
  destruct (attention_MultiHeadAttention_total la xn mask st d H hd b sq Hbuilt Hsxn Hm)
    as (r & st' & Hr & Hso & Hsw).
  rewrite (bind_step _ _ _ _ _ Hr).
  exists r, st'. split; [reflexivity|]. auto.
Qed.

(** X15.  The hierarchical self-attention, built by the constructor with a
    positive head count and called on an input of shape (b, s, dim) (with a
    mask of shape (b, s) or none), returns exactly when it has at least one
    level: without levels it joins an empty list.  When it returns, the output
    has shape (b, s, dim) and it hands back one output of shape (b, s, dim)
    and one weight tensor of shape (b, heads, s, s) per level. *)
Theorem HierarchicalSelfAttention_forward_returns_iff :
  forall (sd : state_dict) (name : string) (dim num_heads num_levels : Z) (dropout : Q)
         (m : attention.HierarchicalSelfAttention) (x : tensor) (mask : option tensor)
         (st : run_state) (b s : nat),
    attention.HierarchicalSelfAttention_init sd name dim num_heads num_levels dropout
      = Ok m ->
    (0 < num_heads)%Z ->
    shape x = [b; s; Z.to_nat dim] ->
    mask_fits b s mask ->
    is_ok (attention.HierarchicalSelfAttention_forward m x mask st)
    = (1 <=? num_levels)%Z /\
    forall r st',
      attention.HierarchicalSelfAttention_forward m x mask st = Ok (r, st') ->
      shape (attention.sa_output r) = [b; s; Z.to_nat dim] /\
      length (attention.sa_level_outputs r) = Z.to_nat num_levels /\
      length (attention.sa_attention_weights r) = Z.to_nat num_levels /\
      Forall (fun t => shape t = [b; s; Z.to_nat dim]) (attention.sa_level_outputs r) /\
      Forall (fun w => shape w = [b; Z.to_nat num_heads; s; s])
        (attention.sa_attention_weights r).
Proof.
  intros sd name dim nh nl dropout m x mask st b s Hinit Hh Hx Hm.
  pose proof (HierarchicalSelfAttention_init_built _ _ _ _ _ _ _ Hh Hinit) as Hb.
  pose proof Hb as (HL & _ & _ & _ & _ & _ & _ & [Hoi Hoo]).
  set (d := Z.to_nat dim) in *. set (H := Z.to_nat nh) in *.
  set (L := Z.to_nat nl) in *.
  pose (P := fun ls : attention.level_state =>
               Forall (fun t => shape t = [b; s; d]) (attention.lv_level_outputs ls) /\
               Forall (fun w => shape w = [b; H; s; s]) (attention.lv_attention_weights ls)).
  assert (Hcount : forall n ls st0 ls' st1,
             for_range n (attention.HierarchicalSelfAttention_level m x mask) ls st0
             = Ok (ls', st1) ->
             length (attention.lv_level_outputs ls')
             = n + length (attention.lv_level_outputs ls) /\
             length (attention.lv_attention_weights ls')
             = n + length (attention.lv_attention_weights ls)).
  { intros n ls st0 ls' st1 Hloop. split.
    - apply (for_range_count (fun ls0 => length (attention.lv_level_outputs ls0))
               (attention.HierarchicalSelfAttention_level m x mask)) with (st := st0)
                                                                         (st' := st1);
        [|exact Hloop].
      intros i a sa a' sa' Hstep. unfold attention.HierarchicalSelfAttention_level in Hstep.
      minv Hstep. subst. simpl. rewrite length_app. simpl. lia.
    - apply (for_range_count (fun ls0 => length (attention.lv_attention_weights ls0))
               (attention.HierarchicalSelfAttention_level m x mask)) with (st := st0)
                                                                         (st' := st1);
        [|exact Hloop].
      intros i a sa a' sa' Hstep. unfold attention.HierarchicalSelfAttention_level in Hstep.
      minv Hstep. subst. simpl. rewrite length_app. simpl. lia. }
  destruct (for_range_total P (attention.HierarchicalSelfAttention_level m x mask) L)
    with (s := attention.mkLevelState [] []) (st := st) as (fin & st1 & Hloop & [Pout Pw]).
  { intros i ls st0 Hi [Po Pw].
    destruct (HierarchicalSelfAttention_level_total m x mask i ls st0 d H _ L b s
                Hb Hx Hm Hi) as (r & st' & Hr & Hso & Hsw).
    eexists _, _. split; [exact Hr|]. split; simpl; apply Forall_app; split;
      try assumption; constructor; auto. }
  { split; constructor. }
  destruct (Hcount _ _ _ _ _ Hloop) as [Hlo Hlw]. simpl in Hlo, Hlw.
  rewrite Nat.add_0_r in Hlo, Hlw.
  assert (Hrun : attention.HierarchicalSelfAttention_forward m x mask st
                 = (combined <~ cat_list_last (attention.lv_level_outputs fin) ;;
                    output <~ Linear_forward (attention.hs_output_proj m) combined ;;
                    output <- Dropout_forward (attention.hs_dropout_layer m) output ;;
                    ret (attention.mkSelfAttentionOutput output
                           (attention.lv_attention_weights fin)
                           (attention.lv_level_outputs fin))) st1).
  { unfold attention.HierarchicalSelfAttention_forward.
    rewrite (bind_lift_step _ _ _ _ (unpack3_total x b s d Hx)).
    rewrite HL. rewrite (bind_step _ _ _ _ _ Hloop). reflexivity. }
  rewrite Hrun. clear Hrun.
  destruct (1 <=? nl)%Z eqn:E.
  - apply Z.leb_le in E.
    destruct (cat_list_last_total (attention.lv_level_outputs fin) [b; s] d)
      as (cb & Hcb & Hscb); [intro Hnil; rewrite Hnil in Hlo; simpl in Hlo; lia | exact Pout |].
    rewrite (bind_lift_step _ _ _ _ Hcb). rewrite Hlo in Hscb.
    destruct (Linear_forward_total (attention.hs_output_proj m) cb [b; s])
      as (o & Ho & Hso); [rewrite Hscb, Hoi; reflexivity|].
    rewrite (bind_lift_step _ _ _ _ Ho). rewrite Hoo in Hso.
    destruct (Dropout_forward_total (attention.hs_dropout_layer m) o st1)
      as (y & st2 & Hy & Hsy & _).
    rewrite (bind_step _ _ _ _ _ Hy). split; [reflexivity|].
    intros r st' Hr. unfold ret in Hr. injection Hr as <- <-. simpl.
    rewrite Hsy, Hso. repeat split; assumption.
  - apply Z.leb_gt in E.
    assert (Hnil : attention.lv_level_outputs fin = []).
    { apply length_zero_iff_nil. rewrite Hlo. unfold L. lia. }
    rewrite Hnil. split; [reflexivity|]. intros r st' Hr. discriminate.
Qed.

(** X15 at a module of dimension 8 with 2 heads and 3 levels. *)
Lemma HierarchicalSelfAttention_of_three_levels :
  exists m,
    attention.HierarchicalSelfAttention_init sd_zero "attention" 8 2 3 0 = Ok m /\
    is_ok (attention.HierarchicalSelfAttention_forward m (zeros [2; 5; 8]) None eval_mode)
    = true.
Proof.
  destruct (attention.HierarchicalSelfAttention_init sd_zero "attention" 8 2 3 0)
    as [m|e] eqn:E.
  - exists m. split; [reflexivity|].
    exact (proj1 (HierarchicalSelfAttention_forward_returns_iff sd_zero "attention" 8 2 3 0
                    m (zeros [2; 5; 8]) None eval_mode 2 5 E ltac:(lia) eq_refl I)).
  - ok_by_evaluation E (attention.HierarchicalSelfAttention_init sd_zero "attention" 8 2 3 0).
Defined.

(** ** Fully masked rows *)

Lemma Rsum_const n c : Rsum n (fun _ => c) = (INR n * c)%R.
Proof.
  induction n as [|k IH]; [simpl; lra|].
  cbn [Rsum]. rewrite IH, S_INR. lra.
Qed.

Lemma attention_scores_masked_row Q K hd mask sc b h sq sk e e' i :
  shape Q = [b; h; sq; e] -> shape K = [b; h; sk; e'] -> shape mask = [b; sk] ->
  attention_scores Q K hd (Some mask) = Ok sc ->
  i < b -> (forall j, data mask [i; j] = 0%R) ->
  forall i1 i2 j, data sc [i; i1; i2; j] = (-1000000000)%R.
Proof.
  intros HQ HK Hmask H Hi Hzero i1 i2 j.
  unfold attention_scores in H.
  destruct (transpose_last2_rank4 K _ _ _ _ HK) as (Kt & HKt & HsKt).
  rewrite (rbind_step _ _ _ HKt) in H.
  destruct (matmul Q Kt) as [qk|] eqn:Hqk; [|discriminate].
  pose proof (matmul_rank4 _ _ _ _ _ _ _ _ _ HQ HsKt Hqk) as Hsqk.
  cbn [rbind] in H.
  unfold unsqueeze, rank in H. rewrite Hmask in H.
  change (norm_dim (S (length [b; sk])) 1) with (@Ok nat 1) in H. cbn [rbind] in H.
  cbn [shape insert_at firstn skipn app length] in H.
  change (norm_dim 4 1) with (@Ok nat 1) in H. cbn [rbind] in H.
  unfold masked_fill_eq0 in H. cbn [shape div_scalar tmap insert_at firstn skipn app] in H.
  rewrite Hsqk, broadcast_mask in H. cbn [rbind] in H. injection H as <-.
  cbn [data]. unfold bc_index. cbn [rev app bc_index_rev remove_at firstn skipn].
  assert (Hrow : (if b =? 1 then 0 else i) = i).
  { destruct (b =? 1) eqn:E; [apply Nat.eqb_eq in E; lia | reflexivity]. }
  rewrite Hrow, Hzero.
  destruct (Req_dec_T 0 0) as [_|Hne]; [reflexivity | exfalso; apply Hne; reflexivity].
Qed.

Lemma attention_core_masked_row d Q K V hd mask st att w st' b h sq sk e e' i :
  shape Q = [b; h; sq; e] -> shape K = [b; h; sk; e'] -> shape mask = [b; sk] ->
  dropout_off d st = true ->
  attention_core d Q K V hd (Some mask) st = Ok ((att, w), st') ->
  i < b -> 0 < sk -> (forall j, data mask [i; j] = 0%R) ->
  forall i1 i2 j, data w [i; i1; i2; j] = (1 / INR sk)%R.
Proof.
  intros HQ HK Hmask Hoff H Hi Hsk Hzero i1 i2 j.
  unfold attention_core in H. minv H.
  match goal with
  | Heq : (_, _) = (att, w) |- _ => injection Heq as ? ?; subst
  | Heq : (att, w) = (_, _) |- _ => injection Heq as ? ?; subst
  end.
  match goal with
  | Hs : attention_scores Q K hd (Some mask) = Ok ?sc,
    Hd : Dropout_forward d (softmax_last ?sc) st = Ok (_, _) |- _ =>
      pose proof (attention_scores_shape _ _ _ (Some mask) _ _ _ _ _ _ _ HQ HK Hmask Hs)
        as Hssc;
      pose proof (attention_scores_masked_row _ _ _ _ _ _ _ _ _ _ _ i HQ HK Hmask Hs
                    Hi Hzero) as Hrow;
      destruct (Dropout_forward_off _ _ _ _ _ Hoff Hd) as [_ Hdw]
  end.
  rewrite Hdw. unfold softmax_last. cbn [data]. rewrite Hssc.
  change (last [b; h; sq; sk] 1) with sk.
  rewrite Hrow.
  rewrite (Rsum_ext sk _ (fun _ => exp (-1000000000)%R)).
  - rewrite Rsum_const. pose proof (exp_pos (-1000000000)).
    assert (0 < INR sk)%R by (apply lt_0_INR; exact Hsk). field. split; lra.
  - intros k Hk. unfold set_last. cbn [removelast app]. rewrite Hrow. reflexivity.
Qed.

(** X12.  A batch row whose mask is zero at every key is not left without
    attention: with dropout disabled, every weight of that row is
    1 / seqLenK, for every head and query position; so for the cross-module
    attention, for the standard multi-head attention and for the
    controller's gated one. *)
Theorem fully_masked_row_attends_uniformly :
  forall (b sq sk i : nat) (q k v mask : tensor) (st st' : run_state)
         (r : attention_output),
    0 < sk -> i < b ->
    shape mask = [b; sk] ->
    (forall j, data mask [i; j] = 0%R) ->
    (forall (m : attention.CrossModuleAttention) dq dk,
        shape q = [b; sq; dq] -> shape k = [b; sk; dk] ->
        dropout_off (attention.cm_dropout_layer m) st = true ->
        attention.CrossModuleAttention_forward m q k v (Some mask) st = Ok (r, st') ->
        forall h qi j, data (attn_weights r) [i; h; qi; j] = (1 / INR sk)%R) /\
    (forall (m : attention.MultiHeadAttention) d,
        shape q = [b; sk; d] ->
        dropout_off (attention.mha_dropout_layer m) st = true ->
        attention.MultiHeadAttention_forward m q k v (Some mask) st = Ok (r, st') ->
        forall h qi j, data (attn_weights r) [i; h; qi; j] = (1 / INR sk)%R) /\
    (forall (m : controller.MultiHeadAttention) d,
        shape q = [b; sk; d] ->
        dropout_off (controller.mha_dropout_layer m) st = true ->
        controller.MultiHeadAttention_forward m q k v (Some mask) st = Ok (r, st') ->
        forall h qi j, data (attn_weights r) [i; h; qi; j] = (1 / INR sk)%R).
Proof.
  intros b sq sk i q k v mask st st' r Hsk Hi Hmask Hzero. split; [|split].
  - intros m dq dk Hq Hk Hoff H. unfold attention.CrossModuleAttention_forward in H.
    minv H. unpack_shapes. subst. simpl.
    repeat match goal with
           | Hs : split_heads _ _ _ _ _ = Ok _ |- _ => apply split_heads_shape in Hs
           end.
    match goal with
    | Hc : attention_core _ ?Q ?K _ _ _ _ = Ok _,
      HQ : shape ?Q = _, HK : shape ?K = _ |- _ =>
        exact (attention_core_masked_row _ _ _ _ _ _ _ _ _ _ _ _ _ _ _ _ _
                 HQ HK Hmask Hoff Hc Hi Hsk Hzero)
    end.
  - intros m d Hq Hoff H. unfold attention.MultiHeadAttention_forward in H.
    minv H. unpack_shapes. subst. simpl.
    repeat match goal with
           | Hs : split_heads _ _ _ _ _ = Ok _ |- _ => apply split_heads_shape in Hs
           end.
    match goal with
    | Hc : attention_core _ ?Q ?K _ _ _ _ = Ok _,
      HQ : shape ?Q = _, HK : shape ?K = _ |- _ =>
        exact (attention_core_masked_row _ _ _ _ _ _ _ _ _ _ _ _ _ _ _ _ _
                 HQ HK Hmask Hoff Hc Hi Hsk Hzero)
    end.
  - intros m d Hq Hoff H. unfold controller.MultiHeadAttention_forward in H.
    minv H. unpack_shapes. subst. simpl.
    repeat match goal with
           | Hs : split_heads _ _ _ _ _ = Ok _ |- _ => apply split_heads_shape in Hs
           end.
    match goal with
    | Hc : attention_core _ ?Q ?K _ _ _ _ = Ok _,
      HQ : shape ?Q = _, HK : shape ?K = _ |- _ =>
        exact (attention_core_masked_row _ _ _ _ _ _ _ _ _ _ _ _ _ _ _ _ _
                 HQ HK Hmask Hoff Hc Hi Hsk Hzero)
    end.
Qed.

(** X12 at a cross-module attention over five keys, all of them masked. *)
Lemma CrossModuleAttention_with_an_all_zero_mask :
  exists m r st',
    attention.CrossModuleAttention_init sd_zero "attention" 16 8 8 16 8 0 = Ok m /\
    attention.CrossModuleAttention_forward m (zeros [2; 3; 16]) (zeros [2; 5; 8])
      (zeros [2; 5; 8]) (Some (zeros [2; 5])) eval_mode = Ok (r, st') /\
    data (attn_weights r) [0; 0; 0; 0] = (1 / INR 5)%R.
Proof.
  destruct (attention.CrossModuleAttention_init sd_zero "attention" 16 8 8 16 8 0)
    as [m|e] eqn:E;
    [|ok_by_evaluation E
        (attention.CrossModuleAttention_init sd_zero "attention" 16 8 8 16 8 0)].
  destruct (attention.CrossModuleAttention_forward m (zeros [2; 3; 16]) (zeros [2; 5; 8])
              (zeros [2; 5; 8]) (Some (zeros [2; 5])) eval_mode) as [[r st']|e] eqn:F;
    [|returns_by_evaluation E F].
  exists m, r, st'. split; [reflexivity|]. split; [exact F|].
  exact (proj1 (fully_masked_row_attends_uniformly 2 3 5 0 (zeros [2; 3; 16])
                  (zeros [2; 5; 8]) (zeros [2; 5; 8]) (zeros [2; 5]) eval_mode st' r
                  ltac:(lia) ltac:(lia) eq_refl (fun _ => eq_refl))
           m 16 8 eq_refl eq_refl eq_refl F 0 0 0).
Defined.

(** ** Splitting into heads and merging back *)

Lemma div_mod_pair a b q r : r < b -> a = b * q + r -> a / b = q /\ a mod b = r.
Proof.
  intros Hr Ha. split.
  - symmetry. apply (Nat.div_unique a b q r); assumption.
  - symmetry. apply (Nat.mod_unique a b q r); assumption.
Qed.

Lemma digit_bound k e h d : k < h -> e < d -> k * d + e < h * d.
Proof.
  intros Hk He. assert (S k * d <= h * d) by (apply Nat.mul_le_mono_r; lia).
  simpl in *. lia.
Qed.

Lemma unravel_rank3 b s w i j c :
  j < s -> c < w ->
  unravel [b; s; w] (i * (s * w) + j * w + c) = [i; j; c].
Proof.
  intros Hj Hc. cbn [unravel numel fold_right]. rewrite !Nat.mul_1_r.
  destruct (div_mod_pair (i * (s * w) + j * w + c) (s * w) i (j * w + c)) as [-> ->];
    [apply digit_bound; assumption | lia |].
  destruct (div_mod_pair (j * w + c) w j c) as [-> ->]; [lia | lia |].
  rewrite Nat.div_1_r. reflexivity.
Qed.

Lemma unravel_rank4 b s h d i j k e :
  j < s -> k < h -> e < d ->
  unravel [b; s; h; d] (i * (s * (h * d)) + j * (h * d) + k * d + e) = [i; j; k; e].
Proof.
  intros Hj Hk He. cbn [unravel numel fold_right]. rewrite !Nat.mul_1_r.
  pose proof (digit_bound k e h d Hk He) as Hke.
  pose proof (digit_bound j (k * d + e) s (h * d) Hj Hke) as Hjke.
  destruct (div_mod_pair (i * (s * (h * d)) + j * (h * d) + k * d + e) (s * (h * d)) i
              (j * (h * d) + k * d + e)) as [-> ->]; [lia | lia |].
  destruct (div_mod_pair (j * (h * d) + k * d + e) (h * d) j (k * d + e)) as [-> ->];
    [lia | lia |].
  destruct (div_mod_pair (k * d + e) d k e) as [-> ->]; [lia | lia |].
  rewrite Nat.div_1_r. reflexivity.
Qed.

Lemma split_heads_values t b s H hd y :
  shape t = [b; s; H * hd] ->
  split_heads t b s (Z.of_nat H) (Z.of_nat hd) = Ok y ->
  forall i h j e, h < H -> j < s -> e < hd ->
    data y [i; h; j; e] = data t [i; j; h * hd + e].
Proof.
  intros Ht Hy i h j e Hh Hj He. unfold split_heads, view in Hy.
  destruct (forallb _ _); [|discriminate].
  destruct (numel _ =? numel (shape t)); [|discriminate].
  cbn [rbind] in Hy. unfold transpose, rank in Hy. cbn [shape map length] in Hy.
  change (norm_dim 4 1) with (@Ok nat 1) in Hy.
  change (norm_dim 4 2) with (@Ok nat 2) in Hy. cbn [rbind] in Hy.
  injection Hy as <-. cbn [data]. rewrite Ht, !Nat2Z.id.
  change (swap [i; h; j; e] 1 2) with [i; j; h; e].
  cbn [ravel numel fold_right]. rewrite !Nat.mul_1_r, Nat.add_0_r.
  replace (i * (s * (H * hd)) + (j * (H * hd) + (h * hd + e)))
    with (i * (s * (H * hd)) + j * (H * hd) + (h * hd + e)) by lia.
  apply f_equal. apply unravel_rank3; [exact Hj | apply digit_bound; assumption].
Qed.

Lemma view_data sizes t y :
  view sizes t = Ok y ->
  forall idx, data y idx = data t (unravel (shape t) (ravel (map Z.to_nat sizes) idx)).
Proof.
  unfold view. destruct (forallb _ _); [|discriminate].
  destruct (numel _ =? numel _); [|discriminate].
  intro Hy. injection Hy as <-. reflexivity.
Qed.

Lemma merge_heads_values y b s H hd z :
  shape y = [b; H; s; hd] ->
  merge_heads y b s (Z.of_nat (H * hd)) = Ok z ->
  forall i h j e, h < H -> j < s -> e < hd ->
    data z [i; j; h * hd + e] = data y [i; h; j; e].
Proof.
  intros Hy Hz i h j e Hh Hj He. unfold merge_heads in Hz.
  destruct (transpose12_rank4 y b H s hd Hy) as (tt & Htt & Hstt).
  rewrite (rbind_step _ _ _ Htt) in Hz. unfold contiguous in Hz.
  rewrite (view_data _ _ _ Hz). rewrite Hstt.
  assert (Hr : ravel (map Z.to_nat [Z.of_nat b; Z.of_nat s; Z.of_nat (H * hd)])
                 [i; j; h * hd + e]
               = i * (s * (H * hd)) + j * (H * hd) + h * hd + e).
  { cbn [map ravel numel fold_right]. rewrite !Nat2Z.id. lia. }
  rewrite Hr, unravel_rank4 by assumption.
  unfold transpose, rank in Htt. rewrite Hy in Htt. cbn [length] in Htt.
  change (norm_dim 4 1) with (@Ok nat 1) in Htt.
  change (norm_dim 4 2) with (@Ok nat 2) in Htt. cbn [rbind] in Htt.
  injection Htt as <-. reflexivity.
Qed.

(** X13.  Splitting a projection of shape (b, s, heads * head_dim) into heads
    and merging the heads back are inverse reshapes: head h of the split
    tensor holds columns h * head_dim to (h + 1) * head_dim - 1 of every row,
    and the merged tensor is the original one, entry by entry. *)
Theorem split_heads_then_merge_heads :
  forall (t : tensor) (b s H hd : nat),
    shape t = [b; s; H * hd] ->
    exists y z,
      split_heads t b s (Z.of_nat H) (Z.of_nat hd) = Ok y /\
      merge_heads y b s (Z.of_nat (H * hd)) = Ok z /\
      shape y = [b; H; s; hd] /\
      shape z = [b; s; H * hd] /\
      (forall i h j e, h < H -> j < s -> e < hd ->
          data y [i; h; j; e] = data t [i; j; h * hd + e]) /\
      (forall i j c, j < s -> c < H * hd -> data z [i; j; c] = data t [i; j; c]).
Proof.
  intros t b s H hd Ht.
  destruct (split_heads_total t b s (H * hd) H hd Ht eq_refl) as (y & Hy & Hsy).
  destruct (merge_heads_total y b s (H * hd) H hd Hsy eq_refl) as (z & Hz & Hsz).
  exists y, z. repeat (split; [assumption|]). split.
  - exact (split_heads_values t b s H hd y Ht Hy).
  - intros i j c Hj Hc.
    assert (Hhd : 0 < hd) by (destruct hd; [rewrite Nat.mul_0_r in Hc; lia | lia]).
    assert (Hh : c / hd < H)
      by (apply Nat.Div0.div_lt_upper_bound; rewrite Nat.mul_comm; exact Hc).
    assert (He : c mod hd < hd) by (apply Nat.mod_upper_bound; lia).
    assert (Hc' : c = c / hd * hd + c mod hd)
      by (rewrite Nat.mul_comm; apply Nat.div_mod_eq).
    rewrite Hc' at 1.
    rewrite (merge_heads_values y b s H hd z Hsy Hz i _ j _ Hh Hj He).
    rewrite (split_heads_values t b s H hd y Ht Hy i _ j _ Hh Hj He).
    rewrite <- Hc'. reflexivity.
Qed.

(** X13 at a tensor of shape (2, 3, 8) and 4 heads of dimension 2. *)
Lemma split_heads_then_merge_heads_of_ones :
  exists y z,
    split_heads (ones [2; 3; 8]) 2 3 4 2 = Ok y /\
    merge_heads y 2 3 8 = Ok z /\
    shape y = [2; 4; 3; 2] /\ shape z = [2; 3; 8].
Proof.
  destruct (split_heads_then_merge_heads (ones [2; 3; 8]) 2 3 4 2 eq_refl)
    as (y & z & Hy & Hz & Hsy & Hsz & _).
  exists y, z. repeat split; assumption.
Defined.
